(** * Sports engine: gameplay simulation core

    A shallow embedding of the simulation code of the soccer engine
    (ball physics, human player, AI players and their manager, match
    state, and the frame of the application that drives them) together
    with the properties of it that are established here.

    Numeric model.  The engine computes with [f32].  Here every [f32] is
    a real number ([R]): arithmetic is exact, there is no rounding, no
    overflow, no NaN and no signed zero.  Comparisons are the decidable
    order of [R]; [std::sqrt], [std::exp], [std::sin], [std::cos] and
    [std::pow] are the real functions ([Rpower] for [pow], whose base is
    positive wherever the engine calls it).  The integer type [i32] is
    modelled by [Z] with its two's-complement wrap-around written out.
    References and in-place writes become state passing: a function that
    writes to an object returns the object as it leaves it.

    Division by zero.  [glm::normalize] of the zero vector, a vector of
    NaN in the engine, is the zero vector here ([/ 0 = 0] in [R]).  The
    engine guards most of its calls by a test on the length.  It does not
    in three places: the acceleration steps of the two controllers when
    the time step is zero, [dribble] when the ball is exactly under the
    player, and the shot of an AI player that stands on the centre of the
    goal it attacks.  Statements about what these calls compute carry a
    hypothesis that excludes the case.

    Countdown timers.  The celebration timer, the kick-animation timer
    and the kick cooldown are counted down by one subtraction a frame.
    Here the subtractions are exact; in binary32 each one rounds, and the
    frame in which a timer reaches zero can come one frame earlier or
    later than in the reals (thirty steps of [0.1f] leave [6.1e-7] of
    [3.0f]).  Statements about when a timer runs out are therefore made
    to within one frame, and for frames of at least a millisecond: there
    the rounding gathered over a countdown of at most three seconds stays
    below [0.00055], less than one frame. *)

From Stdlib Require Import Reals Lra Lia ZArith List Bool Psatz.
Import ListNotations.

Open Scope R_scope.

(** ** Comparisons returning [bool] *)

Definition Rltb (a b : R) : bool := if Rlt_dec a b then true else false.
Definition Rleb (a b : R) : bool := if Rle_dec a b then true else false.

Notation "a <? b" := (Rltb a b) : R_scope.
Notation "a <=? b" := (Rleb a b) : R_scope.
Notation "a >? b" := (Rltb b a) (at level 70, no associativity) : R_scope.
Notation "a >=? b" := (Rleb b a) (at level 70, no associativity) : R_scope.

(** ** Types.hpp: [i32] and [Vec3] *)

Module i32.
Definition min_signed : Z := (- 2 ^ 31)%Z.
Definition max_signed : Z := (2 ^ 31 - 1)%Z.
Definition wrap (n : Z) : Z := (((n + 2 ^ 31) mod 2 ^ 32) - 2 ^ 31)%Z.
(** [n++] on an [i32]. *)
Definition incr (n : Z) : Z := wrap (n + 1).
Definition in_range (n : Z) : Prop := (min_signed <= n <= max_signed)%Z.
End i32.

Module Vec3.
Record t : Type := mk { x : R; y : R; z : R }.
End Vec3.
Abbreviation Vec3 := Vec3.t.

(** The operations of GLM that the engine uses on [glm::vec3]. *)
Module glm.
Import Vec3.

(** [Vec3(s)]: the same scalar in the three components. *)
Definition splat (s : R) : Vec3 := mk s s s.

Definition add (a b : Vec3) : Vec3 := mk (x a + x b) (y a + y b) (z a + z b).
Definition sub (a b : Vec3) : Vec3 := mk (x a - x b) (y a - y b) (z a - z b).
(** [v * s] *)
Definition scale (v : Vec3) (s : R) : Vec3 := mk (x v * s) (y v * s) (z v * s).
(** [s * v] *)
Definition lscale (s : R) (v : Vec3) : Vec3 := mk (s * x v) (s * y v) (s * z v).
(** [v / s] *)
Definition divs (v : Vec3) (s : R) : Vec3 := mk (x v / s) (y v / s) (z v / s).

Definition dot (a b : Vec3) : R := x a * x b + y a * y b + z a * z b.

Definition cross (a b : Vec3) : Vec3 :=
  mk (y a * z b - y b * z a)
     (z a * x b - z b * x a)
     (x a * y b - x b * y a).

Definition length (v : Vec3) : R := sqrt (dot v v).

Definition inversesqrt (s : R) : R := 1 / sqrt s.

Definition normalize (v : Vec3) : Vec3 := scale v (inversesqrt (dot v v)).
End glm.

(** Writes to one component of a vector ([v.x = s] and so on). *)
Definition set_x (v : Vec3) (s : R) : Vec3 := Vec3.mk s (Vec3.y v) (Vec3.z v).
Definition set_y (v : Vec3) (s : R) : Vec3 := Vec3.mk (Vec3.x v) s (Vec3.z v).
Definition set_z (v : Vec3) (s : R) : Vec3 := Vec3.mk (Vec3.x v) (Vec3.y v) s.

(** [std::copysign(a, b)]: the magnitude of [a] with the sign of [b]. *)
Definition copysign (a b : R) : R := if b <? 0 then - Rabs a else Rabs a.

(** [std::clamp(v, lo, hi)], [std::min(a, b)] and [std::max(a, b)], by
    the comparisons the C++ library makes. *)
Definition clamp (v lo hi : R) : R :=
  if v <? lo then lo else if hi <? v then hi else v.
Definition fmin (a b : R) : R := if b <? a then b else a.
Definition fmax (a b : R) : R := if a <? b then b else a.

(** [std::atan2(y, x)]: the angle of the point [(x, y)], in [(-PI, PI]]. *)
Definition atan2 (y x : R) : R :=
  if 0 <? x then atan (y / x)
  else if x <? 0 then (if y <? 0 then atan (y / x) - PI else atan (y / x) + PI)
  else if 0 <? y then PI / 2
  else if y <? 0 then - PI / 2
  else 0.

(** [std::rand()]: the generator is a global sequence of non-negative
    integers; [Rand.t] is that sequence and a call reads its next
    element, the position in the sequence being threaded as state. *)
Module Rand.
Definition t : Type := nat -> Z.
Definition state : Type := nat.
Definition next (rand : t) (k : state) : Z * state := (rand k, S k).
End Rand.

(** ** BallPhysics.hpp: state of the ball and field dimensions *)

Record BallState : Type := mkBallState {
  position : Vec3;
  velocity : Vec3;
  angularVelocity : Vec3;
  rotationAngle : R
}.

Definition set_position (b : BallState) (p : Vec3) : BallState :=
  mkBallState p (velocity b) (angularVelocity b) (rotationAngle b).
Definition set_velocity (b : BallState) (v : Vec3) : BallState :=
  mkBallState (position b) v (angularVelocity b) (rotationAngle b).
Definition set_angularVelocity (b : BallState) (w : Vec3) : BallState :=
  mkBallState (position b) (velocity b) w (rotationAngle b).
Definition set_rotationAngle (b : BallState) (a : R) : BallState :=
  mkBallState (position b) (velocity b) (angularVelocity b) a.

Module FieldBounds.
Record t : Type := mk {
  length : R;
  width : R;
  goalWidth : R;
  goalHeight : R
}.

(** The default member initialisers of the struct. *)
Definition default : t := mk 105 68 7.32 2.44.
End FieldBounds.
Abbreviation FieldBounds := FieldBounds.t.

(** ** BallPhysics.cpp *)

Module BallPhysics.
Import Vec3.

Definition BALL_RADIUS : R := 0.22.
Definition BALL_MASS : R := 0.43.
Definition GRAVITY : R := 9.81.
Definition AIR_DENSITY : R := 1.2.
Definition DRAG_COEFFICIENT : R := 0.2.
Definition MAGNUS_COEFFICIENT : R := 0.5.
Definition BOUNCE_FACTOR : R := 0.7.
Definition ROLLING_FRICTION : R := 0.3.
Definition SPIN_DECAY : R := 0.98.

Definition isInAir (ball : BallState) : bool :=
  let airThreshold := BALL_RADIUS + 0.3 in
  y (position ball) >? airThreshold.

Definition isLow (ball : BallState) : bool :=
  (y (position ball) <? BALL_RADIUS + 0.15) && (y (velocity ball) <? 0.5).

Definition applyGravity (ball : BallState) (deltaTime : R) : BallState :=
  set_velocity ball
    (set_y (velocity ball) (y (velocity ball) - GRAVITY * deltaTime)).

Definition applyAirDrag (ball : BallState) (deltaTime : R) : BallState :=
  let ballSpeed := glm.length (velocity ball) in
  if ballSpeed <? 0.01 then ball
  else
    let velDir := glm.divs (velocity ball) ballSpeed in
    let ballArea := 3.14159 * BALL_RADIUS * BALL_RADIUS in
    let dragForce :=
      0.5 * AIR_DENSITY * DRAG_COEFFICIENT * ballArea * ballSpeed * ballSpeed in
    let dragAccel := dragForce / BALL_MASS in
    set_velocity ball
      (glm.sub (velocity ball)
               (glm.scale (glm.scale velDir dragAccel) deltaTime)).

Definition applyMagnusEffect (ball : BallState) (deltaTime : R) : BallState :=
  let magnusForce :=
    glm.lscale MAGNUS_COEFFICIENT
               (glm.cross (angularVelocity ball) (velocity ball)) in
  let maxMagnusAccel := 15 in
  let magnusAccel := glm.length magnusForce / BALL_MASS in
  let magnusForce :=
    if magnusAccel >? maxMagnusAccel
    then glm.scale magnusForce (maxMagnusAccel / magnusAccel)
    else magnusForce in
  set_velocity ball
    (glm.add (velocity ball)
             (glm.scale (glm.divs magnusForce BALL_MASS) deltaTime)).

Definition applySpinDecay (ball : BallState) (deltaTime : R) : BallState :=
  if isInAir ball
  then set_angularVelocity ball
         (glm.scale (angularVelocity ball) (Rpower SPIN_DECAY deltaTime))
  else set_angularVelocity ball
         (glm.scale (angularVelocity ball) (Rpower 0.9 deltaTime)).

Definition handleGroundCollision (ball : BallState) : BallState :=
  let groundY := BALL_RADIUS in
  if y (position ball) <? groundY then
    let ball := set_position ball (set_y (position ball) groundY) in
    if y (velocity ball) <? - 0.5 then
      let ball :=
        set_velocity ball
          (set_y (velocity ball) (- y (velocity ball) * BOUNCE_FACTOR)) in
      let ball :=
        set_velocity ball (set_x (velocity ball) (x (velocity ball) * 0.9)) in
      let ball :=
        set_velocity ball (set_z (velocity ball) (z (velocity ball) * 0.9)) in
      set_angularVelocity ball (glm.scale (angularVelocity ball) 0.7)
    else
      set_velocity ball (set_y (velocity ball) 0)
  else ball.

Definition applyRollingFriction (ball : BallState) (deltaTime : R) : BallState :=
  let groundY := BALL_RADIUS in
  if y (position ball) <=? groundY + 0.05 then
    let groundSpeed :=
      glm.length (mk (x (velocity ball)) 0 (z (velocity ball))) in
    if groundSpeed >? 0.01 then
      let frictionDecel := ROLLING_FRICTION * GRAVITY * deltaTime in
      let newSpeed := Rmax 0 (groundSpeed - frictionDecel) in
      let frictionFactor := newSpeed / groundSpeed in
      let ball :=
        set_velocity ball
          (set_x (velocity ball) (x (velocity ball) * frictionFactor)) in
      set_velocity ball
        (set_z (velocity ball) (z (velocity ball) * frictionFactor))
    else
      let ball := set_velocity ball (set_x (velocity ball) 0) in
      set_velocity ball (set_z (velocity ball) 0)
  else ball.

(** The goal-mouth test of [handleFieldBoundaries]. *)
Definition inGoalArea (ball : BallState) (bounds : FieldBounds) : bool :=
  let goalHalfW := FieldBounds.goalWidth bounds / 2 in
  (Rabs (z (position ball)) <? goalHalfW)
  && (y (position ball) <? FieldBounds.goalHeight bounds).

Definition handleFieldBoundaries (ball : BallState) (bounds : FieldBounds)
  : BallState :=
  let halfLength := FieldBounds.length bounds / 2 in
  let halfWidth := FieldBounds.width bounds / 2 in
  (* X boundaries (end lines) *)
  let ball :=
    if Rabs (x (position ball)) >? halfLength then
      if negb (inGoalArea ball bounds) then
        let ball :=
          set_position ball
            (set_x (position ball) (copysign halfLength (x (position ball)))) in
        let ball :=
          set_velocity ball
            (set_x (velocity ball) (- x (velocity ball) * 0.5)) in
        set_angularVelocity ball (glm.scale (angularVelocity ball) 0.5)
      else ball
    else ball in
  (* Z boundaries (side lines) *)
  if Rabs (z (position ball)) >? halfWidth + 0.5 then
    let ball :=
      set_position ball
        (set_z (position ball) (copysign (halfWidth + 0.5) (z (position ball)))) in
    let ball :=
      set_velocity ball (set_z (velocity ball) (- z (velocity ball) * 0.5)) in
    set_angularVelocity ball (glm.scale (angularVelocity ball) 0.5)
  else ball.

(** The guarded drag and Magnus steps of [update]; [inAir] and
    [ballSpeed] are the values [update] reads before it applies gravity. *)
Definition dragStep (inAir : bool) (ballSpeed : R)
           (ball : BallState) (deltaTime : R) : BallState :=
  if inAir && (ballSpeed >? 0.1) then applyAirDrag ball deltaTime else ball.

Definition magnusStep (inAir : bool) (ballSpeed : R)
           (ball : BallState) (deltaTime : R) : BallState :=
  if inAir && (glm.length (angularVelocity ball) >? 0.1) && (ballSpeed >? 1)
  then applyMagnusEffect ball deltaTime
  else ball.

(** What [update] does after the forces: spin decay, integration of the
    position, visual rotation, ground contact, rolling friction and
    the field boundaries. *)
Definition integrate (ballSpeed : R) (ball : BallState) (deltaTime : R)
           (bounds : FieldBounds) : BallState :=
  let ball := applySpinDecay ball deltaTime in
  let ball :=
    set_position ball
      (glm.add (position ball) (glm.scale (velocity ball) deltaTime)) in
  let ball :=
    if ballSpeed >? 0.1
    then set_rotationAngle ball (rotationAngle ball + ballSpeed * deltaTime * 3)
    else ball in
  let ball := handleGroundCollision ball in
  let ball := applyRollingFriction ball deltaTime in
  handleFieldBoundaries ball bounds.

Definition update (ball : BallState) (deltaTime : R) (bounds : FieldBounds)
  : BallState :=
  let inAir := isInAir ball in
  let ballSpeed := glm.length (velocity ball) in
  let ball := applyGravity ball deltaTime in
  let ball := dragStep inAir ballSpeed ball deltaTime in
  let ball := magnusStep inAir ballSpeed ball deltaTime in
  integrate ballSpeed ball deltaTime bounds.

(** [n] consecutive frames with the same time step. *)
Fixpoint updates (n : nat) (ball : BallState) (deltaTime : R)
         (bounds : FieldBounds) : BallState :=
  match n with
  | O => ball
  | S n' => updates n' (update ball deltaTime bounds) deltaTime bounds
  end.
End BallPhysics.

(** ** Ball.cpp

    The class [Ball] only wraps a [BallState]; a ball is its state. *)

Module Ball.
Definition RADIUS : R := BallPhysics.BALL_RADIUS.

Definition update (ball : BallState) (deltaTime : R) (bounds : FieldBounds)
  : BallState :=
  BallPhysics.update ball deltaTime bounds.

Definition reset (ball : BallState) : BallState :=
  let ball := set_position ball (Vec3.mk 0 0.5 0) in
  let ball := set_velocity ball (glm.splat 0) in
  let ball := set_angularVelocity ball (glm.splat 0) in
  set_rotationAngle ball 0.

Definition kick (ball : BallState) (direction : Vec3) (power spinY spinX : R)
  : BallState :=
  let kickDir := glm.normalize direction in
  let ball := set_velocity ball (glm.scale kickDir power) in
  set_angularVelocity ball (Vec3.mk spinX spinY 0).

Definition push (ball : BallState) (direction : Vec3) (force : R) : BallState :=
  set_velocity ball (glm.add (velocity ball) (glm.scale direction force)).
End Ball.

(** ** Angle wrapping

    Both controllers wrap an angle with the two loops
    [while (a > 3.14159f) a -= 6.28318f; while (a < -3.14159f) a += 6.28318f;].
    Each loop is a recursion on the number of iterations it may still
    take; [turns] bounds that number, so that the recursion below runs
    the loop to its exit (lemmas [subWhileAbove_exit] and
    [addWhileBelow_exit]). *)

Fixpoint subWhileAbove (fuel : nat) (a : R) : R :=
  match fuel with
  | O => a
  | S fuel' => if a >? 3.14159 then subWhileAbove fuel' (a - 6.28318) else a
  end.

Fixpoint addWhileBelow (fuel : nat) (a : R) : R :=
  match fuel with
  | O => a
  | S fuel' => if a <? - 3.14159 then addWhileBelow fuel' (a + 6.28318) else a
  end.

Definition turns (a : R) : nat := Z.to_nat (up (a / 6.28318)).

Definition wrapAngle (a : R) : R :=
  let a := subWhileAbove (turns a) a in
  addWhileBelow (turns (- a)) a.

(** ** Player.hpp, Player.cpp: the human player *)

Module Player.
Definition MAX_SPEED : R := 8.
Definition SPRINT_SPEED : R := 12.
Definition ACCELERATION : R := 40.
Definition DECELERATION : R := 30.
Definition ROTATION_SPEED : R := 6.
Definition RADIUS : R := 0.3.
Definition KICK_RANGE : R := 1.5.
Definition DRIBBLE_RANGE : R := 1.2.

Record t : Type := mk {
  m_position : Vec3;
  m_velocity : Vec3;
  m_rotation : R;
  m_targetRotation : R;
  m_inputDirection : Vec3;
  m_isSprinting : bool;
  m_animationTime : R;
  m_kickAnimationTimer : R;
  m_isKicking : bool
}.

(** The default member initialisers. *)
Definition init : t :=
  mk (Vec3.mk 0 0 5) (glm.splat 0) 0 0 (glm.splat 0) false 0 0 false.

Definition set_m_rotation (p : t) (r : R) : t :=
  mk (m_position p) (m_velocity p) r (m_targetRotation p)
     (m_inputDirection p) (m_isSprinting p) (m_animationTime p)
     (m_kickAnimationTimer p) (m_isKicking p).

Definition set_m_targetRotation (p : t) (r : R) : t :=
  mk (m_position p) (m_velocity p) (m_rotation p) r
     (m_inputDirection p) (m_isSprinting p) (m_animationTime p)
     (m_kickAnimationTimer p) (m_isKicking p).

Definition set_m_isKicking (p : t) (k : bool) : t :=
  mk (m_position p) (m_velocity p) (m_rotation p) (m_targetRotation p)
     (m_inputDirection p) (m_isSprinting p) (m_animationTime p)
     (m_kickAnimationTimer p) k.

Definition set_m_kickAnimationTimer (p : t) (s : R) : t :=
  mk (m_position p) (m_velocity p) (m_rotation p) (m_targetRotation p)
     (m_inputDirection p) (m_isSprinting p) (m_animationTime p)
     s (m_isKicking p).

Definition setTargetRotation (p : t) (rotation : R) : t :=
  set_m_targetRotation p rotation.

(** [tryKick] returns its boolean result together with the player and
    the ball as it leaves them. *)
Definition tryKick (p : t) (ball : BallState) (sprinting : bool) (spinY : R)
  : bool * t * BallState :=
  let distToBall := glm.length (glm.sub (position ball) (m_position p)) in
  if distToBall >=? KICK_RANGE then (false, p, ball)
  else
    let kickDir :=
      Vec3.mk (- sin (m_rotation p)) 0.3 (- cos (m_rotation p)) in
    let kickDir := glm.normalize kickDir in
    let kickPower := if sprinting then 22 else 15 in
    let spinX := if sprinting then - 5 else 0 in
    let ball := Ball.kick ball kickDir kickPower spinY spinX in
    let p := set_m_isKicking p true in
    let p := set_m_kickAnimationTimer p 0.3 in
    (true, p, ball).

Definition updateRotation (p : t) (deltaTime : R) : t :=
  let rotationDiff := m_targetRotation p - m_rotation p in
  let rotationDiff := wrapAngle rotationDiff in
  let t := 1 - exp (- ROTATION_SPEED * deltaTime) in
  let p := set_m_rotation p (m_rotation p + rotationDiff * t) in
  set_m_rotation p (wrapAngle (m_rotation p)).
Definition set_m_position (p : t) (v : Vec3) : t :=
  mk v (m_velocity p) (m_rotation p) (m_targetRotation p)
     (m_inputDirection p) (m_isSprinting p) (m_animationTime p)
     (m_kickAnimationTimer p) (m_isKicking p).

Definition set_m_velocity (p : t) (v : Vec3) : t :=
  mk (m_position p) v (m_rotation p) (m_targetRotation p)
     (m_inputDirection p) (m_isSprinting p) (m_animationTime p)
     (m_kickAnimationTimer p) (m_isKicking p).

Definition set_m_animationTime (p : t) (s : R) : t :=
  mk (m_position p) (m_velocity p) (m_rotation p) (m_targetRotation p)
     (m_inputDirection p) (m_isSprinting p) s
     (m_kickAnimationTimer p) (m_isKicking p).

Definition getSpeed (p : t) : R := glm.length (m_velocity p).

Definition setMovementInput (p : t) (direction : Vec3) (sprinting : bool) : t :=
  mk (m_position p) (m_velocity p) (m_rotation p) (m_targetRotation p)
     direction sprinting (m_animationTime p)
     (m_kickAnimationTimer p) (m_isKicking p).

Definition updateMovement (p : t) (deltaTime : R) : t :=
  let targetSpeed := if m_isSprinting p then SPRINT_SPEED else MAX_SPEED in
  let p :=
    if glm.length (m_inputDirection p) >? 0.01 then
      let inputDir := glm.normalize (m_inputDirection p) in
      let targetVelocity := glm.scale inputDir targetSpeed in
      (* Accelerate toward target velocity *)
      let velocityDiff := glm.sub targetVelocity (m_velocity p) in
      let accelAmount := ACCELERATION * deltaTime in
      if glm.length velocityDiff <? accelAmount then
        set_m_velocity p targetVelocity
      else
        set_m_velocity p
          (glm.add (m_velocity p)
                   (glm.scale (glm.normalize velocityDiff) accelAmount))
    else
      (* Decelerate when no input *)
      let speed := glm.length (m_velocity p) in
      if speed >? 0.01 then
        let decelAmount := DECELERATION * deltaTime in
        if speed <? decelAmount then set_m_velocity p (glm.splat 0)
        else
          set_m_velocity p
            (glm.sub (m_velocity p)
                     (glm.scale (glm.normalize (m_velocity p)) decelAmount))
      else p in
  set_m_position p (glm.add (m_position p) (glm.scale (m_velocity p) deltaTime)).

Definition updateAnimation (p : t) (deltaTime : R) : t :=
  let moveSpeed := glm.length (m_velocity p) in
  let p :=
    if moveSpeed >? 0.5
    then set_m_animationTime p (m_animationTime p + deltaTime * moveSpeed * 0.8)
    else p in
  if m_kickAnimationTimer p >? 0 then
    let p := set_m_kickAnimationTimer p (m_kickAnimationTimer p - deltaTime) in
    if m_kickAnimationTimer p <=? 0 then set_m_isKicking p false else p
  else p.

Definition clampToBounds (p : t) (boundsMin boundsMax : Vec3) : t :=
  let p :=
    set_m_position p
      (set_x (m_position p)
             (clamp (Vec3.x (m_position p)) (Vec3.x boundsMin) (Vec3.x boundsMax))) in
  set_m_position p
    (set_z (m_position p)
           (clamp (Vec3.z (m_position p)) (Vec3.z boundsMin) (Vec3.z boundsMax))).

Definition update (p : t) (deltaTime : R) (boundsMin boundsMax : Vec3) : t :=
  let p := updateMovement p deltaTime in
  let p := updateRotation p deltaTime in
  let p := updateAnimation p deltaTime in
  clampToBounds p boundsMin boundsMax.

(** [dribble] keeps a function-local [static f32 touchTimer] and may call
    [std::rand()]: both are threaded, the timer as a value and the
    generator as its position [k] in the sequence [rand]. *)
Definition dribble (rand : Rand.t) (p : t) (ball : BallState) (deltaTime : R)
           (touchTimer : R) (k : Rand.state) : BallState * R * Rand.state :=
  let toBall := glm.sub (position ball) (m_position p) in
  let toBall := set_y toBall 0 in
  (* ideal ball position: slightly in front of the player *)
  let playerForward := Vec3.mk (- sin (m_rotation p)) 0 (- cos (m_rotation p)) in
  let idealBallPos := glm.add (m_position p) (glm.scale playerForward 0.8) in
  let idealBallPos := set_y idealBallPos Ball.RADIUS in
  let dribbleControl := 0.15 in
  let toIdeal := glm.sub idealBallPos (position ball) in
  let toIdeal := set_y toIdeal 0 in
  (* only dribble if the ball is roughly in front *)
  let dotProduct := glm.dot (glm.normalize toBall) playerForward in
  if dotProduct >? - 0.3 then
    let ball :=
      set_velocity ball
        (set_x (velocity ball)
               (Vec3.x (velocity ball)
                + Vec3.x toIdeal * dribbleControl * getSpeed p)) in
    let ball :=
      set_velocity ball
        (set_z (velocity ball)
               (Vec3.z (velocity ball)
                + Vec3.z toIdeal * dribbleControl * getSpeed p)) in
    (* small random touches *)
    let touchTimer := touchTimer + deltaTime in
    let '(ball, touchTimer, k) :=
      if touchTimer >? 0.15 then
        let touchTimer := 0 in
        let '(r, k) := Rand.next rand k in
        let touchStrength := 0.5 + IZR (Z.rem r 100) / 200 in
        (set_velocity ball
           (glm.add (velocity ball)
                    (glm.scale
                       (glm.scale (glm.scale playerForward (getSpeed p))
                                  touchStrength)
                       0.3)),
         touchTimer, k)
      else (ball, touchTimer, k) in
    (* limit the ball speed *)
    let ballSpeed :=
      glm.length (Vec3.mk (Vec3.x (velocity ball)) 0 (Vec3.z (velocity ball))) in
    let ball :=
      if ballSpeed >? getSpeed p * 1.5 then
        let factor := getSpeed p * 1.5 / ballSpeed in
        let ball :=
          set_velocity ball
            (set_x (velocity ball) (Vec3.x (velocity ball) * factor)) in
        set_velocity ball
          (set_z (velocity ball) (Vec3.z (velocity ball) * factor))
      else ball in
    (ball, touchTimer, k)
  else (ball, touchTimer, k).

Definition handleBallCollision (rand : Rand.t) (p : t) (ball : BallState)
           (deltaTime : R) (touchTimer : R) (k : Rand.state)
  : BallState * R * Rand.state :=
  let toBall := glm.sub (position ball) (m_position p) in
  let toBall := set_y toBall 0 in
  let distToBall := glm.length toBall in
  let minDist := RADIUS + Ball.RADIUS in
  let ballOnGround := Vec3.y (position ball) <=? Ball.RADIUS + 0.1 in
  (* Dribbling: guide ball while moving *)
  let '(ball, touchTimer, k) :=
    if (distToBall <? DRIBBLE_RANGE) && (getSpeed p >? 0.5) && ballOnGround
    then dribble rand p ball deltaTime touchTimer k
    else (ball, touchTimer, k) in
  (* Hard collision: prevent walking through ball *)
  let ball :=
    if (distToBall <? minDist) && (distToBall >? 0.01) then
      let pushDir := glm.normalize toBall in
      let ball :=
        set_position ball
          (set_x (position ball)
                 (Vec3.x (m_position p) + Vec3.x pushDir * minDist)) in
      let ball :=
        set_position ball
          (set_z (position ball)
                 (Vec3.z (m_position p) + Vec3.z pushDir * minDist)) in
      if getSpeed p >? 0.5 then
        let ball :=
          set_velocity ball
            (set_x (velocity ball)
                   (Vec3.x (velocity ball) + Vec3.x pushDir * getSpeed p * 0.3)) in
        set_velocity ball
          (set_z (velocity ball)
                 (Vec3.z (velocity ball) + Vec3.z pushDir * getSpeed p * 0.3))
      else ball
    else ball in
  (ball, touchTimer, k).
End Player.

(** ** Match.hpp, Match.cpp: score and goal detection *)

Module Match.
Definition GOAL_CELEBRATION_DURATION : R := 3.

Record t : Type := mk {
  m_fieldLength : R;
  m_fieldWidth : R;
  m_goalWidth : R;
  m_goalHeight : R;
  m_scoreLeft : Z;
  m_scoreRight : Z;
  m_goalScored : bool;
  m_celebrationTimer : R;
  m_lastScoringTeam : Z
}.

(** The default member initialisers. *)
Definition init : t := mk 105 68 7.32 2.44 0 0 false 0 (-1).

Definition setFieldDimensions (m : t)
           (fieldLength fieldWidth goalWidth goalHeight : R) : t :=
  mk fieldLength fieldWidth goalWidth goalHeight
     (m_scoreLeft m) (m_scoreRight m) (m_goalScored m)
     (m_celebrationTimer m) (m_lastScoringTeam m).

Definition reset (m : t) : t :=
  mk (m_fieldLength m) (m_fieldWidth m) (m_goalWidth m) (m_goalHeight m)
     0 0 false 0 (-1).

Definition checkGoal (m : t) (ballPos : Vec3) : bool * t :=
  if m_goalScored m then (false, m)
  else
    let goalLineX := m_fieldLength m / 2 in
    let goalHalfWidth := m_goalWidth m / 2 in
    let ballRadius := Ball.RADIUS in
    let inGoalZ := Rabs (Vec3.z ballPos) <? goalHalfWidth in
    let inGoalY :=
      (Vec3.y ballPos <? m_goalHeight m) && (Vec3.y ballPos >? 0) in
    if (Vec3.x ballPos >? goalLineX + ballRadius) && inGoalZ && inGoalY then
      (true,
       mk (m_fieldLength m) (m_fieldWidth m) (m_goalWidth m) (m_goalHeight m)
          (m_scoreLeft m) (i32.incr (m_scoreRight m))
          true GOAL_CELEBRATION_DURATION 0)
    else if (Vec3.x ballPos <? - goalLineX - ballRadius) && inGoalZ && inGoalY
    then
      (true,
       mk (m_fieldLength m) (m_fieldWidth m) (m_goalWidth m) (m_goalHeight m)
          (i32.incr (m_scoreLeft m)) (m_scoreRight m)
          true GOAL_CELEBRATION_DURATION 1)
    else (false, m).

Definition resetAfterGoal (m : t) (ball : BallState) : t * BallState :=
  let ball := Ball.reset ball in
  (mk (m_fieldLength m) (m_fieldWidth m) (m_goalWidth m) (m_goalHeight m)
      (m_scoreLeft m) (m_scoreRight m) false 0 (m_lastScoringTeam m),
   ball).

Definition set_m_celebrationTimer (m : t) (s : R) : t :=
  mk (m_fieldLength m) (m_fieldWidth m) (m_goalWidth m) (m_goalHeight m)
     (m_scoreLeft m) (m_scoreRight m) (m_goalScored m) s
     (m_lastScoringTeam m).

Definition update (m : t) (deltaTime : R) (ball : BallState)
  : t * BallState :=
  if m_goalScored m then
    let m := set_m_celebrationTimer m (m_celebrationTimer m - deltaTime) in
    if m_celebrationTimer m <=? 0 then resetAfterGoal m ball
    else (m, ball)
  else (snd (checkGoal m (position ball)), ball).

(** The goal-mouth test of [handleBoundaryCollision], on the position
    the function reads on entry. *)
Definition inGoalArea (m : t) (pos : Vec3) : bool :=
  let goalHalfWidth := m_goalWidth m / 2 in
  (Rabs (Vec3.z pos) <? goalHalfWidth) && (Vec3.y pos <? m_goalHeight m).

Definition handleBoundaryCollision (m : t) (ball : BallState) : BallState :=
  let pos := position ball in
  let vel := velocity ball in
  let halfLength := m_fieldLength m / 2 in
  let halfWidth := m_fieldWidth m / 2 in
  let radius := Ball.RADIUS in
  (* Side boundaries (Z axis) *)
  let ball :=
    if Vec3.z pos <? - halfWidth + radius then
      let ball :=
        set_position ball (set_z (position ball) (- halfWidth + radius)) in
      set_velocity ball (set_z (velocity ball) (Rabs (Vec3.z vel) * 0.6))
    else if Vec3.z pos >? halfWidth - radius then
      let ball :=
        set_position ball (set_z (position ball) (halfWidth - radius)) in
      set_velocity ball (set_z (velocity ball) (- Rabs (Vec3.z vel) * 0.6))
    else ball in
  (* End boundaries (X axis), only outside the goal area *)
  if negb (inGoalArea m pos) then
    if Vec3.x pos <? - halfLength + radius then
      let ball :=
        set_position ball (set_x (position ball) (- halfLength + radius)) in
      set_velocity ball (set_x (velocity ball) (Rabs (Vec3.x vel) * 0.6))
    else if Vec3.x pos >? halfLength - radius then
      let ball :=
        set_position ball (set_x (position ball) (halfLength - radius)) in
      set_velocity ball (set_x (velocity ball) (- Rabs (Vec3.x vel) * 0.6))
    else ball
  else ball.

(** The calls a driver can make on a match; [run] performs a sequence of
    them, threading the match and the ball. *)
Inductive call : Type :=
| CallUpdate (deltaTime : R)
| CallCheckGoal (ballPos : Vec3)
| CallResetAfterGoal.

Definition step (c : call) (s : t * BallState) : t * BallState :=
  match c with
  | CallUpdate deltaTime => update (fst s) deltaTime (snd s)
  | CallCheckGoal ballPos => (snd (checkGoal (fst s) ballPos), snd s)
  | CallResetAfterGoal => resetAfterGoal (fst s) (snd s)
  end.

Fixpoint run (cs : list call) (s : t * BallState) : t * BallState :=
  match cs with
  | [] => s
  | c :: cs' => run cs' (step c s)
  end.

(** Repeated [checkGoal] on a list of ball positions: the results in
    order, and the match afterwards. *)
Fixpoint checkGoals (m : t) (ps : list Vec3) : list bool * t :=
  match ps with
  | [] => ([], m)
  | p :: ps' =>
      let '(r, m') := checkGoal m p in
      let '(rs, m'') := checkGoals m' ps' in
      (r :: rs, m'')
  end.
Definition getCelebrationAlpha (m : t) : R :=
  if negb (m_goalScored m) || (m_celebrationTimer m <=? 0) then 0
  else
    let alpha := 1 in
    if m_celebrationTimer m >? GOAL_CELEBRATION_DURATION - 0.5 then
      (* Fade in *)
      (GOAL_CELEBRATION_DURATION - m_celebrationTimer m) * 2
    else if m_celebrationTimer m <? 1 then
      (* Fade out *)
      m_celebrationTimer m
    else alpha.

Definition isBallOutOfBounds (m : t) (ballPos : Vec3) : bool :=
  let halfLength := m_fieldLength m / 2 in
  let halfWidth := m_fieldWidth m / 2 in
  let goalHalfWidth := m_goalWidth m / 2 in
  (* out on the sides (Z axis) *)
  if Rabs (Vec3.z ballPos) >? halfWidth then true
  (* out on the ends (X axis) but not in goal area *)
  else if Rabs (Vec3.x ballPos) >? halfLength then
    let inGoalArea :=
      (Rabs (Vec3.z ballPos) <? goalHalfWidth)
      && (Vec3.y ballPos <? m_goalHeight m) in
    if negb inGoalArea then true else false
  else false.
End Match.

(** ** AIPlayer.hpp, AIPlayer.cpp: one AI-controlled player *)

Module AIPlayer.
Inductive State : Type := Idle | ChaseBall | ReturnToPosition | Defend.

Definition MAX_SPEED : R := 7.
Definition ACCELERATION : R := 25.
Definition KICK_POWER : R := 15.
Definition KICK_RANGE : R := 1.
Definition ROTATION_SPEED : R := 8.
Definition KICK_COOLDOWN : R := 1.5.
Definition RADIUS : R := 0.3.

Record t : Type := mk {
  m_position : Vec3;
  m_velocity : Vec3;
  m_homePosition : Vec3;
  m_rotation : R;
  m_targetRotation : R;
  m_state : State;
  m_team : Z;
  m_kickCooldown : R;
  m_animTime : R;
  m_isClosestChaser : bool;
  m_isGoalkeeper : bool;
  m_isDefender : bool;
  m_targetPos : Vec3;
  m_currentTargetSpeed : R
}.

(** The default constructor (the default member initialisers). *)
Definition init : t :=
  mk (glm.splat 0) (glm.splat 0) (glm.splat 0) 0 0 Idle 0 0 0
     false false false (glm.splat 0) MAX_SPEED.

Definition set_m_position (p : t) (v : Vec3) : t :=
  mk v (m_velocity p) (m_homePosition p) (m_rotation p)
     (m_targetRotation p) (m_state p) (m_team p) (m_kickCooldown p)
     (m_animTime p) (m_isClosestChaser p) (m_isGoalkeeper p)
     (m_isDefender p) (m_targetPos p) (m_currentTargetSpeed p).

Definition set_m_rotation (p : t) (r : R) : t :=
  mk (m_position p) (m_velocity p) (m_homePosition p) r
     (m_targetRotation p) (m_state p) (m_team p) (m_kickCooldown p)
     (m_animTime p) (m_isClosestChaser p) (m_isGoalkeeper p)
     (m_isDefender p) (m_targetPos p) (m_currentTargetSpeed p).

Definition setHomePosition (p : t) (pos : Vec3) : t :=
  let isGoalkeeper := Rabs (Vec3.x pos) >? 40 in
  let isDefender := (Rabs (Vec3.x pos) >? 30) && negb isGoalkeeper in
  mk pos (m_velocity p) pos (m_rotation p)
     (m_targetRotation p) (m_state p) (m_team p) (m_kickCooldown p)
     (m_animTime p) (m_isClosestChaser p) isGoalkeeper
     isDefender (m_targetPos p) (m_currentTargetSpeed p).

Definition setTeam (p : t) (team : Z) : t :=
  mk (m_position p) (m_velocity p) (m_homePosition p) (m_rotation p)
     (m_targetRotation p) (m_state p) team (m_kickCooldown p)
     (m_animTime p) (m_isClosestChaser p) (m_isGoalkeeper p)
     (m_isDefender p) (m_targetPos p) (m_currentTargetSpeed p).

Definition setIsClosestChaser (p : t) (isClosest : bool) : t :=
  mk (m_position p) (m_velocity p) (m_homePosition p) (m_rotation p)
     (m_targetRotation p) (m_state p) (m_team p) (m_kickCooldown p)
     (m_animTime p) isClosest (m_isGoalkeeper p)
     (m_isDefender p) (m_targetPos p) (m_currentTargetSpeed p).

Definition getTeam (p : t) : Z := m_team p.

Definition distanceToBall (p : t) (ballPos : Vec3) : R :=
  let toBall := glm.sub ballPos (m_position p) in
  let toBall := set_y toBall 0 in
  glm.length toBall.

(** The last block of [AIPlayer::update] ("Smooth rotation using
    exponential decay"): the facing update of the frame, on the player
    as the earlier blocks of [update] leave it. *)
Definition updateRotation (p : t) (deltaTime : R) : t :=
  let rotDiff := m_targetRotation p - m_rotation p in
  let rotDiff := wrapAngle rotDiff in
  let rotT := 1 - exp (- ROTATION_SPEED * deltaTime) in
  set_m_rotation p (m_rotation p + rotDiff * rotT).

(** [handleAICollision] writes to both players: it returns [this] and
    [other] as it leaves them. *)
Definition handleAICollision (self other : t) : t * t :=
  let toOther := glm.sub (m_position other) (m_position self) in
  let toOther := set_y toOther 0 in
  let dist := glm.length toOther in
  if (dist <? 0.7) && (dist >? 0.01) then
    let pushDir := glm.normalize toOther in
    let self :=
      set_m_position self
        (glm.sub (m_position self)
                 (glm.scale (glm.scale pushDir (0.7 - dist)) 0.5)) in
    let other :=
      set_m_position other
        (glm.add (m_position other)
                 (glm.scale (glm.scale pushDir (0.7 - dist)) 0.5)) in
    (self, other)
  else (self, other).
Definition set_m_velocity (p : t) (v : Vec3) : t :=
  mk (m_position p) v (m_homePosition p) (m_rotation p)
     (m_targetRotation p) (m_state p) (m_team p) (m_kickCooldown p)
     (m_animTime p) (m_isClosestChaser p) (m_isGoalkeeper p)
     (m_isDefender p) (m_targetPos p) (m_currentTargetSpeed p).

Definition set_m_targetRotation (p : t) (r : R) : t :=
  mk (m_position p) (m_velocity p) (m_homePosition p) (m_rotation p)
     r (m_state p) (m_team p) (m_kickCooldown p)
     (m_animTime p) (m_isClosestChaser p) (m_isGoalkeeper p)
     (m_isDefender p) (m_targetPos p) (m_currentTargetSpeed p).

Definition set_m_state (p : t) (s : State) : t :=
  mk (m_position p) (m_velocity p) (m_homePosition p) (m_rotation p)
     (m_targetRotation p) s (m_team p) (m_kickCooldown p)
     (m_animTime p) (m_isClosestChaser p) (m_isGoalkeeper p)
     (m_isDefender p) (m_targetPos p) (m_currentTargetSpeed p).

Definition set_m_kickCooldown (p : t) (s : R) : t :=
  mk (m_position p) (m_velocity p) (m_homePosition p) (m_rotation p)
     (m_targetRotation p) (m_state p) (m_team p) s
     (m_animTime p) (m_isClosestChaser p) (m_isGoalkeeper p)
     (m_isDefender p) (m_targetPos p) (m_currentTargetSpeed p).

Definition set_m_animTime (p : t) (s : R) : t :=
  mk (m_position p) (m_velocity p) (m_homePosition p) (m_rotation p)
     (m_targetRotation p) (m_state p) (m_team p) (m_kickCooldown p)
     s (m_isClosestChaser p) (m_isGoalkeeper p)
     (m_isDefender p) (m_targetPos p) (m_currentTargetSpeed p).

(** [m_targetPos = target; m_currentTargetSpeed = speed;] *)
Definition set_target (p : t) (target : Vec3) (speed : R) : t :=
  mk (m_position p) (m_velocity p) (m_homePosition p) (m_rotation p)
     (m_targetRotation p) (m_state p) (m_team p) (m_kickCooldown p)
     (m_animTime p) (m_isClosestChaser p) (m_isGoalkeeper p)
     (m_isDefender p) target speed.

Definition chaseBall (p : t) (ballPos ballVel : Vec3) : t :=
  (* where the ball will be in 0.2s *)
  let predictedBall := glm.add ballPos (glm.scale ballVel 0.2) in
  let predictedBall := set_y predictedBall 0 in
  set_target p predictedBall MAX_SPEED.

Definition returnToPosition (p : t) (ballPos : Vec3) (fieldLength goalWidth : R)
  : t :=
  let shiftedHome := m_homePosition p in
  let shiftAmount := Vec3.x ballPos * 0.2 in
  let shiftedHome :=
    if m_isGoalkeeper p then
      (* Goalkeeper tracks ball laterally within goal area *)
      let shiftedHome := set_z shiftedHome (Vec3.z ballPos * 0.5) in
      set_z shiftedHome
            (clamp (Vec3.z shiftedHome) (- goalWidth / 2 + 1) (goalWidth / 2 - 1))
    else if m_isDefender p then
      set_x shiftedHome (Vec3.x shiftedHome + shiftAmount * 0.3)
    else
      set_x shiftedHome (Vec3.x shiftedHome + shiftAmount * 0.5) in
  set_target p shiftedHome (MAX_SPEED * 0.5).

Definition decideAction (p : t) (ballPos ballVel : Vec3) (fieldLength : R) : t :=
  let dist := distanceToBall p ballPos in
  let ballX := Vec3.x ballPos in
  let shouldChase :=
    if m_isGoalkeeper p then
      (* Goalkeeper only engages when ball is near their goal *)
      let goalX :=
        if (m_team p =? 0)%Z then - fieldLength / 2 else fieldLength / 2 in
      (Rabs (ballX - goalX) <? 20) && (dist <? 15)
    else if m_isClosestChaser p then
      if (m_team p =? 0)%Z then ballX <? 40 else ballX >? - 40
    else false in
  if shouldChase && (dist <? 35) then
    chaseBall (set_m_state p ChaseBall) ballPos ballVel
  else
    returnToPosition (set_m_state p ReturnToPosition) ballPos fieldLength 7.32.

Definition moveToward (p : t) (target : Vec3) (targetSpeed deltaTime : R) : t :=
  let toTarget := glm.sub target (m_position p) in
  let toTarget := set_y toTarget 0 in
  let distToTarget := glm.length toTarget in
  let p :=
    if distToTarget >? 0.5 then
      let moveDir := glm.normalize toTarget in
      (* Slow down when approaching target *)
      let targetVel := glm.scale moveDir (fmin (distToTarget * 2) targetSpeed) in
      let velDiff := glm.sub targetVel (m_velocity p) in
      let accelAmount := ACCELERATION * deltaTime in
      let p :=
        if glm.length velDiff <? accelAmount then set_m_velocity p targetVel
        else
          set_m_velocity p
            (glm.add (m_velocity p)
                     (glm.scale (glm.normalize velDiff) accelAmount)) in
      (* Face movement direction *)
      set_m_targetRotation p (atan2 (- Vec3.x moveDir) (- Vec3.z moveDir))
    else
      (* Arrived at target, decelerate *)
      let speed := glm.length (m_velocity p) in
      if speed >? 0.1 then set_m_velocity p (glm.scale (m_velocity p) 0.9)
      else set_m_velocity p (glm.splat 0) in
  set_m_position p (glm.add (m_position p) (glm.scale (m_velocity p) deltaTime)).

(** [tryKick] reads one value of [std::rand()]. *)
Definition tryKick (rand : Rand.t) (p : t) (ball : BallState) (fieldLength : R)
           (k : Rand.state) : t * BallState * Rand.state :=
  (* direction toward the opponent's goal *)
  let goalDir :=
    if (m_team p =? 0)%Z
    then glm.sub (Vec3.mk (fieldLength / 2) 0 0) (m_position p)
    else glm.sub (Vec3.mk (- fieldLength / 2) 0 0) (m_position p) in
  let goalDir := set_y goalDir 0 in
  let goalDir := glm.normalize goalDir in
  (* slight randomness *)
  let '(r, k) := Rand.next rand k in
  let goalDir :=
    set_z goalDir (Vec3.z goalDir + IZR (Z.rem r 100 - 50) / 100 * 0.3) in
  let goalDir := glm.normalize goalDir in
  let ball := set_velocity ball (glm.scale goalDir KICK_POWER) in
  let ball := set_velocity ball (set_y (velocity ball) 1) in
  (set_m_kickCooldown p KICK_COOLDOWN, ball, k).

(** [update]; the parameters [playerPos] and [goalWidth] are not read. *)
Definition update (rand : Rand.t) (p : t) (deltaTime : R) (ball : BallState)
           (playerPos : Vec3) (fieldLength fieldWidth goalWidth : R)
           (k : Rand.state) : t * BallState * Rand.state :=
  let p :=
    if m_kickCooldown p >? 0
    then set_m_kickCooldown p (m_kickCooldown p - deltaTime)
    else p in
  let p := decideAction p (position ball) (velocity ball) fieldLength in
  let p := moveToward p (m_targetPos p) (m_currentTargetSpeed p) deltaTime in
  (* Only attempt kick when ball is grounded *)
  let dist := distanceToBall p (position ball) in
  let '(p, ball, k) :=
    if (dist <? KICK_RANGE) && (m_kickCooldown p <=? 0) && BallPhysics.isLow ball
    then tryKick rand p ball fieldLength k
    else (p, ball, k) in
  (* Animate legs based on movement speed *)
  let speed := glm.length (m_velocity p) in
  let p :=
    if speed >? 0.5
    then set_m_animTime p (m_animTime p + deltaTime * speed * 0.8)
    else p in
  (* Keep within field boundaries *)
  let p :=
    set_m_position p
      (set_x (m_position p)
             (clamp (Vec3.x (m_position p))
                    (- fieldLength / 2 + 1) (fieldLength / 2 - 1))) in
  let p :=
    set_m_position p
      (set_z (m_position p)
             (clamp (Vec3.z (m_position p))
                    (- fieldWidth / 2 + 1) (fieldWidth / 2 - 1))) in
  (updateRotation p deltaTime, ball, k).

(** [handleBallCollision] writes to the ball only. *)
Definition handleBallCollision (p : t) (ball : BallState) : BallState :=
  let dist := distanceToBall p (position ball) in
  if (dist <? 0.5) && (dist >? 0.01) then
    let toBall := glm.sub (position ball) (m_position p) in
    let toBall := set_y toBall 0 in
    let pushDir := glm.normalize toBall in
    let ball :=
      set_position ball
        (set_x (position ball) (Vec3.x (m_position p) + Vec3.x pushDir * 0.5)) in
    set_position ball
      (set_z (position ball) (Vec3.z (m_position p) + Vec3.z pushDir * 0.5))
  else ball.

Definition handlePlayerCollision (p : t) (playerPos : Vec3) : t :=
  let toPlayer := glm.sub playerPos (m_position p) in
  let toPlayer := set_y toPlayer 0 in
  let dist := glm.length toPlayer in
  if (dist <? 0.8) && (dist >? 0.01) then
    let pushDir := glm.normalize toPlayer in
    set_m_position p (glm.sub (m_position p) (glm.scale pushDir (0.8 - dist)))
  else p.
End AIPlayer.
Abbreviation AIPlayer := AIPlayer.t.

(** ** AIManager: the roster of AI players *)

Module AIManager.
Import AIPlayer.

(** A player constructed, placed at its home position and given a team,
    as [createTeams] does before each [push_back]. *)
Definition spawn (home : Vec3) (team : Z) : AIPlayer :=
  setTeam (setHomePosition AIPlayer.init home) team.

(** [for (int i = 0; i < 2; i++)] of [createTeams]: the two players of a
    line, the second [step] further along Z. *)
Definition line (homeX z0 step : R) (team : Z) : list AIPlayer :=
  map (fun i : Z => spawn (Vec3.mk homeX 0 (z0 + IZR i * step)) team)
      [0%Z; 1%Z].

(** [m_players] after [createTeams]; the argument is not read. *)
Definition createTeams (fieldLength : R) : list AIPlayer :=
  let m_players := [] in
  (* Red team (team 0) *)
  let m_players := m_players ++ [spawn (Vec3.mk (- 45) 0 0) 0] in
  let m_players := m_players ++ line (- 35) (- 12) 24 0 in
  let m_players := m_players ++ line (- 15) (- 15) 30 0 in
  let m_players := m_players ++ [spawn (Vec3.mk (- 5) 0 0) 0] in
  (* Blue team (team 1) *)
  let m_players := m_players ++ [spawn (Vec3.mk 45 0 0) 1] in
  let m_players := m_players ++ line 35 (- 12) 24 1 in
  let m_players := m_players ++ line 15 (- 15) 30 1 in
  m_players.

(** The four locals of [findClosestChasers]. *)
Record closest : Type := mkClosest {
  closestRedIdx : Z;
  closestBlueIdx : Z;
  closestRedDist : R;
  closestBlueDist : R
}.

(** The body of the first loop, at index [i] on player [p]. *)
Definition scanStep (ballPos : Vec3) (i : nat) (p : AIPlayer) (c : closest)
  : closest :=
  let dist := distanceToBall p ballPos in
  let isGoalkeeper := (i =? 0)%nat || (i =? 6)%nat in
  if (getTeam p =? 0)%Z && negb isGoalkeeper then
    if dist <? closestRedDist c then
      mkClosest (i32.wrap (Z.of_nat i)) (closestBlueIdx c)
                dist (closestBlueDist c)
    else c
  else if (getTeam p =? 1)%Z && negb isGoalkeeper then
    if dist <? closestBlueDist c then
      mkClosest (closestRedIdx c) (i32.wrap (Z.of_nat i))
                (closestRedDist c) dist
    else c
  else c.

(** The first loop from index [i] on, over the players from [i] on. *)
Fixpoint scan (ballPos : Vec3) (i : nat) (ps : list AIPlayer) (c : closest)
  : closest :=
  match ps with
  | [] => c
  | p :: ps' => scan ballPos (S i) ps' (scanStep ballPos i p c)
  end.

(** The second loop from index [i] on: the chase flags. *)
Fixpoint flag (c : closest) (i : nat) (ps : list AIPlayer) : list AIPlayer :=
  match ps with
  | [] => []
  | p :: ps' =>
      let isClosest :=
        (i32.wrap (Z.of_nat i) =? closestRedIdx c)%Z
        || (i32.wrap (Z.of_nat i) =? closestBlueIdx c)%Z in
      setIsClosestChaser p isClosest :: flag c (S i) ps'
  end.

(** [m_players] after [findClosestChasers]. *)
Definition findClosestChasers (m_players : list AIPlayer) (ballPos : Vec3)
  : list AIPlayer :=
  let c := scan ballPos 0 m_players (mkClosest (-1) (-1) 999 999) in
  flag c 0 m_players.
(** The loop [for (auto& ai : m_players) ai.update(...)] of [update]:
    the ball and the generator pass from one player to the next. *)
Fixpoint updatePlayers (rand : Rand.t) (ps : list AIPlayer) (deltaTime : R)
         (ball : BallState) (playerPos : Vec3)
         (fieldLength fieldWidth goalWidth : R) (k : Rand.state)
  : list AIPlayer * BallState * Rand.state :=
  match ps with
  | [] => ([], ball, k)
  | p :: ps' =>
      let '(p', ball, k) :=
        AIPlayer.update rand p deltaTime ball playerPos
                        fieldLength fieldWidth goalWidth k in
      let '(ps'', ball, k) :=
        updatePlayers rand ps' deltaTime ball playerPos
                      fieldLength fieldWidth goalWidth k in
      (p' :: ps'', ball, k)
  end.

(** The first loop of [handleCollisions]: AI-ball and AI-human. *)
Fixpoint collideBallAndHuman (ps : list AIPlayer) (ball : BallState)
         (playerPos : Vec3) : list AIPlayer * BallState :=
  match ps with
  | [] => ([], ball)
  | p :: ps' =>
      let ball := handleBallCollision p ball in
      let p := handlePlayerCollision p playerPos in
      let '(ps'', ball) := collideBallAndHuman ps' ball playerPos in
      (p :: ps'', ball)
  end.

(** The inner loop of the AI-AI collisions: player [i] against each
    player [j > i], in order. *)
Fixpoint collideWith (p : AIPlayer) (rest : list AIPlayer)
  : AIPlayer * list AIPlayer :=
  match rest with
  | [] => (p, [])
  | q :: rest' =>
      let '(p, q) := handleAICollision p q in
      let '(p, rest'') := collideWith p rest' in
      (p, q :: rest'')
  end.

(** The outer loop, over the [n] players that are left. *)
Fixpoint collidePairs (n : nat) (ps : list AIPlayer) : list AIPlayer :=
  match n, ps with
  | S n', p :: rest =>
      let '(p, rest) := collideWith p rest in
      p :: collidePairs n' rest
  | _, _ => ps
  end.

Definition handleCollisions (m_players : list AIPlayer) (ball : BallState)
           (playerPos : Vec3) : list AIPlayer * BallState :=
  let '(m_players, ball) := collideBallAndHuman m_players ball playerPos in
  (collidePairs (List.length m_players) m_players, ball).

Definition update (rand : Rand.t) (m_players : list AIPlayer) (deltaTime : R)
           (ball : BallState) (playerPos : Vec3)
           (fieldLength fieldWidth goalWidth : R) (k : Rand.state)
  : list AIPlayer * BallState * Rand.state :=
  (* Determine which player on each team should chase *)
  let m_players := findClosestChasers m_players (position ball) in
  let '(m_players, ball, k) :=
    updatePlayers rand m_players deltaTime ball playerPos
                  fieldLength fieldWidth goalWidth k in
  let '(m_players, ball) := handleCollisions m_players ball playerPos in
  (m_players, ball, k).
End AIManager.


(** ** main.cpp: the frames of the application

    The game objects of [Application] and what [processInput] and
    [update] do to them.  The window, the camera and the renderer are
    not modelled: [update] writes the camera from the player's position
    and reads nothing back, and what [processInput] reads of the input
    handler and of the camera, once [processEvents] and
    [updateKeyboardState] have run, is the [FrameInput] of the frame.
    The function-local [static f32 touchTimer] of [Player::dribble] and
    the position of [std::rand()] in its sequence are kept with the game
    objects. *)

(** InputHandler.hpp: [struct InputState]. *)
Record InputState : Type := mkInputState {
  movementDirection : Vec3;
  sprinting : bool;
  kickPressed : bool;
  kickJustPressed : bool;
  spinY : R
}.

Module Application.
Definition FIELD_LENGTH : R := 105.
Definition FIELD_WIDTH : R := 68.
Definition GOAL_WIDTH : R := 7.32.
Definition GOAL_HEIGHT : R := 2.44.

(** What [processInput] reads: [m_input.shouldResetBall()],
    [m_input.shouldToggleAI()], [m_input.getState()] and
    [m_camera.getYaw()]. *)
Record FrameInput : Type := mkFrameInput {
  resetBallRequested : bool;
  toggleAIRequested : bool;
  inputState : InputState;
  yaw : R
}.

Record t : Type := mk {
  m_ball : BallState;
  m_player : Player.t;
  m_aiManager : list AIPlayer;
  m_match : Match.t;
  m_fieldBounds : FieldBounds;
  m_aiEnabled : bool;
  touchTimer : R;
  randState : Rand.state
}.

(** The game objects after the constructors and [init]: [Ball()] calls
    [reset], [init] sets the field bounds and the match dimensions and
    creates the teams. *)
Definition init : t :=
  mk (Ball.reset (mkBallState (Vec3.mk 0 0.5 0) (Vec3.mk 0 0 0)
                              (Vec3.mk 0 0 0) 0))
     Player.init
     (AIManager.createTeams FIELD_LENGTH)
     (Match.setFieldDimensions Match.init
        FIELD_LENGTH FIELD_WIDTH GOAL_WIDTH GOAL_HEIGHT)
     (FieldBounds.mk FIELD_LENGTH FIELD_WIDTH GOAL_WIDTH GOAL_HEIGHT)
     true 0 0%nat.

(** [processInput]; its parameter [deltaTime] is not read. *)
Definition processInput (a : t) (inp : FrameInput) (deltaTime : R) : t :=
  (* Handle debug/reset controls *)
  let ball := if resetBallRequested inp then Ball.reset (m_ball a)
              else m_ball a in
  let aiEnabled := if toggleAIRequested inp then negb (m_aiEnabled a)
                   else m_aiEnabled a in
  (* Pass input to player controller *)
  let player :=
    Player.setMovementInput (m_player a)
      (movementDirection (inputState inp)) (sprinting (inputState inp)) in
  let player := Player.setTargetRotation player (- yaw inp) in
  (* Kick attempt *)
  let '(player, ball) :=
    if kickJustPressed (inputState inp)
       && negb (Match.m_goalScored (m_match a))
    then
      let r := Player.tryKick player ball (sprinting (inputState inp))
                              (spinY (inputState inp)) in
      (snd (fst r), snd r)
    else (player, ball) in
  mk ball player (m_aiManager a) (m_match a) (m_fieldBounds a) aiEnabled
     (touchTimer a) (randState a).

Definition update (rand : Rand.t) (a : t) (deltaTime : R) : t :=
  (* Player movement bounds *)
  let boundsMin :=
    Vec3.mk (- FIELD_LENGTH / 2 + 1) 0 (- FIELD_WIDTH / 2 + 1) in
  let boundsMax := Vec3.mk (FIELD_LENGTH / 2 - 1) 0 (FIELD_WIDTH / 2 - 1) in
  let player := Player.update (m_player a) deltaTime boundsMin boundsMax in
  (* Ball physics *)
  let ball := Ball.update (m_ball a) deltaTime (m_fieldBounds a) in
  let ball := Match.handleBoundaryCollision (m_match a) ball in
  (* Player-ball interaction *)
  let '(ball, touchTimer, k) :=
    if negb (Match.m_goalScored (m_match a))
    then Player.handleBallCollision rand player ball deltaTime
                                    (touchTimer a) (randState a)
    else (ball, touchTimer a, randState a) in
  (* Goal detection and celebration *)
  let '(m, ball) := Match.update (m_match a) deltaTime ball in
  (* AI team updates *)
  let '(players, ball, k) :=
    if m_aiEnabled a
    then AIManager.update rand (m_aiManager a) deltaTime ball
                          (Player.m_position player)
                          FIELD_LENGTH FIELD_WIDTH GOAL_WIDTH k
    else (m_aiManager a, ball, k) in
  mk ball player players m (m_fieldBounds a) (m_aiEnabled a) touchTimer k.

(** One turn of the loop of [run]: the lap of the frame timer, capped
    at [0.1], then [processInput] and [update]. *)
Definition frame (rand : Rand.t) (a : t) (lap : R) (inp : FrameInput) : t :=
  let deltaTime := lap in
  let deltaTime := if deltaTime >? 0.1 then 0.1 else deltaTime in
  let a := processInput a inp deltaTime in
  update rand a deltaTime.

(** The loop of [run] over the frames that pass before the window
    closes, each with its lap and its input. *)
Fixpoint run (rand : Rand.t) (a : t) (frames : list (R * FrameInput)) : t :=
  match frames with
  | [] => a
  | (lap, inp) :: rest => run rand (frame rand a lap inp) rest
  end.
End Application.
(** * Vocabulary of the statements *)

(** The conditions under which a ball counts as lying still: no linear
    and no angular velocity, at the resting height. *)
Definition atRest (ball : BallState) : Prop :=
  velocity ball = Vec3.mk 0 0 0
  /\ angularVelocity ball = Vec3.mk 0 0 0
  /\ Vec3.y (position ball) = BallPhysics.BALL_RADIUS.

(** The positions the boundary step of [BallPhysics::update] leaves
    alone: between the end lines or in a goal mouth, and not further
    than half a metre beyond a side line. *)
Definition insideField (ball : BallState) (bounds : FieldBounds) : Prop :=
  (Rabs (Vec3.x (position ball)) <= FieldBounds.length bounds / 2
   \/ BallPhysics.inGoalArea ball bounds = true)
  /\ Rabs (Vec3.z (position ball)) <= FieldBounds.width bounds / 2 + 0.5.

(** The ball lying still on the centre spot. *)
Definition restBall : BallState :=
  mkBallState (Vec3.mk 0 BallPhysics.BALL_RADIUS 0)
              (Vec3.mk 0 0 0) (Vec3.mk 0 0 0) 0.


Arguments glm.length : simpl never.
Arguments glm.normalize : simpl never.
Arguments BallPhysics.applyAirDrag : simpl never.
Arguments BallPhysics.applyMagnusEffect : simpl never.
Arguments BallPhysics.applySpinDecay : simpl never.
Arguments BallPhysics.handleGroundCollision : simpl never.
Arguments BallPhysics.applyRollingFriction : simpl never.
Arguments BallPhysics.handleFieldBoundaries : simpl never.
Arguments BallPhysics.inGoalArea : simpl never.
Arguments Rltb : simpl never.
Arguments Rleb : simpl never.



(** A ball in the air, spinning at 3 rad/s about the vertical axis and
    moving at exactly the speed threshold of the Magnus force. *)
Definition spinningSlowBall : BallState :=
  mkBallState (Vec3.mk 0 2 0) (Vec3.mk 1 0 0) (Vec3.mk 0 3 0) 0.

(** A goal crossing: the whole ball is beyond one of the two goal lines
    (its centre more than a radius past [fieldLength / 2] on either
    side), between the posts, above the ground and under the bar. *)
Definition goalCrossing (m : Match.t) (ballPos : Vec3) : Prop :=
  Rabs (Vec3.x ballPos) > Match.m_fieldLength m / 2 + Ball.RADIUS
  /\ Rabs (Vec3.z ballPos) < Match.m_goalWidth m / 2
  /\ 0 < Vec3.y ballPos < Match.m_goalHeight m.

(** The scenario of a goal at the positive-X end: the ball one metre
    beyond the goal line, at mid-height, in the middle of the goal. *)
Definition ballInRightGoal : Vec3 := Vec3.mk 53.5 1 0.

(** The match of the default field right after the first goal of the
    game, scored at the positive-X end. *)
Definition matchAfterGoal : Match.t :=
  Match.mk 105 68 7.32 2.44 0 1 true Match.GOAL_CELEBRATION_DURATION 0.

(** A match of the default field in play, the positive-X score at the
    largest [i32]. *)
Definition matchAtMaxScore : Match.t :=
  Match.mk 105 68 7.32 2.44 0 i32.max_signed false 0 0.

(** The human player in the middle of a kick: standing on its starting
    spot, the kick flag up and the kick-animation timer just started. *)
Definition kickingPlayer : Player.t :=
  Player.set_m_kickAnimationTimer (Player.set_m_isKicking Player.init true) 0.3.

(** The ball lying at the feet of that player. *)
Definition ballAtFeet : BallState :=
  mkBallState (Vec3.mk 0 BallPhysics.BALL_RADIUS 5)
              (Vec3.mk 0 0 0) (Vec3.mk 0 0 0) 0.


(** A ball that flew past the positive-X end line, wide of the goal,
    moving outwards and spinning. *)
Definition ballPastEndLine : BallState :=
  mkBallState (Vec3.mk 60 1 20) (Vec3.mk 10 0 0) (Vec3.mk 0 2 0) 0.

(** An AI player facing [3.14159] that wants to face [-3]: a turn of
    [0.14159] across the wrap-around. *)
Definition turningAgent : AIPlayer :=
  AIPlayer.mk (glm.splat 0) (glm.splat 0) (glm.splat 0) 3.14159 (- 3)
              AIPlayer.Idle 0 0 0 false false false (glm.splat 0)
              AIPlayer.MAX_SPEED.

(** The human player in the same situation. *)
Definition turningPlayer : Player.t :=
  Player.set_m_targetRotation (Player.set_m_rotation Player.init 3.14159) (- 3).

(** The distance of two positions on the ground plane (XZ), as the
    collision handlers measure it. *)
Definition horizontalDistance (a b : Vec3) : R :=
  glm.length (set_y (glm.sub b a) 0).

(** A freshly constructed AI player standing at [(px, 0, pz)]. *)
Definition agentAt (px pz : R) : AIPlayer :=
  AIPlayer.set_m_position AIPlayer.init (Vec3.mk px 0 pz).

(** A roster that descends from the one [createTeams] builds: the same
    players in the same order, each with the team and the goalkeeper role
    it was created with (positions and everything else are free). *)
Definition sameRoster (ps qs : list AIPlayer) : Prop :=
  Forall2 (fun p q => AIPlayer.m_team p = AIPlayer.m_team q
                      /\ AIPlayer.m_isGoalkeeper p = AIPlayer.m_isGoalkeeper q)
          ps qs.

(** The players [findClosestChasers] considers for team [t]: of that
    team, and not at an index it treats as a goalkeeper's. *)
Definition eligible (t : Z) (i : nat) (p : AIPlayer) : bool :=
  (AIPlayer.getTeam p =? t)%Z && negb ((i =? 0)%nat || (i =? 6)%nat).

(** What the locals of the first loop of [findClosestChasers] hold for
    team [t] once the indices below [k] are done: no index and the
    initial distance [999] if no eligible player is nearer than that,
    and otherwise the first of the nearest eligible players together with
    its distance. *)
Definition bestOf (ballPos : Vec3) (all : list AIPlayer) (t : Z) (k : nat)
           (idx : Z) (d : R) : Prop :=
  (idx = (-1)%Z /\ d = 999
   /\ forall i p, (i < k)%nat -> nth_error all i = Some p ->
                  eligible t i p = true ->
                  999 <= AIPlayer.distanceToBall p ballPos)
  \/ (exists j p,
         idx = Z.of_nat j /\ (j < k)%nat /\ nth_error all j = Some p
         /\ eligible t j p = true
         /\ d = AIPlayer.distanceToBall p ballPos /\ d < 999
         /\ forall i q, (i < k)%nat -> nth_error all i = Some q ->
                        eligible t i q = true ->
                        d <= AIPlayer.distanceToBall q ballPos
                        /\ ((i < j)%nat ->
                            d < AIPlayer.distanceToBall q ballPos)).

(** One team's part of the loop body: the index and distance kept after
    looking at player [i] at distance [dist]. *)
Definition pick (elig : bool) (i : nat) (dist : R) (idx : Z) (d : R) : Z * R :=
  if elig then if dist <? d then (i32.wrap (Z.of_nat i), dist) else (idx, d)
  else (idx, d).

(** The ball far away from the field, on the X axis. *)
Definition farBall : Vec3 := Vec3.mk 5000 0 0.

(** The factor of the quadratic drag law per unit of speed and time:
    [0.5 * rho * Cd * A / m] with the constants of [applyAirDrag]. *)
Definition dragConstant : R :=
  0.5 * BallPhysics.AIR_DENSITY * BallPhysics.DRAG_COEFFICIENT
  * (3.14159 * BallPhysics.BALL_RADIUS * BallPhysics.BALL_RADIUS)
  / BallPhysics.BALL_MASS.

(** The speed on the ground plane. *)
Definition groundSpeed (v : Vec3) : R :=
  glm.length (Vec3.mk (Vec3.x v) 0 (Vec3.z v)).

(** A ball flying fast and spinning hard. *)
Definition curvingBall : BallState :=
  mkBallState (Vec3.mk 0 2 0) (Vec3.mk 20 0 0) (Vec3.mk 0 10 0) 0.

(** A ball rolling on the ground. *)
Definition rollingBall : BallState :=
  mkBallState (Vec3.mk 0 BallPhysics.BALL_RADIUS 0) (Vec3.mk 3 0 4)
              (Vec3.mk 0 0 0) 0.

(** The flag, the celebration timer and the last scoring team fit
    together: while a goal is flagged the timer runs, within the
    celebration window, and a team is recorded; otherwise the timer is at
    zero. *)
Definition celebrationConsistent (m : Match.t) : Prop :=
  (if Match.m_goalScored m
   then 0 < Match.m_celebrationTimer m <= Match.GOAL_CELEBRATION_DURATION
        /\ (Match.m_lastScoringTeam m = 0%Z \/ Match.m_lastScoringTeam m = 1%Z)
   else Match.m_celebrationTimer m = 0)
  /\ (Match.m_lastScoringTeam m = (-1)%Z \/ Match.m_lastScoringTeam m = 0%Z
      \/ Match.m_lastScoringTeam m = 1%Z).

(** Calls in which time does not run backwards. *)
Definition forwardCall (c : Match.call) : Prop :=
  match c with
  | Match.CallUpdate deltaTime => 0 <= deltaTime
  | _ => True
  end.

(** The match as [resetAfterGoal] leaves it. *)
Definition celebrationOver (m : Match.t) : Match.t :=
  fst (Match.resetAfterGoal m restBall).


(** A ball that has just crossed the goal line of the positive-X end,
    still moving into the net. *)
Definition ballInNet : BallState :=
  mkBallState ballInRightGoal (Vec3.mk 10 0 0) (Vec3.mk 0 0 0) 0.

(** [n] consecutive frames of the human player, each of [deltaTime]
    seconds, on the same field. *)
Definition playerFrames (n : nat) (p : Player.t) (deltaTime : R)
           (boundsMin boundsMax : Vec3) : Player.t :=
  Nat.iter n (fun q => Player.update q deltaTime boundsMin boundsMax) p.

(** The direction the human player faces, on the ground plane. *)
Definition playerForward (p : Player.t) : Vec3 :=
  Vec3.mk (- sin (Player.m_rotation p)) 0 (- cos (Player.m_rotation p)).

(** The test of [dribble] for a ball that is roughly in front of the
    player. *)
Definition ballInFront (p : Player.t) (ball : BallState) : bool :=
  glm.dot (glm.normalize
             (set_y (glm.sub (position ball) (Player.m_position p)) 0))
          (playerForward p)
  >? - 0.3.

(** The human player running at [5] along its facing direction, from its
    starting spot. *)
Definition runningPlayer : Player.t :=
  Player.set_m_velocity Player.init (Vec3.mk 0 0 (- 5)).

(** A ball one metre in front of that player, at rest. *)
Definition ballAhead : BallState :=
  mkBallState (Vec3.mk 0 BallPhysics.BALL_RADIUS 4)
              (Vec3.mk 0 0 0) (Vec3.mk 0 0 0) 0.

(** Consecutive frames of one AI player, each of [deltaTime] seconds:
    frame [i] is run on the [i]-th ball of the list, and the result holds
    the player after the last frame, the balls as the frames leave them,
    and the position of the random generator. *)
Fixpoint aiFrames (rand : Rand.t) (p : AIPlayer) (deltaTime : R)
         (balls : list BallState) (playerPos : Vec3)
         (fieldLength fieldWidth goalWidth : R) (k : Rand.state)
  : AIPlayer * list BallState * Rand.state :=
  match balls with
  | [] => (p, [], k)
  | ball :: rest =>
      let r := AIPlayer.update rand p deltaTime ball playerPos
                               fieldLength fieldWidth goalWidth k in
      let rs := aiFrames rand (fst (fst r)) deltaTime rest playerPos
                         fieldLength fieldWidth goalWidth (snd r) in
      (fst (fst rs), snd (fst r) :: snd (fst rs), snd rs)
  end.

(** The horizontal vector from an AI player to the centre of the goal it
    attacks, as [tryKick] computes it. *)
Definition goalDirection (p : AIPlayer) (fieldLength : R) : Vec3 :=
  set_y (glm.sub (Vec3.mk (if (AIPlayer.m_team p =? 0)%Z
                           then fieldLength / 2 else - fieldLength / 2) 0 0)
                 (AIPlayer.m_position p)) 0.

(** What the collision handlers leave alone in an AI player (they write
    positions only), as far as the statements below look: its team,
    whether it keeps goal, whether it is its team's designated chaser, its
    state and its velocity. *)
Definition standing (p : AIPlayer)
  : Z * bool * bool * AIPlayer.State * Vec3 :=
  (AIPlayer.m_team p, AIPlayer.m_isGoalkeeper p,
   AIPlayer.m_isClosestChaser p, AIPlayer.m_state p, AIPlayer.m_velocity p).

(** What [AIPlayer::update] with the time step [deltaTime] makes of a
    player [p]: team, role and chase flag stay; the state is [ChaseBall]
    or [ReturnToPosition], and only a goalkeeper or a designated chaser
    chases; with time running forward a speed within [MAX_SPEED] stays
    within it. *)
Definition afterFrame (deltaTime : R) (p' p : AIPlayer) : Prop :=
  AIPlayer.m_team p' = AIPlayer.m_team p
  /\ AIPlayer.m_isGoalkeeper p' = AIPlayer.m_isGoalkeeper p
  /\ AIPlayer.m_isClosestChaser p' = AIPlayer.m_isClosestChaser p
  /\ (AIPlayer.m_state p' = AIPlayer.ChaseBall
      \/ AIPlayer.m_state p' = AIPlayer.ReturnToPosition)
  /\ (AIPlayer.m_state p' = AIPlayer.ChaseBall ->
      AIPlayer.m_isGoalkeeper p = true \/ AIPlayer.m_isClosestChaser p = true)
  /\ (0 < deltaTime ->
      glm.length (AIPlayer.m_velocity p) <= AIPlayer.MAX_SPEED ->
      glm.length (AIPlayer.m_velocity p') <= AIPlayer.MAX_SPEED).

(** An outfield player that is chasing the ball. *)
Definition outfieldChaser (p : AIPlayer) : Prop :=
  AIPlayer.m_isGoalkeeper p = false /\ AIPlayer.m_state p = AIPlayer.ChaseBall.

(** The human player's kick flag and its animation timer fit together:
    while the flag is up the timer runs. *)
Definition kickConsistent (p : Player.t) : Prop :=
  Player.m_isKicking p = true -> 0 < Player.m_kickAnimationTimer p.

(** The state of a game in order: the ball on or above the ground, the
    human player at least one metre inside the lines, no faster than a
    sprint and with a consistent kick animation, the match's celebration
    state consistent, and the AI roster the one [createTeams] built, no
    AI player faster than its top speed. *)
Definition playable (a : Application.t) : Prop :=
  BallPhysics.BALL_RADIUS <= Vec3.y (position (Application.m_ball a))
  /\ Rabs (Vec3.x (Player.m_position (Application.m_player a)))
     <= Application.FIELD_LENGTH / 2 - 1
  /\ Rabs (Vec3.z (Player.m_position (Application.m_player a)))
     <= Application.FIELD_WIDTH / 2 - 1
  /\ Player.getSpeed (Application.m_player a) <= Player.SPRINT_SPEED
  /\ kickConsistent (Application.m_player a)
  /\ celebrationConsistent (Application.m_match a)
  /\ sameRoster (Application.m_aiManager a)
                (AIManager.createTeams Application.FIELD_LENGTH)
  /\ Forall (fun p => glm.length (AIPlayer.m_velocity p) <= AIPlayer.MAX_SPEED)
            (Application.m_aiManager a).

(** Frames in which the frame timer has advanced. *)
Definition timeAdvances (f : R * Application.FrameInput) : Prop := 0 < fst f.

(** A match on the field of the application. *)
Definition regulationField (m : Match.t) : Prop :=
  Match.m_fieldLength m = Application.FIELD_LENGTH
  /\ Match.m_fieldWidth m = Application.FIELD_WIDTH
  /\ Match.m_goalWidth m = Application.GOAL_WIDTH
  /\ Match.m_goalHeight m = Application.GOAL_HEIGHT.

(** A position at least one metre inside the lines of that field, where
    the players are clamped. *)
Definition insideLines (pos : Vec3) : Prop :=
  Rabs (Vec3.x pos) <= Application.FIELD_LENGTH / 2 - 1
  /\ Rabs (Vec3.z pos) <= Application.FIELD_WIDTH / 2 - 1.
(** * Properties *)

(** ** Comparisons *)

Lemma Rltb_true (a b : R) : a < b -> (a <? b) = true.
Proof. intros H. unfold Rltb. destruct (Rlt_dec a b); [reflexivity | contradiction]. Qed.

Lemma Rltb_false (a b : R) : b <= a -> (a <? b) = false.
Proof. intros H. unfold Rltb. destruct (Rlt_dec a b); [lra | reflexivity]. Qed.

Lemma Rleb_true (a b : R) : a <= b -> (a <=? b) = true.
Proof. intros H. unfold Rleb. destruct (Rle_dec a b); [reflexivity | contradiction]. Qed.

Lemma Rleb_false (a b : R) : b < a -> (a <=? b) = false.
Proof. intros H. unfold Rleb. destruct (Rle_dec a b); [lra | reflexivity]. Qed.

(** Case analysis on the outcome of a comparison, keeping the fact. *)
Ltac cmp_cases a b :=
  let H := fresh "Hcmp" in
  destruct (Rlt_dec a b) as [H | H];
  [ rewrite (Rltb_true a b H) in *
  | apply Rnot_lt_le in H; rewrite (Rltb_false a b H) in * ].

(** The same for a test [a <= 0]. *)
Ltac cmp_le_zero a :=
  let H := fresh "Hcmp" in
  destruct (Rle_dec a 0) as [H | H];
  [ rewrite (Rleb_true a 0 H) in *
  | apply Rnot_le_lt in H; rewrite (Rleb_false a 0 H) in * ].

(** Reduction of the field writes and reads on explicit records. *)
Ltac fields :=
  cbv beta iota delta
      [set_position set_velocity set_angularVelocity set_rotationAngle
       set_x set_y set_z position velocity angularVelocity rotationAngle
       Vec3.x Vec3.y Vec3.z glm.add glm.sub glm.scale glm.lscale glm.divs
       glm.splat andb orb negb].

(** ** Vectors *)

Lemma dot_self_nonneg (v : Vec3) : 0 <= glm.dot v v.
Proof. unfold glm.dot. nra. Qed.

Lemma length_zero : glm.length (Vec3.mk 0 0 0) = 0.
Proof.
  unfold glm.length, glm.dot; simpl.
  replace (0 * 0 + 0 * 0 + 0 * 0) with 0 by ring. apply sqrt_0.
Qed.

Lemma length_sq (v : Vec3) : glm.length v * glm.length v = glm.dot v v.
Proof. unfold glm.length. apply sqrt_sqrt, dot_self_nonneg. Qed.

Lemma length_scale (v : Vec3) (s : R) :
  0 <= s -> glm.length (glm.scale v s) = glm.length v * s.
Proof.
  intros Hs. unfold glm.length.
  replace (glm.dot (glm.scale v s) (glm.scale v s)) with (glm.dot v v * (s * s))
    by (unfold glm.dot, glm.scale; simpl; ring).
  rewrite sqrt_mult_alt by apply dot_self_nonneg.
  rewrite sqrt_square by assumption. reflexivity.
Qed.

(** A non-zero vector is normalised to a unit vector. *)
Lemma length_normalize (v : Vec3) :
  0 < glm.dot v v -> glm.length (glm.normalize v) = 1.
Proof.
  intros Hv. unfold glm.normalize, glm.inversesqrt.
  assert (Hs : 0 < sqrt (glm.dot v v)) by (apply sqrt_lt_R0; assumption).
  rewrite length_scale.
  - unfold glm.length. field. lra.
  - apply Rlt_le. apply Rdiv_lt_0_compat; lra.
Qed.

Lemma sqrt_lower_bound (a s : R) : 0 <= a -> a * a <= s -> a <= sqrt s.
Proof.
  intros Ha Hs. rewrite <- (sqrt_square a Ha). apply sqrt_le_1_alt. assumption.
Qed.

Lemma sqrt_upper_bound (a s : R) : 0 <= a -> s <= a * a -> sqrt s <= a.
Proof.
  intros Ha Hs. rewrite <- (sqrt_square a Ha). apply sqrt_le_1_alt. assumption.
Qed.

(** ** Ball physics: the ground clamp *)

Lemma handleFieldBoundaries_y (ball : BallState) (bounds : FieldBounds) :
  Vec3.y (position (BallPhysics.handleFieldBoundaries ball bounds))
  = Vec3.y (position ball).
Proof.
  unfold BallPhysics.handleFieldBoundaries.
  repeat match goal with
         | |- context [if ?c then _ else _] => destruct c; simpl
         end; reflexivity.
Qed.

Lemma applyRollingFriction_position (ball : BallState) (deltaTime : R) :
  position (BallPhysics.applyRollingFriction ball deltaTime) = position ball.
Proof.
  unfold BallPhysics.applyRollingFriction.
  repeat match goal with
         | |- context [if ?c then _ else _] => destruct c; simpl
         end; reflexivity.
Qed.

Lemma handleGroundCollision_y (ball : BallState) :
  BallPhysics.BALL_RADIUS
  <= Vec3.y (position (BallPhysics.handleGroundCollision ball)).
Proof.
  unfold BallPhysics.handleGroundCollision.
  cmp_cases (Vec3.y (position ball)) BallPhysics.BALL_RADIUS.
  - destruct (_ <? _); simpl; lra.
  - assumption.
Qed.

(** C2.  After one call of [BallPhysics::update] the height of the ball is
    at least the resting height [BALL_RADIUS], whatever the state before
    the call, the time step (in particular every [dt >= 0]) and the field
    dimensions: the ground clamp is the last write to [position.y]. *)
Theorem update_ground_clamp (ball : BallState) (deltaTime : R)
        (bounds : FieldBounds) :
  BallPhysics.BALL_RADIUS
  <= Vec3.y (position (BallPhysics.update ball deltaTime bounds)).
Proof.
  unfold BallPhysics.update, BallPhysics.integrate.
  rewrite handleFieldBoundaries_y, applyRollingFriction_position.
  apply handleGroundCollision_y.
Qed.

(** ** Ball physics: equilibrium *)

(** Inside the field, or in a goal mouth, the boundary step changes
    nothing. *)
Lemma handleFieldBoundaries_inside (ball : BallState) (bounds : FieldBounds) :
  Rabs (Vec3.x (position ball)) <= FieldBounds.length bounds / 2
  \/ BallPhysics.inGoalArea ball bounds = true ->
  Rabs (Vec3.z (position ball)) <= FieldBounds.width bounds / 2 + 0.5 ->
  BallPhysics.handleFieldBoundaries ball bounds = ball.
Proof.
  intros Hx Hz. unfold BallPhysics.handleFieldBoundaries.
  assert (Hend :
    (if Rabs (Vec3.x (position ball)) >? FieldBounds.length bounds / 2
     then if negb (BallPhysics.inGoalArea ball bounds)
          then set_angularVelocity
                 (set_velocity
                    (set_position ball
                       (set_x (position ball)
                          (copysign (FieldBounds.length bounds / 2)
                                    (Vec3.x (position ball)))))
                    (set_x (velocity ball) (- Vec3.x (velocity ball) * 0.5)))
                 (glm.scale (angularVelocity ball) 0.5)
          else ball
     else ball) = ball).
  { destruct Hx as [Hx | Hx].
    - rewrite Rltb_false by assumption. reflexivity.
    - rewrite Hx. simpl. destruct (_ <? _); reflexivity. }
  cbv zeta. cbn [set_position set_velocity set_angularVelocity position velocity angularVelocity] in *.
  rewrite Hend. rewrite Rltb_false by assumption. reflexivity.
Qed.

Lemma applySpinDecay_no_spin (p v : Vec3) (rot deltaTime : R) :
  BallPhysics.applySpinDecay (mkBallState p v (Vec3.mk 0 0 0) rot) deltaTime
  = mkBallState p v (Vec3.mk 0 0 0) rot.
Proof.
  unfold BallPhysics.applySpinDecay, set_angularVelocity, glm.scale.
  destruct (BallPhysics.isInAir _); simpl; rewrite !Rmult_0_l; reflexivity.
Qed.

Lemma applyRollingFriction_still (p w : Vec3) (vy rot deltaTime : R) :
  BallPhysics.applyRollingFriction
    (mkBallState p (Vec3.mk 0 vy 0) w rot) deltaTime
  = mkBallState p (Vec3.mk 0 vy 0) w rot.
Proof.
  unfold BallPhysics.applyRollingFriction.
  cbn [position velocity Vec3.x Vec3.y Vec3.z].
  destruct (_ <=? _); [ | reflexivity].
  rewrite length_zero. rewrite Rltb_false by lra. reflexivity.
Qed.

(** One frame on a ball that lies still on the ground: the frame's
    gravity is absorbed by the ground when [GRAVITY * dt] is at most the
    bounce-trigger speed [0.5], and is reflected as a bounce otherwise;
    the boundary step then sees the ball where it was. *)
Lemma update_at_rest_boundaries (px pz rot deltaTime : R) (bounds : FieldBounds) :
  0 <= deltaTime ->
  BallPhysics.update
    (mkBallState (Vec3.mk px BallPhysics.BALL_RADIUS pz)
                 (Vec3.mk 0 0 0) (Vec3.mk 0 0 0) rot)
    deltaTime bounds
  = BallPhysics.handleFieldBoundaries
      (mkBallState (Vec3.mk px BallPhysics.BALL_RADIUS pz)
                   (Vec3.mk 0
                      (if BallPhysics.GRAVITY * deltaTime >? 0.5
                       then BallPhysics.GRAVITY * deltaTime
                            * BallPhysics.BOUNCE_FACTOR
                       else 0)
                      0)
                   (Vec3.mk 0 0 0) rot)
      bounds.
Proof.
  intros Hdt.
  unfold BallPhysics.update, BallPhysics.isInAir. fields.
  rewrite (Rltb_false (BallPhysics.BALL_RADIUS + 0.3) BallPhysics.BALL_RADIUS)
    by (unfold BallPhysics.BALL_RADIUS; lra).
  cbv zeta. unfold BallPhysics.dragStep, BallPhysics.magnusStep.
  unfold BallPhysics.applyGravity. fields.
  rewrite length_zero. unfold BallPhysics.integrate.
  rewrite applySpinDecay_no_spin.
  rewrite (Rltb_false 0.1 0) by lra. cbv zeta. fields.
  replace (px + 0 * deltaTime) with px by ring.
  replace (pz + 0 * deltaTime) with pz by ring.
  assert (Hg : BallPhysics.GRAVITY = 9.81) by reflexivity.
  assert (Hground :
    BallPhysics.handleGroundCollision
      (mkBallState
         (Vec3.mk px (BallPhysics.BALL_RADIUS
                      + (0 - BallPhysics.GRAVITY * deltaTime) * deltaTime) pz)
         (Vec3.mk 0 (0 - BallPhysics.GRAVITY * deltaTime) 0)
         (Vec3.mk 0 0 0) rot)
    = mkBallState
        (Vec3.mk px BallPhysics.BALL_RADIUS pz)
        (Vec3.mk 0
           (if BallPhysics.GRAVITY * deltaTime >? 0.5
            then BallPhysics.GRAVITY * deltaTime * BallPhysics.BOUNCE_FACTOR
            else 0) 0)
        (Vec3.mk 0 0 0) rot).
  { unfold BallPhysics.handleGroundCollision. fields. cbv zeta.
    cmp_cases (BallPhysics.BALL_RADIUS
               + (0 - BallPhysics.GRAVITY * deltaTime) * deltaTime)
              BallPhysics.BALL_RADIUS.
    - cmp_cases (0 - BallPhysics.GRAVITY * deltaTime) (- 0.5).
      + rewrite Rltb_true by lra. fields.
        repeat f_equal; ring.
      + rewrite Rltb_false by lra. fields. reflexivity.
    - assert (deltaTime = 0) by nra. subst deltaTime.
      rewrite Rltb_false by lra.
      repeat f_equal; ring. }
  rewrite Hground, applyRollingFriction_still. reflexivity.
Qed.

Lemma update_at_rest (ball : BallState) (deltaTime : R) (bounds : FieldBounds) :
  atRest ball -> insideField ball bounds ->
  0 <= deltaTime -> BallPhysics.GRAVITY * deltaTime <= 0.5 ->
  BallPhysics.update ball deltaTime bounds = ball.
Proof.
  intros (Hv & Hw & Hy) (Hx & Hz) Hdt Hsmall.
  destruct ball as [[px py pz] v w rot]. simpl in Hv, Hw, Hy, Hx, Hz. subst.
  rewrite update_at_rest_boundaries by assumption.
  rewrite Rltb_false by assumption.
  apply handleFieldBoundaries_inside; assumption.
Qed.

(** C3 (as amended).  A ball with zero velocity and zero spin at the
    resting height, lying where the boundary step does not act, is a fixed
    point of [BallPhysics::update] for every time step [dt >= 0] with
    [GRAVITY * dt <= 0.5]: after any number of consecutive calls the whole
    state (position, velocity, angular velocity, visual rotation) is the
    one before. *)
Theorem rest_is_fixed_point (n : nat) (ball : BallState) (deltaTime : R)
        (bounds : FieldBounds) :
  atRest ball -> insideField ball bounds ->
  0 <= deltaTime -> BallPhysics.GRAVITY * deltaTime <= 0.5 ->
  BallPhysics.updates n ball deltaTime bounds = ball.
Proof.
  intros Hrest Hin Hdt Hsmall.
  induction n as [| n IH]; simpl.
  - reflexivity.
  - rewrite update_at_rest by assumption. exact IH.
Qed.

Lemma restBall_atRest : atRest restBall.
Proof. repeat split. Qed.

Lemma restBall_insideField : insideField restBall FieldBounds.default.
Proof.
  split; [left |]; simpl; rewrite Rabs_R0; lra.
Qed.

Lemma rest_is_fixed_point_witness :
  BallPhysics.updates 3 restBall (1 / 60) FieldBounds.default = restBall.
Proof.
  apply (rest_is_fixed_point 3 restBall (1 / 60) FieldBounds.default).
  - exact restBall_atRest.
  - exact restBall_insideField.
  - lra.
  - unfold BallPhysics.GRAVITY. lra.
Defined.

(** C3, the claim as stated fails: with the time step [0.1] (the largest
    one the frame loop passes on) the ball lying still on the centre spot
    leaves the update with an upward velocity of [0.6867]. *)
Lemma rest_bounces_at_long_step :
  atRest restBall /\ 0 <= 0.1
  /\ velocity (BallPhysics.update restBall 0.1 FieldBounds.default)
     = Vec3.mk 0 0.6867 0
  /\ BallPhysics.update restBall 0.1 FieldBounds.default <> restBall.
Proof.
  assert (Hu : BallPhysics.update restBall 0.1 FieldBounds.default
               = mkBallState (Vec3.mk 0 BallPhysics.BALL_RADIUS 0)
                             (Vec3.mk 0 0.6867 0) (Vec3.mk 0 0 0) 0).
  { unfold restBall. rewrite update_at_rest_boundaries by lra.
    rewrite Rltb_true by (unfold BallPhysics.GRAVITY; lra).
    rewrite handleFieldBoundaries_inside.
    - unfold BallPhysics.GRAVITY, BallPhysics.BOUNCE_FACTOR.
      repeat f_equal. lra.
    - left. simpl. rewrite Rabs_R0. lra.
    - simpl. rewrite Rabs_R0. lra. }
  split; [exact restBall_atRest |]. split; [lra |].
  rewrite Hu. split; [reflexivity |].
  unfold restBall. intros Heq. inversion Heq. lra.
Qed.

(** A ball lying still beyond an end line and outside the goal mouth is
    not a fixed point either, whatever the time step: the boundary step
    puts it back on the line. *)
Lemma rest_outside_field_moves :
  let ball :=
    mkBallState (Vec3.mk 100 BallPhysics.BALL_RADIUS 20)
                (Vec3.mk 0 0 0) (Vec3.mk 0 0 0) 0 in
  atRest ball
  /\ Vec3.x (position (BallPhysics.update ball 0 FieldBounds.default)) = 52.5.
Proof.
  cbv zeta. split; [repeat split |].
  rewrite update_at_rest_boundaries by lra.
  unfold BallPhysics.handleFieldBoundaries, BallPhysics.inGoalArea, copysign.
  fields. cbv zeta. simpl FieldBounds.length. simpl FieldBounds.width.
  simpl FieldBounds.goalWidth. simpl FieldBounds.goalHeight.
  rewrite (Rabs_pos_eq 100) by lra. rewrite (Rabs_pos_eq 20) by lra.
  rewrite (Rltb_true (105 / 2) 100) by lra.
  rewrite (Rltb_false 20 (7.32 / 2)) by lra.
  fields. rewrite (Rltb_false 100 0) by lra.
  destruct (Rabs 20 >? 68 / 2 + 0.5); fields; rewrite Rabs_pos_eq by lra; lra.
Qed.

(** ** Ball physics: the thresholds of the Magnus force *)

Lemma applyGravity_angularVelocity (ball : BallState) (deltaTime : R) :
  angularVelocity (BallPhysics.applyGravity ball deltaTime)
  = angularVelocity ball.
Proof. reflexivity. Qed.

Lemma dragStep_angularVelocity (inAir : bool) (ballSpeed : R)
      (ball : BallState) (deltaTime : R) :
  angularVelocity (BallPhysics.dragStep inAir ballSpeed ball deltaTime)
  = angularVelocity ball.
Proof.
  unfold BallPhysics.dragStep, BallPhysics.applyAirDrag.
  destruct (inAir && _); [ | reflexivity].
  destruct (_ <? _); reflexivity.
Qed.

(** The guard of the Magnus step, read on the state [update] starts from. *)
Lemma magnusStep_guard (inAir : bool) (ballSpeed : R) (ball : BallState)
      (deltaTime : R) :
  glm.length (angularVelocity ball) <= 0.1 \/ ballSpeed <= 1 \/ inAir = false ->
  BallPhysics.magnusStep inAir ballSpeed ball deltaTime = ball.
Proof.
  intros H. unfold BallPhysics.magnusStep.
  destruct H as [Hw | [Hs | Ha]].
  - rewrite (Rltb_false 0.1 _ Hw). rewrite andb_false_r. reflexivity.
  - rewrite (Rltb_false 1 _ Hs). rewrite andb_false_r. reflexivity.
  - rewrite Ha. reflexivity.
Qed.

(** C6.  [BallPhysics::update] applies no Magnus force when, on the state
    it is called with, the angular velocity has magnitude at most [0.1],
    or the speed is at most [1.0], or the ball is not airborne: the Magnus
    step returns the state the drag step produced (velocity included), and
    the update continues from that state.  The bounds are inclusive: at
    exactly [0.1] or exactly [1.0] no force is applied. *)
Theorem update_magnus_zero_below_thresholds (ball : BallState)
        (deltaTime : R) (bounds : FieldBounds) :
  glm.length (angularVelocity ball) <= 0.1
  \/ glm.length (velocity ball) <= 1
  \/ BallPhysics.isInAir ball = false ->
  let inAir := BallPhysics.isInAir ball in
  let ballSpeed := glm.length (velocity ball) in
  let afterDrag :=
    BallPhysics.dragStep inAir ballSpeed
      (BallPhysics.applyGravity ball deltaTime) deltaTime in
  BallPhysics.magnusStep inAir ballSpeed afterDrag deltaTime = afterDrag
  /\ velocity (BallPhysics.magnusStep inAir ballSpeed afterDrag deltaTime)
     = velocity afterDrag
  /\ BallPhysics.update ball deltaTime bounds
     = BallPhysics.integrate ballSpeed afterDrag deltaTime bounds.
Proof.
  intros H inAir ballSpeed afterDrag.
  assert (Hstep :
    BallPhysics.magnusStep inAir ballSpeed afterDrag deltaTime = afterDrag).
  { apply magnusStep_guard. subst afterDrag.
    rewrite dragStep_angularVelocity, applyGravity_angularVelocity.
    exact H. }
  split; [exact Hstep |]. split; [rewrite Hstep; reflexivity |].
  unfold BallPhysics.update. fold inAir. fold ballSpeed. cbv zeta.
  fold afterDrag. rewrite Hstep. reflexivity.
Qed.

(** Above all three thresholds the step is the Magnus force itself, so the
    guard above is the only thing that holds the force back. *)
Lemma magnusStep_applies (ballSpeed : R) (ball : BallState) (deltaTime : R) :
  0.1 < glm.length (angularVelocity ball) -> 1 < ballSpeed ->
  BallPhysics.magnusStep true ballSpeed ball deltaTime
  = BallPhysics.applyMagnusEffect ball deltaTime.
Proof.
  intros Hw Hs. unfold BallPhysics.magnusStep.
  rewrite (Rltb_true _ _ Hw), (Rltb_true _ _ Hs). reflexivity.
Qed.

Lemma update_magnus_zero_below_thresholds_witness :
  BallPhysics.update spinningSlowBall (1 / 60) FieldBounds.default
  = BallPhysics.integrate (glm.length (velocity spinningSlowBall))
      (BallPhysics.dragStep (BallPhysics.isInAir spinningSlowBall)
         (glm.length (velocity spinningSlowBall))
         (BallPhysics.applyGravity spinningSlowBall (1 / 60)) (1 / 60))
      (1 / 60) FieldBounds.default.
Proof.
  apply (update_magnus_zero_below_thresholds
           spinningSlowBall (1 / 60) FieldBounds.default).
  right. left. unfold spinningSlowBall, glm.length, glm.dot. simpl.
  apply sqrt_upper_bound; lra.
Defined.

(** ** Match state: goal detection and the score *)

Lemma checkGoal_flagged (m : Match.t) (ballPos : Vec3) :
  Match.m_goalScored m = true -> Match.checkGoal m ballPos = (false, m).
Proof. intros H. unfold Match.checkGoal. rewrite H. reflexivity. Qed.

Lemma checkGoals_flagged (m : Match.t) (ps : list Vec3) :
  Match.m_goalScored m = true ->
  Match.checkGoals m ps = (repeat false (List.length ps), m).
Proof.
  intros H. induction ps as [| p ps IH]; simpl.
  - reflexivity.
  - rewrite (checkGoal_flagged m p H), IH. reflexivity.
Qed.

(** A call that reports a goal started from a match with the flag down
    and leaves the flag up. *)
Lemma checkGoal_true_sets_flag (m m' : Match.t) (ballPos : Vec3) :
  Match.checkGoal m ballPos = (true, m') ->
  Match.m_goalScored m = false /\ Match.m_goalScored m' = true
  /\ Match.m_celebrationTimer m' = Match.GOAL_CELEBRATION_DURATION.
Proof.
  unfold Match.checkGoal.
  destruct (Match.m_goalScored m); [discriminate |].
  cbv zeta.
  destruct (_ && _ && _).
  - intros H. inversion H. simpl. auto.
  - destruct (_ && _ && _); intros H; inversion H. simpl. auto.
Qed.

(** So a goal is reported once: every call after the one that reported it
    returns [false] and changes nothing. *)
Lemma checkGoal_true_once (m m' : Match.t) (ballPos : Vec3) (ps : list Vec3) :
  Match.checkGoal m ballPos = (true, m') ->
  Match.checkGoals m' ps = (repeat false (List.length ps), m').
Proof.
  intros H. apply checkGoals_flagged.
  apply (checkGoal_true_sets_flag m m' ballPos H).
Qed.

(** The goal at the positive-X end of the default field, from kick-off. *)
Lemma checkGoal_right_goal :
  Match.checkGoal Match.init ballInRightGoal = (true, matchAfterGoal).
Proof.
  unfold Match.checkGoal, Match.init, ballInRightGoal, matchAfterGoal,
    Ball.RADIUS, BallPhysics.BALL_RADIUS.
  cbn [Match.m_goalScored Match.m_fieldLength Match.m_fieldWidth
       Match.m_goalWidth Match.m_goalHeight Match.m_scoreLeft
       Match.m_scoreRight Vec3.x Vec3.y Vec3.z].
  rewrite Rabs_R0.
  rewrite (Rltb_true 0 (7.32 / 2)) by lra.
  rewrite (Rltb_true 1 2.44) by lra.
  rewrite (Rltb_true 0 1) by lra.
  rewrite (Rltb_true (105 / 2 + 0.22) 53.5) by lra.
  reflexivity.
Qed.

(** The tests of [checkGoal] on the two ends, read as one condition on
    the position. *)
Lemma checkGoal_reports_crossing (m : Match.t) (ballPos : Vec3) :
  Match.m_goalScored m = false -> goalCrossing m ballPos ->
  fst (Match.checkGoal m ballPos) = true.
Proof.
  intros Hflag (Hx & Hz & Hy0 & Hy1).
  unfold Match.checkGoal. rewrite Hflag. cbv zeta.
  rewrite (Rltb_true (Rabs (Vec3.z ballPos))) by exact Hz.
  rewrite (Rltb_true (Vec3.y ballPos)) by exact Hy1.
  rewrite (Rltb_true 0) by exact Hy0.
  rewrite !andb_true_r.
  cmp_cases (Match.m_fieldLength m / 2 + Ball.RADIUS) (Vec3.x ballPos);
    [reflexivity |].
  rewrite Rltb_true; [reflexivity |].
  unfold Rabs in Hx. destruct (Rcase_abs (Vec3.x ballPos)); lra.
Qed.

Lemma checkGoal_only_crossing (m : Match.t) (ballPos : Vec3) :
  fst (Match.checkGoal m ballPos) = true ->
  Match.m_goalScored m = false /\ goalCrossing m ballPos.
Proof.
  unfold Match.checkGoal, goalCrossing.
  destruct (Match.m_goalScored m); [discriminate |]. cbv zeta.
  intros H. split; [reflexivity |].
  cmp_cases (Rabs (Vec3.z ballPos)) (Match.m_goalWidth m / 2);
    [ | rewrite !andb_false_r in H; discriminate].
  cmp_cases (Vec3.y ballPos) (Match.m_goalHeight m);
    [ | rewrite !andb_false_r in H; discriminate].
  cmp_cases 0 (Vec3.y ballPos);
    [ | rewrite !andb_false_r in H; discriminate].
  rewrite !andb_true_r in H.
  split; [ | split; [assumption | split; assumption]].
  cmp_cases (Match.m_fieldLength m / 2 + Ball.RADIUS) (Vec3.x ballPos).
  - apply Rlt_gt. apply Rlt_le_trans with (Vec3.x ballPos);
      [assumption | apply Rle_abs].
  - cmp_cases (Vec3.x ballPos) (- (Match.m_fieldLength m / 2) - Ball.RADIUS);
      [ | discriminate].
    apply Rlt_gt. apply Rlt_le_trans with (- Vec3.x ballPos);
      [lra | rewrite <- Rabs_Ropp; apply Rle_abs].
Qed.

(** The call that reports the goal, followed by any further calls. *)
Lemma checkGoals_after_crossing (m : Match.t) (ballPos : Vec3)
      (ps : list Vec3) :
  Match.m_goalScored m = false -> goalCrossing m ballPos ->
  Match.m_goalScored (snd (Match.checkGoal m ballPos)) = true
  /\ Match.checkGoals m (ballPos :: ps)
     = (true :: repeat false (List.length ps),
        snd (Match.checkGoal m ballPos)).
Proof.
  intros Hflag Hcross.
  pose proof (checkGoal_reports_crossing m ballPos Hflag Hcross) as Htrue.
  destruct (Match.checkGoal m ballPos) as [r m'] eqn:E.
  cbn [fst snd] in *. subst r.
  destruct (checkGoal_true_sets_flag m m' ballPos E) as (_ & Hup & _).
  split; [exact Hup |].
  cbn [Match.checkGoals]. rewrite E.
  rewrite (checkGoals_flagged m' ps Hup). reflexivity.
Qed.

(** C1.  [Match::checkGoal] returns [true] exactly once per goal
    crossing.  It returns [true] exactly when the goal-scored flag is down
    and the ball is beyond a goal line inside the goal mouth; that call
    sets the flag.  Once the flag is set, [checkGoal] returns [false] and
    leaves the match as it is (both scores, the flag, the celebration
    timer and the last scoring team), for every ball position and however
    often it is called: of the calls made during a crossing, the first
    returns [true] and all later ones [false], the match staying as the
    first call left it.  [resetAfterGoal] clears the flag, and a ball that
    is still beyond the line is then reported again. *)
Theorem checkGoal_once_per_crossing (m : Match.t) (ballPos : Vec3)
        (ps : list Vec3) (ball : BallState) :
  (fst (Match.checkGoal m ballPos) = true
   <-> Match.m_goalScored m = false /\ goalCrossing m ballPos)
  /\ (Match.m_goalScored m = false -> goalCrossing m ballPos ->
      Match.m_goalScored (snd (Match.checkGoal m ballPos)) = true
      /\ Match.checkGoals m (ballPos :: ps)
         = (true :: repeat false (List.length ps),
            snd (Match.checkGoal m ballPos)))
  /\ (Match.m_goalScored m = true ->
      Match.checkGoal m ballPos = (false, m)
      /\ Match.checkGoals m ps = (repeat false (List.length ps), m))
  /\ Match.m_goalScored (fst (Match.resetAfterGoal m ball)) = false
  /\ (goalCrossing m ballPos ->
      fst (Match.checkGoal (fst (Match.resetAfterGoal m ball)) ballPos)
      = true).
Proof.
  split; [split |].
  - apply checkGoal_only_crossing.
  - intros [Hflag Hcross]. apply checkGoal_reports_crossing; assumption.
  - split; [apply checkGoals_after_crossing |].
    split.
    + intros Hflag.
      split; [apply checkGoal_flagged | apply checkGoals_flagged]; exact Hflag.
    + split; [reflexivity |].
      intros Hcross. apply checkGoal_reports_crossing; [reflexivity |].
      exact Hcross.
Qed.

Lemma checkGoal_once_per_crossing_witness :
  Match.m_goalScored Match.init = false
  /\ goalCrossing Match.init ballInRightGoal
  /\ fst (Match.checkGoals Match.init
            [ballInRightGoal; ballInRightGoal; ballInRightGoal])
     = [true; false; false].
Proof.
  assert (Hcross : goalCrossing Match.init ballInRightGoal).
  { unfold goalCrossing, Match.init, ballInRightGoal, Ball.RADIUS,
      BallPhysics.BALL_RADIUS.
    cbn [Match.m_fieldLength Match.m_goalWidth Match.m_goalHeight
         Vec3.x Vec3.y Vec3.z].
    rewrite Rabs_R0, (Rabs_pos_eq 53.5) by lra. lra. }
  split; [reflexivity |]. split; [exact Hcross |].
  destruct (checkGoal_once_per_crossing
              Match.init ballInRightGoal [ballInRightGoal; ballInRightGoal]
              restBall) as (_ & H & _).
  destruct (H eq_refl Hcross) as [_ E].
  rewrite E. reflexivity.
Defined.

(** After [resetAfterGoal] the same position is a goal again. *)
Lemma checkGoal_after_reset :
  fst (Match.checkGoal (fst (Match.resetAfterGoal matchAfterGoal restBall))
                       ballInRightGoal) = true.
Proof.
  unfold Match.checkGoal, Match.resetAfterGoal, matchAfterGoal,
    ballInRightGoal, Ball.RADIUS, BallPhysics.BALL_RADIUS.
  cbn [fst Match.m_goalScored Match.m_fieldLength Match.m_fieldWidth
       Match.m_goalWidth Match.m_goalHeight Match.m_scoreLeft
       Match.m_scoreRight Vec3.x Vec3.y Vec3.z].
  rewrite Rabs_R0.
  rewrite (Rltb_true 0 (7.32 / 2)) by lra.
  rewrite (Rltb_true 1 2.44) by lra.
  rewrite (Rltb_true 0 1) by lra.
  rewrite (Rltb_true (105 / 2 + 0.22) 53.5) by lra.
  reflexivity.
Qed.

(** ** Match state: the scores over a sequence of calls *)

Lemma i32_incr_below_max (n : Z) :
  i32.in_range n -> (n < i32.max_signed)%Z -> i32.incr n = (n + 1)%Z.
Proof.
  unfold i32.in_range, i32.incr, i32.wrap, i32.min_signed, i32.max_signed.
  intros Hr Hlt.
  rewrite Z.mod_small by lia. lia.
Qed.

Lemma i32_incr_at_max : i32.incr i32.max_signed = i32.min_signed.
Proof. reflexivity. Qed.

(** What one call of [checkGoal] does to the two scores. *)
Lemma checkGoal_scores (m : Match.t) (ballPos : Vec3) :
  let m' := snd (Match.checkGoal m ballPos) in
  (fst (Match.checkGoal m ballPos) = false
   /\ Match.m_scoreLeft m' = Match.m_scoreLeft m
   /\ Match.m_scoreRight m' = Match.m_scoreRight m)
  \/ (fst (Match.checkGoal m ballPos) = true
      /\ Match.m_scoreLeft m' = Match.m_scoreLeft m
      /\ Match.m_scoreRight m' = i32.incr (Match.m_scoreRight m))
  \/ (fst (Match.checkGoal m ballPos) = true
      /\ Match.m_scoreLeft m' = i32.incr (Match.m_scoreLeft m)
      /\ Match.m_scoreRight m' = Match.m_scoreRight m).
Proof.
  unfold Match.checkGoal.
  destruct (Match.m_goalScored m); [left; simpl; auto |].
  cbv zeta.
  destruct (_ && _ && _); [right; left; simpl; auto |].
  destruct (_ && _ && _); [right; right; simpl; auto | left; simpl; auto].
Qed.

Lemma resetAfterGoal_scores (m : Match.t) (ball : BallState) :
  Match.m_scoreLeft (fst (Match.resetAfterGoal m ball)) = Match.m_scoreLeft m
  /\ Match.m_scoreRight (fst (Match.resetAfterGoal m ball))
     = Match.m_scoreRight m.
Proof. split; reflexivity. Qed.

Lemma reset_scores (m : Match.t) :
  Match.m_scoreLeft (Match.reset m) = 0%Z
  /\ Match.m_scoreRight (Match.reset m) = 0%Z.
Proof. split; reflexivity. Qed.

(** One call moves each score up by at most one, as long as the score is
    below the largest [i32]. *)
Lemma step_scores (c : Match.call) (s : Match.t * BallState) :
  i32.in_range (Match.m_scoreLeft (fst s)) ->
  i32.in_range (Match.m_scoreRight (fst s)) ->
  (Match.m_scoreLeft (fst s) < i32.max_signed)%Z ->
  (Match.m_scoreRight (fst s) < i32.max_signed)%Z ->
  let s' := Match.step c s in
  (Match.m_scoreLeft (fst s) <= Match.m_scoreLeft (fst s')
   <= Match.m_scoreLeft (fst s) + 1)%Z
  /\ (Match.m_scoreRight (fst s) <= Match.m_scoreRight (fst s')
      <= Match.m_scoreRight (fst s) + 1)%Z.
Proof.
  destruct s as [m ball]. cbn [fst snd]. intros Hl Hr Hlm Hrm.
  assert (Hcheck : forall p,
    (Match.m_scoreLeft m <= Match.m_scoreLeft (snd (Match.checkGoal m p))
     <= Match.m_scoreLeft m + 1)%Z
    /\ (Match.m_scoreRight m <= Match.m_scoreRight (snd (Match.checkGoal m p))
        <= Match.m_scoreRight m + 1)%Z).
  { intros p.
    destruct (checkGoal_scores m p) as [(_ & El & Er) | [(_ & El & Er) | (_ & El & Er)]];
      rewrite El, Er; rewrite ?i32_incr_below_max by assumption; lia. }
  destruct c as [deltaTime | ballPos |]; cbn [Match.step fst snd].
  - unfold Match.update.
    destruct (Match.m_goalScored m).
    + cbv zeta. destruct (_ <=? _); cbn; lia.
    + cbn [fst]. apply Hcheck.
  - apply Hcheck.
  - cbn. lia.
Qed.

(** C9 (as amended).  Over any sequence of [update], [checkGoal] and
    [resetAfterGoal] calls that starts from scores in the [i32] range and
    far enough below the largest [i32] for the number of calls, neither
    score ever decreases, and neither grows by more than one per call; a
    [checkGoal] that reports a goal from scores below the largest [i32]
    adds exactly one to exactly one score; [resetAfterGoal] changes neither
    score; [reset] puts both at zero. *)
Theorem scores_monotone_below_max (cs : list Match.call) (m : Match.t)
        (ball : BallState) :
  i32.in_range (Match.m_scoreLeft m) ->
  i32.in_range (Match.m_scoreRight m) ->
  (Match.m_scoreLeft m + Z.of_nat (List.length cs) <= i32.max_signed)%Z ->
  (Match.m_scoreRight m + Z.of_nat (List.length cs) <= i32.max_signed)%Z ->
  let m' := fst (Match.run cs (m, ball)) in
  ((Match.m_scoreLeft m <= Match.m_scoreLeft m'
    <= Match.m_scoreLeft m + Z.of_nat (List.length cs))%Z
   /\ (Match.m_scoreRight m <= Match.m_scoreRight m'
       <= Match.m_scoreRight m + Z.of_nat (List.length cs))%Z)
  /\ (forall ballPos m1,
         (Match.m_scoreLeft m < i32.max_signed)%Z ->
         (Match.m_scoreRight m < i32.max_signed)%Z ->
         Match.checkGoal m ballPos = (true, m1) ->
         (Match.m_scoreLeft m1 = (Match.m_scoreLeft m + 1)%Z
          /\ Match.m_scoreRight m1 = Match.m_scoreRight m)
         \/ (Match.m_scoreLeft m1 = Match.m_scoreLeft m
             /\ Match.m_scoreRight m1 = (Match.m_scoreRight m + 1)%Z))
  /\ (Match.m_scoreLeft (fst (Match.resetAfterGoal m ball))
      = Match.m_scoreLeft m
      /\ Match.m_scoreRight (fst (Match.resetAfterGoal m ball))
         = Match.m_scoreRight m)
  /\ (Match.m_scoreLeft (Match.reset m) = 0%Z
      /\ Match.m_scoreRight (Match.reset m) = 0%Z).
Proof.
  intros Hl Hr Hlb Hrb m'. subst m'.
  split; [ | split; [ | split; [apply resetAfterGoal_scores | apply reset_scores]]].
  - revert m ball Hl Hr Hlb Hrb.
    induction cs as [| c cs IH]; intros m ball Hl Hr Hlb Hrb.
    + simpl. lia.
    + cbn [Match.run List.length] in *.
      rewrite Nat2Z.inj_succ in *.
      pose proof (step_scores c (m, ball)) as Hs. cbn [fst] in Hs.
      specialize (Hs Hl Hr ltac:(lia) ltac:(lia)). cbv zeta in Hs.
      destruct (Match.step c (m, ball)) as [m1 ball1] eqn:E. cbn [fst] in Hs.
      unfold i32.in_range, i32.min_signed in *.
      specialize (IH m1 ball1 ltac:(lia) ltac:(lia) ltac:(lia) ltac:(lia)).
      lia.
  - intros ballPos m1 Hlm Hrm E.
    destruct (checkGoal_scores m ballPos) as [(F & _) | [(_ & El & Er) | (_ & El & Er)]];
      rewrite E in *; cbn [fst snd] in *.
    + discriminate.
    + right. rewrite El, Er, i32_incr_below_max by assumption. auto.
    + left. rewrite El, Er, i32_incr_below_max by assumption. auto.
Qed.

Lemma scores_monotone_below_max_witness :
  let m' :=
    fst (Match.run [Match.CallCheckGoal ballInRightGoal;
                    Match.CallUpdate 3; Match.CallResetAfterGoal]
                   (Match.init, restBall)) in
  (0 <= Match.m_scoreLeft m' <= 3)%Z /\ (0 <= Match.m_scoreRight m' <= 3)%Z.
Proof.
  apply (scores_monotone_below_max
           [Match.CallCheckGoal ballInRightGoal;
            Match.CallUpdate 3; Match.CallResetAfterGoal]
           Match.init restBall).
  - unfold i32.in_range, i32.min_signed, i32.max_signed. simpl. lia.
  - unfold i32.in_range, i32.min_signed, i32.max_signed. simpl. lia.
  - unfold i32.max_signed. simpl. lia.
  - unfold i32.max_signed. simpl. lia.
Defined.

(** C9, the claim as stated fails at the end of the [i32] range: with the
    positive-X score at [2147483647], a goal at that end is reported and
    the score comes out at [-2147483648], below where it was. *)
Lemma score_wraps_at_max :
  fst (Match.checkGoal matchAtMaxScore ballInRightGoal) = true
  /\ Match.m_scoreRight matchAtMaxScore = 2147483647%Z
  /\ Match.m_scoreRight (snd (Match.checkGoal matchAtMaxScore ballInRightGoal))
     = (-2147483648)%Z
  /\ (Match.m_scoreRight (snd (Match.checkGoal matchAtMaxScore ballInRightGoal))
      < Match.m_scoreRight matchAtMaxScore)%Z.
Proof.
  assert (E : Match.checkGoal matchAtMaxScore ballInRightGoal
              = (true, Match.mk 105 68 7.32 2.44 0 i32.min_signed true
                                Match.GOAL_CELEBRATION_DURATION 0)).
  { unfold Match.checkGoal, matchAtMaxScore, ballInRightGoal,
      Ball.RADIUS, BallPhysics.BALL_RADIUS.
    cbn [Match.m_goalScored Match.m_fieldLength Match.m_fieldWidth
         Match.m_goalWidth Match.m_goalHeight Match.m_scoreLeft
         Match.m_scoreRight Vec3.x Vec3.y Vec3.z].
    rewrite Rabs_R0.
    rewrite (Rltb_true 0 (7.32 / 2)) by lra.
    rewrite (Rltb_true 1 2.44) by lra.
    rewrite (Rltb_true 0 1) by lra.
    rewrite (Rltb_true (105 / 2 + 0.22) 53.5) by lra.
    rewrite i32_incr_at_max. reflexivity. }
  rewrite E. cbn [fst snd Match.m_scoreRight matchAtMaxScore].
  repeat split.
Qed.

(** ** Human player: the kick *)

Lemma sqrt_lt_bound (a s : R) : 0 <= a -> 0 <= s -> s < a * a -> sqrt s < a.
Proof.
  intros Ha Hs Hlt. rewrite <- (sqrt_square a Ha).
  apply sqrt_lt_1_alt. split; assumption.
Qed.

(** The kick direction before normalisation has squared length [1.09]. *)
Lemma kickDir_dot (r : R) :
  glm.dot (Vec3.mk (- sin r) 0.3 (- cos r)) (Vec3.mk (- sin r) 0.3 (- cos r))
  = 1.09.
Proof.
  unfold glm.dot. cbn [Vec3.x Vec3.y Vec3.z].
  pose proof (sin2_cos2 r) as H. unfold Rsqr in H. lra.
Qed.

Lemma dot_normalize (v : Vec3) :
  0 < glm.dot v v -> glm.dot (glm.normalize v) (glm.normalize v) = 1.
Proof.
  intros Hv. rewrite <- length_sq, (length_normalize v Hv). ring.
Qed.

(** Normalising a unit vector returns it. *)
Lemma normalize_unit (v : Vec3) : glm.dot v v = 1 -> glm.normalize v = v.
Proof.
  intros H. unfold glm.normalize, glm.inversesqrt, glm.scale.
  rewrite H, sqrt_1. destruct v as [a b c]. cbn [Vec3.x Vec3.y Vec3.z].
  f_equal; field.
Qed.

(** What [Ball::kick] leaves in the ball when the direction is not the
    zero vector. *)
Lemma kick_velocity_length (ball : BallState) (direction : Vec3)
      (power spinY spinX : R) :
  0 < glm.dot direction direction -> 0 <= power ->
  glm.length (velocity (Ball.kick ball direction power spinY spinX)) = power.
Proof.
  intros Hd Hp. unfold Ball.kick. cbn [velocity set_velocity set_angularVelocity].
  rewrite length_scale by assumption.
  rewrite length_normalize by assumption. ring.
Qed.

(** A kick on a ball in range. *)
Lemma tryKick_in_range (p : Player.t) (ball : BallState)
      (sprinting : bool) (spinY : R) :
  let kickPower := if sprinting then 22 else 15 in
  let r := Player.m_rotation p in
  glm.length (glm.sub (position ball) (Player.m_position p))
  < Player.KICK_RANGE ->
  exists p' ball',
    Player.tryKick p ball sprinting spinY = (true, p', ball')
    /\ glm.length (velocity ball') = kickPower
    /\ velocity ball'
       = glm.scale (Vec3.mk (- sin r) 0.3 (- cos r)) (kickPower / sqrt 1.09)
    /\ 0 < Vec3.y (velocity ball')
    /\ angularVelocity ball' = Vec3.mk (if sprinting then - 5 else 0) spinY 0
    /\ position ball' = position ball
    /\ rotationAngle ball' = rotationAngle ball
    /\ p' = Player.set_m_kickAnimationTimer (Player.set_m_isKicking p true) 0.3.
Proof.
  intros kickPower r Hnear. unfold Player.tryKick.
  rewrite (Rleb_false _ _ Hnear). cbv zeta. fold r. fold kickPower.
  eexists. eexists. split; [reflexivity |].
  assert (Hk : 0 <= kickPower) by (subst kickPower; destruct sprinting; lra).
  assert (Hdot : 0 < glm.dot (Vec3.mk (- sin r) 0.3 (- cos r))
                            (Vec3.mk (- sin r) 0.3 (- cos r)))
    by (rewrite kickDir_dot; lra).
  assert (Hunit : 0 < glm.dot (glm.normalize (Vec3.mk (- sin r) 0.3 (- cos r)))
                             (glm.normalize (Vec3.mk (- sin r) 0.3 (- cos r))))
    by (rewrite dot_normalize by assumption; lra).
  assert (Hs : 0 < sqrt 1.09) by (apply sqrt_lt_R0; lra).
  assert (Hvel :
    velocity (Ball.kick ball
                (glm.normalize (Vec3.mk (- sin r) 0.3 (- cos r)))
                kickPower spinY (if sprinting then - 5 else 0))
    = glm.scale (Vec3.mk (- sin r) 0.3 (- cos r)) (kickPower / sqrt 1.09)).
  { unfold Ball.kick. cbn [velocity set_velocity set_angularVelocity].
    rewrite normalize_unit by (apply dot_normalize; assumption).
    unfold glm.normalize, glm.inversesqrt. rewrite kickDir_dot.
    unfold glm.scale. cbn [Vec3.x Vec3.y Vec3.z].
    f_equal; field; lra. }
  split; [apply kick_velocity_length; assumption |].
  split; [exact Hvel |].
  split.
  { rewrite Hvel. unfold glm.scale. cbn [Vec3.y].
    assert (0 < kickPower) by (subst kickPower; destruct sprinting; lra).
    assert (0 < kickPower / sqrt 1.09) by (apply Rdiv_lt_0_compat; lra).
    nra. }
  repeat split; reflexivity.
Qed.

Lemma ballAtFeet_in_range :
  glm.length (glm.sub (position ballAtFeet) (Player.m_position kickingPlayer))
  < Player.KICK_RANGE.
Proof.
  unfold glm.length, glm.dot, glm.sub, ballAtFeet, kickingPlayer,
    Player.KICK_RANGE, BallPhysics.BALL_RADIUS.
  cbn [position Player.m_position Player.set_m_kickAnimationTimer
       Player.set_m_isKicking Player.init Vec3.x Vec3.y Vec3.z].
  apply sqrt_lt_bound; nra.
Qed.

(** C4 (as amended).  [Player::tryKick] fails exactly when the ball is at
    distance [KICK_RANGE] (1.5) or more, and then returns [false] with the
    player and the ball untouched.  Otherwise it returns [true]; the ball
    keeps its position and gets the velocity of magnitude [15] ([22] when
    sprinting) along the facing direction [(-sin r, 0.3, -cos r)], so with
    an upward component, and the spin [(spinX, spinY, 0)] with [spinX = -5]
    when sprinting and [0] otherwise; the player gets the kick flag and
    the kick-animation timer [0.3], nothing else.  No timer or cooldown of
    the player is read. *)
Theorem tryKick_range_only (p : Player.t) (ball : BallState)
        (sprinting : bool) (spinY : R) :
  let distToBall := glm.length (glm.sub (position ball) (Player.m_position p)) in
  let kickPower := if sprinting then 22 else 15 in
  let r := Player.m_rotation p in
  (Player.KICK_RANGE <= distToBall ->
   Player.tryKick p ball sprinting spinY = (false, p, ball))
  /\ (distToBall < Player.KICK_RANGE ->
      exists p' ball',
        Player.tryKick p ball sprinting spinY = (true, p', ball')
        /\ glm.length (velocity ball') = kickPower
        /\ Rabs (glm.length (velocity ball') - kickPower) <= 0.0001
        /\ velocity ball'
           = glm.scale (Vec3.mk (- sin r) 0.3 (- cos r))
                       (kickPower / sqrt 1.09)
        /\ 0 < Vec3.y (velocity ball')
        /\ angularVelocity ball'
           = Vec3.mk (if sprinting then - 5 else 0) spinY 0
        /\ position ball' = position ball
        /\ rotationAngle ball' = rotationAngle ball
        /\ p' = Player.set_m_kickAnimationTimer
                  (Player.set_m_isKicking p true) 0.3
        /\ Player.m_isKicking p' = true
        /\ Player.m_kickAnimationTimer p' = 0.3).
Proof.
  intros distToBall kickPower r. split.
  - intros Hfar. unfold Player.tryKick. fold distToBall.
    rewrite (Rleb_true _ _ Hfar). reflexivity.
  - intros Hnear.
    destruct (tryKick_in_range p ball sprinting spinY Hnear)
      as (p' & ball' & E & Hlen & Hvel & Hup & Hw & Hpos & Hrot & Hp).
    exists p', ball'. fold kickPower in Hlen, Hvel. fold r in Hvel.
    repeat split; try assumption.
    + rewrite Hlen. replace (kickPower - kickPower) with 0 by ring.
      rewrite Rabs_R0. lra.
    + rewrite Hp. reflexivity.
    + rewrite Hp. reflexivity.
Qed.

Lemma tryKick_range_only_witness :
  exists p' ball',
    Player.tryKick kickingPlayer ballAtFeet true 2 = (true, p', ball')
    /\ glm.length (velocity ball') = 22.
Proof.
  destruct (tryKick_range_only kickingPlayer ballAtFeet true 2) as [_ H].
  destruct (H ballAtFeet_in_range) as (p' & ball' & E & L & _).
  exists p', ball'. split; assumption.
Defined.

(** C4, the claim as stated fails: the human player has no kick cooldown.
    With the kick-animation timer of a kick still running (the flag up,
    [0.3] seconds left) and the ball in range, [tryKick] returns [true]
    and kicks again. *)
Lemma kick_succeeds_during_kick_animation :
  Player.m_isKicking kickingPlayer = true
  /\ 0 < Player.m_kickAnimationTimer kickingPlayer
  /\ fst (fst (Player.tryKick kickingPlayer ballAtFeet false 0)) = true
  /\ velocity (snd (Player.tryKick kickingPlayer ballAtFeet false 0))
     <> velocity ballAtFeet.
Proof.
  split; [reflexivity |]. split; [simpl; lra |].
  destruct (tryKick_in_range kickingPlayer ballAtFeet false 0
              ballAtFeet_in_range) as (p' & ball' & E & L & _).
  rewrite E. cbn [fst snd]. split; [reflexivity |].
  intros Heq. rewrite Heq in L. unfold ballAtFeet in L. cbn [velocity] in L.
  rewrite length_zero in L. lra.
Qed.

(** ** The two boundary layers *)
















(** ** Facing: the angle wrap and the exponential turn *)

Lemma subWhileAbove_stop (fuel : nat) (a : R) :
  a <= 3.14159 -> subWhileAbove fuel a = a.
Proof.
  intros H. destruct fuel; simpl; [reflexivity |].
  rewrite Rltb_false by assumption. reflexivity.
Qed.

Lemma addWhileBelow_stop (fuel : nat) (a : R) :
  - 3.14159 <= a -> addWhileBelow fuel a = a.
Proof.
  intros H. destruct fuel; simpl; [reflexivity |].
  rewrite Rltb_false by assumption. reflexivity.
Qed.

(** With enough iterations allowed the first loop reaches its exit. *)
Lemma subWhileAbove_enough (fuel : nat) (a : R) :
  a <= 3.14159 + INR fuel * 6.28318 -> subWhileAbove fuel a <= 3.14159.
Proof.
  revert a. induction fuel as [| fuel IH]; intros a H.
  - simpl in *. lra.
  - cbn [subWhileAbove]. cmp_cases 3.14159 a.
    + apply IH. rewrite S_INR in H. lra.
    + assumption.
Qed.

Lemma addWhileBelow_enough (fuel : nat) (a : R) :
  - 3.14159 - INR fuel * 6.28318 <= a -> - 3.14159 <= addWhileBelow fuel a.
Proof.
  revert a. induction fuel as [| fuel IH]; intros a H.
  - simpl in *. lra.
  - cbn [addWhileBelow]. cmp_cases a (- 3.14159).
    + apply IH. rewrite S_INR in H. lra.
    + assumption.
Qed.

(** [turns a] iterations are enough for [a]. *)
Lemma turns_bound (a : R) : a < INR (turns a) * 6.28318 \/ a < 0.
Proof.
  unfold turns. destruct (archimed (a / 6.28318)) as [Hup _].
  destruct (Z_lt_le_dec 0 (up (a / 6.28318))) as [Hpos | Hneg].
  - left. rewrite INR_IZR_INZ, Z2Nat.id by lia.
    apply Rlt_gt in Hup.
    apply (Rmult_lt_compat_r 6.28318) in Hup; [ | lra].
    unfold Rdiv in Hup. rewrite Rmult_assoc, Rinv_l, Rmult_1_r in Hup by lra.
    exact Hup.
  - right. apply IZR_le in Hneg.
    assert (a / 6.28318 < 0) by lra.
    apply (Rmult_lt_compat_r 6.28318) in H; [ | lra].
    unfold Rdiv in H. rewrite Rmult_assoc, Rinv_l, Rmult_1_r in H by lra. lra.
Qed.

Lemma subWhileAbove_exit (a : R) : subWhileAbove (turns a) a <= 3.14159.
Proof.
  apply subWhileAbove_enough.
  destruct (turns_bound a) as [H | H].
  - lra.
  - pose proof (pos_INR (turns a)). nra.
Qed.

Lemma addWhileBelow_exit (a : R) : - 3.14159 <= addWhileBelow (turns (- a)) a.
Proof.
  apply addWhileBelow_enough.
  destruct (turns_bound (- a)) as [H | H].
  - lra.
  - pose proof (pos_INR (turns (- a))). nra.
Qed.

(** Once a loop has reached its exit, further iterations allowed change
    nothing: the result does not depend on the bound. *)
Lemma subWhileAbove_more (extra fuel : nat) (a : R) :
  subWhileAbove fuel a <= 3.14159 ->
  subWhileAbove (fuel + extra) a = subWhileAbove fuel a.
Proof.
  revert a. induction fuel as [| fuel IH]; intros a H.
  - simpl in *. apply subWhileAbove_stop. assumption.
  - cbn [subWhileAbove Nat.add] in *. cmp_cases 3.14159 a.
    + apply IH. assumption.
    + reflexivity.
Qed.

Lemma addWhileBelow_more (extra fuel : nat) (a : R) :
  - 3.14159 <= addWhileBelow fuel a ->
  addWhileBelow (fuel + extra) a = addWhileBelow fuel a.
Proof.
  revert a. induction fuel as [| fuel IH]; intros a H.
  - simpl in *. apply addWhileBelow_stop. assumption.
  - cbn [addWhileBelow Nat.add] in *. cmp_cases a (- 3.14159).
    + apply IH. assumption.
    + reflexivity.
Qed.

(** The second loop does not push an angle above the upper bound. *)
Lemma addWhileBelow_upper (fuel : nat) (a : R) :
  a <= 3.14159 -> addWhileBelow fuel a <= 3.14159.
Proof.
  revert a. induction fuel as [| fuel IH]; intros a H.
  - simpl. assumption.
  - cbn [addWhileBelow]. cmp_cases a (- 3.14159).
    + apply IH. lra.
    + assumption.
Qed.

(** Each loop moves the angle by whole turns of [6.28318]. *)
Lemma subWhileAbove_turns (fuel : nat) (a : R) :
  exists k : nat, subWhileAbove fuel a = a - INR k * 6.28318.
Proof.
  revert a. induction fuel as [| fuel IH]; intros a.
  - exists 0%nat. simpl. ring.
  - cbn [subWhileAbove]. destruct (_ <? _).
    + destruct (IH (a - 6.28318)) as [k Hk]. exists (S k).
      rewrite Hk, S_INR. ring.
    + exists 0%nat. simpl. ring.
Qed.

Lemma addWhileBelow_turns (fuel : nat) (a : R) :
  exists k : nat, addWhileBelow fuel a = a + INR k * 6.28318.
Proof.
  revert a. induction fuel as [| fuel IH]; intros a.
  - exists 0%nat. simpl. ring.
  - cbn [addWhileBelow]. destruct (_ <? _).
    + destruct (IH (a + 6.28318)) as [k Hk]. exists (S k).
      rewrite Hk, S_INR. ring.
    + exists 0%nat. simpl. ring.
Qed.

(** The two loops together: the result lies in the canonical range and
    differs from the argument by whole turns. *)
Lemma wrapAngle_range (a : R) : - 3.14159 <= wrapAngle a <= 3.14159.
Proof.
  unfold wrapAngle. split.
  - apply addWhileBelow_exit.
  - apply addWhileBelow_upper, subWhileAbove_exit.
Qed.

Lemma wrapAngle_turns (a : R) :
  exists k : Z, wrapAngle a = a + IZR k * 6.28318.
Proof.
  unfold wrapAngle.
  destruct (subWhileAbove_turns (turns a) a) as [k1 H1].
  destruct (addWhileBelow_turns (turns (- subWhileAbove (turns a) a))
                                (subWhileAbove (turns a) a)) as [k2 H2].
  exists (Z.of_nat k2 - Z.of_nat k1)%Z.
  rewrite H2, H1, minus_IZR, <- !INR_IZR_INZ. ring.
Qed.

Lemma wrapAngle_in_range (a : R) :
  - 3.14159 <= a <= 3.14159 -> wrapAngle a = a.
Proof.
  intros [Hlo Hhi]. unfold wrapAngle.
  rewrite subWhileAbove_stop by assumption.
  apply addWhileBelow_stop. assumption.
Qed.

Lemma turns_positive (a : R) : 0 < a -> (1 <= turns a)%nat.
Proof.
  intros Ha. destruct (turns_bound a) as [H | H]; [ | lra].
  destruct (turns a); [simpl in H; lra | lia].
Qed.

(** One turn up: an angle less than one turn below the range. *)
Lemma wrapAngle_one_turn_up (a : R) :
  a < - 3.14159 -> - 3.14159 <= a + 6.28318 -> wrapAngle a = a + 6.28318.
Proof.
  intros Hlo Hhi. unfold wrapAngle.
  rewrite subWhileAbove_stop by lra.
  assert (Hf : (1 <= turns (- a))%nat) by (apply turns_positive; lra).
  destruct (turns (- a)) as [| n]; [lia |].
  cbn [addWhileBelow]. rewrite Rltb_true by assumption.
  apply addWhileBelow_stop. assumption.
Qed.

(** The interpolation factor of the exponential turn. *)
Lemma turn_factor_range (rate deltaTime : R) :
  0 < rate -> 0 <= deltaTime -> 0 <= 1 - exp (- rate * deltaTime) < 1.
Proof.
  intros Hr Hdt. pose proof (exp_pos (- rate * deltaTime)) as Hpos.
  split; [ | lra].
  destruct (Req_dec deltaTime 0) as [-> | Hne].
  - replace (- rate * 0) with 0 by ring. rewrite exp_0. lra.
  - assert (H : exp (- rate * deltaTime) < exp 0)
      by (apply exp_increasing; nra).
    rewrite exp_0 in H. lra.
Qed.

Lemma turn_factor_positive (rate deltaTime : R) :
  0 < rate -> 0 < deltaTime -> 0 < 1 - exp (- rate * deltaTime).
Proof.
  intros Hr Hdt.
  assert (H : exp (- rate * deltaTime) < exp 0) by (apply exp_increasing; nra).
  rewrite exp_0 in H. lra.
Qed.

Lemma AI_updateRotation_rotation (a : AIPlayer) (deltaTime : R) :
  AIPlayer.m_rotation (AIPlayer.updateRotation a deltaTime)
  = AIPlayer.m_rotation a
    + wrapAngle (AIPlayer.m_targetRotation a - AIPlayer.m_rotation a)
      * (1 - exp (- AIPlayer.ROTATION_SPEED * deltaTime)).
Proof. reflexivity. Qed.

Lemma Player_updateRotation_rotation (p : Player.t) (deltaTime : R) :
  Player.m_rotation (Player.updateRotation p deltaTime)
  = wrapAngle
      (Player.m_rotation p
       + wrapAngle (Player.m_targetRotation p - Player.m_rotation p)
         * (1 - exp (- Player.ROTATION_SPEED * deltaTime))).
Proof. reflexivity. Qed.

(** What the two facing updates have in common, and where they part.
    Both wrap the difference between target and facing into
    [[-3.14159, 3.14159]] and advance the facing by that difference times
    [1 - e^(-turnRate * dt)], a factor in [[0, 1)] for [dt >= 0], with
    [turnRate] 6 for the human player and 8 for the AI player.
    [Player::updateRotation] then wraps the new facing back into
    [[-3.14159, 3.14159]] ("Keep rotation in valid range");
    [AIPlayer::update] has no such step and stores the sum. *)
Lemma facing_updates (p : Player.t) (a : AIPlayer) (deltaTime : R) :
  0 <= deltaTime ->
  let diffP := wrapAngle (Player.m_targetRotation p - Player.m_rotation p) in
  let diffA := wrapAngle (AIPlayer.m_targetRotation a - AIPlayer.m_rotation a) in
  let tP := 1 - exp (- Player.ROTATION_SPEED * deltaTime) in
  let tA := 1 - exp (- AIPlayer.ROTATION_SPEED * deltaTime) in
  (- 3.14159 <= diffP <= 3.14159 /\ - 3.14159 <= diffA <= 3.14159)
  /\ (0 <= tP < 1 /\ 0 <= tA < 1)
  /\ Player.m_rotation (Player.updateRotation p deltaTime)
     = wrapAngle (Player.m_rotation p + diffP * tP)
  /\ - 3.14159 <= Player.m_rotation (Player.updateRotation p deltaTime)
     <= 3.14159
  /\ AIPlayer.m_rotation (AIPlayer.updateRotation a deltaTime)
     = AIPlayer.m_rotation a + diffA * tA
  /\ Rabs (AIPlayer.m_rotation (AIPlayer.updateRotation a deltaTime)
           - AIPlayer.m_rotation a) <= Rabs diffA.
Proof.
  intros Hdt diffP diffA tP tA.
  assert (HtP : 0 <= tP < 1)
    by (apply turn_factor_range; [unfold Player.ROTATION_SPEED |]; lra).
  assert (HtA : 0 <= tA < 1)
    by (apply turn_factor_range; [unfold AIPlayer.ROTATION_SPEED |]; lra).
  split; [split; apply wrapAngle_range |].
  split; [split; assumption |].
  split; [reflexivity |].
  split; [rewrite Player_updateRotation_rotation; apply wrapAngle_range |].
  split; [reflexivity |].
  rewrite AI_updateRotation_rotation.
  fold diffA. fold tA.
  replace (AIPlayer.m_rotation a + diffA * tA - AIPlayer.m_rotation a)
    with (diffA * tA) by ring.
  rewrite Rabs_mult, (Rabs_pos_eq tA) by lra.
  pose proof (Rabs_pos diffA). nra.
Qed.

Lemma facing_updates_witness :
  - 3.14159 <= Player.m_rotation (Player.updateRotation turningPlayer 1)
  <= 3.14159.
Proof.
  destruct (facing_updates turningPlayer turningAgent 1) as (_ & _ & _ & H & _).
  - lra.
  - exact H.
Defined.

(** C8.  The facing update of the AI player misses the final wrap that
    the human player's update makes.  An AI player facing [3.14159] with
    target [-3], both in the canonical range, turns for one second through
    the wrapped difference [0.14159] and is left facing
    [3.14159 + 0.14159 * (1 - e^(-8))], above [3.14159] and so outside the
    canonical range; the human player in the same situation ends inside
    the range, its facing being the wrapped sum. *)
Theorem ai_facing_leaves_canonical_range :
  (- 3.14159 <= AIPlayer.m_rotation turningAgent <= 3.14159)
  /\ (- 3.14159 <= AIPlayer.m_targetRotation turningAgent <= 3.14159)
  /\ AIPlayer.m_rotation (AIPlayer.updateRotation turningAgent 1)
     = 3.14159 + 0.14159 * (1 - exp (- AIPlayer.ROTATION_SPEED * 1))
  /\ 3.14159 < AIPlayer.m_rotation (AIPlayer.updateRotation turningAgent 1)
  /\ Player.m_rotation (Player.updateRotation turningPlayer 1)
     = wrapAngle
         (3.14159 + 0.14159 * (1 - exp (- Player.ROTATION_SPEED * 1)))
  /\ - 3.14159 <= Player.m_rotation (Player.updateRotation turningPlayer 1)
     <= 3.14159.
Proof.
  assert (Ea : AIPlayer.m_rotation (AIPlayer.updateRotation turningAgent 1)
               = 3.14159
                 + 0.14159 * (1 - exp (- AIPlayer.ROTATION_SPEED * 1))).
  { rewrite AI_updateRotation_rotation.
    unfold turningAgent. cbn [AIPlayer.m_rotation AIPlayer.m_targetRotation].
    rewrite wrapAngle_one_turn_up by lra.
    f_equal. f_equal. lra. }
  split; [simpl; lra |]. split; [simpl; lra |].
  split; [exact Ea |]. split; [ | split].
  - rewrite Ea.
    assert (H : 0 < 1 - exp (- AIPlayer.ROTATION_SPEED * 1))
      by (apply turn_factor_positive; [unfold AIPlayer.ROTATION_SPEED |]; lra).
    nra.
  - rewrite Player_updateRotation_rotation.
    unfold turningPlayer.
    cbn [Player.set_m_targetRotation Player.set_m_rotation
         Player.m_rotation Player.m_targetRotation].
    rewrite (wrapAngle_one_turn_up (- 3 - 3.14159)) by lra.
    f_equal. f_equal. f_equal. lra.
  - rewrite Player_updateRotation_rotation. apply wrapAngle_range.
Qed.

(** ** AI players: pairwise separation *)

Lemma length_sub_sub (p v : Vec3) :
  glm.length (glm.sub (glm.sub p v) p) = glm.length v.
Proof.
  unfold glm.length. f_equal. unfold glm.dot, glm.sub.
  cbn [Vec3.x Vec3.y Vec3.z]. ring.
Qed.

Lemma length_sub_add (p v : Vec3) :
  glm.length (glm.sub (glm.add p v) p) = glm.length v.
Proof.
  unfold glm.length. f_equal. unfold glm.dot, glm.sub, glm.add.
  cbn [Vec3.x Vec3.y Vec3.z]. ring.
Qed.

Lemma length_positive_dot (v : Vec3) : 0 < glm.length v -> 0 < glm.dot v v.
Proof.
  intros H. rewrite <- length_sq. nra.
Qed.

Lemma handleAICollision_apart (self other : AIPlayer) :
  let d := horizontalDistance (AIPlayer.m_position self)
                              (AIPlayer.m_position other) in
  d <= 0.01 \/ 0.7 <= d ->
  AIPlayer.handleAICollision self other = (self, other).
Proof.
  intros d H. unfold AIPlayer.handleAICollision. cbv zeta.
  fold (horizontalDistance (AIPlayer.m_position self)
                           (AIPlayer.m_position other)).
  fold d. destruct H as [H | H].
  - rewrite (Rltb_false 0.01 d H), andb_false_r. reflexivity.
  - rewrite (Rltb_false d 0.7 H). reflexivity.
Qed.

Lemma handleAICollision_overlap (self other : AIPlayer) :
  let d := horizontalDistance (AIPlayer.m_position self)
                              (AIPlayer.m_position other) in
  let pushDir :=
    glm.normalize (set_y (glm.sub (AIPlayer.m_position other)
                                  (AIPlayer.m_position self)) 0) in
  let push := glm.scale (glm.scale pushDir (0.7 - d)) 0.5 in
  0.01 < d < 0.7 ->
  AIPlayer.handleAICollision self other
  = (AIPlayer.set_m_position self (glm.sub (AIPlayer.m_position self) push),
     AIPlayer.set_m_position other (glm.add (AIPlayer.m_position other) push)).
Proof.
  intros d pushDir push [Hlo Hhi]. unfold AIPlayer.handleAICollision. cbv zeta.
  fold (horizontalDistance (AIPlayer.m_position self)
                           (AIPlayer.m_position other)).
  fold d. rewrite (Rltb_true d 0.7 Hhi), (Rltb_true 0.01 d Hlo).
  reflexivity.
Qed.

(** The push is along a unit vector of the ground plane and has length
    [(0.7 - d) / 2]. *)
Lemma push_length (a b : Vec3) :
  let d := horizontalDistance a b in
  let pushDir := glm.normalize (set_y (glm.sub b a) 0) in
  0.01 < d < 0.7 ->
  glm.length pushDir = 1 /\ Vec3.y pushDir = 0
  /\ glm.length (glm.scale (glm.scale pushDir (0.7 - d)) 0.5) = (0.7 - d) / 2.
Proof.
  intros d pushDir [Hlo Hhi].
  assert (Hunit : glm.length pushDir = 1).
  { apply length_normalize, length_positive_dot.
    fold (horizontalDistance a b). fold d. lra. }
  split; [exact Hunit |]. split.
  - unfold pushDir, glm.normalize, glm.scale, set_y. cbn [Vec3.y]. ring.
  - rewrite (length_scale _ 0.5) by lra.
    rewrite (length_scale pushDir (0.7 - d)) by lra.
    rewrite Hunit. lra.
Qed.

(** After the push the two positions are [0.7] apart on the ground. *)
Lemma push_distance (a b : Vec3) :
  let d := horizontalDistance a b in
  let pushDir := glm.normalize (set_y (glm.sub b a) 0) in
  let push := glm.scale (glm.scale pushDir (0.7 - d)) 0.5 in
  0.01 < d < 0.7 ->
  horizontalDistance (glm.sub a push) (glm.add b push) = 0.7.
Proof.
  intros d pushDir push [Hlo Hhi].
  assert (Hd : d * d = glm.dot (set_y (glm.sub b a) 0) (set_y (glm.sub b a) 0))
    by apply length_sq.
  assert (Hs : sqrt (glm.dot (set_y (glm.sub b a) 0) (set_y (glm.sub b a) 0)) = d)
    by reflexivity.
  unfold horizontalDistance, glm.length.
  transitivity (sqrt (0.7 * 0.7)); [f_equal | apply sqrt_square; lra].
  subst push pushDir. unfold glm.normalize, glm.inversesqrt. rewrite Hs.
  destruct a as [ax ay az], b as [bx b_y bz].
  unfold glm.dot, glm.sub, glm.add, glm.scale, set_y in *.
  cbn [Vec3.x Vec3.y Vec3.z] in *. clearbody d.
  replace 0.5 with (/ 2) by lra.
  remember 0.7 as c eqn:Hc.
  transitivity (((bx - ax) * (bx - ax) + 0 * 0 + (bz - az) * (bz - az))
                * (c / d) * (c / d)); [field; lra |].
  rewrite <- Hd. field. lra.
Qed.

(** C10.  For two AI players at horizontal distance [d] with
    [0.01 < d < 0.7], [AIPlayer::handleAICollision] moves each player by
    [(0.7 - d) / 2] along the unit vector between them on the ground
    plane, [this] backwards and [other] forwards: the midpoint of the two
    positions is preserved and the horizontal distance afterwards is [0.7].
    When [d <= 0.01] or [d >= 0.7] neither player changes. *)
Theorem handleAICollision_separates (self other : AIPlayer) :
  let d := horizontalDistance (AIPlayer.m_position self)
                              (AIPlayer.m_position other) in
  let pushDir :=
    glm.normalize (set_y (glm.sub (AIPlayer.m_position other)
                                  (AIPlayer.m_position self)) 0) in
  let self' := fst (AIPlayer.handleAICollision self other) in
  let other' := snd (AIPlayer.handleAICollision self other) in
  (0.01 < d < 0.7 ->
   glm.length pushDir = 1 /\ Vec3.y pushDir = 0
   /\ AIPlayer.m_position self'
      = glm.sub (AIPlayer.m_position self)
                (glm.scale (glm.scale pushDir (0.7 - d)) 0.5)
   /\ AIPlayer.m_position other'
      = glm.add (AIPlayer.m_position other)
                (glm.scale (glm.scale pushDir (0.7 - d)) 0.5)
   /\ glm.length (glm.sub (AIPlayer.m_position self')
                          (AIPlayer.m_position self)) = (0.7 - d) / 2
   /\ glm.length (glm.sub (AIPlayer.m_position other')
                          (AIPlayer.m_position other)) = (0.7 - d) / 2
   /\ glm.add (AIPlayer.m_position self') (AIPlayer.m_position other')
      = glm.add (AIPlayer.m_position self) (AIPlayer.m_position other)
   /\ horizontalDistance (AIPlayer.m_position self')
                         (AIPlayer.m_position other') = 0.7)
  /\ (d <= 0.01 \/ 0.7 <= d -> self' = self /\ other' = other).
Proof.
  intros d pushDir self' other'. split.
  - intros Hd. subst self' other'.
    rewrite (handleAICollision_overlap self other Hd). cbn [fst snd].
    fold d. fold pushDir.
    destruct (push_length (AIPlayer.m_position self)
                          (AIPlayer.m_position other) Hd) as (Hu & Hy & Hl).
    fold d in Hl. fold pushDir in Hu, Hy, Hl.
    split; [exact Hu |]. split; [exact Hy |].
    cbn [AIPlayer.m_position AIPlayer.set_m_position].
    split; [reflexivity |]. split; [reflexivity |].
    split; [rewrite length_sub_sub; exact Hl |].
    split; [rewrite length_sub_add; exact Hl |].
    split.
    + unfold glm.add, glm.sub. cbn [Vec3.x Vec3.y Vec3.z]. f_equal; ring.
    + apply (push_distance (AIPlayer.m_position self)
                           (AIPlayer.m_position other) Hd).
  - intros Hd. subst self' other'.
    rewrite (handleAICollision_apart self other Hd). split; reflexivity.
Qed.

Lemma agents_half_metre_apart :
  0.01 < horizontalDistance (AIPlayer.m_position (agentAt 0 0))
                            (AIPlayer.m_position (agentAt 0.5 0)) < 0.7.
Proof.
  assert (E : horizontalDistance (AIPlayer.m_position (agentAt 0 0))
                                 (AIPlayer.m_position (agentAt 0.5 0)) = 0.5).
  { unfold horizontalDistance, glm.length, glm.dot, glm.sub, set_y, agentAt.
    cbn [AIPlayer.m_position AIPlayer.set_m_position Vec3.x Vec3.y Vec3.z].
    transitivity (sqrt (0.5 * 0.5)); [f_equal; lra | apply sqrt_square; lra]. }
  rewrite E. lra.
Qed.

Lemma handleAICollision_separates_witness :
  horizontalDistance
    (AIPlayer.m_position
       (fst (AIPlayer.handleAICollision (agentAt 0 0) (agentAt 0.5 0))))
    (AIPlayer.m_position
       (snd (AIPlayer.handleAICollision (agentAt 0 0) (agentAt 0.5 0))))
  = 0.7.
Proof.
  destruct (handleAICollision_separates (agentAt 0 0) (agentAt 0.5 0))
    as [H _].
  destruct (H agents_half_metre_apart) as (_ & _ & _ & _ & _ & _ & _ & E).
  exact E.
Defined.

(** ** Team coordination: the designated chasers *)

Lemma i32_wrap_small (n : Z) :
  (0 <= n <= i32.max_signed)%Z -> i32.wrap n = n.
Proof.
  unfold i32.wrap, i32.max_signed. intros H.
  rewrite Z.mod_small by lia. lia.
Qed.

Section ChaserScan.

(** The position of the ball, fixed during a call of
    [findClosestChasers]. *)
Variable ballPos : Vec3.

(** The loop body keeps, for each team, what [pick] keeps. *)
Lemma scanStep_red (i : nat) (p : AIPlayer)
      (c : AIManager.closest) :
  (AIManager.closestRedIdx (AIManager.scanStep ballPos i p c),
   AIManager.closestRedDist (AIManager.scanStep ballPos i p c))
  = pick (eligible 0 i p) i (AIPlayer.distanceToBall p ballPos)
         (AIManager.closestRedIdx c) (AIManager.closestRedDist c).
Proof.
  unfold AIManager.scanStep, pick, eligible. cbv zeta.
  destruct ((AIPlayer.getTeam p =? 0)%Z && negb ((i =? 0)%nat || (i =? 6)%nat)).
  - destruct (_ <? _); reflexivity.
  - destruct (_ && _); [destruct (_ <? _) |]; reflexivity.
Qed.

Lemma scanStep_blue (i : nat) (p : AIPlayer)
      (c : AIManager.closest) :
  (AIManager.closestBlueIdx (AIManager.scanStep ballPos i p c),
   AIManager.closestBlueDist (AIManager.scanStep ballPos i p c))
  = pick (eligible 1 i p) i (AIPlayer.distanceToBall p ballPos)
         (AIManager.closestBlueIdx c) (AIManager.closestBlueDist c).
Proof.
  unfold AIManager.scanStep, pick, eligible. cbv zeta.
  destruct (AIPlayer.getTeam p =? 0)%Z eqn:E0.
  - apply Z.eqb_eq in E0. rewrite E0. cbn [Z.eqb andb].
    destruct (negb _); [destruct (_ <? _) |]; reflexivity.
  - cbn [andb].
    destruct ((AIPlayer.getTeam p =? 1)%Z && negb ((i =? 0)%nat || (i =? 6)%nat));
      [destruct (_ <? _) |]; reflexivity.
Qed.

(** One more player looked at: the summary extends by one index. *)
Lemma pick_bestOf (all : list AIPlayer) (t : Z) (k : nat)
      (p : AIPlayer) (idx : Z) (d : R) :
  nth_error all k = Some p ->
  (Z.of_nat k <= i32.max_signed)%Z ->
  bestOf ballPos all t k idx d ->
  bestOf ballPos all t (S k)
         (fst (pick (eligible t k p) k (AIPlayer.distanceToBall p ballPos) idx d))
         (snd (pick (eligible t k p) k (AIPlayer.distanceToBall p ballPos) idx d)).
Proof.
  intros Hk Hsmall Hbest. unfold pick.
  assert (Hlast : forall i q, (i < S k)%nat -> nth_error all i = Some q ->
                              (i < k)%nat \/ (i = k /\ q = p)).
  { intros i q Hi Hq. destruct (Nat.eq_dec i k) as [-> | Hne].
    - right. split; [reflexivity | congruence].
    - left. lia. }
  destruct (eligible t k p) eqn:Hel.
  - cmp_cases (AIPlayer.distanceToBall p ballPos) d; cbn [fst snd].
    + right. exists k, p.
      rewrite i32_wrap_small by lia.
      split; [reflexivity |]. split; [lia |]. split; [exact Hk |].
      split; [exact Hel |]. split; [reflexivity |].
      assert (Hd : d <= 999).
      { destruct Hbest as [(_ & -> & _) | (j & q & _ & _ & _ & _ & _ & Hlt & _)]; lra. }
      split; [lra |].
      intros i q Hi Hq Helq.
      destruct (Hlast i q Hi Hq) as [Hi' | [-> ->]].
      * assert (d <= AIPlayer.distanceToBall q ballPos).
        { destruct Hbest as [(_ & -> & Hall) | (j & pj & _ & _ & _ & _ & _ & _ & Hall)].
          - apply (Hall i q Hi' Hq Helq).
          - apply (Hall i q Hi' Hq Helq). }
        split; [lra | intros _; lra].
      * split; [lra | lia].
    + destruct Hbest as [(Hidx & Hd & Hall) | (j & pj & Hidx & Hj & Hnj & Helj & Hd & Hlt & Hall)].
      * left. split; [exact Hidx |]. split; [exact Hd |].
        intros i q Hi Hq Helq.
        destruct (Hlast i q Hi Hq) as [Hi' | [-> ->]].
        -- apply (Hall i q Hi' Hq Helq).
        -- lra.
      * right. exists j, pj.
        split; [exact Hidx |]. split; [lia |]. split; [exact Hnj |].
        split; [exact Helj |]. split; [exact Hd |]. split; [exact Hlt |].
        intros i q Hi Hq Helq.
        destruct (Hlast i q Hi Hq) as [Hi' | [-> ->]].
        -- apply (Hall i q Hi' Hq Helq).
        -- split; [lra | lia].
  - cbn [fst snd].
    destruct Hbest as [(Hidx & Hd & Hall) | (j & pj & Hidx & Hj & Hnj & Helj & Hd & Hlt & Hall)].
    + left. split; [exact Hidx |]. split; [exact Hd |].
      intros i q Hi Hq Helq.
      destruct (Hlast i q Hi Hq) as [Hi' | [-> ->]].
      * apply (Hall i q Hi' Hq Helq).
      * congruence.
    + right. exists j, pj.
      split; [exact Hidx |]. split; [lia |]. split; [exact Hnj |].
      split; [exact Helj |]. split; [exact Hd |]. split; [exact Hlt |].
      intros i q Hi Hq Helq.
      destruct (Hlast i q Hi Hq) as [Hi' | [-> ->]].
      * apply (Hall i q Hi' Hq Helq).
      * congruence.
Qed.

(** The invariant of the first loop. *)
Lemma scan_bestOf (all : list AIPlayer) :
  (Z.of_nat (List.length all) <= i32.max_signed)%Z ->
  forall (rest pre : list AIPlayer) (c : AIManager.closest),
    all = pre ++ rest ->
    bestOf ballPos all 0 (List.length pre)
           (AIManager.closestRedIdx c) (AIManager.closestRedDist c) ->
    bestOf ballPos all 1 (List.length pre)
           (AIManager.closestBlueIdx c) (AIManager.closestBlueDist c) ->
    let c' := AIManager.scan ballPos (List.length pre) rest c in
    bestOf ballPos all 0 (List.length all)
           (AIManager.closestRedIdx c') (AIManager.closestRedDist c')
    /\ bestOf ballPos all 1 (List.length all)
              (AIManager.closestBlueIdx c') (AIManager.closestBlueDist c').
Proof.
  intros Hlen rest.
  induction rest as [| p rest IH]; intros pre c Hall Hred Hblue.
  - cbn [AIManager.scan]. rewrite app_nil_r in Hall. subst pre.
    split; assumption.
  - cbn [AIManager.scan].
    assert (Hnth : nth_error all (List.length pre) = Some p).
    { rewrite Hall, nth_error_app2, Nat.sub_diag by lia. reflexivity. }
    assert (Hk : (Z.of_nat (List.length pre) <= i32.max_signed)%Z).
    { rewrite Hall, length_app in Hlen. lia. }
    specialize (IH (pre ++ [p]) (AIManager.scanStep ballPos (List.length pre) p c)).
    rewrite length_app in IH. cbn [List.length] in IH.
    rewrite Nat.add_1_r in IH.
    apply IH.
    + rewrite <- app_assoc. exact Hall.
    + pose proof (pick_bestOf all 0 _ p _ _ Hnth Hk Hred) as H.
      rewrite <- scanStep_red in H. exact H.
    + pose proof (pick_bestOf all 1 _ p _ _ Hnth Hk Hblue) as H.
      rewrite <- scanStep_blue in H. exact H.
Qed.

Lemma bestOf_start (all : list AIPlayer) (t : Z) :
  bestOf ballPos all t 0 (-1) 999.
Proof.
  left. split; [reflexivity |]. split; [reflexivity |]. intros i p Hi. lia.
Qed.

(** What the first loop of [findClosestChasers] leaves in its locals. *)
Lemma scan_result (ps : list AIPlayer) :
  (Z.of_nat (List.length ps) <= i32.max_signed)%Z ->
  let c := AIManager.scan ballPos 0 ps (AIManager.mkClosest (-1) (-1) 999 999) in
  bestOf ballPos ps 0 (List.length ps)
         (AIManager.closestRedIdx c) (AIManager.closestRedDist c)
  /\ bestOf ballPos ps 1 (List.length ps)
            (AIManager.closestBlueIdx c) (AIManager.closestBlueDist c).
Proof.
  intros Hlen.
  apply (scan_bestOf ps Hlen ps [] _ eq_refl);
    apply bestOf_start.
Qed.

End ChaserScan.

(** The second loop: the player at index [n] gets its flag from the
    comparison of [i + n] with the two indices. *)
Lemma flag_nth (c : AIManager.closest) (ps : list AIPlayer) (i n : nat) :
  nth_error (AIManager.flag c i ps) n
  = option_map
      (fun p =>
         AIPlayer.setIsClosestChaser p
           ((i32.wrap (Z.of_nat (i + n)) =? AIManager.closestRedIdx c)%Z
            || (i32.wrap (Z.of_nat (i + n)) =? AIManager.closestBlueIdx c)%Z))
      (nth_error ps n).
Proof.
  revert i n. induction ps as [| p ps IH]; intros i n.
  - destruct n; reflexivity.
  - destruct n as [| n]; cbn [AIManager.flag nth_error option_map].
    + rewrite Nat.add_0_r. reflexivity.
    + rewrite IH. replace (S i + n)%nat with (i + S n)%nat by lia. reflexivity.
Qed.

Lemma findClosestChasers_nth (ps : list AIPlayer) (ballPos : Vec3) (n : nat) :
  let c := AIManager.scan ballPos 0 ps (AIManager.mkClosest (-1) (-1) 999 999) in
  nth_error (AIManager.findClosestChasers ps ballPos) n
  = option_map
      (fun p =>
         AIPlayer.setIsClosestChaser p
           ((i32.wrap (Z.of_nat n) =? AIManager.closestRedIdx c)%Z
            || (i32.wrap (Z.of_nat n) =? AIManager.closestBlueIdx c)%Z))
      (nth_error ps n).
Proof.
  intros c. unfold AIManager.findClosestChasers. fold c.
  rewrite flag_nth. reflexivity.
Qed.

Lemma eligible_team (t : Z) (i : nat) (p : AIPlayer) :
  eligible t i p = true -> AIPlayer.m_team p = t.
Proof.
  unfold eligible, AIPlayer.getTeam. intros H.
  apply andb_prop in H. apply Z.eqb_eq. apply H.
Qed.

(** For each team with an eligible player nearer than [999] to the ball,
    the flags after [findClosestChasers] mark exactly one player of the
    team: the first of its nearest eligible players. *)
Lemma chaser_of_team (ps : list AIPlayer) (ballPos : Vec3) (t : Z) :
  (Z.of_nat (List.length ps) <= i32.max_signed)%Z ->
  t = 0%Z \/ t = 1%Z ->
  (exists i p, nth_error ps i = Some p /\ eligible t i p = true
               /\ AIPlayer.distanceToBall p ballPos < 999) ->
  exists j pj,
    nth_error ps j = Some pj /\ eligible t j pj = true
    /\ (exists pj', nth_error (AIManager.findClosestChasers ps ballPos) j
                    = Some pj'
                    /\ pj' = AIPlayer.setIsClosestChaser pj true)
    /\ (forall i q, nth_error (AIManager.findClosestChasers ps ballPos) i
                    = Some q ->
                    AIPlayer.m_team q = t ->
                    AIPlayer.m_isClosestChaser q = true -> i = j)
    /\ (forall i q, nth_error ps i = Some q -> eligible t i q = true ->
                    AIPlayer.distanceToBall pj ballPos
                    <= AIPlayer.distanceToBall q ballPos
                    /\ ((i < j)%nat ->
                        AIPlayer.distanceToBall pj ballPos
                        < AIPlayer.distanceToBall q ballPos)).
Proof.
  intros Hlen Ht (i0 & p0 & Hn0 & Hel0 & Hd0).
  destruct (scan_result ballPos ps Hlen) as [Hred Hblue].
  set (c := AIManager.scan ballPos 0 ps (AIManager.mkClosest (-1) (-1) 999 999))
    in *.
  assert (Hi0 : (i0 < List.length ps)%nat)
    by (apply nth_error_Some; congruence).
  assert (Hwrap : forall i q, nth_error ps i = Some q ->
                              i32.wrap (Z.of_nat i) = Z.of_nat i).
  { intros i q Hq. apply i32_wrap_small.
    assert ((i < List.length ps)%nat) by (apply nth_error_Some; congruence).
    lia. }
  (* the index kept for the team, and the one kept for the other team *)
  assert (Hmine : exists j pj,
             (if (t =? 0)%Z then AIManager.closestRedIdx c
              else AIManager.closestBlueIdx c) = Z.of_nat j
             /\ nth_error ps j = Some pj /\ eligible t j pj = true
             /\ forall i q, nth_error ps i = Some q -> eligible t i q = true ->
                  AIPlayer.distanceToBall pj ballPos
                  <= AIPlayer.distanceToBall q ballPos
                  /\ ((i < j)%nat ->
                      AIPlayer.distanceToBall pj ballPos
                      < AIPlayer.distanceToBall q ballPos)).
  { assert (Hb : bestOf ballPos ps t (List.length ps)
                   (if (t =? 0)%Z then AIManager.closestRedIdx c
                    else AIManager.closestBlueIdx c)
                   (if (t =? 0)%Z then AIManager.closestRedDist c
                    else AIManager.closestBlueDist c)).
    { destruct Ht as [-> | ->]; cbn [Z.eqb]; assumption. }
    destruct Hb as [(_ & _ & Hall) | (j & pj & Hidx & Hj & Hnj & Helj & Hd & Hlt & Hall)].
    - specialize (Hall i0 p0 Hi0 Hn0 Hel0). lra.
    - exists j, pj. split; [exact Hidx |]. split; [exact Hnj |].
      split; [exact Helj |].
      intros i q Hq Helq.
      assert (Hi : (i < List.length ps)%nat)
        by (apply nth_error_Some; congruence).
      rewrite <- Hd. apply (Hall i q Hi Hq Helq). }
  assert (Hother : forall i q, nth_error ps i = Some q ->
             AIPlayer.m_team q = t ->
             (if (t =? 0)%Z then AIManager.closestBlueIdx c
              else AIManager.closestRedIdx c) <> Z.of_nat i).
  { intros i q Hq Hteam Heq.
    assert (Hb : bestOf ballPos ps (1 - t) (List.length ps)
                   (if (t =? 0)%Z then AIManager.closestBlueIdx c
                    else AIManager.closestRedIdx c)
                   (if (t =? 0)%Z then AIManager.closestBlueDist c
                    else AIManager.closestRedDist c)).
    { destruct Ht as [-> | ->]; cbn [Z.eqb Z.sub Z.add Z.opp Z.pos_sub];
        assumption. }
    destruct Hb as [(Hidx & _) | (j & pj & Hidx & _ & Hnj & Helj & _)].
    - rewrite Hidx in Heq. lia.
    - rewrite Hidx in Heq. apply Nat2Z.inj in Heq. subst j.
      apply eligible_team in Helj.
      assert (pj = q) by congruence. subst pj. lia. }
  destruct Hmine as (j & pj & Hidx & Hnj & Helj & Hmin).
  exists j, pj. split; [exact Hnj |]. split; [exact Helj |].
  split; [ | split; [ | exact Hmin]].
  - eexists. split; [ | reflexivity].
    rewrite findClosestChasers_nth. fold c. rewrite Hnj. cbn [option_map].
    rewrite (Hwrap j pj Hnj). do 2 f_equal.
    destruct Ht as [-> | ->]; cbn [Z.eqb] in Hidx; rewrite Hidx, Z.eqb_refl.
    + reflexivity.
    + apply orb_true_r.
  - intros i q Hq Hteam Hflag.
    rewrite findClosestChasers_nth in Hq. fold c in Hq.
    destruct (nth_error ps i) as [q0 |] eqn:Hq0; [ | discriminate].
    cbn [option_map] in Hq. inversion Hq as [Hq']. clear Hq.
    rewrite <- Hq' in Hteam, Hflag.
    cbn [AIPlayer.setIsClosestChaser AIPlayer.m_team AIPlayer.m_isClosestChaser]
      in Hteam, Hflag.
    rewrite (Hwrap i q0 Hq0) in Hflag.
    pose proof (Hother i q0 Hq0 Hteam) as Hne.
    apply orb_prop in Hflag.
    destruct Ht as [-> | ->]; cbn [Z.eqb] in Hidx, Hne;
      destruct Hflag as [Hf | Hf]; apply Z.eqb_eq in Hf;
      try (rewrite Hidx in Hf; apply Nat2Z.inj in Hf; exact Hf);
      exfalso; apply Hne; symmetry; exact Hf.
Qed.

(** No eligible player nearer than [999]: no flag at all. *)
Lemma no_chaser_when_far (ps : list AIPlayer) (ballPos : Vec3) :
  (Z.of_nat (List.length ps) <= i32.max_signed)%Z ->
  (forall p, In p ps -> 999 <= AIPlayer.distanceToBall p ballPos) ->
  forall q, In q (AIManager.findClosestChasers ps ballPos) ->
            AIPlayer.m_isClosestChaser q = false.
Proof.
  intros Hlen Hfar q Hq.
  destruct (In_nth_error _ _ Hq) as [n Hn].
  rewrite findClosestChasers_nth in Hn.
  destruct (scan_result ballPos ps Hlen) as [Hred Hblue].
  set (c := AIManager.scan ballPos 0 ps (AIManager.mkClosest (-1) (-1) 999 999))
    in *.
  assert (Hnone : forall t idx d, bestOf ballPos ps t (List.length ps) idx d ->
                                  idx = (-1)%Z).
  { intros t idx d [(Hidx & _) | (j & pj & _ & _ & Hnj & _ & Hd & Hlt & _)].
    - exact Hidx.
    - apply nth_error_In in Hnj. specialize (Hfar pj Hnj). lra. }
  rewrite (Hnone _ _ _ Hred), (Hnone _ _ _ Hblue) in Hn.
  destruct (nth_error ps n) as [q0 |] eqn:Hq0; [ | discriminate].
  cbn [option_map] in Hn. inversion Hn as [Hq']. 
  cbn [AIPlayer.setIsClosestChaser AIPlayer.m_isClosestChaser].
  assert ((n < List.length ps)%nat) by (apply nth_error_Some; congruence).
  rewrite i32_wrap_small by lia.
  assert (E : (Z.of_nat n =? -1)%Z = false) by (apply Z.eqb_neq; lia).
  rewrite E. reflexivity.
Qed.

(** *** The roster of [createTeams] *)

Lemma spawn_fields (home : Vec3) (team : Z) :
  AIPlayer.m_team (AIManager.spawn home team) = team
  /\ AIPlayer.m_position (AIManager.spawn home team) = home
  /\ AIPlayer.m_isGoalkeeper (AIManager.spawn home team)
     = (Rabs (Vec3.x home) >? 40).
Proof. repeat split. Qed.

(** Decides the goalkeeper test of [setHomePosition] on a literal. *)
Ltac decide_goalkeeper :=
  repeat match goal with
         | |- context [Rabs ?c >? 40] =>
             first
               [ rewrite (Rltb_true 40 (Rabs c))
                   by (unfold Rabs; destruct (Rcase_abs c); lra)
               | rewrite (Rltb_false 40 (Rabs c))
                   by (unfold Rabs; destruct (Rcase_abs c); lra) ]
         end.

Lemma createTeams_goalkeepers (fieldLength : R) :
  map AIPlayer.m_isGoalkeeper (AIManager.createTeams fieldLength)
  = [true; false; false; false; false; false;
     true; false; false; false; false].
Proof.
  unfold AIManager.createTeams, AIManager.line. cbn [map app].
  repeat match goal with
         | |- context [AIPlayer.m_isGoalkeeper (AIManager.spawn ?h ?t)] =>
             rewrite (proj2 (proj2 (spawn_fields h t)))
         end.
  cbn [Vec3.x]. decide_goalkeeper. reflexivity.
Qed.

Lemma createTeams_teams (fieldLength : R) :
  map AIPlayer.m_team (AIManager.createTeams fieldLength)
  = [0; 0; 0; 0; 0; 0; 1; 1; 1; 1; 1]%Z.
Proof. reflexivity. Qed.

Lemma sameRoster_maps (ps qs : list AIPlayer) :
  sameRoster ps qs ->
  map AIPlayer.m_team ps = map AIPlayer.m_team qs
  /\ map AIPlayer.m_isGoalkeeper ps = map AIPlayer.m_isGoalkeeper qs.
Proof.
  intros H. induction H as [| p q ps qs [Ht Hg] _ [IHt IHg]]; cbn [map].
  - split; reflexivity.
  - rewrite Ht, Hg, IHt, IHg. split; reflexivity.
Qed.

Lemma sameRoster_refl (ps : list AIPlayer) : sameRoster ps ps.
Proof.
  induction ps as [| p ps IH]; constructor; [split; reflexivity | exact IH].
Qed.

(** In a roster that descends from [createTeams], the goalkeepers are the
    players at the indices 0 and 6, as [findClosestChasers] takes them to
    be, and there are eleven players. *)
Lemma sameRoster_goalkeepers (fieldLength : R) (ps : list AIPlayer) :
  sameRoster ps (AIManager.createTeams fieldLength) ->
  List.length ps = 11%nat
  /\ forall i p, nth_error ps i = Some p ->
                 AIPlayer.m_isGoalkeeper p = ((i =? 0)%nat || (i =? 6)%nat).
Proof.
  intros H. destruct (sameRoster_maps _ _ H) as [_ Hg].
  rewrite createTeams_goalkeepers in Hg.
  split.
  - rewrite <- (length_map AIPlayer.m_isGoalkeeper), Hg. reflexivity.
  - intros i p Hp.
    apply (map_nth_error AIPlayer.m_isGoalkeeper) in Hp.
    rewrite Hg in Hp.
    do 11 (destruct i as [| i]; [inversion Hp; reflexivity |]).
    destruct i; discriminate.
Qed.

Lemma sameRoster_eligible (fieldLength : R) (ps : list AIPlayer) (t : Z)
      (i : nat) (p : AIPlayer) :
  sameRoster ps (AIManager.createTeams fieldLength) ->
  nth_error ps i = Some p ->
  eligible t i p = true
  <-> (AIPlayer.m_team p = t /\ AIPlayer.m_isGoalkeeper p = false).
Proof.
  intros H Hp. destruct (sameRoster_goalkeepers _ _ H) as [_ Hg].
  rewrite (Hg i p Hp). unfold eligible, AIPlayer.getTeam.
  rewrite andb_true_iff, Z.eqb_eq, negb_true_iff. reflexivity.
Qed.

(** C5 (as amended).  On a roster that descends from [createTeams], for
    each team that has a non-goalkeeper nearer than [999] to the ball,
    after [AIManager::findClosestChasers] exactly one player of the team
    has the designated-chaser flag set, and it is a non-goalkeeper: no
    other player of the team is nearer to the ball, and every
    non-goalkeeper of the team before it in the roster is strictly
    farther, so among equidistant nearest players the first in
    enumeration order is the chaser. *)
Theorem chasers_one_per_team (fieldLength : R) (ps : list AIPlayer)
        (ballPos : Vec3) (t : Z) :
  sameRoster ps (AIManager.createTeams fieldLength) ->
  t = 0%Z \/ t = 1%Z ->
  (exists p, In p ps /\ AIPlayer.m_team p = t
             /\ AIPlayer.m_isGoalkeeper p = false
             /\ AIPlayer.distanceToBall p ballPos < 999) ->
  exists j pj,
    nth_error (AIManager.findClosestChasers ps ballPos) j = Some pj
    /\ AIPlayer.m_team pj = t
    /\ AIPlayer.m_isGoalkeeper pj = false
    /\ AIPlayer.m_isClosestChaser pj = true
    /\ (forall i q,
           nth_error (AIManager.findClosestChasers ps ballPos) i = Some q ->
           AIPlayer.m_team q = t ->
           AIPlayer.m_isClosestChaser q = true -> i = j)
    /\ (forall i q,
           nth_error ps i = Some q ->
           AIPlayer.m_team q = t -> AIPlayer.m_isGoalkeeper q = false ->
           AIPlayer.distanceToBall pj ballPos
           <= AIPlayer.distanceToBall q ballPos
           /\ ((i < j)%nat ->
               AIPlayer.distanceToBall pj ballPos
               < AIPlayer.distanceToBall q ballPos)).
Proof.
  intros Hroster Ht (p0 & Hin & Hteam0 & Hgk0 & Hd0).
  destruct (sameRoster_goalkeepers _ _ Hroster) as [Hlen _].
  destruct (In_nth_error _ _ Hin) as [i0 Hn0].
  assert (Hl : (Z.of_nat (List.length ps) <= i32.max_signed)%Z)
    by (rewrite Hlen; unfold i32.max_signed; lia).
  destruct (chaser_of_team ps ballPos t Hl Ht) as
      (j & pj & Hnj & Helj & (pj' & Hnj' & Hpj') & Huniq & Hmin).
  { exists i0, p0. split; [exact Hn0 |]. split; [ | exact Hd0].
    apply (sameRoster_eligible fieldLength ps t i0 p0 Hroster Hn0).
    split; assumption. }
  apply (sameRoster_eligible fieldLength ps t j pj Hroster Hnj) in Helj.
  destruct Helj as [Hteamj Hgkj].
  exists j, pj'. subst pj'.
  split; [exact Hnj' |]. split; [exact Hteamj |]. split; [exact Hgkj |].
  split; [reflexivity |]. split; [exact Huniq |].
  intros i q Hq Hteam Hgk.
  apply (Hmin i q Hq).
  apply (sameRoster_eligible fieldLength ps t i q Hroster Hq).
  split; assumption.
Qed.

(** At kick-off, the ball on the centre spot: the forward of team 0 is a
    non-goalkeeper five metres from the ball. *)
Lemma kickoff_forward_near :
  exists p, In p (AIManager.createTeams 105) /\ AIPlayer.m_team p = 0%Z
            /\ AIPlayer.m_isGoalkeeper p = false
            /\ AIPlayer.distanceToBall p (Vec3.mk 0 0.5 0) < 999.
Proof.
  exists (AIManager.spawn (Vec3.mk (- 5) 0 0) 0).
  split; [unfold AIManager.createTeams, AIManager.line; cbn [map app];
          do 5 right; left; reflexivity |].
  split; [reflexivity |]. split.
  - rewrite (proj2 (proj2 (spawn_fields _ _))). cbn [Vec3.x].
    apply Rltb_false. unfold Rabs. destruct (Rcase_abs (-5)); lra.
  - unfold AIPlayer.distanceToBall, glm.length, glm.dot, glm.sub, set_y.
    cbn [AIPlayer.m_position AIManager.spawn AIPlayer.setTeam
         AIPlayer.setHomePosition Vec3.x Vec3.y Vec3.z].
    apply Rle_lt_trans with 5; [apply sqrt_upper_bound; lra | lra].
Qed.

Lemma chasers_one_per_team_witness :
  exists j pj,
    nth_error (AIManager.findClosestChasers (AIManager.createTeams 105)
                                            (Vec3.mk 0 0.5 0)) j = Some pj
    /\ AIPlayer.m_team pj = 0%Z
    /\ AIPlayer.m_isGoalkeeper pj = false
    /\ AIPlayer.m_isClosestChaser pj = true.
Proof.
  destruct (chasers_one_per_team 105 (AIManager.createTeams 105)
              (Vec3.mk 0 0.5 0) 0
              (sameRoster_refl _) (or_introl eq_refl) kickoff_forward_near)
    as (j & pj & Hn & Ht & Hg & Hc & _).
  exists j, pj. repeat split; assumption.
Defined.

(** C5, the claim as stated fails: the search starts from the distance
    [999], so with the ball further than that from every player (here at
    x = 5000, the players at their home positions) no index is kept and no
    player of either team gets the flag. *)
Lemma no_chaser_for_far_ball :
  Forall (fun p => AIPlayer.m_isClosestChaser p = false)
         (AIManager.findClosestChasers (AIManager.createTeams 105) farBall).
Proof.
  apply Forall_forall.
  apply no_chaser_when_far.
  - cbn. unfold i32.max_signed. lia.
  - apply Forall_forall.
    unfold AIManager.createTeams, AIManager.line. cbn [map app].
    repeat (apply Forall_cons;
            [ unfold AIPlayer.distanceToBall, glm.length, glm.dot, glm.sub,
                set_y, farBall;
              cbn [AIPlayer.m_position AIManager.spawn AIPlayer.setTeam
                   AIPlayer.setHomePosition Vec3.x Vec3.y Vec3.z];
              apply sqrt_lower_bound; nra | ]).
    apply Forall_nil.
Qed.

(** At kick-off the two midfielders of team 1 (indices 9 and 10) are the
    nearest non-goalkeepers of their team and are equally far from the
    ball on the centre spot: the one enumerated first gets the flag, the
    other does not. *)
Lemma kickoff_tie_break :
  exists p9 p10,
    nth_error (AIManager.findClosestChasers (AIManager.createTeams 105)
                                            (Vec3.mk 0 0.5 0)) 9 = Some p9
    /\ nth_error (AIManager.findClosestChasers (AIManager.createTeams 105)
                                               (Vec3.mk 0 0.5 0)) 10 = Some p10
    /\ AIPlayer.distanceToBall p9 (Vec3.mk 0 0.5 0)
       = AIPlayer.distanceToBall p10 (Vec3.mk 0 0.5 0)
    /\ AIPlayer.m_isClosestChaser p9 = true
    /\ AIPlayer.m_isClosestChaser p10 = false.
Proof.
  set (ball := Vec3.mk 0 0.5 0).
  set (roster := AIManager.createTeams 105).
  assert (Hdist : forall hx hz t,
             AIPlayer.distanceToBall (AIManager.spawn (Vec3.mk hx 0 hz) t) ball
             = sqrt ((0 - hx) * (0 - hx) + 0 * 0 + (0 - hz) * (0 - hz)))
    by reflexivity.
  assert (Hmid : sqrt ((0 - 15) * (0 - 15) + 0 * 0
                       + (0 - (- 15 + IZR 0 * 30)) * (0 - (- 15 + IZR 0 * 30)))
                 <= 22) by (apply sqrt_upper_bound; lra).
  assert (Hsame : sqrt ((0 - 15) * (0 - 15) + 0 * 0
                        + (0 - (- 15 + IZR 1 * 30)) * (0 - (- 15 + IZR 1 * 30)))
                  = sqrt ((0 - 15) * (0 - 15) + 0 * 0
                          + (0 - (- 15 + IZR 0 * 30)) * (0 - (- 15 + IZR 0 * 30))))
    by (f_equal; lra).
  assert (Hdef : forall i : Z,
             i = 0%Z \/ i = 1%Z ->
             36 <= sqrt ((0 - 35) * (0 - 35) + 0 * 0
                         + (0 - (- 12 + IZR i * 24)) * (0 - (- 12 + IZR i * 24))))
    by (intros i [-> | ->]; apply sqrt_lower_bound; lra).
  destruct (chaser_of_team roster ball 1) as
      (j & pj & Hnj & Helj & (pj' & Hnj' & Hpj') & Huniq & Hmin).
  { cbn. unfold i32.max_signed. lia. }
  { right. reflexivity. }
  { exists 9%nat, (AIManager.spawn (Vec3.mk 15 0 (- 15 + IZR 0 * 30)) 1).
    split; [reflexivity |]. split; [reflexivity |].
    rewrite Hdist. lra. }
  assert (H9 : nth_error roster 9
               = Some (AIManager.spawn (Vec3.mk 15 0 (- 15 + IZR 0 * 30)) 1))
    by reflexivity.
  assert (H10 : nth_error roster 10
                = Some (AIManager.spawn (Vec3.mk 15 0 (- 15 + IZR 1 * 30)) 1))
    by reflexivity.
  assert (Hj : j = 9%nat).
  { destruct (Hmin 9%nat _ H9 eq_refl) as [Hle Hlt].
    rewrite Hdist in Hle, Hlt.
    do 7 (destruct j as [| j]; [inversion Hnj; subst pj; discriminate Helj |]).
    destruct j as [| j].
    { inversion Hnj; subst pj. rewrite Hdist in Hle.
      pose proof (Hdef 0%Z (or_introl eq_refl)). lra. }
    destruct j as [| j].
    { inversion Hnj; subst pj. rewrite Hdist in Hle.
      pose proof (Hdef 1%Z (or_intror eq_refl)). lra. }
    destruct j as [| j]; [reflexivity |].
    destruct j as [| j].
    { inversion Hnj; subst pj. rewrite Hdist in Hlt.
      specialize (Hlt ltac:(lia)). rewrite Hsame in Hlt. lra. }
    destruct j; discriminate Hnj. }
  subst j.
  assert (pj = AIManager.spawn (Vec3.mk 15 0 (- 15 + IZR 0 * 30)) 1)
    by congruence.
  subst pj.
  destruct (nth_error (AIManager.findClosestChasers roster ball) 10)
    as [p10 |] eqn:E10.
  - exists pj', p10. split; [exact Hnj' |]. split; [reflexivity |].
    pose proof E10 as E10'.
    rewrite findClosestChasers_nth, H10 in E10'. cbn [option_map] in E10'.
    inversion E10' as [Hp10].
    split.
    + subst pj'. unfold AIPlayer.distanceToBall.
      cbn [AIPlayer.m_position AIPlayer.setIsClosestChaser].
      fold (AIPlayer.distanceToBall
              (AIManager.spawn (Vec3.mk 15 0 (- 15 + IZR 0 * 30)) 1) ball).
      fold (AIPlayer.distanceToBall
              (AIManager.spawn (Vec3.mk 15 0 (- 15 + IZR 1 * 30)) 1) ball).
      rewrite !Hdist. symmetry. exact Hsame.
    + split; [subst pj'; reflexivity |].
      rewrite Hp10.
      destruct (AIPlayer.m_isClosestChaser p10) eqn:Hflag; [ | reflexivity].
      exfalso.
      assert (Hteam : AIPlayer.m_team p10 = 1%Z) by (rewrite <- Hp10; reflexivity).
      pose proof (Huniq 10%nat p10 E10 Hteam Hflag). lia.
  - exfalso. rewrite findClosestChasers_nth, H10 in E10. discriminate E10.
Qed.

(** * Further properties of the ball physics *)

(** ** Vectors, continued *)

Lemma length_pos_iff (v : Vec3) : 0 < glm.length v <-> 0 < glm.dot v v.
Proof.
  split.
  - apply length_positive_dot.
  - intros H. apply sqrt_lt_R0. exact H.
Qed.

Lemma length_le_of_dot (u v : Vec3) :
  glm.dot u u <= glm.dot v v -> glm.length u <= glm.length v.
Proof. intros H. apply sqrt_le_1_alt. exact H. Qed.

Lemma length_divs (v : Vec3) (s : R) :
  0 < s -> glm.length (glm.divs v s) = glm.length v / s.
Proof.
  intros Hs.
  replace (glm.divs v s) with (glm.scale v (/ s))
    by (unfold glm.divs, glm.scale, Rdiv; reflexivity).
  rewrite length_scale; [reflexivity |].
  apply Rlt_le, Rinv_0_lt_compat, Hs.
Qed.

Lemma length_lscale (s : R) (v : Vec3) :
  0 <= s -> glm.length (glm.lscale s v) = glm.length v * s.
Proof.
  intros Hs. rewrite <- length_scale by assumption.
  unfold glm.length. f_equal. unfold glm.dot, glm.lscale, glm.scale.
  cbn [Vec3.x Vec3.y Vec3.z]. ring.
Qed.

(** Cauchy-Schwarz, from Lagrange's identity. *)
Lemma dot_le_lengths (u v : Vec3) :
  glm.dot u v <= glm.length u * glm.length v.
Proof.
  pose proof (length_sq u) as Hu. pose proof (length_sq v) as Hv.
  pose proof (sqrt_pos (glm.dot u u)) as Hu0.
  pose proof (sqrt_pos (glm.dot v v)) as Hv0.
  fold (glm.length u) in Hu0. fold (glm.length v) in Hv0.
  assert (Hl : glm.dot u v * glm.dot u v <= glm.dot u u * glm.dot v v).
  { destruct u as [a b c], v as [d e f]. unfold glm.dot.
    cbn [Vec3.x Vec3.y Vec3.z].
    pose proof (Rle_0_sqr (a * e - b * d)).
    pose proof (Rle_0_sqr (a * f - c * d)).
    pose proof (Rle_0_sqr (b * f - c * e)).
    unfold Rsqr in *. nra. }
  rewrite <- Hu, <- Hv in Hl.
  destruct (Rle_dec (glm.dot u v) 0) as [Hneg | Hpos].
  - apply Rle_trans with 0; [assumption | nra].
  - apply Rnot_le_lt in Hpos.
    set (p := glm.length u * glm.length v) in *.
    assert (0 <= p) by (unfold p; nra).
    replace (glm.length u * glm.length u * (glm.length v * glm.length v))
      with (p * p) in Hl by (unfold p; ring).
    nra.
Qed.

Lemma length_add_le (u v : Vec3) :
  glm.length (glm.add u v) <= glm.length u + glm.length v.
Proof.
  pose proof (sqrt_pos (glm.dot u u)) as Hu0.
  pose proof (sqrt_pos (glm.dot v v)) as Hv0.
  fold (glm.length u) in Hu0. fold (glm.length v) in Hv0.
  apply sqrt_upper_bound; [lra |].
  pose proof (dot_le_lengths u v) as Hcs.
  pose proof (length_sq u) as Hu. pose proof (length_sq v) as Hv.
  replace (glm.dot (glm.add u v) (glm.add u v))
    with (glm.dot u u + 2 * glm.dot u v + glm.dot v v)
    by (unfold glm.dot, glm.add; cbn [Vec3.x Vec3.y Vec3.z]; ring).
  nra.
Qed.

(** A point on the segment from [u] to [v] is no longer than the longer
    of the two. *)
Lemma length_segment (u v : Vec3) (t bound : R) :
  0 <= t <= 1 -> glm.length u <= bound -> glm.length v <= bound ->
  glm.length (glm.add u (glm.scale (glm.sub v u) t)) <= bound.
Proof.
  intros [Ht0 Ht1] Hu Hv.
  replace (glm.add u (glm.scale (glm.sub v u) t))
    with (glm.add (glm.scale u (1 - t)) (glm.scale v t))
    by (unfold glm.add, glm.scale, glm.sub; cbn [Vec3.x Vec3.y Vec3.z];
        f_equal; ring).
  eapply Rle_trans; [apply length_add_le |].
  rewrite !length_scale by lra.
  pose proof (sqrt_pos (glm.dot u u)). pose proof (sqrt_pos (glm.dot v v)).
  fold (glm.length u) in *. fold (glm.length v) in *. nra.
Qed.

(** ** Spin decay *)

Lemma Rpower_decay (a deltaTime : R) :
  0 < a < 1 -> 0 <= deltaTime -> 0 < Rpower a deltaTime <= 1.
Proof.
  intros [Ha0 Ha1] Hdt. unfold Rpower. split; [apply exp_pos |].
  assert (Hln : ln a < 0) by (rewrite <- ln_1; apply ln_increasing; lra).
  destruct (Req_dec deltaTime 0) as [-> | Hne].
  - rewrite Rmult_0_l, exp_0. lra.
  - apply Rlt_le. rewrite <- exp_0. apply exp_increasing. nra.
Qed.

(** X1.  [applySpinDecay] scales the angular velocity by a factor in
    [(0, 1]] for every [dt >= 0], [0.98^dt] in the air and [0.9^dt] on
    the ground: the spin keeps its axis and never grows, it decays at
    least as fast on the ground as in the air, and position and velocity
    are untouched. *)
Theorem applySpinDecay_shrinks (ball : BallState) (deltaTime : R) :
  0 <= deltaTime ->
  let k :=
    if BallPhysics.isInAir ball
    then Rpower BallPhysics.SPIN_DECAY deltaTime else Rpower 0.9 deltaTime in
  BallPhysics.applySpinDecay ball deltaTime
  = set_angularVelocity ball (glm.scale (angularVelocity ball) k)
  /\ 0 < k <= 1
  /\ Rpower 0.9 deltaTime <= Rpower BallPhysics.SPIN_DECAY deltaTime
  /\ glm.length (angularVelocity (BallPhysics.applySpinDecay ball deltaTime))
     = glm.length (angularVelocity ball) * k
  /\ glm.length (angularVelocity (BallPhysics.applySpinDecay ball deltaTime))
     <= glm.length (angularVelocity ball).
Proof.
  intros Hdt k.
  assert (Hk : 0 < k <= 1).
  { subst k. destruct (BallPhysics.isInAir ball); apply Rpower_decay;
      unfold BallPhysics.SPIN_DECAY; lra. }
  assert (E : BallPhysics.applySpinDecay ball deltaTime
              = set_angularVelocity ball (glm.scale (angularVelocity ball) k)).
  { unfold BallPhysics.applySpinDecay. subst k.
    destruct (BallPhysics.isInAir ball); reflexivity. }
  split; [exact E |]. split; [exact Hk |]. split.
  - unfold Rpower, BallPhysics.SPIN_DECAY.
    destruct (Req_dec deltaTime 0) as [-> | Hne].
    + rewrite !Rmult_0_l. lra.
    + apply Rlt_le, exp_increasing.
      assert (ln 0.9 < ln 0.98) by (apply ln_increasing; lra). nra.
  - rewrite E. cbn [angularVelocity set_angularVelocity].
    rewrite length_scale by lra. split; [reflexivity |].
    pose proof (sqrt_pos (glm.dot (angularVelocity ball) (angularVelocity ball))).
    fold (glm.length (angularVelocity ball)) in *. nra.
Qed.

Lemma applySpinDecay_shrinks_witness :
  glm.length (angularVelocity (BallPhysics.applySpinDecay curvingBall 0.1))
  <= glm.length (angularVelocity curvingBall).
Proof.
  destruct (applySpinDecay_shrinks curvingBall 0.1) as (_ & _ & _ & _ & H);
    [lra | exact H].
Defined.

(** ** The Magnus force *)

Lemma cross_orthogonal (u v : Vec3) :
  glm.dot (glm.cross u v) u = 0 /\ glm.dot (glm.cross u v) v = 0.
Proof.
  unfold glm.dot, glm.cross. cbn [Vec3.x Vec3.y Vec3.z]. split; ring.
Qed.

(** The velocity change of [applyMagnusEffect] is a multiple of
    [cross(angularVelocity, velocity)] with acceleration at most 15. *)
Lemma applyMagnusEffect_change (ball : BallState) (deltaTime : R) :
  0 <= deltaTime ->
  exists k : R,
    0 <= k
    /\ velocity (BallPhysics.applyMagnusEffect ball deltaTime)
       = glm.add (velocity ball)
                 (glm.scale (glm.cross (angularVelocity ball) (velocity ball)) k)
    /\ glm.length (glm.scale (glm.cross (angularVelocity ball) (velocity ball)) k)
       <= 15 * deltaTime.
Proof.
  intros Hdt. unfold BallPhysics.applyMagnusEffect. cbv zeta.
  set (c := glm.cross (angularVelocity ball) (velocity ball)).
  assert (Hm : BallPhysics.BALL_MASS = 0.43) by reflexivity.
  assert (Hc : BallPhysics.MAGNUS_COEFFICIENT = 0.5) by reflexivity.
  assert (HF : glm.length (glm.lscale BallPhysics.MAGNUS_COEFFICIENT c)
               = glm.length c * 0.5)
    by (rewrite length_lscale; rewrite Hc; [reflexivity | lra]).
  pose proof (sqrt_pos (glm.dot c c)) as Hc0. fold (glm.length c) in Hc0.
  rewrite HF.
  cmp_cases 15 (glm.length c * 0.5 / BallPhysics.BALL_MASS).
  - (* clamped *)
    set (a := glm.length c * 0.5 / BallPhysics.BALL_MASS) in *.
    assert (Hl : 0 < glm.length c).
    { unfold a in Hcmp. rewrite Hm in Hcmp.
      destruct (Rle_dec (glm.length c) 0); [exfalso | lra].
      assert (glm.length c * 0.5 / 0.43 <= 0); [ | lra].
      unfold Rdiv. nra. }
    exists (0.5 * (15 / a) / BallPhysics.BALL_MASS * deltaTime).
    assert (Hk : 0 <= 0.5 * (15 / a) / BallPhysics.BALL_MASS * deltaTime).
    { rewrite Hm. apply Rmult_le_pos; [ | assumption].
      apply Rlt_le. apply Rdiv_lt_0_compat; [ | lra].
      apply Rmult_lt_0_compat; [lra |]. apply Rdiv_lt_0_compat; lra. }
    split; [exact Hk |]. split.
    + cbn [velocity set_velocity]. f_equal.
      unfold glm.scale, glm.divs, glm.lscale. cbn [Vec3.x Vec3.y Vec3.z].
      rewrite Hc. f_equal; unfold Rdiv; ring.
    + rewrite length_scale by assumption.
      unfold a. rewrite Hm.
      replace (glm.length c * (0.5 * (15 / (glm.length c * 0.5 / 0.43)) / 0.43
                               * deltaTime))
        with (15 * deltaTime); [lra |].
      replace 0.5 with (/ 2) by lra. remember 0.43 as m eqn:Em.
      field. split; lra.
  - exists (0.5 / BallPhysics.BALL_MASS * deltaTime).
    assert (Hk : 0 <= 0.5 / BallPhysics.BALL_MASS * deltaTime).
    { rewrite Hm. apply Rmult_le_pos; [ | assumption].
      apply Rlt_le, Rdiv_lt_0_compat; lra. }
    split; [exact Hk |]. split.
    + cbn [velocity set_velocity]. f_equal.
      unfold glm.scale, glm.divs, glm.lscale. cbn [Vec3.x Vec3.y Vec3.z].
      rewrite Hc. f_equal; unfold Rdiv; ring.
    + rewrite length_scale by assumption.
      replace (glm.length c * (0.5 / BallPhysics.BALL_MASS * deltaTime))
        with (glm.length c * 0.5 / BallPhysics.BALL_MASS * deltaTime)
        by (unfold Rdiv; ring).
      apply Rmult_le_compat_r; assumption.
Qed.

(** X2.  For [dt >= 0] the velocity change of [applyMagnusEffect] is
    perpendicular to both the velocity and the spin axis, and its
    magnitude is at most [15 * dt] (the clamp on the Magnus
    acceleration); position and spin are untouched. *)
Theorem applyMagnusEffect_perpendicular_bounded (ball : BallState)
        (deltaTime : R) :
  0 <= deltaTime ->
  let dv := glm.sub (velocity (BallPhysics.applyMagnusEffect ball deltaTime))
                    (velocity ball) in
  glm.dot dv (velocity ball) = 0
  /\ glm.dot dv (angularVelocity ball) = 0
  /\ glm.length dv <= 15 * deltaTime
  /\ position (BallPhysics.applyMagnusEffect ball deltaTime) = position ball
  /\ angularVelocity (BallPhysics.applyMagnusEffect ball deltaTime)
     = angularVelocity ball.
Proof.
  intros Hdt dv.
  destruct (applyMagnusEffect_change ball deltaTime Hdt) as (k & Hk & Hv & Hl).
  assert (Hdv : dv = glm.scale (glm.cross (angularVelocity ball) (velocity ball)) k).
  { subst dv. rewrite Hv. unfold glm.sub, glm.add, glm.scale.
    cbn [Vec3.x Vec3.y Vec3.z]. f_equal; ring. }
  destruct (cross_orthogonal (angularVelocity ball) (velocity ball)) as [Hw Hvel].
  repeat split.
  - rewrite Hdv.
    replace (glm.dot (glm.scale (glm.cross (angularVelocity ball) (velocity ball)) k)
                     (velocity ball))
      with (k * glm.dot (glm.cross (angularVelocity ball) (velocity ball))
                        (velocity ball))
      by (unfold glm.dot, glm.scale; cbn [Vec3.x Vec3.y Vec3.z]; ring).
    rewrite Hvel. ring.
  - rewrite Hdv.
    replace (glm.dot (glm.scale (glm.cross (angularVelocity ball) (velocity ball)) k)
                     (angularVelocity ball))
      with (k * glm.dot (glm.cross (angularVelocity ball) (velocity ball))
                        (angularVelocity ball))
      by (unfold glm.dot, glm.scale; cbn [Vec3.x Vec3.y Vec3.z]; ring).
    rewrite Hw. ring.
  - rewrite Hdv. exact Hl.
Qed.

Lemma applyMagnusEffect_perpendicular_bounded_witness :
  glm.length (glm.sub (velocity (BallPhysics.applyMagnusEffect curvingBall 0.1))
                      (velocity curvingBall)) <= 15 * 0.1.
Proof.
  destruct (applyMagnusEffect_perpendicular_bounded curvingBall 0.1)
    as (_ & _ & H & _); [lra | exact H].
Defined.

(** ** Air drag *)

Lemma dragConstant_positive : 0 < dragConstant.
Proof.
  unfold dragConstant, BallPhysics.AIR_DENSITY, BallPhysics.DRAG_COEFFICIENT,
    BallPhysics.BALL_RADIUS, BallPhysics.BALL_MASS.
  apply Rdiv_lt_0_compat; lra.
Qed.

(** X3.  [applyAirDrag] scales the velocity by
    [1 - dragConstant * speed * dt] when the speed is at least [0.01] and
    leaves it alone below: the drag acts along the velocity.  For
    [dt >= 0] and [dragConstant * speed * dt <= 1] the factor lies in
    [[0, 1]], so the ball keeps its direction and does not gain speed. *)
Theorem applyAirDrag_along_velocity (ball : BallState) (deltaTime : R) :
  0 <= deltaTime ->
  dragConstant * glm.length (velocity ball) * deltaTime <= 1 ->
  let speed := glm.length (velocity ball) in
  let k := if speed <? 0.01 then 1 else 1 - dragConstant * speed * deltaTime in
  BallPhysics.applyAirDrag ball deltaTime
  = set_velocity ball (glm.scale (velocity ball) k)
  /\ 0 <= k <= 1
  /\ glm.length (velocity (BallPhysics.applyAirDrag ball deltaTime))
     = speed * k
  /\ glm.length (velocity (BallPhysics.applyAirDrag ball deltaTime)) <= speed.
Proof.
  intros Hdt Hsmall speed k.
  pose proof dragConstant_positive as Hc.
  pose proof (sqrt_pos (glm.dot (velocity ball) (velocity ball))) as Hs0.
  fold (glm.length (velocity ball)) in Hs0. fold speed in Hs0, Hsmall.
  assert (Hk : 0 <= k <= 1).
  { subst k. destruct (speed <? 0.01); [lra |].
    split; [lra |]. assert (0 <= dragConstant * speed * deltaTime); [ | lra].
    apply Rmult_le_pos; [nra | assumption]. }
  assert (E : BallPhysics.applyAirDrag ball deltaTime
              = set_velocity ball (glm.scale (velocity ball) k)).
  { unfold BallPhysics.applyAirDrag. cbv zeta. fold speed. subst k.
    cmp_cases speed 0.01.
    - destruct ball as [p [vx vy vz] w rot]. unfold set_velocity, glm.scale.
      cbn [position velocity angularVelocity rotationAngle Vec3.x Vec3.y Vec3.z].
      repeat f_equal; ring.
    - unfold set_velocity. f_equal.
      unfold dragConstant, glm.sub, glm.scale, glm.divs.
      cbn [Vec3.x Vec3.y Vec3.z].
      assert (Hm : BallPhysics.BALL_MASS = 0.43) by reflexivity.
      remember (3.14159 * BallPhysics.BALL_RADIUS * BallPhysics.BALL_RADIUS)
        as area.
      remember (0.5 * BallPhysics.AIR_DENSITY * BallPhysics.DRAG_COEFFICIENT)
        as half.
      remember BallPhysics.BALL_MASS as mass.
      f_equal; field; lra. }
  split; [exact E |]. split; [exact Hk |].
  rewrite E. cbn [velocity set_velocity].
  rewrite length_scale by lra. fold speed. split; [reflexivity | nra].
Qed.

Lemma applyAirDrag_along_velocity_witness :
  glm.length (velocity (BallPhysics.applyAirDrag curvingBall 0.1))
  <= glm.length (velocity curvingBall).
Proof.
  assert (Hs : glm.length (velocity curvingBall) = 20).
  { unfold curvingBall, glm.length, glm.dot. cbn [velocity Vec3.x Vec3.y Vec3.z].
    transitivity (sqrt (20 * 20)); [f_equal; lra | apply sqrt_square; lra]. }
  destruct (applyAirDrag_along_velocity curvingBall 0.1) as (_ & _ & _ & H).
  - lra.
  - rewrite Hs. unfold dragConstant, BallPhysics.AIR_DENSITY,
      BallPhysics.DRAG_COEFFICIENT, BallPhysics.BALL_RADIUS,
      BallPhysics.BALL_MASS. lra.
  - exact H.
Defined.

(** ** Rolling friction *)

Lemma groundSpeed_scale (v : Vec3) (k : R) :
  0 <= k ->
  groundSpeed (Vec3.mk (Vec3.x v * k) (Vec3.y v) (Vec3.z v * k))
  = groundSpeed v * k.
Proof.
  intros Hk. unfold groundSpeed. cbn [Vec3.x Vec3.y Vec3.z].
  rewrite <- length_scale by assumption.
  unfold glm.length. f_equal. unfold glm.dot, glm.scale.
  cbn [Vec3.x Vec3.y Vec3.z]. ring.
Qed.

(** X4.  [applyRollingFriction] never reverses the ball: for [dt >= 0] it
    scales the two horizontal velocity components by one factor in
    [[0, 1]] and leaves the vertical component, the position and the spin
    alone.  On the ground (height at most [BALL_RADIUS + 0.05]) a ground
    speed above [0.01] drops by [ROLLING_FRICTION * GRAVITY * dt], but not
    below zero, and a ground speed of at most [0.01] becomes zero; above
    the ground nothing changes. *)
Theorem applyRollingFriction_decelerates (ball : BallState) (deltaTime : R) :
  0 <= deltaTime ->
  let ball' := BallPhysics.applyRollingFriction ball deltaTime in
  let gs := groundSpeed (velocity ball) in
  (exists k : R,
      0 <= k <= 1
      /\ ball' = set_velocity ball
                   (Vec3.mk (Vec3.x (velocity ball) * k)
                            (Vec3.y (velocity ball))
                            (Vec3.z (velocity ball) * k)))
  /\ groundSpeed (velocity ball')
     = (if Vec3.y (position ball) <=? BallPhysics.BALL_RADIUS + 0.05
        then if gs >? 0.01
             then Rmax 0 (gs - BallPhysics.ROLLING_FRICTION
                               * BallPhysics.GRAVITY * deltaTime)
             else 0
        else gs)
  /\ groundSpeed (velocity ball') <= gs.
Proof.
  intros Hdt ball' gs.
  pose proof (sqrt_pos (glm.dot (Vec3.mk (Vec3.x (velocity ball)) 0
                                         (Vec3.z (velocity ball)))
                                (Vec3.mk (Vec3.x (velocity ball)) 0
                                         (Vec3.z (velocity ball))))) as Hgs.
  fold (glm.length (Vec3.mk (Vec3.x (velocity ball)) 0 (Vec3.z (velocity ball))))
    in Hgs.
  fold (groundSpeed (velocity ball)) in Hgs. fold gs in Hgs.
  assert (Hf : 0 <= BallPhysics.ROLLING_FRICTION * BallPhysics.GRAVITY * deltaTime).
  { unfold BallPhysics.ROLLING_FRICTION, BallPhysics.GRAVITY. nra. }
  set (dec := BallPhysics.ROLLING_FRICTION * BallPhysics.GRAVITY * deltaTime) in *.
  assert (Hcases :
    exists k : R,
      0 <= k <= 1
      /\ ball' = set_velocity ball
                   (Vec3.mk (Vec3.x (velocity ball) * k)
                            (Vec3.y (velocity ball))
                            (Vec3.z (velocity ball) * k))
      /\ gs * k
         = (if Vec3.y (position ball) <=? BallPhysics.BALL_RADIUS + 0.05
            then if gs >? 0.01 then Rmax 0 (gs - dec) else 0
            else gs)).
  { subst ball'. unfold BallPhysics.applyRollingFriction. cbv zeta.
    fold (groundSpeed (velocity ball)). fold gs. fold dec.
    destruct (Vec3.y (position ball) <=? BallPhysics.BALL_RADIUS + 0.05).
    - cmp_cases 0.01 gs.
      + exists (Rmax 0 (gs - dec) / gs).
        assert (Hm : 0 <= Rmax 0 (gs - dec) <= gs).
        { split; [apply Rmax_l |]. apply Rmax_lub; lra. }
        split.
        * split.
          -- apply Rmult_le_pos; [lra |]. apply Rlt_le, Rinv_0_lt_compat. lra.
          -- apply Rmult_le_reg_r with gs; [lra |].
             unfold Rdiv. rewrite Rmult_assoc, Rinv_l by lra. lra.
        * split.
          -- destruct ball as [p [vx vy vz] w rot]. reflexivity.
          -- field. lra.
      + exists 0. split; [lra |]. split.
        * destruct ball as [p [vx vy vz] w rot]. unfold set_velocity, set_x, set_z.
          cbn [position velocity angularVelocity rotationAngle
               Vec3.x Vec3.y Vec3.z].
          repeat f_equal; ring.
        * ring.
    - exists 1. split; [lra |]. split.
      + destruct ball as [p [vx vy vz] w rot]. unfold set_velocity.
        cbn [position velocity angularVelocity rotationAngle
             Vec3.x Vec3.y Vec3.z].
        repeat f_equal; ring.
      + ring. }
  destruct Hcases as (k & Hk & E & Hval).
  split; [exists k; split; assumption |].
  assert (Hgs' : groundSpeed (velocity ball') = gs * k).
  { rewrite E. cbn [velocity set_velocity]. apply groundSpeed_scale. lra. }
  rewrite Hgs'. split; [exact Hval | nra].
Qed.

Lemma applyRollingFriction_decelerates_witness :
  groundSpeed (velocity (BallPhysics.applyRollingFriction rollingBall 0.1))
  <= groundSpeed (velocity rollingBall).
Proof.
  destruct (applyRollingFriction_decelerates rollingBall 0.1) as (_ & _ & H);
    [lra | exact H].
Defined.

(** ** Ground contact *)

(** X5.  [handleGroundCollision] never adds energy and never leaves a
    ball that touched the ground moving downwards: for every ball the
    speed and the spin magnitude afterwards are at most what they were,
    and when the ball was below the resting height it ends at the resting
    height with a vertical velocity that is zero (soft landing, impact at
    most [0.5]) or [BOUNCE_FACTOR] times the impact speed, upwards. *)
Theorem handleGroundCollision_dissipates (ball : BallState) :
  let ball' := BallPhysics.handleGroundCollision ball in
  glm.length (velocity ball') <= glm.length (velocity ball)
  /\ glm.length (angularVelocity ball') <= glm.length (angularVelocity ball)
  /\ (Vec3.y (position ball) < BallPhysics.BALL_RADIUS ->
      Vec3.y (position ball') = BallPhysics.BALL_RADIUS
      /\ 0 <= Vec3.y (velocity ball')
      /\ Vec3.y (velocity ball')
         = (if Vec3.y (velocity ball) <? - 0.5
            then - Vec3.y (velocity ball) * BallPhysics.BOUNCE_FACTOR
            else 0))
  /\ (BallPhysics.BALL_RADIUS <= Vec3.y (position ball) -> ball' = ball).
Proof.
  intros ball'. subst ball'.
  unfold BallPhysics.handleGroundCollision. cbv zeta.
  destruct ball as [[px py pz] [vx vy vz] [wx wy wz] rot].
  fields.
  assert (Hb : BallPhysics.BOUNCE_FACTOR = 0.7) by reflexivity.
  cmp_cases py BallPhysics.BALL_RADIUS.
  - cmp_cases vy (- 0.5).
    + fields. rewrite Hb.
      split; [apply length_le_of_dot; unfold glm.dot;
              cbn [Vec3.x Vec3.y Vec3.z]; nra |].
      split; [apply length_le_of_dot; unfold glm.dot;
              cbn [Vec3.x Vec3.y Vec3.z]; nra |].
      split; [intros _; repeat split; lra | intros H; lra].
    + fields.
      split; [apply length_le_of_dot; unfold glm.dot;
              cbn [Vec3.x Vec3.y Vec3.z]; nra |].
      split; [lra |].
      split; [intros _; repeat split; lra | intros H; lra].
  - split; [lra |]. split; [lra |].
    split; [intros H; lra | reflexivity].
Qed.

(** ** Field boundaries *)

Lemma Rabs_copysign (a b : R) : 0 <= a -> Rabs (copysign a b) = a.
Proof.
  intros Ha. unfold copysign.
  destruct (b <? 0); rewrite ?Rabs_Ropp, Rabs_Rabsolu; apply Rabs_pos_eq, Ha.
Qed.

Lemma handleFieldBoundaries_result (ball : BallState) (bounds : FieldBounds) :
  0 <= FieldBounds.length bounds ->
  0 <= FieldBounds.width bounds / 2 + 0.5 ->
  insideField (BallPhysics.handleFieldBoundaries ball bounds) bounds.
Proof.
  intros HL HW. unfold insideField, BallPhysics.handleFieldBoundaries.
  cbv zeta.
  destruct ball as [[px py pz] v w rot].
  unfold BallPhysics.inGoalArea.
  cbn [position Vec3.x Vec3.y Vec3.z].
  set (hl := FieldBounds.length bounds / 2) in *.
  set (hw := FieldBounds.width bounds / 2 + 0.5) in *.
  set (ghw := FieldBounds.goalWidth bounds / 2) in *.
  assert (Hhl : 0 <= hl) by (unfold hl; lra).
  cmp_cases hl (Rabs px).
  - destruct ((Rabs pz <? ghw) && (py <? FieldBounds.goalHeight bounds)) eqn:Hg.
    + cbn [negb]. cbn [position Vec3.x Vec3.y Vec3.z].
      cmp_cases hw (Rabs pz).
      * fields. rewrite Rabs_copysign by assumption.
        split; [ | lra]. right.
        apply andb_prop in Hg. destruct Hg as [Hz Hy]. rewrite Hy.
        unfold Rltb in Hz. destruct (Rlt_dec (Rabs pz) ghw); [ | discriminate].
        rewrite Rltb_true by lra. reflexivity.
      * fields. split; [right; exact Hg | assumption].
    + cbn [negb]. fields.
      cmp_cases hw (Rabs pz).
      * fields. rewrite !Rabs_copysign by assumption.
        split; [left |]; lra.
      * fields. rewrite Rabs_copysign by assumption.
        split; [left; lra | assumption].
  - cbn [position Vec3.x Vec3.y Vec3.z].
    cmp_cases hw (Rabs pz).
    + fields. rewrite Rabs_copysign by assumption. split; [left |]; lra.
    + split; [left |]; assumption.
Qed.

(** X6.  On a field of non-negative length, and of width at least [-1],
    every call of [BallPhysics::update] leaves the ball where its own
    boundary step does not act any more: between the end lines or in a
    goal mouth, and at most half a metre beyond a side line.  The
    boundary step is idempotent. *)
Theorem update_keeps_ball_inside (ball : BallState) (deltaTime : R)
        (bounds : FieldBounds) :
  0 <= FieldBounds.length bounds ->
  0 <= FieldBounds.width bounds / 2 + 0.5 ->
  insideField (BallPhysics.update ball deltaTime bounds) bounds
  /\ BallPhysics.handleFieldBoundaries
       (BallPhysics.handleFieldBoundaries ball bounds) bounds
     = BallPhysics.handleFieldBoundaries ball bounds.
Proof.
  intros HL HW. split.
  - unfold BallPhysics.update, BallPhysics.integrate.
    apply handleFieldBoundaries_result; assumption.
  - destruct (handleFieldBoundaries_result ball bounds HL HW) as [Hx Hz].
    apply handleFieldBoundaries_inside; assumption.
Qed.

Lemma update_keeps_ball_inside_witness :
  insideField (BallPhysics.update ballPastEndLine 0.1 FieldBounds.default)
              FieldBounds.default.
Proof.
  apply (update_keeps_ball_inside ballPastEndLine 0.1 FieldBounds.default);
    simpl; lra.
Defined.

(** * Further properties of the match state *)

(** The fade factor is a fraction. *)
Lemma celebrationAlpha_unit (m : Match.t) :
  Match.m_celebrationTimer m <= Match.GOAL_CELEBRATION_DURATION ->
  0 <= Match.getCelebrationAlpha m <= 1.
Proof.
  intros Hmax. unfold Match.getCelebrationAlpha.
  unfold Match.GOAL_CELEBRATION_DURATION in *.
  destruct (Match.m_goalScored m); cbn [negb orb]; [ | lra].
  cmp_le_zero (Match.m_celebrationTimer m); [lra |].
  cbv zeta. cmp_cases (3 - 0.5) (Match.m_celebrationTimer m); [lra |].
  cmp_cases (Match.m_celebrationTimer m) 1; lra.
Qed.

(** X7.  [getCelebrationAlpha] is a fade factor: whenever the celebration
    timer is at most the celebration duration the result lies in
    [[0, 1]]; it is [0] when no goal is flagged or the timer has run out,
    it ramps up as [2 * (3 - timer)] during the first half second, is the
    timer itself during the last second, and is [1] in between. *)
Theorem getCelebrationAlpha_range (m : Match.t) :
  Match.m_celebrationTimer m <= Match.GOAL_CELEBRATION_DURATION ->
  let timer := Match.m_celebrationTimer m in
  0 <= Match.getCelebrationAlpha m <= 1
  /\ (Match.m_goalScored m = false \/ timer <= 0 ->
      Match.getCelebrationAlpha m = 0)
  /\ (Match.m_goalScored m = true ->
      (2.5 < timer -> Match.getCelebrationAlpha m = (3 - timer) * 2)
      /\ (1 <= timer <= 2.5 -> Match.getCelebrationAlpha m = 1)
      /\ (0 < timer < 1 -> Match.getCelebrationAlpha m = timer)).
Proof.
  intros Hmax timer. unfold Match.getCelebrationAlpha.
  unfold Match.GOAL_CELEBRATION_DURATION in *. fold timer in Hmax. fold timer.
  destruct (Match.m_goalScored m); cbn [negb orb].
  - cmp_le_zero timer.
    + split; [lra |]. split; [reflexivity |]. intros _.
      repeat split; intros; lra.
    + cbv zeta. cmp_cases (3 - 0.5) timer.
      * split; [lra |]. split; [intros [H | H]; [discriminate | lra] |].
        intros _. repeat split; intros; lra.
      * cmp_cases timer 1.
        -- split; [lra |]. split; [intros [H | H]; [discriminate | lra] |].
           intros _. repeat split; intros; lra.
        -- split; [lra |]. split; [intros [H | H]; [discriminate | lra] |].
           intros _. repeat split; intros; lra.
  - split; [lra |]. split; [reflexivity |]. intros H. discriminate.
Qed.

Lemma getCelebrationAlpha_range_witness :
  0 <= Match.getCelebrationAlpha matchAfterGoal <= 1.
Proof.
  apply (getCelebrationAlpha_range matchAfterGoal).
  unfold matchAfterGoal. cbn [Match.m_celebrationTimer]. lra.
Defined.

(** One forward call keeps flag, timer and last scoring team consistent. *)
Lemma step_consistent (c : Match.call) (s : Match.t * BallState) :
  forwardCall c -> celebrationConsistent (fst s) ->
  celebrationConsistent (fst (Match.step c s)).
Proof.
  destruct s as [m ball]. cbn [fst]. intros Hc Hm.
  assert (Hcheck : forall p, celebrationConsistent (snd (Match.checkGoal m p))).
  { intros p. unfold Match.checkGoal.
    destruct (Match.m_goalScored m) eqn:Hflag; [exact Hm |].
    cbv zeta.
    destruct (_ && _ && _).
    - unfold celebrationConsistent, Match.GOAL_CELEBRATION_DURATION. cbn.
      split; [split; [lra | left; reflexivity] | right; left; reflexivity].
    - destruct (_ && _ && _).
      + unfold celebrationConsistent, Match.GOAL_CELEBRATION_DURATION. cbn.
        split; [split; [lra | right; reflexivity] | right; right; reflexivity].
      + exact Hm. }
  assert (Hreset : forall m0 b, celebrationConsistent m ->
             Match.m_lastScoringTeam m0 = Match.m_lastScoringTeam m ->
             celebrationConsistent (fst (Match.resetAfterGoal m0 b))).
  { intros m0 b [_ Hteam] E. unfold celebrationConsistent. cbn.
    rewrite E. split; [reflexivity | exact Hteam]. }
  destruct c as [deltaTime | ballPos |]; cbn [Match.step fst snd].
  - cbn [forwardCall] in Hc. unfold Match.update.
    destruct (Match.m_goalScored m) eqn:Hflag.
    + cbv zeta. cbn [Match.m_celebrationTimer Match.set_m_celebrationTimer].
      cmp_le_zero (Match.m_celebrationTimer m - deltaTime).
      * apply Hreset; [exact Hm | reflexivity].
      * cbn [fst]. destruct Hm as [Hm Hteam].
        unfold celebrationConsistent. cbn. rewrite Hflag in *.
        split; [ | exact Hteam]. split; [lra | apply Hm].
    + cbn [fst]. apply Hcheck.
  - apply Hcheck.
  - apply Hreset; [exact Hm | reflexivity].
Qed.

(** X8.  Started from a consistent match (the initial one is), any
    sequence of [update], [checkGoal] and [resetAfterGoal] calls with
    non-negative time steps keeps the match consistent: the celebration
    timer is positive and at most [3] exactly while a goal is flagged and
    is [0] otherwise, the last scoring team is 0 or 1 while a goal is
    flagged, and the celebration alpha stays in [[0, 1]]. *)
Theorem run_keeps_celebration_consistent (cs : list Match.call)
        (m : Match.t) (ball : BallState) :
  celebrationConsistent m -> Forall forwardCall cs ->
  let m' := fst (Match.run cs (m, ball)) in
  celebrationConsistent m'
  /\ 0 <= Match.getCelebrationAlpha m' <= 1
  /\ (Match.m_goalScored m' = true <-> 0 < Match.m_celebrationTimer m').
Proof.
  intros Hm Hcs.
  assert (H : celebrationConsistent (fst (Match.run cs (m, ball)))).
  { revert m ball Hm. induction Hcs as [| c cs Hc _ IH]; intros m ball Hm.
    - exact Hm.
    - cbn [Match.run].
      pose proof (step_consistent c (m, ball) Hc Hm) as Hs.
      destruct (Match.step c (m, ball)) as [m1 ball1]. apply IH. exact Hs. }
  cbv zeta. split; [exact H |].
  destruct H as [H _].
  split.
  - apply celebrationAlpha_unit.
    destruct (Match.m_goalScored (fst (Match.run cs (m, ball)))).
    + lra.
    + rewrite H. unfold Match.GOAL_CELEBRATION_DURATION. lra.
  - destruct (Match.m_goalScored (fst (Match.run cs (m, ball)))).
    + split; [intros _; lra | reflexivity].
    + rewrite H. split; [discriminate | lra].
Qed.

Lemma init_consistent : celebrationConsistent Match.init.
Proof.
  unfold celebrationConsistent. cbn. split; [reflexivity | left; reflexivity].
Qed.

Lemma run_keeps_celebration_consistent_witness :
  celebrationConsistent
    (fst (Match.run [Match.CallCheckGoal ballInRightGoal; Match.CallUpdate 0.1]
                    (Match.init, restBall))).
Proof.
  apply (run_keeps_celebration_consistent
           [Match.CallCheckGoal ballInRightGoal; Match.CallUpdate 0.1]
           Match.init restBall init_consistent).
  repeat constructor. cbn. lra.
Defined.

(** ** The end of a celebration *)

Lemma Ball_reset_constant (ball : BallState) : Ball.reset ball = Ball.reset restBall.
Proof. reflexivity. Qed.

(** With no goal flagged and the ball on the centre spot, [update] does
    nothing on a field of non-negative length. *)
Lemma update_idle_at_centre (m : Match.t) (deltaTime : R) :
  Match.m_goalScored m = false -> 0 <= Match.m_fieldLength m ->
  Match.update m deltaTime (Ball.reset restBall) = (m, Ball.reset restBall).
Proof.
  intros Hflag HL. unfold Match.update, Match.checkGoal. rewrite Hflag.
  assert (Hr : Ball.RADIUS = 0.22) by reflexivity.
  cbv zeta. cbn [position Ball.reset set_position set_velocity
                 set_angularVelocity set_rotationAngle Vec3.x Vec3.y Vec3.z].
  rewrite (Rltb_false (Match.m_fieldLength m / 2 + Ball.RADIUS) 0) by lra.
  rewrite (Rltb_false 0 (- (Match.m_fieldLength m / 2) - Ball.RADIUS)) by lra.
  reflexivity.
Qed.

Lemma updates_idle_at_centre (n : nat) (m : Match.t) (deltaTime : R) :
  Match.m_goalScored m = false -> 0 <= Match.m_fieldLength m ->
  Match.run (repeat (Match.CallUpdate deltaTime) n) (m, Ball.reset restBall)
  = (m, Ball.reset restBall).
Proof.
  intros Hflag HL. induction n as [| n IH]; cbn [repeat Match.run].
  - reflexivity.
  - cbn [Match.step fst snd]. rewrite update_idle_at_centre by assumption.
    exact IH.
Qed.

(** The exact countdown of the model: what [n] calls of [update] leave,
    by the total time of the frames. *)
Lemma celebration_frames (n : nat) (m : Match.t) (ball : BallState)
      (deltaTime : R) :
  Match.m_goalScored m = true -> 0 < deltaTime ->
  0 <= Match.m_fieldLength m ->
  (INR n * deltaTime < Match.m_celebrationTimer m ->
   Match.run (repeat (Match.CallUpdate deltaTime) n) (m, ball)
   = (Match.set_m_celebrationTimer m
        (Match.m_celebrationTimer m - INR n * deltaTime), ball))
  /\ (0 < Match.m_celebrationTimer m <= INR n * deltaTime ->
      Match.run (repeat (Match.CallUpdate deltaTime) n) (m, ball)
      = (celebrationOver m, Ball.reset ball)).
Proof.
  intros Hflag Hdt HL. split.
  - revert m Hflag HL. induction n as [| n IH]; intros m Hflag HL Hlt.
    + cbn [repeat Match.run]. destruct m. unfold Match.set_m_celebrationTimer.
      cbn. repeat f_equal. ring.
    + cbn [repeat Match.run Match.step fst snd]. rewrite S_INR in Hlt.
      pose proof (pos_INR n) as Hn.
      unfold Match.update at 1. rewrite Hflag. cbv zeta.
      cbn [Match.m_celebrationTimer Match.set_m_celebrationTimer].
      rewrite Rleb_false by nra.
      rewrite IH.
      * rewrite S_INR. unfold Match.set_m_celebrationTimer.
        cbn [Match.m_fieldLength Match.m_fieldWidth Match.m_goalWidth
             Match.m_goalHeight Match.m_scoreLeft Match.m_scoreRight
             Match.m_goalScored Match.m_celebrationTimer
             Match.m_lastScoringTeam].
        f_equal. f_equal. ring.
      * exact Hflag.
      * exact HL.
      * cbn [Match.m_celebrationTimer Match.set_m_celebrationTimer]. lra.
  - revert m Hflag HL. induction n as [| n IH]; intros m Hflag HL [Hpos Hle].
    + simpl in Hle. lra.
    + cbn [repeat Match.run Match.step fst snd]. rewrite S_INR in Hle.
      unfold Match.update at 1. rewrite Hflag. cbv zeta.
      cbn [Match.m_celebrationTimer Match.set_m_celebrationTimer].
      cmp_le_zero (Match.m_celebrationTimer m - deltaTime).
      * unfold Match.resetAfterGoal at 1. cbv zeta.
        rewrite (Ball_reset_constant ball).
        rewrite updates_idle_at_centre; [reflexivity | reflexivity | exact HL].
      * rewrite IH; [reflexivity | exact Hflag | exact HL |].
        cbn [Match.m_celebrationTimer Match.set_m_celebrationTimer]. lra.
Qed.

(** X9.  A celebration ends by itself, and lasts what is left on its
    timer to within one frame.  From a match with a goal flagged and
    [timer] seconds left ([0 < timer <= 3]), with frames of at least a
    millisecond: [n] calls of [update] keep the flag up and leave scores
    and ball alone when one more frame would still fit
    ([(n + 1) * dt <= timer]); and when [n * dt >= timer + dt] they have
    cleared the flag, zeroed the timer and put the ball back on the centre
    spot, keeping both scores, whatever number of frames follows the
    reset. *)
Theorem celebration_ends (n : nat) (m : Match.t) (ball : BallState)
        (deltaTime : R) :
  Match.m_goalScored m = true -> 1 / 1000 <= deltaTime ->
  0 <= Match.m_fieldLength m ->
  0 < Match.m_celebrationTimer m <= Match.GOAL_CELEBRATION_DURATION ->
  (INR n * deltaTime + deltaTime <= Match.m_celebrationTimer m ->
   Match.run (repeat (Match.CallUpdate deltaTime) n) (m, ball)
   = (Match.set_m_celebrationTimer m
        (Match.m_celebrationTimer m - INR n * deltaTime), ball))
  /\ (Match.m_celebrationTimer m + deltaTime <= INR n * deltaTime ->
      Match.run (repeat (Match.CallUpdate deltaTime) n) (m, ball)
      = (celebrationOver m, Ball.reset ball)).
Proof.
  intros Hflag Hdt HL [Hpos Hmax].
  assert (Hdt0 : 0 < deltaTime) by lra.
  destruct (celebration_frames n m ball deltaTime Hflag Hdt0 HL) as [Ha Hb].
  split; intros H.
  - apply Ha. lra.
  - apply Hb. lra.
Qed.

Lemma celebration_ends_witness :
  Match.run (repeat (Match.CallUpdate 0.1) 32) (matchAfterGoal, restBall)
  = (celebrationOver matchAfterGoal, Ball.reset restBall).
Proof.
  destruct (celebration_ends 32 matchAfterGoal restBall 0.1) as [_ H].
  - reflexivity.
  - lra.
  - cbn. lra.
  - unfold matchAfterGoal, Match.GOAL_CELEBRATION_DURATION.
    cbn [Match.m_celebrationTimer]. lra.
  - apply H. unfold matchAfterGoal, Match.GOAL_CELEBRATION_DURATION.
    cbn [Match.m_celebrationTimer].
    replace (INR 32) with 32 by (simpl; lra). lra.
Defined.

(** ** Boundary reflection and the out-of-bounds test *)

Lemma Rabs_le_iff (a b : R) : Rabs a <= b <-> - b <= a <= b.
Proof.
  unfold Rabs. destruct (Rcase_abs a); split; intros; lra.
Qed.

Lemma Rabs_lt_iff (a b : R) : Rabs a < b <-> - b < a < b.
Proof.
  unfold Rabs. destruct (Rcase_abs a); split; intros; lra.
Qed.

(** The side clamp of [handleBoundaryCollision]. *)
Lemma side_clamp_bounds (hw r ghw pz : R) :
  r <= hw ->
  let z' :=
    if pz <? - hw + r then - hw + r
    else if pz >? hw - r then hw - r else pz in
  Rabs z' <= hw - r /\ (Rabs pz < ghw -> Rabs z' < ghw).
Proof.
  intros Hr z'. subst z'. rewrite !Rabs_le_iff, !Rabs_lt_iff.
  cmp_cases pz (- hw + r).
  - split; [lra |]. intros H. lra.
  - cmp_cases (hw - r) pz.
    + split; [lra |]. intros H. lra.
    + split; [lra |]. intros H. lra.
Qed.

(** Where [handleBoundaryCollision] leaves the ball. *)
Lemma handleBoundaryCollision_clamps (m : Match.t) (ball : BallState) :
  2 * Ball.RADIUS <= Match.m_fieldLength m ->
  2 * Ball.RADIUS <= Match.m_fieldWidth m ->
  let ball' := Match.handleBoundaryCollision m ball in
  Rabs (Vec3.z (position ball')) <= Match.m_fieldWidth m / 2 - Ball.RADIUS
  /\ (Rabs (Vec3.x (position ball')) <= Match.m_fieldLength m / 2 - Ball.RADIUS
      \/ Match.inGoalArea m (position ball') = true)
  /\ Vec3.y (position ball') = Vec3.y (position ball).
Proof.
  intros HL HW ball'.
  assert (Hr : Ball.RADIUS = 0.22) by reflexivity.
  set (hl := Match.m_fieldLength m / 2) in *.
  set (hw := Match.m_fieldWidth m / 2) in *.
  set (ghw := Match.m_goalWidth m / 2) in *.
  assert (Hhl : Ball.RADIUS <= hl) by (unfold hl; lra).
  assert (Hhw : Ball.RADIUS <= hw) by (unfold hw; lra).
  subst ball'. unfold Match.handleBoundaryCollision. cbv zeta.
  unfold Match.inGoalArea. fold hl. fold hw. fold ghw.
  destruct ball as [[px py pz] [vx vy vz] w rot]. fields.
  destruct (side_clamp_bounds hw Ball.RADIUS ghw pz Hhw) as [Hz1 Hz2].
  assert (Hkeep : (Rabs pz <? ghw) = true -> Rabs pz < ghw).
  { unfold Rltb. destruct (Rlt_dec (Rabs pz) ghw); [trivial | discriminate]. }
  cmp_cases pz (- hw + Ball.RADIUS);
    [ | cmp_cases (hw - Ball.RADIUS) pz ];
    (destruct (Rabs pz <? ghw) eqn:Hgz;
     [ destruct (py <? Match.m_goalHeight m) eqn:Hgy | ];
     fields;
     [ split; [exact Hz1 |]; split; [ | reflexivity]; right;
       rewrite Rltb_true by (apply Hz2, Hkeep; reflexivity); exact Hgy
     | cmp_cases px (- hl + Ball.RADIUS);
       [ | cmp_cases (hl - Ball.RADIUS) px ];
       fields; (split; [exact Hz1 |]); (split; [left | reflexivity]);
       rewrite Rabs_le_iff; lra
     | cmp_cases px (- hl + Ball.RADIUS);
       [ | cmp_cases (hl - Ball.RADIUS) px ];
       fields; (split; [exact Hz1 |]); (split; [left | reflexivity]);
       rewrite Rabs_le_iff; lra ]).
Qed.

(** A position within the lines, or in a goal mouth, is in bounds. *)
Lemma in_bounds_iff (m : Match.t) (pos : Vec3) :
  Match.isBallOutOfBounds m pos = false
  <-> (Rabs (Vec3.z pos) <= Match.m_fieldWidth m / 2
       /\ (Rabs (Vec3.x pos) <= Match.m_fieldLength m / 2
           \/ Match.inGoalArea m pos = true)).
Proof.
  unfold Match.isBallOutOfBounds, Match.inGoalArea. cbv zeta.
  cmp_cases (Match.m_fieldWidth m / 2) (Rabs (Vec3.z pos)).
  - split; [intros H; discriminate H | intros [H _]; lra].
  - cmp_cases (Match.m_fieldLength m / 2) (Rabs (Vec3.x pos)).
    + destruct ((Rabs (Vec3.z pos) <? Match.m_goalWidth m / 2)
                && (Vec3.y pos <? Match.m_goalHeight m)); cbn [negb].
      * split; [intros _; split; [lra | right; reflexivity] | reflexivity].
      * split; [intros H; discriminate H |].
        intros [_ [H | H]]; [lra | discriminate H].
    + split; [intros _; split; [lra | left; lra] | reflexivity].
Qed.

(** X10.  On a field at least one ball diameter long and wide,
    [Match::handleBoundaryCollision] leaves the ball where
    [Match::isBallOutOfBounds] reports it in bounds: within one ball
    radius inside the side lines, and within one radius inside the end
    lines or in the goal mouth. *)
Theorem handleBoundaryCollision_in_bounds (m : Match.t) (ball : BallState) :
  2 * Ball.RADIUS <= Match.m_fieldLength m ->
  2 * Ball.RADIUS <= Match.m_fieldWidth m ->
  let ball' := Match.handleBoundaryCollision m ball in
  Match.isBallOutOfBounds m (position ball') = false
  /\ Rabs (Vec3.z (position ball')) <= Match.m_fieldWidth m / 2 - Ball.RADIUS
  /\ (Rabs (Vec3.x (position ball')) <= Match.m_fieldLength m / 2 - Ball.RADIUS
      \/ Match.inGoalArea m (position ball') = true)
  /\ Vec3.y (position ball') = Vec3.y (position ball).
Proof.
  intros HL HW ball'.
  destruct (handleBoundaryCollision_clamps m ball HL HW) as (Hz & Hx & Hy).
  fold ball' in Hz, Hx, Hy.
  assert (Hr : Ball.RADIUS = 0.22) by reflexivity.
  split; [ | split; [exact Hz | split; [exact Hx | exact Hy]]].
  apply in_bounds_iff. split; [lra |].
  destruct Hx as [Hx | Hg]; [left; lra | right; exact Hg].
Qed.

Lemma handleBoundaryCollision_in_bounds_witness :
  Match.isBallOutOfBounds Match.init
    (position (Match.handleBoundaryCollision Match.init ballPastEndLine))
  = false.
Proof.
  apply (handleBoundaryCollision_in_bounds Match.init ballPastEndLine);
    unfold Ball.RADIUS, BallPhysics.BALL_RADIUS; cbn; lra.
Defined.

(** X11.  Goal detection and the two boundary layers agree on which balls
    pass the end line: a position for which [checkGoal] reports a goal is
    in the goal mouth of both layers, so neither
    [Match::handleBoundaryCollision] nor
    [BallPhysics::handleFieldBoundaries] touches the ball's X position or
    X velocity there, and when the goal is not wider than the field
    [isBallOutOfBounds] reports the ball in bounds. *)
Theorem goal_passes_both_layers (m : Match.t) (ball : BallState) :
  fst (Match.checkGoal m (position ball)) = true ->
  let bounds :=
    FieldBounds.mk (Match.m_fieldLength m) (Match.m_fieldWidth m)
                   (Match.m_goalWidth m) (Match.m_goalHeight m) in
  Match.inGoalArea m (position ball) = true
  /\ Vec3.x (position (Match.handleBoundaryCollision m ball))
     = Vec3.x (position ball)
  /\ Vec3.x (velocity (Match.handleBoundaryCollision m ball))
     = Vec3.x (velocity ball)
  /\ Vec3.x (position (BallPhysics.handleFieldBoundaries ball bounds))
     = Vec3.x (position ball)
  /\ Vec3.x (velocity (BallPhysics.handleFieldBoundaries ball bounds))
     = Vec3.x (velocity ball)
  /\ (Match.m_goalWidth m <= Match.m_fieldWidth m ->
      Match.isBallOutOfBounds m (position ball) = false).
Proof.
  intros Hgoal bounds.
  assert (Hin : (Rabs (Vec3.z (position ball)) <? Match.m_goalWidth m / 2) = true
                /\ (Vec3.y (position ball) <? Match.m_goalHeight m) = true).
  { unfold Match.checkGoal in Hgoal.
    destruct (Match.m_goalScored m); [discriminate |].
    cbv zeta in Hgoal.
    destruct (Rabs (Vec3.z (position ball)) <? Match.m_goalWidth m / 2);
      destruct (Vec3.y (position ball) <? Match.m_goalHeight m);
      rewrite ?andb_false_r, ?andb_false_l in Hgoal; cbn in Hgoal;
      try discriminate; split; reflexivity. }
  destruct Hin as [Hz Hy].
  assert (Hg : Match.inGoalArea m (position ball) = true)
    by (unfold Match.inGoalArea; rewrite Hz, Hy; reflexivity).
  split; [exact Hg |].
  split; [ | split].
  - unfold Match.handleBoundaryCollision. cbv zeta. rewrite Hg. cbn [negb].
    destruct (Vec3.z (position ball) <? _); [reflexivity |].
    destruct (Vec3.z (position ball) >? _); reflexivity.
  - unfold Match.handleBoundaryCollision. cbv zeta. rewrite Hg. cbn [negb].
    destruct (Vec3.z (position ball) <? _); [reflexivity |].
    destruct (Vec3.z (position ball) >? _); reflexivity.
  - assert (Hgp : BallPhysics.inGoalArea ball bounds = true) by exact Hg.
    split; [ | split].
    + unfold BallPhysics.handleFieldBoundaries. cbv zeta. rewrite Hgp.
      cbn [negb].
      destruct (Rabs (Vec3.x (position ball)) >? _);
        destruct (Rabs (Vec3.z (position ball)) >? _); reflexivity.
    + unfold BallPhysics.handleFieldBoundaries. cbv zeta. rewrite Hgp.
      cbn [negb].
      destruct (Rabs (Vec3.x (position ball)) >? _);
        destruct (Rabs (Vec3.z (position ball)) >? _); reflexivity.
    + intros Hw. unfold Match.isBallOutOfBounds. cbv zeta.
      rewrite Hz, Hy. cbn [andb negb].
      unfold Rltb in Hz.
      destruct (Rlt_dec (Rabs (Vec3.z (position ball))) (Match.m_goalWidth m / 2));
        [ | discriminate].
      rewrite Rltb_false by lra.
      destruct (Rabs (Vec3.x (position ball)) >? _); reflexivity.
Qed.

Lemma checkGoal_init_right :
  fst (Match.checkGoal Match.init (position ballInNet)) = true.
Proof.
  unfold Match.checkGoal, Match.init, ballInNet, ballInRightGoal,
    Ball.RADIUS, BallPhysics.BALL_RADIUS.
  cbn [fst position Match.m_goalScored Match.m_fieldLength
       Match.m_fieldWidth Match.m_goalWidth Match.m_goalHeight
       Match.m_scoreLeft Match.m_scoreRight Vec3.x Vec3.y Vec3.z].
  rewrite Rabs_R0.
  rewrite (Rltb_true 0 (7.32 / 2)) by lra.
  rewrite (Rltb_true 1 2.44) by lra.
  rewrite (Rltb_true 0 1) by lra.
  rewrite (Rltb_true (105 / 2 + 0.22) 53.5) by lra.
  reflexivity.
Qed.

Lemma goal_passes_both_layers_witness :
  Match.inGoalArea Match.init (position ballInNet) = true
  /\ Vec3.x (position (Match.handleBoundaryCollision Match.init ballInNet))
     = 53.5.
Proof.
  destruct (goal_passes_both_layers Match.init ballInNet checkGoal_init_right)
    as (H1 & H2 & _).
  split; [exact H1 | exact H2].
Defined.

(** * The human player *)

(** ** Acceleration toward a target velocity

    Both controllers accelerate the same way: the velocity jumps to the
    target when the difference is shorter than the step, and otherwise
    moves by the step along the difference. *)

Lemma length_nonneg (v : Vec3) : 0 <= glm.length v.
Proof. apply sqrt_pos. Qed.

Lemma scale_normalize (v : Vec3) (a : R) :
  glm.scale (glm.normalize v) a = glm.scale v (a / glm.length v).
Proof.
  unfold glm.normalize, glm.inversesqrt, glm.scale, glm.length.
  cbn [Vec3.x Vec3.y Vec3.z]. unfold Rdiv. f_equal; ring.
Qed.

Lemma accelerate_bound (v target : Vec3) (a bound : R) :
  0 < a -> glm.length v <= bound -> glm.length target <= bound ->
  glm.length
    (if glm.length (glm.sub target v) <? a then target
     else glm.add v (glm.scale (glm.normalize (glm.sub target v)) a))
  <= bound.
Proof.
  intros Ha Hv Ht.
  cmp_cases (glm.length (glm.sub target v)) a; [exact Ht |].
  rewrite scale_normalize.
  apply length_segment; [ | exact Hv | exact Ht].
  split.
  - unfold Rdiv. apply Rmult_le_pos; [lra |].
    left. apply Rinv_0_lt_compat. lra.
  - apply Rmult_le_reg_r with (glm.length (glm.sub target v)); [lra |].
    unfold Rdiv. rewrite Rmult_assoc, Rinv_l by lra. lra.
Qed.

(** Braking along the velocity by [d] takes [d] off the speed. *)
Lemma brake_length (v : Vec3) (d : R) :
  0 <= d <= glm.length v -> 0 < glm.length v ->
  glm.length (glm.sub v (glm.scale (glm.normalize v) d)) = glm.length v - d.
Proof.
  intros [Hd0 Hd1] Hv.
  rewrite scale_normalize.
  replace (glm.sub v (glm.scale v (d / glm.length v)))
    with (glm.scale v (1 - d / glm.length v))
    by (unfold glm.sub, glm.scale; cbn [Vec3.x Vec3.y Vec3.z]; f_equal; ring).
  assert (Hq : d / glm.length v <= 1).
  { apply Rmult_le_reg_r with (glm.length v); [lra |].
    unfold Rdiv. rewrite Rmult_assoc, Rinv_l by lra. lra. }
  rewrite length_scale by lra. field. lra.
Qed.

Lemma length_splat_zero : glm.length (glm.splat 0) = 0.
Proof. exact length_zero. Qed.

Lemma target_velocity_length (dir : Vec3) (s : R) :
  0 < glm.length dir -> 0 <= s ->
  glm.length (glm.scale (glm.normalize dir) s) = s.
Proof.
  intros Hd Hs. rewrite length_scale by exact Hs.
  rewrite length_normalize by (apply length_positive_dot; exact Hd). ring.
Qed.

(** What [updateMovement] does to the velocity. *)
Lemma updateMovement_speed (p : Player.t) (deltaTime : R) :
  0 < deltaTime ->
  let top :=
    if Player.m_isSprinting p then Player.SPRINT_SPEED else Player.MAX_SPEED in
  let p' := Player.updateMovement p deltaTime in
  (forall bound, top <= bound -> Player.getSpeed p <= bound ->
                 Player.getSpeed p' <= bound)
  /\ (glm.length (Player.m_inputDirection p) <= 0.01 ->
      Player.getSpeed p' <= Player.getSpeed p)
  /\ Player.m_position p'
     = glm.add (Player.m_position p)
               (glm.scale (Player.m_velocity p') deltaTime).
Proof.
  intros Hdt top p'.
  assert (Htop : 0 <= top).
  { unfold top, Player.SPRINT_SPEED, Player.MAX_SPEED.
    destruct (Player.m_isSprinting p); lra. }
  pose proof (length_nonneg (Player.m_velocity p)) as Hv0.
  unfold p', Player.updateMovement, Player.getSpeed. cbv zeta. fold top.
  cmp_cases 0.01 (glm.length (Player.m_inputDirection p)).
  - split; [ | split; [intros; lra |]].
    + intros bound Hb Hv.
      pose proof (accelerate_bound (Player.m_velocity p)
                    (glm.scale (glm.normalize (Player.m_inputDirection p)) top)
                    (Player.ACCELERATION * deltaTime) bound) as Hacc.
      rewrite target_velocity_length in Hacc by lra.
      specialize (Hacc ltac:(unfold Player.ACCELERATION; lra) Hv Hb).
      destruct (glm.length
                  (glm.sub
                     (glm.scale (glm.normalize (Player.m_inputDirection p)) top)
                     (Player.m_velocity p))
                <? Player.ACCELERATION * deltaTime); exact Hacc.
    + destruct (glm.length
                  (glm.sub
                     (glm.scale (glm.normalize (Player.m_inputDirection p)) top)
                     (Player.m_velocity p))
                <? Player.ACCELERATION * deltaTime); reflexivity.
  - assert (Hdec : glm.length
                     (Player.m_velocity
                        (if glm.length (Player.m_velocity p) >? 0.01
                         then
                           if glm.length (Player.m_velocity p)
                              <? Player.DECELERATION * deltaTime
                           then Player.set_m_velocity p (glm.splat 0)
                           else
                             Player.set_m_velocity p
                               (glm.sub (Player.m_velocity p)
                                  (glm.scale
                                     (glm.normalize (Player.m_velocity p))
                                     (Player.DECELERATION * deltaTime)))
                         else p))
                   <= glm.length (Player.m_velocity p)).
    { cmp_cases 0.01 (glm.length (Player.m_velocity p)); [ | lra].
      cmp_cases (glm.length (Player.m_velocity p))
                (Player.DECELERATION * deltaTime).
      - cbn [Player.set_m_velocity Player.m_velocity].
        rewrite length_splat_zero. exact Hv0.
      - cbn [Player.set_m_velocity Player.m_velocity].
        rewrite brake_length; unfold Player.DECELERATION in *; lra. }
    split; [ | split].
    + intros bound Hb Hv. cbn [Player.set_m_position Player.m_velocity].
      lra.
    + intros _. cbn [Player.set_m_position Player.m_velocity]. exact Hdec.
    + destruct (glm.length (Player.m_velocity p) >? 0.01);
        [ destruct (glm.length (Player.m_velocity p)
                    <? Player.DECELERATION * deltaTime) | ];
        reflexivity.
Qed.

Lemma updateRotation_velocity (p : Player.t) (deltaTime : R) :
  Player.m_velocity (Player.updateRotation p deltaTime) = Player.m_velocity p.
Proof. reflexivity. Qed.

Lemma updateAnimation_velocity (p : Player.t) (deltaTime : R) :
  Player.m_velocity (Player.updateAnimation p deltaTime) = Player.m_velocity p.
Proof.
  unfold Player.updateAnimation. cbv zeta.
  destruct (glm.length (Player.m_velocity p) >? 0.5);
    cbn [Player.set_m_animationTime Player.m_kickAnimationTimer];
    destruct (Player.m_kickAnimationTimer p >? 0); try reflexivity;
    cbn [Player.set_m_kickAnimationTimer Player.m_kickAnimationTimer];
    destruct (Player.m_kickAnimationTimer p - deltaTime <=? 0); reflexivity.
Qed.

Lemma update_velocity (p : Player.t) (deltaTime : R) (boundsMin boundsMax : Vec3) :
  Player.m_velocity (Player.update p deltaTime boundsMin boundsMax)
  = Player.m_velocity (Player.updateMovement p deltaTime).
Proof.
  unfold Player.update. cbv zeta.
  unfold Player.clampToBounds. cbv zeta.
  cbn [Player.set_m_position Player.m_velocity].
  rewrite updateAnimation_velocity, updateRotation_velocity. reflexivity.
Qed.

(** X12.  The human player never runs faster than the top speed of its
    gait: for a frame of [dt > 0], a player that is no faster than the top
    speed ([12] when sprinting, [8] otherwise) is no faster than it after
    [Player::update], so the speed never exceeds [SPRINT_SPEED]; and
    without movement input the speed does not grow. *)
Theorem update_speed_limit (p : Player.t) (deltaTime : R)
        (boundsMin boundsMax : Vec3) :
  0 < deltaTime ->
  let p' := Player.update p deltaTime boundsMin boundsMax in
  let top :=
    if Player.m_isSprinting p then Player.SPRINT_SPEED else Player.MAX_SPEED in
  (Player.getSpeed p <= top -> Player.getSpeed p' <= top)
  /\ (Player.getSpeed p <= Player.SPRINT_SPEED ->
      Player.getSpeed p' <= Player.SPRINT_SPEED)
  /\ (glm.length (Player.m_inputDirection p) <= 0.01 ->
      Player.getSpeed p' <= Player.getSpeed p).
Proof.
  intros Hdt p' top.
  destruct (updateMovement_speed p deltaTime Hdt) as (Hb & Hn & _).
  unfold p', Player.getSpeed in *. rewrite update_velocity.
  split; [ | split].
  - intros Hv. apply Hb; [ | exact Hv]. fold top. lra.
  - intros Hv. apply Hb; [ | exact Hv].
    unfold Player.SPRINT_SPEED, Player.MAX_SPEED.
    destruct (Player.m_isSprinting p); lra.
  - exact Hn.
Qed.

Lemma update_speed_limit_witness :
  Player.getSpeed
    (Player.update
       (Player.setMovementInput Player.init (Vec3.mk 1 0 0) true)
       0.1 (Vec3.mk (- 50) 0 (- 30)) (Vec3.mk 50 0 30))
  <= Player.SPRINT_SPEED.
Proof.
  apply (update_speed_limit
           (Player.setMovementInput Player.init (Vec3.mk 1 0 0) true) 0.1
           (Vec3.mk (- 50) 0 (- 30)) (Vec3.mk 50 0 30)).
  - lra.
  - unfold Player.getSpeed, Player.setMovementInput, Player.init.
    cbn [Player.m_velocity]. rewrite length_splat_zero.
    unfold Player.SPRINT_SPEED. lra.
Defined.

(** ** The kick animation *)

Lemma updateMovement_kick (p : Player.t) (deltaTime : R) :
  Player.m_kickAnimationTimer (Player.updateMovement p deltaTime)
  = Player.m_kickAnimationTimer p
  /\ Player.m_isKicking (Player.updateMovement p deltaTime)
     = Player.m_isKicking p.
Proof.
  unfold Player.updateMovement. cbv zeta.
  destruct (glm.length (Player.m_inputDirection p) >? 0.01).
  - destruct (glm.length
                (glm.sub
                   (glm.scale (glm.normalize (Player.m_inputDirection p))
                      (if Player.m_isSprinting p
                       then Player.SPRINT_SPEED else Player.MAX_SPEED))
                   (Player.m_velocity p))
              <? Player.ACCELERATION * deltaTime); split; reflexivity.
  - destruct (glm.length (Player.m_velocity p) >? 0.01);
      [ destruct (glm.length (Player.m_velocity p)
                  <? Player.DECELERATION * deltaTime) | ];
      split; reflexivity.
Qed.

Ltac kick_fields :=
  cbn [Player.set_m_isKicking Player.set_m_kickAnimationTimer
       Player.set_m_animationTime
       Player.m_kickAnimationTimer Player.m_isKicking].

(** What one frame does to the kick-animation timer and the flag. *)
Lemma update_kick (p : Player.t) (deltaTime : R) (boundsMin boundsMax : Vec3) :
  let p' := Player.update p deltaTime boundsMin boundsMax in
  let timer := Player.m_kickAnimationTimer p in
  Player.m_kickAnimationTimer p'
  = (if timer >? 0 then timer - deltaTime else timer)
  /\ Player.m_isKicking p'
     = (if timer >? 0
        then if timer - deltaTime <=? 0 then false else Player.m_isKicking p
        else Player.m_isKicking p).
Proof.
  intros p' timer.
  destruct (updateMovement_kick p deltaTime) as [Ht Hk].
  unfold p', Player.update, Player.clampToBounds. cbv zeta.
  cbn [Player.set_m_position Player.m_kickAnimationTimer Player.m_isKicking].
  unfold Player.updateAnimation. cbv zeta.
  set (q := Player.updateRotation (Player.updateMovement p deltaTime) deltaTime).
  assert (Hqt : Player.m_kickAnimationTimer q = timer) by exact Ht.
  assert (Hqk : Player.m_isKicking q = Player.m_isKicking p) by exact Hk.
  destruct (glm.length (Player.m_velocity q) >? 0.5);
    kick_fields; rewrite ?Hqt;
    (destruct (timer >? 0);
     [ kick_fields; rewrite ?Hqt; destruct (timer - deltaTime <=? 0) | ];
     kick_fields; rewrite ?Hqt, ?Hqk; split; reflexivity).
Qed.

(** The timer and the flag [n] frames after a kick. *)
Lemma frames_after_kick (n : nat) (p : Player.t) (deltaTime : R)
      (boundsMin boundsMax : Vec3) :
  0 < deltaTime ->
  Player.m_isKicking p = true -> Player.m_kickAnimationTimer p = 0.3 ->
  let pn := playerFrames n p deltaTime boundsMin boundsMax in
  (INR n * deltaTime < 0.3 ->
   Player.m_isKicking pn = true
   /\ Player.m_kickAnimationTimer pn = 0.3 - INR n * deltaTime)
  /\ (0.3 <= INR n * deltaTime ->
      Player.m_isKicking pn = false /\ Player.m_kickAnimationTimer pn <= 0).
Proof.
  intros Hdt Hk Ht. induction n as [| n IH].
  - unfold playerFrames, Nat.iter. cbn [nat_rect INR]. split; intros H.
    + split; [exact Hk | rewrite Ht; lra].
    + lra.
  - cbv zeta in IH |- *. unfold playerFrames in *. rewrite Nat.iter_succ.
    set (q := Nat.iter n
                (fun q => Player.update q deltaTime boundsMin boundsMax) p)
      in *.
    destruct (update_kick q deltaTime boundsMin boundsMax) as [Et Ek].
    cbv zeta in Et, Ek. rewrite Et, Ek. rewrite S_INR.
    destruct IH as [IHa IHb].
    destruct (Rlt_dec (INR n * deltaTime) 0.3) as [Hlt | Hge].
    + destruct (IHa Hlt) as [Hqk Hqt]. rewrite Hqt, Hqk.
      rewrite (Rltb_true 0) by lra.
      split; intros H.
      * rewrite Rleb_false by lra. split; [reflexivity | lra].
      * rewrite Rleb_true by lra. split; [reflexivity | lra].
    + apply Rnot_lt_le in Hge. destruct (IHb Hge) as [Hqk Hqt].
      rewrite (Rltb_false 0) by lra.
      split; intros H; [lra |]. split; assumption.
Qed.

(** X13.  The kick animation runs for 0.3 seconds, to within one frame.
    After a kick on a ball in range, with frames of at least a
    millisecond: [n] frames leave the kicking flag up, the timer at
    [0.3 - n * dt], when one more frame would still fit
    ([(n + 1) * dt <= 0.3]); and when [n * dt >= 0.3 + dt] the flag is
    down and stays down, the timer at or below zero. *)
Theorem kick_animation_ends (n : nat) (p : Player.t) (ball : BallState)
        (sprinting : bool) (spinY deltaTime : R) (boundsMin boundsMax : Vec3) :
  glm.length (glm.sub (position ball) (Player.m_position p))
  < Player.KICK_RANGE ->
  1 / 1000 <= deltaTime ->
  let kicked := snd (fst (Player.tryKick p ball sprinting spinY)) in
  let pn := playerFrames n kicked deltaTime boundsMin boundsMax in
  (INR n * deltaTime + deltaTime <= 0.3 ->
   Player.m_isKicking pn = true
   /\ Player.m_kickAnimationTimer pn = 0.3 - INR n * deltaTime)
  /\ (0.3 + deltaTime <= INR n * deltaTime ->
      Player.m_isKicking pn = false /\ Player.m_kickAnimationTimer pn <= 0).
Proof.
  intros Hnear Hdt kicked pn.
  assert (Hdt0 : 0 < deltaTime) by lra.
  destruct (tryKick_in_range p ball sprinting spinY Hnear)
    as (p' & ball' & E & _ & _ & _ & _ & _ & _ & Hp).
  assert (Ekicked : kicked
                    = Player.set_m_kickAnimationTimer
                        (Player.set_m_isKicking p true) 0.3)
    by (unfold kicked; rewrite E; exact Hp).
  destruct (frames_after_kick n kicked deltaTime boundsMin boundsMax Hdt0)
    as [Ha Hb]; [rewrite Ekicked; reflexivity .. |].
  split; intros H.
  - apply Ha. lra.
  - apply Hb. lra.
Qed.

Lemma kick_animation_ends_witness :
  Player.m_isKicking
    (playerFrames 5
       (snd (fst (Player.tryKick kickingPlayer ballAtFeet false 0)))
       0.1 (Vec3.mk (- 50) 0 (- 30)) (Vec3.mk 50 0 30))
  = false.
Proof.
  apply (kick_animation_ends 5 kickingPlayer ballAtFeet false 0 0.1
           (Vec3.mk (- 50) 0 (- 30)) (Vec3.mk 50 0 30)
           ballAtFeet_in_range).
  - lra.
  - cbn [INR]. lra.
Defined.

(** ** Staying on the field *)

Lemma clamp_range (v lo hi : R) : lo <= hi -> lo <= clamp v lo hi <= hi.
Proof.
  intros H. unfold clamp.
  cmp_cases v lo; [lra |]. cmp_cases hi v; lra.
Qed.

Lemma clamp_inside (v lo hi : R) : lo <= v <= hi -> clamp v lo hi = v.
Proof.
  intros H. unfold clamp.
  rewrite (Rltb_false v lo) by lra. rewrite (Rltb_false hi v) by lra.
  reflexivity.
Qed.

(** X14.  The human player stays on the field: when the bounds are in
    order, the position after a frame of [Player::update] ([dt > 0]) lies
    between them in X and in Z, whatever the velocity and the input; a
    position that is already inside is not moved by the clamp, which is
    idempotent. *)
Theorem update_in_bounds (p : Player.t) (deltaTime : R)
        (boundsMin boundsMax : Vec3) :
  0 < deltaTime ->
  Vec3.x boundsMin <= Vec3.x boundsMax ->
  Vec3.z boundsMin <= Vec3.z boundsMax ->
  let p' := Player.update p deltaTime boundsMin boundsMax in
  Vec3.x boundsMin <= Vec3.x (Player.m_position p') <= Vec3.x boundsMax
  /\ Vec3.z boundsMin <= Vec3.z (Player.m_position p') <= Vec3.z boundsMax
  /\ Player.clampToBounds p' boundsMin boundsMax = p'
  /\ (Vec3.x boundsMin <= Vec3.x (Player.m_position p) <= Vec3.x boundsMax ->
      Vec3.z boundsMin <= Vec3.z (Player.m_position p) <= Vec3.z boundsMax ->
      Player.clampToBounds p boundsMin boundsMax = p).
Proof.
  intros _ Hx Hz p'.
  assert (Hid : forall q,
             Vec3.x boundsMin <= Vec3.x (Player.m_position q)
             <= Vec3.x boundsMax ->
             Vec3.z boundsMin <= Vec3.z (Player.m_position q)
             <= Vec3.z boundsMax ->
             Player.clampToBounds q boundsMin boundsMax = q).
  { intros q Hqx Hqz. unfold Player.clampToBounds. cbv zeta.
    cbn [Player.set_m_position Player.m_position set_x set_z
         Vec3.x Vec3.y Vec3.z].
    rewrite !clamp_inside by assumption.
    destruct q as [[px py pz] v r tr i s a kt kf]. reflexivity. }
  assert (Hin : Vec3.x boundsMin <= Vec3.x (Player.m_position p')
                <= Vec3.x boundsMax
                /\ Vec3.z boundsMin <= Vec3.z (Player.m_position p')
                   <= Vec3.z boundsMax).
  { unfold p', Player.update, Player.clampToBounds. cbv zeta.
    cbn [Player.set_m_position Player.m_position set_x set_z
         Vec3.x Vec3.y Vec3.z].
    split; apply clamp_range; assumption. }
  destruct Hin as [Hpx Hpz].
  split; [exact Hpx |]. split; [exact Hpz |].
  split; [apply Hid; assumption | apply Hid].
Qed.

Lemma update_in_bounds_witness :
  - 50 <= Vec3.x (Player.m_position
                    (Player.update Player.init 0.1
                       (Vec3.mk (- 50) 0 (- 30)) (Vec3.mk 50 0 30))) <= 50.
Proof.
  apply (update_in_bounds Player.init 0.1
           (Vec3.mk (- 50) 0 (- 30)) (Vec3.mk 50 0 30)); cbn; lra.
Defined.

(** ** The ball at the player's feet *)

Lemma normalize_flat (v : Vec3) : Vec3.y (glm.normalize (set_y v 0)) = 0.
Proof.
  unfold glm.normalize, glm.scale, set_y. cbn [Vec3.x Vec3.y Vec3.z]. ring.
Qed.

(** A point put at [m] along the unit vector from [a] toward [b] is at
    horizontal distance [m] from [a]. *)
Lemma push_to_distance (a b : Vec3) (m yy : R) :
  0 < horizontalDistance a b -> 0 <= m ->
  let pushDir := glm.normalize (set_y (glm.sub b a) 0) in
  horizontalDistance a
    (Vec3.mk (Vec3.x a + Vec3.x pushDir * m) yy (Vec3.z a + Vec3.z pushDir * m))
  = m.
Proof.
  intros Hd Hm pushDir. unfold horizontalDistance in *.
  replace (set_y (glm.sub (Vec3.mk (Vec3.x a + Vec3.x pushDir * m) yy
                                   (Vec3.z a + Vec3.z pushDir * m)) a) 0)
    with (glm.scale pushDir m).
  - rewrite length_scale by exact Hm. unfold pushDir.
    rewrite length_normalize by (apply length_positive_dot; exact Hd). ring.
  - pose proof (normalize_flat (glm.sub b a)) as Hy. fold pushDir in Hy.
    unfold glm.scale, glm.sub, set_y. cbn [Vec3.x Vec3.y Vec3.z].
    rewrite Hy. f_equal; ring.
Qed.

(** [dribble] writes to the ball's velocity only. *)
Lemma dribble_position (rand : Rand.t) (p : Player.t) (ball : BallState)
      (deltaTime touchTimer : R) (k : Rand.state) :
  let ball' := fst (fst (Player.dribble rand p ball deltaTime touchTimer k)) in
  position ball' = position ball
  /\ angularVelocity ball' = angularVelocity ball
  /\ rotationAngle ball' = rotationAngle ball.
Proof.
  unfold Player.dribble, Rand.next. cbv zeta.
  repeat match goal with
         | |- context [if ?c then _ else _] => destruct c
         end; cbn; repeat split; reflexivity.
Qed.

(** The position of the ball after the dribbling part of
    [handleBallCollision]. *)
Lemma dribble_guard_position (rand : Rand.t) (p : Player.t)
      (ball : BallState) (deltaTime touchTimer : R) (k : Rand.state)
      (c : bool) :
  position
    (fst (fst (if c then Player.dribble rand p ball deltaTime touchTimer k
               else (ball, touchTimer, k))))
  = position ball.
Proof.
  destruct c; [ | reflexivity].
  apply (dribble_position rand p ball deltaTime touchTimer k).
Qed.

(** X15.  The human player does not walk through the ball: when the
    ball's horizontal distance [d] from the player is between [0.01] and
    the sum of the two radii ([0.52]), [Player::handleBallCollision] puts
    the ball at exactly that sum, along the line from the player to the
    ball, and otherwise leaves its position alone; the height of the ball
    never changes.  So after the call the ball is never strictly between
    [0.01] and [0.52] from the player. *)
Theorem handleBallCollision_pushes_out (rand : Rand.t) (p : Player.t)
        (ball : BallState) (deltaTime touchTimer : R) (k : Rand.state) :
  let d := horizontalDistance (Player.m_position p) (position ball) in
  let minDist := Player.RADIUS + Ball.RADIUS in
  let ball' :=
    fst (fst (Player.handleBallCollision rand p ball deltaTime touchTimer k)) in
  let d' := horizontalDistance (Player.m_position p) (position ball') in
  Vec3.y (position ball') = Vec3.y (position ball)
  /\ (0.01 < d < minDist -> d' = minDist)
  /\ (d <= 0.01 \/ minDist <= d -> position ball' = position ball)
  /\ (d' <= 0.01 \/ minDist <= d').
Proof.
  intros d minDist ball' d'.
  assert (Hmin : minDist = 0.52)
    by (unfold minDist, Player.RADIUS, Ball.RADIUS, BallPhysics.BALL_RADIUS;
        lra).
  assert (Hfacts :
    Vec3.y (position ball') = Vec3.y (position ball)
    /\ (0.01 < d < minDist -> d' = minDist)
    /\ (d <= 0.01 \/ minDist <= d -> position ball' = position ball)).
  { unfold d', ball', Player.handleBallCollision. cbv zeta.
    fold minDist. change (glm.length (set_y (glm.sub (position ball)
                                                (Player.m_position p)) 0))
      with d.
    pose proof (dribble_guard_position rand p ball deltaTime touchTimer k
                  ((d <? Player.DRIBBLE_RANGE) && (Player.getSpeed p >? 0.5)
                   && (Vec3.y (position ball) <=? Ball.RADIUS + 0.1)))
      as Hpos.
    destruct (if (d <? Player.DRIBBLE_RANGE) && (Player.getSpeed p >? 0.5)
                 && (Vec3.y (position ball) <=? Ball.RADIUS + 0.1)
              then Player.dribble rand p ball deltaTime touchTimer k
              else (ball, touchTimer, k)) as [[b1 t1] k1].
    cbn [fst snd] in Hpos |- *.
    cmp_cases d minDist; [cmp_cases 0.01 d | ]; cbn [andb fst snd].
    - destruct (Player.getSpeed p >? 0.5);
        cbn [set_position set_velocity position set_x set_z
             Vec3.x Vec3.y Vec3.z];
        rewrite Hpos;
        (split; [reflexivity |]);
        (split; [ | intros [H | H]; lra]);
        intros _;
        apply (push_to_distance (Player.m_position p) (position ball));
        fold d; lra.
    - rewrite Hpos. split; [reflexivity |].
      split; [intros; lra | reflexivity].
    - rewrite Hpos. split; [reflexivity |].
      split; [intros; lra | reflexivity]. }
  destruct Hfacts as (Hy & Hpush & Hkeep).
  split; [exact Hy |]. split; [exact Hpush |]. split; [exact Hkeep |].
  destruct (Rle_dec d 0.01) as [Hle | Hgt].
  - left. unfold d'. rewrite Hkeep by (left; exact Hle). exact Hle.
  - destruct (Rlt_dec d minDist) as [Hlt | Hge].
    + right. rewrite Hpush by lra. lra.
    + right. unfold d'. rewrite Hkeep by (right; lra). fold d. lra.
Qed.

(** ** Dribbling *)

(** Scaling the horizontal velocity down to a cap. *)
Lemma cap_ground_speed (v : Vec3) (cap : R) :
  0 <= cap ->
  let gs := glm.length (Vec3.mk (Vec3.x v) 0 (Vec3.z v)) in
  groundSpeed
    (if gs >? cap
     then Vec3.mk (Vec3.x v * (cap / gs)) (Vec3.y v) (Vec3.z v * (cap / gs))
     else v)
  <= cap.
Proof.
  intros Hcap gs. cmp_cases cap gs.
  - rewrite groundSpeed_scale.
    + unfold groundSpeed. fold gs. right. field. lra.
    + unfold Rdiv. apply Rmult_le_pos; [lra |].
      left. apply Rinv_0_lt_compat. lra.
  - exact Hcmp.
Qed.

(** [dribble] on a ball in front of the player. *)
Lemma dribble_in_front (rand : Rand.t) (p : Player.t) (ball : BallState)
      (deltaTime touchTimer : R) (k : Rand.state) :
  ballInFront p ball = true ->
  let speed := Player.getSpeed p in
  let toIdeal :=
    glm.sub (set_y (glm.add (Player.m_position p)
                            (glm.scale (playerForward p) 0.8)) Ball.RADIUS)
            (position ball) in
  let v1 :=
    Vec3.mk (Vec3.x (velocity ball) + Vec3.x toIdeal * 0.15 * speed)
            (Vec3.y (velocity ball))
            (Vec3.z (velocity ball) + Vec3.z toIdeal * 0.15 * speed) in
  let touch := touchTimer + deltaTime >? 0.15 in
  let touchStrength := 0.5 + IZR (Z.rem (rand k) 100) / 200 in
  let v2 :=
    if touch
    then glm.add v1 (glm.scale (glm.scale (glm.scale (playerForward p) speed)
                                          touchStrength) 0.3)
    else v1 in
  let gs := glm.length (Vec3.mk (Vec3.x v2) 0 (Vec3.z v2)) in
  let v3 :=
    if gs >? speed * 1.5
    then Vec3.mk (Vec3.x v2 * (speed * 1.5 / gs)) (Vec3.y v2)
                 (Vec3.z v2 * (speed * 1.5 / gs))
    else v2 in
  Player.dribble rand p ball deltaTime touchTimer k
  = (set_velocity ball v3,
     if touch then 0 else touchTimer + deltaTime,
     if touch then S k else k).
Proof.
  intros Hfront speed toIdeal v1 touch touchStrength v2 gs v3.
  unfold Player.dribble. cbv zeta.
  unfold ballInFront, playerForward in Hfront. rewrite Hfront.
  subst v3 gs v2 touchStrength v1 toIdeal speed touch.
  unfold playerForward, Player.getSpeed, Rand.next.
  destruct (touchTimer + deltaTime >? 0.15); cbv beta iota; fields;
    match goal with
    | |- context [if ?c then _ else _] => destruct c
    end; reflexivity.
Qed.

(** X16.  Dribbling never lets the ball outrun the player: for a ball
    that is not exactly under the player, [Player::dribble] leaves the
    ball alone unless it is roughly in front (the cosine of its bearing
    above [-0.3]), and then the ball's ground speed afterwards is at most
    [1.5] times the player's speed; the touch timer stays at or below
    [0.15], at most one random number is drawn, and the ball's position,
    spin and vertical velocity are not written. *)
Theorem dribble_speed_cap (rand : Rand.t) (p : Player.t) (ball : BallState)
        (deltaTime touchTimer : R) (k : Rand.state) :
  0 < horizontalDistance (Player.m_position p) (position ball) ->
  let r := Player.dribble rand p ball deltaTime touchTimer k in
  let ball' := fst (fst r) in
  position ball' = position ball
  /\ angularVelocity ball' = angularVelocity ball
  /\ Vec3.y (velocity ball') = Vec3.y (velocity ball)
  /\ (ballInFront p ball = true ->
      groundSpeed (velocity ball') <= Player.getSpeed p * 1.5
      /\ snd (fst r) <= 0.15
      /\ (snd r = k \/ snd r = S k))
  /\ (ballInFront p ball = false -> r = (ball, touchTimer, k)).
Proof.
  intros _ r ball'.
  destruct (dribble_position rand p ball deltaTime touchTimer k)
    as (Hpos & Hspin & _).
  split; [exact Hpos |]. split; [exact Hspin |].
  assert (Hback : ballInFront p ball = false -> r = (ball, touchTimer, k)).
  { intros Hb. unfold r, Player.dribble. cbv zeta.
    unfold ballInFront, playerForward in Hb. rewrite Hb. reflexivity. }
  destruct (ballInFront p ball) eqn:Hfront.
  - pose proof (dribble_in_front rand p ball deltaTime touchTimer k Hfront)
      as E.
    cbv zeta in E. unfold ball', r. rewrite E. cbn [fst snd velocity set_velocity].
    split; [ | split; [ | intros; discriminate]].
    + match goal with
      | |- context [if ?c then _ else _] => destruct c
      end;
      match goal with
      | |- context [if ?c then _ else _] => destruct c
      end;
      unfold playerForward, glm.add, glm.scale;
      cbn [Vec3.x Vec3.y Vec3.z]; ring.
    + intros _. split; [ | split].
      * match goal with
        | |- groundSpeed (if glm.length (Vec3.mk (Vec3.x ?v) 0 (Vec3.z ?v))
                             >? ?c then _ else _) <= _ =>
            apply (cap_ground_speed v c)
        end.
        pose proof (length_nonneg (Player.m_velocity p)).
        unfold Player.getSpeed. lra.
      * cmp_cases 0.15 (touchTimer + deltaTime); lra.
      * destruct (touchTimer + deltaTime >? 0.15); [right | left]; reflexivity.
  - split; [ | split; [intros; discriminate | exact Hback]].
    unfold ball'. rewrite Hback by reflexivity. reflexivity.
Qed.

Lemma ballAhead_apart :
  0 < horizontalDistance (Player.m_position runningPlayer) (position ballAhead).
Proof.
  unfold horizontalDistance, glm.length. apply sqrt_lt_R0.
  unfold glm.dot, glm.sub, set_y, runningPlayer, ballAhead, Player.init.
  cbn [Player.set_m_velocity Player.m_position position Vec3.x Vec3.y Vec3.z].
  lra.
Qed.

Lemma dribble_speed_cap_witness :
  position (fst (fst (Player.dribble (fun _ => 42%Z) runningPlayer ballAhead
                                     0.1 0.1 0%nat)))
  = position ballAhead.
Proof.
  apply (dribble_speed_cap (fun _ => 42%Z) runningPlayer ballAhead 0.1 0.1 0%nat
                           ballAhead_apart).
Defined.

(** ** Braking *)

Lemma update_input (p : Player.t) (deltaTime : R) (boundsMin boundsMax : Vec3) :
  Player.m_inputDirection (Player.update p deltaTime boundsMin boundsMax)
  = Player.m_inputDirection p.
Proof.
  unfold Player.update, Player.clampToBounds, Player.updateRotation,
    Player.updateAnimation, Player.updateMovement. cbv zeta.
  repeat match goal with
         | |- context [if ?c then _ else _] => destruct c
         end; reflexivity.
Qed.

(** One frame without movement input. *)
Lemma brake_step (p : Player.t) (deltaTime : R) (boundsMin boundsMax : Vec3) :
  glm.length (Player.m_inputDirection p) <= 0.01 -> 0 <= deltaTime ->
  let p' := Player.update p deltaTime boundsMin boundsMax in
  (exists k, 0 <= k <= 1
             /\ Player.m_velocity p' = glm.scale (Player.m_velocity p) k)
  /\ Player.getSpeed p'
     <= Rmax 0.01 (Player.getSpeed p - Player.DECELERATION * deltaTime).
Proof.
  intros Hin Hdt p'.
  assert (Hone : Player.m_velocity p = glm.scale (Player.m_velocity p) 1)
    by (unfold glm.scale; destruct (Player.m_velocity p); cbn; f_equal; ring).
  pose proof (length_nonneg (Player.m_velocity p)) as Hv0.
  unfold p', Player.getSpeed. rewrite update_velocity.
  unfold Player.updateMovement. cbv zeta.
  rewrite (Rltb_false 0.01 (glm.length (Player.m_inputDirection p))) by exact Hin.
  cbn [Player.set_m_position Player.m_velocity].
  set (s := glm.length (Player.m_velocity p)) in *.
  set (d := Player.DECELERATION * deltaTime).
  assert (Hd : 0 <= d) by (unfold d, Player.DECELERATION; lra).
  cmp_cases 0.01 s; [cmp_cases s d | ];
    cbn [Player.set_m_velocity Player.m_velocity].
  - split.
    + exists 0. split; [lra |].
      unfold glm.scale, glm.splat. f_equal; ring.
    + rewrite length_splat_zero. apply Rle_trans with 0.01; [lra |].
      apply Rmax_l.
  - split.
    + exists (1 - d / s). split.
      * assert (Hq : 0 <= d / s <= 1).
        { split.
          - unfold Rdiv. apply Rmult_le_pos; [lra |].
            left. apply Rinv_0_lt_compat. lra.
          - apply Rmult_le_reg_r with s; [lra |].
            unfold Rdiv. rewrite Rmult_assoc, Rinv_l by lra. lra. }
        lra.
      * rewrite scale_normalize. fold s.
        unfold glm.sub, glm.scale. cbn [Vec3.x Vec3.y Vec3.z]. f_equal; ring.
    + rewrite brake_length by (fold s; lra). fold s. apply Rmax_r.
  - split.
    + exists 1. split; [lra | exact Hone].
    + fold s. apply Rle_trans with 0.01; [lra | apply Rmax_l].
Qed.

(** X26.  Without movement input the human player brakes and never
    turns round: after [n] frames of [dt >= 0] the velocity is the one it
    had, scaled by a factor in [[0, 1]], and the speed is at most
    [speed - DECELERATION * n * dt], or at most [0.01] once that has run
    out, so after [speed / 30] seconds the player moves at no more than a
    centimetre a second. *)
Theorem player_brakes (n : nat) (p : Player.t) (deltaTime : R)
        (boundsMin boundsMax : Vec3) :
  glm.length (Player.m_inputDirection p) <= 0.01 -> 0 <= deltaTime ->
  let pn := playerFrames n p deltaTime boundsMin boundsMax in
  (exists k, 0 <= k <= 1
             /\ Player.m_velocity pn = glm.scale (Player.m_velocity p) k)
  /\ Player.getSpeed pn
     <= Rmax 0.01 (Player.getSpeed p
                   - Player.DECELERATION * (INR n * deltaTime))
  /\ (Player.getSpeed p <= Player.DECELERATION * (INR n * deltaTime) ->
      Player.getSpeed pn <= 0.01).
Proof.
  intros Hin Hdt pn.
  assert (H : Player.m_inputDirection pn = Player.m_inputDirection p
              /\ (exists k, 0 <= k <= 1
                            /\ Player.m_velocity pn
                               = glm.scale (Player.m_velocity p) k)
              /\ Player.getSpeed pn
                 <= Rmax 0.01 (Player.getSpeed p
                               - Player.DECELERATION * (INR n * deltaTime))).
  { unfold pn. clear pn. induction n as [| n IH].
    - unfold playerFrames, Nat.iter. cbn [nat_rect INR].
      split; [reflexivity |]. split.
      + exists 1. split; [lra |].
        unfold glm.scale. destruct (Player.m_velocity p); cbn; f_equal; ring.
      + apply Rle_trans with (Player.getSpeed p); [lra |].
        replace (Player.getSpeed p - Player.DECELERATION * (0 * deltaTime))
          with (Player.getSpeed p) by ring.
        apply Rmax_r.
    - destruct IH as (Iin & (k & Hk & Ik) & Is).
      unfold playerFrames in *. rewrite Nat.iter_succ.
      set (q := Nat.iter n
                  (fun q => Player.update q deltaTime boundsMin boundsMax) p)
        in *.
      destruct (brake_step q deltaTime boundsMin boundsMax) as ((k' & Hk' & Ek') & Es);
        [rewrite Iin; exact Hin | exact Hdt |].
      cbv zeta in Ek', Es.
      split; [rewrite update_input; exact Iin |]. split.
      + exists (k * k'). split; [split; nra |].
        rewrite Ek', Ik. unfold glm.scale. cbn [Vec3.x Vec3.y Vec3.z].
        f_equal; ring.
      + rewrite S_INR. eapply Rle_trans; [exact Es |].
        unfold Player.DECELERATION in *.
        apply Rmax_lub; [apply Rmax_l |].
        unfold Rmax in *.
        destruct (Rle_dec 0.01 (Player.getSpeed p - 30 * (INR n * deltaTime)));
          destruct (Rle_dec 0.01
                      (Player.getSpeed p - 30 * ((INR n + 1) * deltaTime)));
          nra. }
  destruct H as (_ & Hk & Hs).
  split; [exact Hk |]. split; [exact Hs |].
  intros Hstop. eapply Rle_trans; [exact Hs |].
  apply Rmax_lub; lra.
Qed.

Lemma player_brakes_witness :
  Player.getSpeed
    (playerFrames 10 runningPlayer 0.05 (Vec3.mk (- 50) 0 (- 30))
                  (Vec3.mk 50 0 30))
  <= 0.01.
Proof.
  apply (player_brakes 10 runningPlayer 0.05 (Vec3.mk (- 50) 0 (- 30))
                       (Vec3.mk 50 0 30)).
  - unfold runningPlayer, Player.init.
    cbn [Player.set_m_velocity Player.m_inputDirection].
    rewrite length_splat_zero. lra.
  - lra.
  - unfold Player.getSpeed, runningPlayer, Player.DECELERATION.
    cbn [Player.set_m_velocity Player.m_velocity INR].
    unfold glm.length, glm.dot. cbn [Vec3.x Vec3.y Vec3.z].
    apply sqrt_upper_bound; lra.
Defined.

(** * The AI players *)

(** ** Decisions *)

Ltac ai_fields :=
  cbn [AIPlayer.set_m_position AIPlayer.set_m_rotation
       AIPlayer.set_m_velocity AIPlayer.set_m_targetRotation
       AIPlayer.set_m_state AIPlayer.set_m_kickCooldown
       AIPlayer.set_m_animTime AIPlayer.set_target
       AIPlayer.setIsClosestChaser
       AIPlayer.m_position AIPlayer.m_velocity AIPlayer.m_homePosition
       AIPlayer.m_rotation AIPlayer.m_targetRotation AIPlayer.m_state
       AIPlayer.m_team AIPlayer.m_kickCooldown AIPlayer.m_animTime
       AIPlayer.m_isClosestChaser AIPlayer.m_isGoalkeeper
       AIPlayer.m_isDefender AIPlayer.m_targetPos
       AIPlayer.m_currentTargetSpeed].

(** The part of the player that [decideAction] does not write. *)
Lemma decideAction_keeps (p : AIPlayer) (ballPos ballVel : Vec3)
      (fieldLength : R) :
  let p' := AIPlayer.decideAction p ballPos ballVel fieldLength in
  AIPlayer.m_position p' = AIPlayer.m_position p
  /\ AIPlayer.m_velocity p' = AIPlayer.m_velocity p
  /\ AIPlayer.m_kickCooldown p' = AIPlayer.m_kickCooldown p
  /\ AIPlayer.m_team p' = AIPlayer.m_team p
  /\ AIPlayer.m_isGoalkeeper p' = AIPlayer.m_isGoalkeeper p
  /\ AIPlayer.m_isClosestChaser p' = AIPlayer.m_isClosestChaser p
  /\ 0 <= AIPlayer.m_currentTargetSpeed p' <= AIPlayer.MAX_SPEED.
Proof.
  unfold AIPlayer.decideAction. cbv zeta.
  match goal with
  | |- context [if ?c then _ else _] => destruct c
  end;
    unfold AIPlayer.chaseBall, AIPlayer.returnToPosition; cbv zeta; ai_fields;
    unfold AIPlayer.MAX_SPEED; repeat split; try reflexivity; lra.
Qed.

(** The state [decideAction] leaves, and who may chase. *)
Lemma decideAction_state (p : AIPlayer) (ballPos ballVel : Vec3)
      (fieldLength : R) :
  let p' := AIPlayer.decideAction p ballPos ballVel fieldLength in
  (AIPlayer.m_state p' = AIPlayer.ChaseBall
   \/ AIPlayer.m_state p' = AIPlayer.ReturnToPosition)
  /\ (AIPlayer.m_state p' = AIPlayer.ChaseBall ->
      AIPlayer.m_isGoalkeeper p = true \/ AIPlayer.m_isClosestChaser p = true).
Proof.
  unfold AIPlayer.decideAction. cbv zeta.
  destruct (AIPlayer.m_isGoalkeeper p);
    [ | destruct (AIPlayer.m_isClosestChaser p)];
    cbn [andb];
    try match goal with
        | |- context [if ?c then _ else _] => destruct c
        end;
    unfold AIPlayer.chaseBall, AIPlayer.returnToPosition; cbv zeta; ai_fields;
    (split; [auto | intros H; first [discriminate H | auto]]).
Qed.

(** X17.  What an AI player decides: after [decideAction] the state is
    [ChaseBall] or [ReturnToPosition]; an outfield player that is not its
    team's designated chaser never chases; nobody chases a ball [35] or
    more away, and a goalkeeper only one nearer than [15] and within [20]
    of its own goal line; a goalkeeper that returns aims at a point on its
    home X whose Z is within [2.66] of the goal's centre; the speed asked
    for is [MAX_SPEED] when chasing and half of it when returning. *)
Theorem decideAction_roles (p : AIPlayer) (ballPos ballVel : Vec3)
        (fieldLength : R) :
  let p' := AIPlayer.decideAction p ballPos ballVel fieldLength in
  let dist := AIPlayer.distanceToBall p ballPos in
  let goalX :=
    if (AIPlayer.m_team p =? 0)%Z then - fieldLength / 2 else fieldLength / 2 in
  (AIPlayer.m_state p' = AIPlayer.ChaseBall
   \/ AIPlayer.m_state p' = AIPlayer.ReturnToPosition)
  /\ (AIPlayer.m_isGoalkeeper p = false ->
      AIPlayer.m_isClosestChaser p = false ->
      AIPlayer.m_state p' = AIPlayer.ReturnToPosition)
  /\ (AIPlayer.m_state p' = AIPlayer.ChaseBall ->
      dist < 35
      /\ AIPlayer.m_currentTargetSpeed p' = AIPlayer.MAX_SPEED
      /\ AIPlayer.m_targetPos p'
         = set_y (glm.add ballPos (glm.scale ballVel 0.2)) 0
      /\ (AIPlayer.m_isGoalkeeper p = true ->
          dist < 15 /\ Rabs (Vec3.x ballPos - goalX) < 20))
  /\ (AIPlayer.m_state p' = AIPlayer.ReturnToPosition ->
      AIPlayer.m_currentTargetSpeed p' = AIPlayer.MAX_SPEED * 0.5
      /\ (AIPlayer.m_isGoalkeeper p = true ->
          Vec3.x (AIPlayer.m_targetPos p')
          = Vec3.x (AIPlayer.m_homePosition p)
          /\ - 2.66 <= Vec3.z (AIPlayer.m_targetPos p') <= 2.66)
      /\ (AIPlayer.m_isGoalkeeper p = false ->
          Vec3.z (AIPlayer.m_targetPos p')
          = Vec3.z (AIPlayer.m_homePosition p))).
Proof.
  intros p' dist goalX.
  assert (Hclamp : - 2.66 <= clamp (Vec3.z ballPos * 0.5)
                                   (- (7.32) / 2 + 1) (7.32 / 2 - 1) <= 2.66).
  { pose proof (clamp_range (Vec3.z ballPos * 0.5)
                  (- (7.32) / 2 + 1) (7.32 / 2 - 1) ltac:(lra)). lra. }
  assert (Hret :
    let q := AIPlayer.returnToPosition
               (AIPlayer.set_m_state p AIPlayer.ReturnToPosition)
               ballPos fieldLength 7.32 in
    AIPlayer.m_state q = AIPlayer.ReturnToPosition
    /\ AIPlayer.m_currentTargetSpeed q = AIPlayer.MAX_SPEED * 0.5
    /\ (AIPlayer.m_isGoalkeeper p = true ->
        Vec3.x (AIPlayer.m_targetPos q) = Vec3.x (AIPlayer.m_homePosition p)
        /\ - 2.66 <= Vec3.z (AIPlayer.m_targetPos q) <= 2.66)
    /\ (AIPlayer.m_isGoalkeeper p = false ->
        Vec3.z (AIPlayer.m_targetPos q)
        = Vec3.z (AIPlayer.m_homePosition p))).
  { unfold AIPlayer.returnToPosition. cbv zeta. ai_fields.
    split; [reflexivity |]. split; [reflexivity |].
    destruct (AIPlayer.m_isGoalkeeper p).
    - split; [intros _ | intros; discriminate].
      cbn [set_z Vec3.x Vec3.y Vec3.z]. split; [reflexivity | exact Hclamp].
    - split; [intros; discriminate | intros _].
      destruct (AIPlayer.m_isDefender p); reflexivity. }
  cbv zeta in Hret. destruct Hret as (Rs & Rv & Rg & Ro).
  assert (Hchase :
    let q := AIPlayer.chaseBall (AIPlayer.set_m_state p AIPlayer.ChaseBall)
                                ballPos ballVel in
    AIPlayer.m_state q = AIPlayer.ChaseBall
    /\ AIPlayer.m_currentTargetSpeed q = AIPlayer.MAX_SPEED
    /\ AIPlayer.m_targetPos q
       = set_y (glm.add ballPos (glm.scale ballVel 0.2)) 0).
  { unfold AIPlayer.chaseBall. cbv zeta. ai_fields. repeat split. }
  cbv zeta in Hchase. destruct Hchase as (Cs & Cv & Ct).
  assert (Hreturns :
    AIPlayer.m_state
      (AIPlayer.returnToPosition
         (AIPlayer.set_m_state p AIPlayer.ReturnToPosition)
         ballPos fieldLength 7.32) <> AIPlayer.ChaseBall)
    by (rewrite Rs; discriminate).
  unfold p', AIPlayer.decideAction. cbv zeta. fold dist. fold goalX.
  destruct (AIPlayer.m_isGoalkeeper p) eqn:Hgk.
  - (* goalkeeper *)
    cmp_cases (Rabs (Vec3.x ballPos - goalX)) 20;
      [ cmp_cases dist 15; [ cmp_cases dist 35 | ] | ];
      cbn [andb].
    + split; [left; exact Cs |]. split; [intros; discriminate |].
      split.
      * intros _. split; [lra |]. split; [exact Cv |]. split; [exact Ct |].
        intros _. split; lra.
      * intros Hs. rewrite Cs in Hs. discriminate Hs.
    + split; [right; exact Rs |]. split; [intros; discriminate |].
      split; [intros Hs; contradiction |].
      intros _. split; [exact Rv |]. split; [exact Rg | exact Ro].
    + split; [right; exact Rs |]. split; [intros; discriminate |].
      split; [intros Hs; contradiction |].
      intros _. split; [exact Rv |]. split; [exact Rg | exact Ro].
    + split; [right; exact Rs |]. split; [intros; discriminate |].
      split; [intros Hs; contradiction |].
      intros _. split; [exact Rv |]. split; [exact Rg | exact Ro].
  - (* outfield *)
    destruct (AIPlayer.m_isClosestChaser p) eqn:Hch.
    + destruct (if (AIPlayer.m_team p =? 0)%Z
                then Vec3.x ballPos <? 40 else Vec3.x ballPos >? - 40);
        [ cmp_cases dist 35 | ];
        cbn [andb].
      * split; [left; exact Cs |]. split; [intros; discriminate |].
        split.
        -- intros _. split; [lra |]. split; [exact Cv |].
           split; [exact Ct |]. intros; discriminate.
        -- intros Hs. rewrite Cs in Hs. discriminate Hs.
      * split; [right; exact Rs |]. split; [intros; discriminate |].
        split; [intros Hs; contradiction |].
        intros _. split; [exact Rv |]. split; [exact Rg | exact Ro].
      * split; [right; exact Rs |]. split; [intros; discriminate |].
        split; [intros Hs; contradiction |].
        intros _. split; [exact Rv |]. split; [exact Rg | exact Ro].
    + cbn [andb].
      split; [right; exact Rs |]. split; [intros; exact Rs |].
      split; [intros Hs; contradiction |].
      intros _. split; [exact Rv |]. split; [exact Rg | exact Ro].
Qed.

(** ** One frame of an AI player *)

(** What [moveToward] does not write. *)
Lemma moveToward_keeps (p : AIPlayer) (target : Vec3)
      (targetSpeed deltaTime : R) :
  let p' := AIPlayer.moveToward p target targetSpeed deltaTime in
  AIPlayer.m_kickCooldown p' = AIPlayer.m_kickCooldown p
  /\ AIPlayer.m_state p' = AIPlayer.m_state p
  /\ AIPlayer.m_team p' = AIPlayer.m_team p
  /\ AIPlayer.m_isGoalkeeper p' = AIPlayer.m_isGoalkeeper p
  /\ AIPlayer.m_isClosestChaser p' = AIPlayer.m_isClosestChaser p
  /\ AIPlayer.m_position p'
     = glm.add (AIPlayer.m_position p)
               (glm.scale (AIPlayer.m_velocity p') deltaTime).
Proof.
  unfold AIPlayer.moveToward. cbv zeta.
  repeat match goal with
         | |- context [if ?c then _ else _] => destruct c
         end; ai_fields; repeat split; reflexivity.
Qed.

(** The speed after [moveToward]. *)
Lemma moveToward_speed (p : AIPlayer) (target : Vec3)
      (targetSpeed deltaTime bound : R) :
  0 < deltaTime -> 0 <= targetSpeed <= bound ->
  glm.length (AIPlayer.m_velocity p) <= bound ->
  glm.length (AIPlayer.m_velocity
                (AIPlayer.moveToward p target targetSpeed deltaTime))
  <= bound.
Proof.
  intros Hdt [Hs0 Hs1] Hv.
  pose proof (length_nonneg (AIPlayer.m_velocity p)) as Hv0.
  unfold AIPlayer.moveToward. cbv zeta. ai_fields.
  set (toTarget := set_y (glm.sub target (AIPlayer.m_position p)) 0).
  cmp_cases 0.5 (glm.length toTarget).
  - set (targetVel := glm.scale (glm.normalize toTarget)
                        (fmin (glm.length toTarget * 2) targetSpeed)).
    assert (Hmin : 0 <= fmin (glm.length toTarget * 2) targetSpeed
                   <= targetSpeed).
    { unfold fmin. cmp_cases targetSpeed (glm.length toTarget * 2); lra. }
    assert (Ht : glm.length targetVel <= bound).
    { unfold targetVel. rewrite target_velocity_length; lra. }
    pose proof (accelerate_bound (AIPlayer.m_velocity p) targetVel
                  (AIPlayer.ACCELERATION * deltaTime) bound
                  ltac:(unfold AIPlayer.ACCELERATION; lra) Hv Ht) as Hacc.
    destruct (glm.length (glm.sub targetVel (AIPlayer.m_velocity p))
              <? AIPlayer.ACCELERATION * deltaTime); ai_fields; exact Hacc.
  - cmp_cases 0.1 (glm.length (AIPlayer.m_velocity p)); ai_fields.
    + rewrite length_scale by lra. lra.
    + rewrite length_splat_zero. lra.
Qed.

(** The stages of [AIPlayer::update]: the player after the cooldown,
    the decision and the move, the kick test, and what the rest of the
    frame makes of them. *)
Lemma AI_update_stages (rand : Rand.t) (p : AIPlayer) (deltaTime : R)
      (ball : BallState) (playerPos : Vec3)
      (fieldLength fieldWidth goalWidth : R) (k : Rand.state) :
  let p1 :=
    if AIPlayer.m_kickCooldown p >? 0
    then AIPlayer.set_m_kickCooldown p (AIPlayer.m_kickCooldown p - deltaTime)
    else p in
  let p2 := AIPlayer.decideAction p1 (position ball) (velocity ball)
                                  fieldLength in
  let p3 := AIPlayer.moveToward p2 (AIPlayer.m_targetPos p2)
                                (AIPlayer.m_currentTargetSpeed p2) deltaTime in
  let kicks :=
    (AIPlayer.distanceToBall p3 (position ball) <? AIPlayer.KICK_RANGE)
    && (AIPlayer.m_kickCooldown p3 <=? 0) && BallPhysics.isLow ball in
  let r := AIPlayer.update rand p deltaTime ball playerPos
                           fieldLength fieldWidth goalWidth k in
  AIPlayer.m_velocity (fst (fst r)) = AIPlayer.m_velocity p3
  /\ AIPlayer.m_position (fst (fst r))
     = Vec3.mk (clamp (Vec3.x (AIPlayer.m_position p3))
                      (- fieldLength / 2 + 1) (fieldLength / 2 - 1))
               (Vec3.y (AIPlayer.m_position p3))
               (clamp (Vec3.z (AIPlayer.m_position p3))
                      (- fieldWidth / 2 + 1) (fieldWidth / 2 - 1))
  /\ AIPlayer.m_kickCooldown (fst (fst r))
     = (if kicks then AIPlayer.KICK_COOLDOWN else AIPlayer.m_kickCooldown p3)
  /\ AIPlayer.m_state (fst (fst r)) = AIPlayer.m_state p3
  /\ AIPlayer.m_team (fst (fst r)) = AIPlayer.m_team p3
  /\ AIPlayer.m_isGoalkeeper (fst (fst r)) = AIPlayer.m_isGoalkeeper p3
  /\ AIPlayer.m_isClosestChaser (fst (fst r)) = AIPlayer.m_isClosestChaser p3
  /\ snd (fst r)
     = (if kicks
        then snd (fst (AIPlayer.tryKick rand p3 ball fieldLength k))
        else ball)
  /\ snd r = (if kicks then S k else k).
Proof.
  intros p1 p2 p3 kicks r.
  unfold r, AIPlayer.update. cbv zeta. fold p1. fold p2. fold p3. fold kicks.
  destruct kicks.
  - unfold AIPlayer.tryKick, Rand.next. cbv zeta beta iota.
    unfold AIPlayer.updateRotation. cbv zeta. ai_fields.
    match goal with
    | |- context [if ?c then _ else _] => destruct c
    end; ai_fields; cbn [fst snd set_x set_z Vec3.x Vec3.y Vec3.z];
      ai_fields; repeat split; reflexivity.
  - unfold AIPlayer.updateRotation. cbv zeta. ai_fields.
    match goal with
    | |- context [if ?c then _ else _] => destruct c
    end; ai_fields; cbn [fst snd set_x set_z Vec3.x Vec3.y Vec3.z];
      ai_fields; repeat split; reflexivity.
Qed.

(** X18.  What a frame of [dt > 0] keeps true of an AI player: it ends in
    the state [ChaseBall] or [ReturnToPosition], with its team and its
    roles unchanged; a speed of at most [MAX_SPEED] stays at most
    [MAX_SPEED]; and on a field at least two metres long and wide the
    player ends at least one metre inside the end lines and the side
    lines. *)
Theorem AI_update_invariants (rand : Rand.t) (p : AIPlayer) (deltaTime : R)
        (ball : BallState) (playerPos : Vec3)
        (fieldLength fieldWidth goalWidth : R) (k : Rand.state) :
  0 < deltaTime ->
  let p' := fst (fst (AIPlayer.update rand p deltaTime ball playerPos
                                      fieldLength fieldWidth goalWidth k)) in
  (AIPlayer.m_state p' = AIPlayer.ChaseBall
   \/ AIPlayer.m_state p' = AIPlayer.ReturnToPosition)
  /\ AIPlayer.m_team p' = AIPlayer.m_team p
  /\ AIPlayer.m_isGoalkeeper p' = AIPlayer.m_isGoalkeeper p
  /\ AIPlayer.m_isClosestChaser p' = AIPlayer.m_isClosestChaser p
  /\ (glm.length (AIPlayer.m_velocity p) <= AIPlayer.MAX_SPEED ->
      glm.length (AIPlayer.m_velocity p') <= AIPlayer.MAX_SPEED)
  /\ (2 <= fieldLength ->
      Rabs (Vec3.x (AIPlayer.m_position p')) <= fieldLength / 2 - 1)
  /\ (2 <= fieldWidth ->
      Rabs (Vec3.z (AIPlayer.m_position p')) <= fieldWidth / 2 - 1).
Proof.
  intros Hdt p'.
  destruct (AI_update_stages rand p deltaTime ball playerPos
              fieldLength fieldWidth goalWidth k)
    as (Hv & Hp & _ & Hs & Ht & Hg & Hc & _).
  cbv zeta in Hv, Hp, Hs, Ht, Hg, Hc. fold p' in Hv, Hp, Hs, Ht, Hg, Hc.
  set (p1 := if AIPlayer.m_kickCooldown p >? 0
             then AIPlayer.set_m_kickCooldown p
                    (AIPlayer.m_kickCooldown p - deltaTime)
             else p) in *.
  set (p2 := AIPlayer.decideAction p1 (position ball) (velocity ball)
                                   fieldLength) in *.
  assert (H1 : AIPlayer.m_velocity p1 = AIPlayer.m_velocity p
               /\ AIPlayer.m_team p1 = AIPlayer.m_team p
               /\ AIPlayer.m_isGoalkeeper p1 = AIPlayer.m_isGoalkeeper p
               /\ AIPlayer.m_isClosestChaser p1 = AIPlayer.m_isClosestChaser p).
  { unfold p1. destruct (AIPlayer.m_kickCooldown p >? 0);
      repeat split; reflexivity. }
  destruct H1 as (V1 & T1 & G1 & C1).
  destruct (decideAction_keeps p1 (position ball) (velocity ball) fieldLength)
    as (_ & V2 & _ & T2 & G2 & C2 & Hspeed).
  fold p2 in V2, T2, G2, C2, Hspeed.
  destruct (moveToward_keeps p2 (AIPlayer.m_targetPos p2)
              (AIPlayer.m_currentTargetSpeed p2) deltaTime)
    as (_ & S3 & T3 & G3 & C3 & _).
  cbv zeta in S3, T3, G3, C3.
  split; [ | split; [ | split; [ | split; [ | split; [ | split]]]]].
  - rewrite Hs, S3.
    apply (decideAction_state p1 (position ball) (velocity ball) fieldLength).
  - rewrite Ht, T3, T2, T1. reflexivity.
  - rewrite Hg, G3, G2, G1. reflexivity.
  - rewrite Hc, C3, C2, C1. reflexivity.
  - intros Hlim. rewrite Hv.
    apply moveToward_speed; [exact Hdt | exact Hspeed |].
    rewrite V2, V1. exact Hlim.
  - intros HL. rewrite Hp. cbn [Vec3.x]. rewrite Rabs_le_iff.
    pose proof (clamp_range
                  (Vec3.x (AIPlayer.m_position
                             (AIPlayer.moveToward p2 (AIPlayer.m_targetPos p2)
                                (AIPlayer.m_currentTargetSpeed p2) deltaTime)))
                  (- fieldLength / 2 + 1) (fieldLength / 2 - 1)
                  ltac:(lra)).
    lra.
  - intros HW. rewrite Hp. cbn [Vec3.z]. rewrite Rabs_le_iff.
    pose proof (clamp_range
                  (Vec3.z (AIPlayer.m_position
                             (AIPlayer.moveToward p2 (AIPlayer.m_targetPos p2)
                                (AIPlayer.m_currentTargetSpeed p2) deltaTime)))
                  (- fieldWidth / 2 + 1) (fieldWidth / 2 - 1)
                  ltac:(lra)).
    lra.
Qed.

Lemma AI_update_invariants_witness :
  glm.length
    (AIPlayer.m_velocity
       (fst (fst (AIPlayer.update (fun _ => 42%Z) (agentAt 10 0) 0.1 restBall
                                  (Vec3.mk 0 0 5) 105 68 7.32 0%nat))))
  <= AIPlayer.MAX_SPEED.
Proof.
  apply (AI_update_invariants (fun _ => 42%Z) (agentAt 10 0) 0.1 restBall
                              (Vec3.mk 0 0 5) 105 68 7.32 0%nat).
  - lra.
  - unfold agentAt, AIPlayer.init. ai_fields. rewrite length_splat_zero.
    unfold AIPlayer.MAX_SPEED. lra.
Defined.

(** ** The kick cooldown *)

(** Frames in which the cooldown does not run out. *)
Lemma aiFrames_cooling (rand : Rand.t) (deltaTime : R) (playerPos : Vec3)
      (fieldLength fieldWidth goalWidth : R) (balls : list BallState) :
  0 < deltaTime ->
  forall (p : AIPlayer) (k : Rand.state),
    INR (List.length balls) * deltaTime < AIPlayer.m_kickCooldown p ->
    let r := aiFrames rand p deltaTime balls playerPos
                      fieldLength fieldWidth goalWidth k in
    snd (fst r) = balls /\ snd r = k
    /\ AIPlayer.m_kickCooldown (fst (fst r))
       = AIPlayer.m_kickCooldown p - INR (List.length balls) * deltaTime.
Proof.
  intros Hdt. induction balls as [| ball rest IH]; intros p k Hlt.
  - cbn [aiFrames fst snd List.length INR]. repeat split. lra.
  - cbv zeta. cbn [aiFrames fst snd List.length]. cbn [List.length] in Hlt.
    rewrite S_INR in Hlt |- *.
    pose proof (pos_INR (List.length rest)) as Hn.
    destruct (AI_update_stages rand p deltaTime ball playerPos
                fieldLength fieldWidth goalWidth k)
      as (_ & _ & Hc & _ & _ & _ & _ & Hb & Hk).
    cbv zeta in Hc, Hb, Hk.
    set (r := AIPlayer.update rand p deltaTime ball playerPos
                              fieldLength fieldWidth goalWidth k) in *.
    set (p1 := if AIPlayer.m_kickCooldown p >? 0
               then AIPlayer.set_m_kickCooldown p
                      (AIPlayer.m_kickCooldown p - deltaTime)
               else p) in *.
    set (p2 := AIPlayer.decideAction p1 (position ball) (velocity ball)
                                     fieldLength) in *.
    set (p3 := AIPlayer.moveToward p2 (AIPlayer.m_targetPos p2)
                 (AIPlayer.m_currentTargetSpeed p2) deltaTime) in *.
    assert (Hc3 : AIPlayer.m_kickCooldown p3
                  = AIPlayer.m_kickCooldown p - deltaTime).
    { unfold p3.
      rewrite (proj1 (moveToward_keeps p2 (AIPlayer.m_targetPos p2)
                        (AIPlayer.m_currentTargetSpeed p2) deltaTime)).
      unfold p2.
      destruct (decideAction_keeps p1 (position ball) (velocity ball)
                  fieldLength) as (_ & _ & Hk2 & _).
      rewrite Hk2. unfold p1.
      rewrite (Rltb_true 0) by nra. reflexivity. }
    rewrite Hc3 in Hc, Hb, Hk.
    rewrite (Rleb_false (AIPlayer.m_kickCooldown p - deltaTime) 0) in Hc, Hb, Hk
      by nra.
    rewrite andb_false_r in Hc, Hb, Hk. cbn [andb] in Hc, Hb, Hk.
    destruct (IH (fst (fst r)) (snd r)) as (IHb & IHk & IHc).
    { rewrite Hc. nra. }
    cbv zeta in IHb, IHk, IHc.
    rewrite IHb, IHk, IHc, Hb, Hk, Hc.
    split; [reflexivity |]. split; [reflexivity |]. ring.
Qed.

(** X19.  An AI player that has kicked cannot touch the ball again
    until the cooldown of [KICK_COOLDOWN] (1.5) seconds is within one
    frame of its end: [tryKick] arms the cooldown, and in the frames of at
    least a millisecond that follow, as long as one more frame would still
    fit in the 1.5 seconds ([(n + 1) * dt <= 1.5] after [n] frames),
    [AIPlayer::update] leaves every ball it is given unchanged and draws
    no random number, the cooldown running down by [dt] a frame. *)
Theorem kick_cooldown_blocks (rand : Rand.t) (p : AIPlayer)
        (ball : BallState) (deltaTime : R) (balls : list BallState)
        (playerPos : Vec3) (fieldLength fieldWidth goalWidth : R)
        (k : Rand.state) :
  1 / 1000 <= deltaTime ->
  INR (List.length balls) * deltaTime + deltaTime <= AIPlayer.KICK_COOLDOWN ->
  let kicked := AIPlayer.tryKick rand p ball fieldLength k in
  let r := aiFrames rand (fst (fst kicked)) deltaTime balls playerPos
                    fieldLength fieldWidth goalWidth (snd kicked) in
  AIPlayer.m_kickCooldown (fst (fst kicked)) = AIPlayer.KICK_COOLDOWN
  /\ snd (fst r) = balls
  /\ snd r = snd kicked
  /\ AIPlayer.m_kickCooldown (fst (fst r))
     = AIPlayer.KICK_COOLDOWN - INR (List.length balls) * deltaTime.
Proof.
  intros Hdt Hlt kicked r.
  assert (Hdt0 : 0 < deltaTime) by lra.
  assert (Hk : AIPlayer.m_kickCooldown (fst (fst kicked))
               = AIPlayer.KICK_COOLDOWN) by reflexivity.
  split; [exact Hk |].
  rewrite <- Hk.
  apply aiFrames_cooling; [exact Hdt0 |]. rewrite Hk. lra.
Qed.

Lemma kick_cooldown_blocks_witness :
  snd (fst (aiFrames (fun _ => 42%Z)
              (fst (fst (AIPlayer.tryKick (fun _ => 42%Z) (agentAt 0 0)
                                          restBall 105 0%nat)))
              0.4 [restBall; restBall] (Vec3.mk 0 0 5) 105 68 7.32 1%nat))
  = [restBall; restBall].
Proof.
  apply (kick_cooldown_blocks (fun _ => 42%Z) (agentAt 0 0) restBall 0.4
           [restBall; restBall] (Vec3.mk 0 0 5) 105 68 7.32 0%nat).
  - lra.
  - unfold AIPlayer.KICK_COOLDOWN. cbn [List.length INR]. lra.
Defined.

(** ** The shot of an AI player *)

(** The lateral jitter of a shot. *)
Lemma rem_jitter (r : Z) :
  (0 <= r)%Z -> - 0.15 <= IZR (Z.rem r 100 - 50) / 100 * 0.3 <= 0.15.
Proof.
  intros Hr.
  destruct (Z.rem_bound_pos r 100 Hr ltac:(lia)) as [H0 H1].
  assert (Hlo : IZR (- 50) <= IZR (Z.rem r 100 - 50)) by (apply IZR_le; lia).
  assert (Hhi : IZR (Z.rem r 100 - 50) <= IZR 49) by (apply IZR_le; lia).
  lra.
Qed.

(** The jittered direction is not zero, and its unit vector makes a
    cosine of at least [0.98] with the direction it came from. *)
Lemma shot_cosine (gx gz d : R) :
  gx * gx + gz * gz = 1 -> - 0.15 <= d <= 0.15 ->
  let n2 := gx * gx + (gz + d) * (gz + d) in
  0 < n2 /\ 0.98 * sqrt n2 <= 1 + d * gz.
Proof.
  intros Hunit Hd n2.
  assert (Hgz : - 1 <= gz <= 1) by (split; nra).
  assert (Ha : - 0.15 <= d * gz <= 0.15) by (split; nra).
  assert (Hn : n2 = 1 + 2 * (d * gz) + d * d) by (unfold n2; nra).
  assert (Hpos : 0 < n2) by (rewrite Hn; nra).
  split; [exact Hpos |].
  assert (Hkey : (1 + d * gz) * (1 + d * gz)
                 = (1 - d * d) * n2 + (d * gz + d * d) * (d * gz + d * d))
    by (rewrite Hn; ring).
  assert (Hup : sqrt n2 <= (1 + d * gz) * (50 / 49)).
  { clearbody n2. apply sqrt_upper_bound; [lra |].
    pose proof (Rle_0_sqr (d * gz + d * d)) as Hsq. unfold Rsqr in Hsq.
    assert (Hd2 : d * d <= 0.0225) by nra.
    assert (H1 : 0.9604 * n2 <= (1 + d * gz) * (1 + d * gz)).
    { rewrite Hkey.
      assert (0.9604 * n2 <= (1 - d * d) * n2) by nra. lra. }
    replace ((1 + d * gz) * (50 / 49) * ((1 + d * gz) * (50 / 49)))
      with ((1 + d * gz) * (1 + d * gz) * (2500 / 2401)) by field.
    lra. }
  lra.
Qed.

(** X20.  The shot of an AI player: when the player is not exactly at
    the centre of the goal it attacks, [AIPlayer::tryKick] sends the ball
    off with a ground speed of exactly [KICK_POWER] (15) and a vertical
    velocity of [1], within a cosine of [0.98] of the direction of that
    goal (the random number only tilts the shot sideways); it arms the
    cooldown, draws exactly one random number, and leaves the ball's
    position and spin alone. *)
Theorem AI_tryKick_shot (rand : Rand.t) (p : AIPlayer) (ball : BallState)
        (fieldLength : R) (k : Rand.state) :
  0 < glm.length (goalDirection p fieldLength) ->
  (0 <= rand k)%Z ->
  let r := AIPlayer.tryKick rand p ball fieldLength k in
  let ball' := snd (fst r) in
  groundSpeed (velocity ball') = AIPlayer.KICK_POWER
  /\ Vec3.y (velocity ball') = 1
  /\ 0.98 * AIPlayer.KICK_POWER
     <= glm.dot (velocity ball') (glm.normalize (goalDirection p fieldLength))
  /\ position ball' = position ball
  /\ angularVelocity ball' = angularVelocity ball
  /\ AIPlayer.m_kickCooldown (fst (fst r)) = AIPlayer.KICK_COOLDOWN
  /\ snd r = S k.
Proof.
  intros Hgoal Hrand r ball'.
  set (g1 := glm.normalize (goalDirection p fieldLength)).
  set (d := IZR (Z.rem (rand k) 100 - 50) / 100 * 0.3).
  set (g2 := set_z g1 (Vec3.z g1 + d)).
  assert (Er : r = (AIPlayer.set_m_kickCooldown p AIPlayer.KICK_COOLDOWN,
                    set_velocity ball
                      (set_y (glm.scale (glm.normalize g2) AIPlayer.KICK_POWER)
                             1),
                    S k)).
  { unfold r, AIPlayer.tryKick, Rand.next. cbv zeta beta iota.
    unfold g2, d, g1, goalDirection.
    destruct (AIPlayer.m_team p =? 0)%Z; reflexivity. }
  assert (Hy1 : Vec3.y g1 = 0) by apply normalize_flat.
  assert (Hunit : Vec3.x g1 * Vec3.x g1 + Vec3.z g1 * Vec3.z g1 = 1).
  { pose proof (dot_normalize (goalDirection p fieldLength)
                  (length_positive_dot _ Hgoal)) as H.
    fold g1 in H. unfold glm.dot in H. rewrite Hy1 in H. lra. }
  destruct (shot_cosine (Vec3.x g1) (Vec3.z g1) d Hunit
              (rem_jitter (rand k) Hrand)) as [Hn2 Hcos].
  assert (Hdot2 : glm.dot g2 g2
                  = Vec3.x g1 * Vec3.x g1
                    + (Vec3.z g1 + d) * (Vec3.z g1 + d)).
  { unfold g2, glm.dot, set_z. cbn [Vec3.x Vec3.y Vec3.z]. rewrite Hy1. ring. }
  assert (Hpos2 : 0 < glm.dot g2 g2) by (rewrite Hdot2; exact Hn2).
  assert (Hs : 0 < sqrt (glm.dot g2 g2)) by (apply sqrt_lt_R0; exact Hpos2).
  assert (Hy3 : Vec3.y (glm.normalize g2) = 0).
  { unfold glm.normalize, glm.scale, g2, set_z. cbn [Vec3.x Vec3.y Vec3.z].
    rewrite Hy1. ring. }
  unfold ball'. rewrite Er. cbn [fst snd velocity set_velocity position
                                 angularVelocity].
  split; [ | split; [reflexivity | split; [ | repeat split]]].
  - unfold groundSpeed, set_y, glm.scale. cbn [Vec3.x Vec3.y Vec3.z].
    replace (Vec3.mk (Vec3.x (glm.normalize g2) * AIPlayer.KICK_POWER) 0
                     (Vec3.z (glm.normalize g2) * AIPlayer.KICK_POWER))
      with (glm.scale (glm.normalize g2) AIPlayer.KICK_POWER)
      by (unfold glm.scale; rewrite Hy3; f_equal; ring).
    rewrite length_scale by (unfold AIPlayer.KICK_POWER; lra).
    rewrite length_normalize by exact Hpos2. ring.
  - set (s := sqrt (glm.dot g2 g2)) in *.
    assert (Hx3 : Vec3.x (glm.normalize g2) = Vec3.x g1 / s).
    { unfold glm.normalize, glm.inversesqrt, glm.scale. fold s.
      unfold g2, set_z. cbn [Vec3.x Vec3.y Vec3.z]. unfold Rdiv. ring. }
    assert (Hz3 : Vec3.z (glm.normalize g2) = (Vec3.z g1 + d) / s).
    { unfold glm.normalize, glm.inversesqrt, glm.scale. fold s.
      unfold g2, set_z. cbn [Vec3.x Vec3.y Vec3.z]. unfold Rdiv. ring. }
    unfold glm.dot, set_y, glm.scale. cbn [Vec3.x Vec3.y Vec3.z].
    fold g1. rewrite Hy1, Hx3, Hz3.
    replace (Vec3.x g1 / s * AIPlayer.KICK_POWER * Vec3.x g1 + 1 * 0
             + (Vec3.z g1 + d) / s * AIPlayer.KICK_POWER * Vec3.z g1)
      with ((1 + d * Vec3.z g1) / s * AIPlayer.KICK_POWER).
    + assert (Hq : 0.98 <= (1 + d * Vec3.z g1) / s).
      { apply Rmult_le_reg_r with s; [exact Hs |].
        unfold Rdiv. rewrite Rmult_assoc, Rinv_l by lra.
        unfold s. rewrite Hdot2. lra. }
      unfold AIPlayer.KICK_POWER. nra.
    + replace (1 + d * Vec3.z g1)
        with (Vec3.x g1 * Vec3.x g1 + Vec3.z g1 * Vec3.z g1 + d * Vec3.z g1)
        by (rewrite Hunit; ring).
      field. lra.
Qed.

Lemma agent_faces_goal : 0 < glm.length (goalDirection (agentAt 0 0) 105).
Proof.
  unfold glm.length. apply sqrt_lt_R0.
  unfold glm.dot, goalDirection, agentAt, AIPlayer.init, glm.sub, set_y.
  ai_fields. cbn [Z.eqb Vec3.x Vec3.y Vec3.z]. lra.
Qed.

Lemma AI_tryKick_shot_witness :
  groundSpeed
    (velocity (snd (fst (AIPlayer.tryKick (fun _ => 42%Z) (agentAt 0 0)
                                          restBall 105 0%nat))))
  = AIPlayer.KICK_POWER.
Proof.
  apply (AI_tryKick_shot (fun _ => 42%Z) (agentAt 0 0) restBall 105 0%nat
                         agent_faces_goal).
  lia.
Defined.

(** ** Collisions of an AI player with the ball and the human player *)

(** A flat vector is its length times its unit vector. *)
Lemma flat_normalize (v : Vec3) :
  0 < glm.length (set_y v 0) ->
  set_y v 0 = glm.scale (glm.normalize (set_y v 0)) (glm.length (set_y v 0)).
Proof.
  intros H. unfold glm.normalize, glm.inversesqrt, glm.length in *.
  set (s := sqrt (glm.dot (set_y v 0) (set_y v 0))) in *.
  unfold glm.scale, set_y. cbn [Vec3.x Vec3.y Vec3.z].
  f_equal; field; lra.
Qed.

(** Stepping back from [b] along the line to it, by what is missing to
    the distance [m]. *)
Lemma back_off_distance (a b : Vec3) (m : R) :
  let d := horizontalDistance a b in
  let pushDir := glm.normalize (set_y (glm.sub b a) 0) in
  0 < d -> 0 <= m ->
  horizontalDistance (glm.sub a (glm.scale pushDir (m - d))) b = m.
Proof.
  intros d pushDir Hd Hm. unfold horizontalDistance in *.
  pose proof (flat_normalize (glm.sub b a) Hd) as Hflat.
  fold pushDir in Hflat. fold d in Hflat.
  pose proof (normalize_flat (glm.sub b a)) as Hy. fold pushDir in Hy.
  replace (set_y (glm.sub b (glm.sub a (glm.scale pushDir (m - d)))) 0)
    with (glm.scale pushDir m).
  - rewrite length_scale by exact Hm. unfold pushDir.
    rewrite length_normalize by (apply length_positive_dot; exact Hd). ring.
  - assert (Hx : Vec3.x (glm.sub b a) = Vec3.x pushDir * d)
      by (change (Vec3.x (glm.sub b a)) with (Vec3.x (set_y (glm.sub b a) 0));
          rewrite Hflat at 1; reflexivity).
    assert (Hz : Vec3.z (glm.sub b a) = Vec3.z pushDir * d)
      by (change (Vec3.z (glm.sub b a)) with (Vec3.z (set_y (glm.sub b a) 0));
          rewrite Hflat at 1; reflexivity).
    unfold glm.sub in Hx, Hz. cbn [Vec3.x Vec3.y Vec3.z] in Hx, Hz.
    unfold glm.scale, glm.sub, set_y. cbn [Vec3.x Vec3.y Vec3.z].
    rewrite Hy. clear Hflat. clearbody pushDir d.
    f_equal; [nra | ring | nra].
Qed.

(** X21.  An AI player does not walk through the ball: when the ball's
    horizontal distance from the player is between [0.01] and [0.5],
    [AIPlayer::handleBallCollision] puts the ball at exactly [0.5], along
    the line from the player to the ball, and otherwise leaves the ball
    alone; the ball's height and velocity never change.  After the call
    the ball is never strictly between [0.01] and [0.5] from the
    player. *)
Theorem AI_handleBallCollision_pushes_out (p : AIPlayer) (ball : BallState) :
  let d := AIPlayer.distanceToBall p (position ball) in
  let ball' := AIPlayer.handleBallCollision p ball in
  let d' := AIPlayer.distanceToBall p (position ball') in
  (0.01 < d < 0.5 -> d' = 0.5)
  /\ (d <= 0.01 \/ 0.5 <= d -> ball' = ball)
  /\ Vec3.y (position ball') = Vec3.y (position ball)
  /\ velocity ball' = velocity ball
  /\ (d' <= 0.01 \/ 0.5 <= d').
Proof.
  intros d ball' d'.
  assert (Hfacts : (0.01 < d < 0.5 -> d' = 0.5)
                   /\ (d <= 0.01 \/ 0.5 <= d -> ball' = ball)
                   /\ Vec3.y (position ball') = Vec3.y (position ball)
                   /\ velocity ball' = velocity ball).
  { unfold d', ball', AIPlayer.handleBallCollision. cbv zeta. fold d.
    cmp_cases d 0.5; [cmp_cases 0.01 d | ]; cbn [andb].
    - split; [intros _ | split; [intros [H | H]; lra | split; reflexivity]].
      cbn [set_position position set_x set_z Vec3.x Vec3.y Vec3.z].
      apply (push_to_distance (AIPlayer.m_position p) (position ball));
        [ | lra].
      change (horizontalDistance (AIPlayer.m_position p) (position ball))
        with d. lra.
    - split; [intros; lra | repeat split; reflexivity].
    - split; [intros; lra | repeat split; reflexivity]. }
  destruct Hfacts as (Hpush & Hkeep & Hy & Hv).
  split; [exact Hpush |]. split; [exact Hkeep |]. split; [exact Hy |].
  split; [exact Hv |].
  destruct (Rle_dec d 0.01) as [Hle | Hgt].
  - left. unfold d'. rewrite Hkeep by (left; exact Hle). exact Hle.
  - destruct (Rlt_dec d 0.5) as [Hlt | Hge].
    + right. rewrite Hpush by lra. lra.
    + right. unfold d'. rewrite Hkeep by (right; lra). fold d. lra.
Qed.

(** X22.  An AI player makes room for the human player: when their
    horizontal distance is between [0.01] and [0.8],
    [AIPlayer::handlePlayerCollision] moves the AI player straight away
    from the human player to a distance of exactly [0.8], and otherwise
    leaves it alone; only the AI player's position is written.  After the
    call the two are never strictly between [0.01] and [0.8] apart. *)
Theorem AI_handlePlayerCollision_backs_off (p : AIPlayer) (playerPos : Vec3) :
  let d := horizontalDistance (AIPlayer.m_position p) playerPos in
  let p' := AIPlayer.handlePlayerCollision p playerPos in
  let d' := horizontalDistance (AIPlayer.m_position p') playerPos in
  (0.01 < d < 0.8 -> d' = 0.8)
  /\ (d <= 0.01 \/ 0.8 <= d -> p' = p)
  /\ p' = AIPlayer.set_m_position p (AIPlayer.m_position p')
  /\ Vec3.y (AIPlayer.m_position p') = Vec3.y (AIPlayer.m_position p)
  /\ (d' <= 0.01 \/ 0.8 <= d').
Proof.
  intros d p' d'.
  assert (Hfacts : (0.01 < d < 0.8 -> d' = 0.8)
                   /\ (d <= 0.01 \/ 0.8 <= d -> p' = p)
                   /\ p' = AIPlayer.set_m_position p (AIPlayer.m_position p')
                   /\ Vec3.y (AIPlayer.m_position p')
                      = Vec3.y (AIPlayer.m_position p)).
  { unfold d', p', AIPlayer.handlePlayerCollision. cbv zeta.
    change (glm.length (set_y (glm.sub playerPos (AIPlayer.m_position p)) 0))
      with d.
    assert (Hsame : p = AIPlayer.set_m_position p (AIPlayer.m_position p))
      by (destruct p; reflexivity).
    cmp_cases d 0.8; [cmp_cases 0.01 d | ]; cbn [andb].
    - split; [intros _ | split; [intros [H | H]; lra | split]].
      + ai_fields.
        apply (back_off_distance (AIPlayer.m_position p) playerPos 0.8);
          [ | lra].
        change (horizontalDistance (AIPlayer.m_position p) playerPos) with d.
        lra.
      + reflexivity.
      + ai_fields. unfold glm.sub, glm.scale. cbn [Vec3.x Vec3.y Vec3.z].
        rewrite normalize_flat. ring.
    - split; [intros; lra | split; [reflexivity | split; [exact Hsame |]]].
      reflexivity.
    - split; [intros; lra | split; [reflexivity | split; [exact Hsame |]]].
      reflexivity. }
  destruct Hfacts as (Hpush & Hkeep & Hpos & Hy).
  split; [exact Hpush |]. split; [exact Hkeep |]. split; [exact Hpos |].
  split; [exact Hy |].
  destruct (Rle_dec d 0.01) as [Hle | Hgt].
  - left. unfold d'. rewrite Hkeep by (left; exact Hle). exact Hle.
  - destruct (Rlt_dec d 0.8) as [Hlt | Hge].
    + right. rewrite Hpush by lra. lra.
    + right. unfold d'. rewrite Hkeep by (right; lra). fold d. lra.
Qed.

(** * The roster of AI players *)

(** ** The flags of [findClosestChasers] *)

Lemma flag_roster (c : AIManager.closest) (ps : list AIPlayer) (i : nat) :
  sameRoster (AIManager.flag c i ps) ps.
Proof.
  revert i. induction ps as [| p ps IH]; intros i; cbn [AIManager.flag].
  - constructor.
  - constructor; [split; reflexivity | apply IH].
Qed.

Lemma sameRoster_trans (ps qs rs : list AIPlayer) :
  sameRoster ps qs -> sameRoster qs rs -> sameRoster ps rs.
Proof.
  intros H. revert rs. induction H as [| p q ps qs [Ht Hg] _ IH]; intros rs Hq.
  - inversion Hq. constructor.
  - inversion Hq as [| q' r qs' rs' [Ht' Hg'] Hrest]; subst.
    constructor; [split; congruence | apply IH; exact Hrest].
Qed.

Lemma sameRoster_nth (ps qs : list AIPlayer) (i : nat) (p : AIPlayer) :
  sameRoster ps qs -> nth_error ps i = Some p ->
  exists q, nth_error qs i = Some q
            /\ AIPlayer.m_team p = AIPlayer.m_team q
            /\ AIPlayer.m_isGoalkeeper p = AIPlayer.m_isGoalkeeper q.
Proof.
  intros H. revert i. induction H as [| p0 q0 ps qs [Ht Hg] _ IH]; intros i Hp.
  - destruct i; discriminate.
  - destruct i as [| i]; cbn [nth_error] in *.
    + inversion Hp; subst. exists q0. auto.
    + apply IH. exact Hp.
Qed.

(** A flagged player sits at the index kept for its own team. *)
Lemma flagged_owner (ps : list AIPlayer) (ballPos : Vec3) (i : nat)
      (q : AIPlayer) :
  (Z.of_nat (List.length ps) <= i32.max_signed)%Z ->
  let c := AIManager.scan ballPos 0 ps (AIManager.mkClosest (-1) (-1) 999 999) in
  nth_error (AIManager.findClosestChasers ps ballPos) i = Some q ->
  AIPlayer.m_isClosestChaser q = true ->
  (Z.of_nat i = AIManager.closestRedIdx c /\ AIPlayer.m_team q = 0%Z)
  \/ (Z.of_nat i = AIManager.closestBlueIdx c /\ AIPlayer.m_team q = 1%Z).
Proof.
  intros Hlen c Hq Hflag.
  destruct (scan_result ballPos ps Hlen) as [Hred Hblue].
  fold c in Hred, Hblue.
  rewrite findClosestChasers_nth in Hq. fold c in Hq.
  destruct (nth_error ps i) as [p |] eqn:Hp; [ | discriminate].
  cbn [option_map] in Hq. inversion Hq as [Eq]. clear Hq.
  assert (Hi : (i < List.length ps)%nat) by (apply nth_error_Some; congruence).
  rewrite i32_wrap_small in Eq by lia.
  rewrite <- Eq in Hflag. cbn [AIPlayer.setIsClosestChaser
                                AIPlayer.m_isClosestChaser] in Hflag.
  assert (Hteam : AIPlayer.m_team q = AIPlayer.m_team p)
    by (rewrite <- Eq; reflexivity).
  apply orb_prop in Hflag. destruct Hflag as [Hr | Hb].
  - left. apply Z.eqb_eq in Hr. split; [exact Hr |].
    destruct Hred as [(Hnone & _) | (j & pj & Hidx & _ & Hnj & Hel & _)].
    + lia.
    + assert (j = i) by lia. subst j.
      assert (pj = p) by congruence. subst pj.
      transitivity (AIPlayer.m_team p); [reflexivity |].
      apply (eligible_team 0 i p Hel).
  - right. apply Z.eqb_eq in Hb. split; [exact Hb |].
    destruct Hblue as [(Hnone & _) | (j & pj & Hidx & _ & Hnj & Hel & _)].
    + lia.
    + assert (j = i) by lia. subst j.
      assert (pj = p) by congruence. subst pj.
      transitivity (AIPlayer.m_team p); [reflexivity |].
      apply (eligible_team 1 i p Hel).
Qed.

(** No team has two flagged players. *)
Lemma flagged_unique (ps : list AIPlayer) (ballPos : Vec3) (i j : nat)
      (qi qj : AIPlayer) :
  (Z.of_nat (List.length ps) <= i32.max_signed)%Z ->
  nth_error (AIManager.findClosestChasers ps ballPos) i = Some qi ->
  nth_error (AIManager.findClosestChasers ps ballPos) j = Some qj ->
  AIPlayer.m_isClosestChaser qi = true ->
  AIPlayer.m_isClosestChaser qj = true ->
  AIPlayer.m_team qi = AIPlayer.m_team qj -> i = j.
Proof.
  intros Hlen Hi Hj Hfi Hfj Hteam.
  destruct (flagged_owner ps ballPos i qi Hlen Hi Hfi) as [[Ei Ti] | [Ei Ti]];
    destruct (flagged_owner ps ballPos j qj Hlen Hj Hfj) as [[Ej Tj] | [Ej Tj]];
    cbv zeta in *; try lia.
Qed.

(** ** One frame of the roster *)

(** What a frame makes of a player. *)
Lemma AI_update_afterFrame (rand : Rand.t) (p : AIPlayer) (deltaTime : R)
      (ball : BallState) (playerPos : Vec3)
      (fieldLength fieldWidth goalWidth : R) (k : Rand.state) :
  afterFrame deltaTime
    (fst (fst (AIPlayer.update rand p deltaTime ball playerPos
                               fieldLength fieldWidth goalWidth k)))
    p.
Proof.
  unfold afterFrame.
  set (p' := fst (fst (AIPlayer.update rand p deltaTime ball playerPos
                                       fieldLength fieldWidth goalWidth k))).
  destruct (AI_update_stages rand p deltaTime ball playerPos
              fieldLength fieldWidth goalWidth k)
    as (Hv & _ & _ & Hs & Ht & Hg & Hc & _).
  cbv zeta in Hv, Hs, Ht, Hg, Hc. fold p' in Hv, Hs, Ht, Hg, Hc.
  set (p1 := if AIPlayer.m_kickCooldown p >? 0
             then AIPlayer.set_m_kickCooldown p
                    (AIPlayer.m_kickCooldown p - deltaTime)
             else p) in *.
  set (p2 := AIPlayer.decideAction p1 (position ball) (velocity ball)
                                   fieldLength) in *.
  assert (H1 : AIPlayer.m_velocity p1 = AIPlayer.m_velocity p
               /\ AIPlayer.m_team p1 = AIPlayer.m_team p
               /\ AIPlayer.m_isGoalkeeper p1 = AIPlayer.m_isGoalkeeper p
               /\ AIPlayer.m_isClosestChaser p1 = AIPlayer.m_isClosestChaser p).
  { unfold p1. destruct (AIPlayer.m_kickCooldown p >? 0);
      repeat split; reflexivity. }
  destruct H1 as (V1 & T1 & G1 & C1).
  destruct (decideAction_keeps p1 (position ball) (velocity ball) fieldLength)
    as (_ & V2 & _ & T2 & G2 & C2 & Hspeed).
  fold p2 in V2, T2, G2, C2, Hspeed.
  destruct (decideAction_state p1 (position ball) (velocity ball) fieldLength)
    as (Hstate & Hchase).
  fold p2 in Hstate, Hchase.
  destruct (moveToward_keeps p2 (AIPlayer.m_targetPos p2)
              (AIPlayer.m_currentTargetSpeed p2) deltaTime)
    as (_ & S3 & T3 & G3 & C3 & _).
  cbv zeta in S3, T3, G3, C3.
  split; [rewrite Ht, T3, T2, T1; reflexivity |].
  split; [rewrite Hg, G3, G2, G1; reflexivity |].
  split; [rewrite Hc, C3, C2, C1; reflexivity |].
  split; [rewrite Hs, S3; exact Hstate |].
  split.
  - intros Hst. rewrite Hs, S3 in Hst. rewrite <- G1, <- C1. apply Hchase.
    exact Hst.
  - intros Hdt Hlim. rewrite Hv.
    apply moveToward_speed; [exact Hdt | exact Hspeed |].
    rewrite V2, V1. exact Hlim.
Qed.

Lemma updatePlayers_afterFrame (rand : Rand.t) (deltaTime : R)
      (playerPos : Vec3) (fieldLength fieldWidth goalWidth : R)
      (ps : list AIPlayer) :
  forall (ball : BallState) (k : Rand.state),
    Forall2 (afterFrame deltaTime)
      (fst (fst (AIManager.updatePlayers rand ps deltaTime ball playerPos
                   fieldLength fieldWidth goalWidth k)))
      ps.
Proof.
  induction ps as [| p ps IH]; intros ball k; cbn [AIManager.updatePlayers].
  - constructor.
  - pose proof (AI_update_afterFrame rand p deltaTime ball playerPos
                  fieldLength fieldWidth goalWidth k) as Hp.
    destruct (AIPlayer.update rand p deltaTime ball playerPos
                fieldLength fieldWidth goalWidth k) as [[p' ball'] k'].
    cbn [fst snd] in Hp.
    specialize (IH ball' k').
    destruct (AIManager.updatePlayers rand ps deltaTime ball' playerPos
                fieldLength fieldWidth goalWidth k') as [[ps' ball''] k''].
    cbn [fst snd] in IH |- *.
    constructor; [exact Hp | exact IH].
Qed.

(** ** Collisions leave the standing alone *)

Lemma handlePlayerCollision_standing (p : AIPlayer) (playerPos : Vec3) :
  standing (AIPlayer.handlePlayerCollision p playerPos) = standing p.
Proof.
  unfold AIPlayer.handlePlayerCollision. cbv zeta.
  match goal with
  | |- context [if ?c then _ else _] => destruct c
  end; reflexivity.
Qed.

Lemma handleAICollision_standing (self other : AIPlayer) :
  standing (fst (AIPlayer.handleAICollision self other)) = standing self
  /\ standing (snd (AIPlayer.handleAICollision self other)) = standing other.
Proof.
  unfold AIPlayer.handleAICollision. cbv zeta.
  match goal with
  | |- context [if ?c then _ else _] => destruct c
  end; split; reflexivity.
Qed.

Lemma collideBallAndHuman_standing (playerPos : Vec3) (ps : list AIPlayer) :
  forall ball : BallState,
    map standing (fst (AIManager.collideBallAndHuman ps ball playerPos))
    = map standing ps.
Proof.
  induction ps as [| p ps IH]; intros ball;
    cbn [AIManager.collideBallAndHuman].
  - reflexivity.
  - specialize (IH (AIPlayer.handleBallCollision p ball)).
    destruct (AIManager.collideBallAndHuman ps
                (AIPlayer.handleBallCollision p ball) playerPos)
      as [ps' ball'].
    cbn [fst map] in IH |- *.
    rewrite handlePlayerCollision_standing, IH. reflexivity.
Qed.

Lemma collideWith_standing (rest : list AIPlayer) :
  forall p : AIPlayer,
    standing (fst (AIManager.collideWith p rest)) = standing p
    /\ map standing (snd (AIManager.collideWith p rest)) = map standing rest.
Proof.
  induction rest as [| q rest IH]; intros p; cbn [AIManager.collideWith].
  - split; reflexivity.
  - destruct (handleAICollision_standing p q) as [Hp Hq].
    destruct (AIPlayer.handleAICollision p q) as [p1 q1].
    cbn [fst snd] in Hp, Hq.
    destruct (IH p1) as [IHp IHrest].
    destruct (AIManager.collideWith p1 rest) as [p2 rest'].
    cbn [fst snd map] in *.
    split; [congruence |]. rewrite Hq, IHrest. reflexivity.
Qed.

Lemma collidePairs_standing (n : nat) :
  forall ps : list AIPlayer,
    map standing (AIManager.collidePairs n ps) = map standing ps.
Proof.
  induction n as [| n IH]; intros ps; cbn [AIManager.collidePairs].
  - destruct ps; reflexivity.
  - destruct ps as [| p rest]; [reflexivity |].
    destruct (collideWith_standing rest p) as [Hp Hrest].
    destruct (AIManager.collideWith p rest) as [p' rest'].
    cbn [fst snd map] in *.
    rewrite Hp, IH, Hrest. reflexivity.
Qed.

Lemma handleCollisions_standing (ps : list AIPlayer) (ball : BallState)
      (playerPos : Vec3) :
  map standing (fst (AIManager.handleCollisions ps ball playerPos))
  = map standing ps.
Proof.
  unfold AIManager.handleCollisions.
  pose proof (collideBallAndHuman_standing playerPos ps ball) as H.
  destruct (AIManager.collideBallAndHuman ps ball playerPos) as [ps' ball'].
  cbn [fst] in H |- *. rewrite collidePairs_standing. exact H.
Qed.

(** Players of equal standing at the same index. *)
Lemma standing_nth (ps qs : list AIPlayer) (i : nat) (p : AIPlayer) :
  map standing ps = map standing qs -> nth_error ps i = Some p ->
  exists q, nth_error qs i = Some q /\ standing p = standing q.
Proof.
  intros Hmap Hp.
  pose proof (f_equal (fun l => nth_error l i) Hmap) as H. cbn beta in H.
  rewrite !nth_error_map, Hp in H.
  destruct (nth_error qs i) as [q |]; cbn [option_map] in H; [ | discriminate].
  exists q. split; [reflexivity |]. congruence.
Qed.

Lemma Forall2_nth (A B : Type) (P : A -> B -> Prop) (xs : list A)
      (ys : list B) (i : nat) (x : A) :
  Forall2 P xs ys -> nth_error xs i = Some x ->
  exists y, nth_error ys i = Some y /\ P x y.
Proof.
  intros H. revert i. induction H as [| x0 y0 xs ys H0 _ IH]; intros i Hx.
  - destruct i; discriminate.
  - destruct i as [| i]; cbn [nth_error] in *.
    + inversion Hx; subst. exists y0. split; [reflexivity | exact H0].
    + apply IH. exact Hx.
Qed.

Lemma standing_roster (ps qs : list AIPlayer) :
  map standing ps = map standing qs -> sameRoster ps qs.
Proof.
  revert qs. induction ps as [| p ps IH]; intros qs H.
  - destruct qs; [constructor | discriminate].
  - destruct qs as [| q qs]; [discriminate |].
    cbn [map] in H. injection H as Ht Hg _ _ _ Hrest.
    constructor; [ | apply IH; exact Hrest].
    split; assumption.
Qed.

(** The roster after [AIManager::update]: the players keep, through the
    collisions, the standing their own frame left them with, and that
    frame started from the roster as [findClosestChasers] flags it. *)
Lemma AIManager_update_stages (rand : Rand.t) (ps : list AIPlayer)
      (deltaTime : R) (ball : BallState) (playerPos : Vec3)
      (fieldLength fieldWidth goalWidth : R) (k : Rand.state) :
  exists ps1 : list AIPlayer,
    map standing
        (fst (fst (AIManager.update rand ps deltaTime ball playerPos
                                    fieldLength fieldWidth goalWidth k)))
    = map standing ps1
    /\ Forall2 (afterFrame deltaTime) ps1
               (AIManager.findClosestChasers ps (position ball)).
Proof.
  unfold AIManager.update. cbv zeta.
  set (qs := AIManager.findClosestChasers ps (position ball)).
  pose proof (updatePlayers_afterFrame rand deltaTime playerPos
                fieldLength fieldWidth goalWidth qs ball k) as H1.
  destruct (AIManager.updatePlayers rand qs deltaTime ball playerPos
              fieldLength fieldWidth goalWidth k) as [[ps1 ball1] k1].
  cbn [fst snd] in H1.
  pose proof (handleCollisions_standing ps1 ball1 playerPos) as H2.
  destruct (AIManager.handleCollisions ps1 ball1 playerPos) as [ps2 ball2].
  cbn [fst snd] in H2 |- *.
  exists ps1. split; [exact H2 | exact H1].
Qed.

Lemma afterFrame_roster (deltaTime : R) (ps qs : list AIPlayer) :
  Forall2 (afterFrame deltaTime) ps qs -> sameRoster ps qs.
Proof.
  intros H. eapply Forall2_impl; [ | exact H].
  intros a b (Ht & Hg & _). split; assumption.
Qed.

(** The roster stays the one [createTeams] built. *)
Lemma AIManager_update_roster (rand : Rand.t) (ps : list AIPlayer)
      (deltaTime : R) (ball : BallState) (playerPos : Vec3)
      (fieldLength fieldWidth goalWidth : R) (k : Rand.state)
      (createdLength : R) :
  sameRoster ps (AIManager.createTeams createdLength) ->
  sameRoster (fst (fst (AIManager.update rand ps deltaTime ball playerPos
                                         fieldLength fieldWidth goalWidth k)))
             (AIManager.createTeams createdLength).
Proof.
  intros Hroster.
  destruct (AIManager_update_stages rand ps deltaTime ball playerPos
              fieldLength fieldWidth goalWidth k) as (ps1 & H2 & H1).
  apply (sameRoster_trans _ ps1); [apply standing_roster; exact H2 |].
  apply (sameRoster_trans ps1 (AIManager.findClosestChasers ps (position ball)));
    [apply (afterFrame_roster deltaTime); exact H1 |].
  apply (sameRoster_trans _ ps); [apply flag_roster | exact Hroster].
Qed.

(** X23.  A frame of the AI manager keeps the roster and lets at most one
    outfield player per team chase: on a roster that descends from
    [createTeams], after [AIManager::update] the players are the same
    eleven, in order, each with its team and its goalkeeper role; each is
    in the state [ChaseBall] or [ReturnToPosition]; and two outfield
    players of the same team are never both chasing the ball. *)
Theorem AIManager_update_one_chaser (rand : Rand.t) (ps : list AIPlayer)
        (deltaTime : R) (ball : BallState) (playerPos : Vec3)
        (fieldLength fieldWidth goalWidth : R) (k : Rand.state)
        (createdLength : R) :
  sameRoster ps (AIManager.createTeams createdLength) ->
  let ps' := fst (fst (AIManager.update rand ps deltaTime ball playerPos
                                        fieldLength fieldWidth goalWidth k)) in
  sameRoster ps' (AIManager.createTeams createdLength)
  /\ (forall i j pi pj,
         nth_error ps' i = Some pi -> nth_error ps' j = Some pj ->
         AIPlayer.m_team pi = AIPlayer.m_team pj ->
         outfieldChaser pi -> outfieldChaser pj -> i = j)
  /\ (forall p, In p ps' ->
                AIPlayer.m_state p = AIPlayer.ChaseBall
                \/ AIPlayer.m_state p = AIPlayer.ReturnToPosition).
Proof.
  intros Hroster ps'.
  set (qs := AIManager.findClosestChasers ps (position ball)).
  destruct (AIManager_update_stages rand ps deltaTime ball playerPos
              fieldLength fieldWidth goalWidth k) as (ps1 & H2 & H1).
  fold ps' in H2. fold qs in H1.
  destruct (sameRoster_goalkeepers _ _ Hroster) as [Hlen _].
  assert (Hl : (Z.of_nat (List.length ps) <= i32.max_signed)%Z)
    by (rewrite Hlen; unfold i32.max_signed; lia).
  (* the flagged player behind an outfield chaser *)
  assert (Hback : forall i pi,
             nth_error ps' i = Some pi -> outfieldChaser pi ->
             exists qi, nth_error qs i = Some qi
                        /\ AIPlayer.m_isClosestChaser qi = true
                        /\ AIPlayer.m_team qi = AIPlayer.m_team pi).
  { intros i pi Hi [Hgk Hst].
    destruct (standing_nth ps' ps1 i pi H2 Hi) as (p1 & Hn1 & Hs1).
    unfold standing in Hs1. injection Hs1 as Ht1 Hg1 _ Hst1 _.
    destruct (Forall2_nth _ _ _ ps1 qs i p1 H1 Hn1)
      as (qi & Hnq & Ht & Hg & _ & _ & Hchase & _).
    exists qi. split; [exact Hnq |].
    split; [ | congruence].
    destruct Hchase as [Hk | Hc]; [congruence | congruence | exact Hc]. }
  split; [ | split].
  - apply AIManager_update_roster. exact Hroster.
  - intros i j pi pj Hi Hj Hteam Hci Hcj.
    destruct (Hback i pi Hi Hci) as (qi & Hqi & Hfi & Hti).
    destruct (Hback j pj Hj Hcj) as (qj & Hqj & Hfj & Htj).
    apply (flagged_unique ps (position ball) i j qi qj Hl Hqi Hqj Hfi Hfj).
    congruence.
  - intros p Hin.
    destruct (In_nth_error _ _ Hin) as [i Hi].
    destruct (standing_nth ps' ps1 i p H2 Hi) as (p1 & Hn1 & Hs1).
    unfold standing in Hs1. injection Hs1 as _ _ _ Hst1 _.
    destruct (Forall2_nth _ _ _ ps1 qs i p1 H1 Hn1)
      as (qi & _ & _ & _ & _ & Hst & _).
    rewrite Hst1. exact Hst.
Qed.

Lemma AIManager_update_one_chaser_witness :
  sameRoster
    (fst (fst (AIManager.update (fun _ => 42%Z) (AIManager.createTeams 105)
                 0.1 restBall (Vec3.mk 0 0 5) 105 68 7.32 0%nat)))
    (AIManager.createTeams 105).
Proof.
  apply (AIManager_update_one_chaser (fun _ => 42%Z)
           (AIManager.createTeams 105) 0.1 restBall (Vec3.mk 0 0 5)
           105 68 7.32 0%nat 105 (sameRoster_refl _)).
Defined.

(** * The frames of the application *)

(** ** The height of the ball through a frame *)

Lemma Ball_update_height (ball : BallState) (deltaTime : R)
      (bounds : FieldBounds) :
  BallPhysics.BALL_RADIUS
  <= Vec3.y (position (Ball.update ball deltaTime bounds)).
Proof.
  unfold Ball.update, BallPhysics.update, BallPhysics.integrate.
  rewrite handleFieldBoundaries_y, applyRollingFriction_position.
  apply handleGroundCollision_y.
Qed.

Lemma handleBoundaryCollision_height (m : Match.t) (ball : BallState) :
  Vec3.y (position (Match.handleBoundaryCollision m ball))
  = Vec3.y (position ball).
Proof.
  unfold Match.handleBoundaryCollision. cbv zeta.
  repeat match goal with
         | |- context [if ?c then _ else _] => destruct c
         end; reflexivity.
Qed.

Lemma Player_handleBallCollision_height (rand : Rand.t) (p : Player.t)
      (ball : BallState) (deltaTime touchTimer : R) (k : Rand.state) :
  Vec3.y (position (fst (fst (Player.handleBallCollision
                                rand p ball deltaTime touchTimer k))))
  = Vec3.y (position ball).
Proof.
  unfold Player.handleBallCollision. cbv zeta.
  set (c := (_ <? Player.DRIBBLE_RANGE) && _ && _).
  pose proof (dribble_guard_position rand p ball deltaTime touchTimer k c)
    as Hpos.
  destruct (if c then Player.dribble rand p ball deltaTime touchTimer k
            else (ball, touchTimer, k)) as [[b1 t1] k1].
  cbn [fst snd] in Hpos |- *.
  repeat match goal with
         | |- context [if ?c then _ else _] => destruct c
         end;
    cbn [set_position set_velocity position set_x set_z Vec3.y];
    rewrite Hpos; reflexivity.
Qed.

Lemma Match_update_ball (m : Match.t) (deltaTime : R) (ball : BallState) :
  snd (Match.update m deltaTime ball) = ball
  \/ snd (Match.update m deltaTime ball) = Ball.reset ball.
Proof.
  unfold Match.update.
  destruct (Match.m_goalScored m); [ | left; reflexivity].
  cbv zeta.
  match goal with
  | |- context [if ?c then _ else _] => destruct c
  end; [right | left]; reflexivity.
Qed.

Lemma Ball_reset_height (ball : BallState) :
  BallPhysics.BALL_RADIUS <= Vec3.y (position (Ball.reset ball)).
Proof.
  unfold Ball.reset, BallPhysics.BALL_RADIUS. cbn. lra.
Qed.

(** An AI player's frame does not move the ball. *)
Lemma AI_update_ball_position (rand : Rand.t) (p : AIPlayer) (deltaTime : R)
      (ball : BallState) (playerPos : Vec3)
      (fieldLength fieldWidth goalWidth : R) (k : Rand.state) :
  position (snd (fst (AIPlayer.update rand p deltaTime ball playerPos
                                      fieldLength fieldWidth goalWidth k)))
  = position ball.
Proof.
  destruct (AI_update_stages rand p deltaTime ball playerPos
              fieldLength fieldWidth goalWidth k)
    as (_ & _ & _ & _ & _ & _ & _ & Hb & _).
  cbv zeta in Hb. rewrite Hb.
  match goal with
  | |- context [if ?c then _ else _] => destruct c
  end; reflexivity.
Qed.

Lemma updatePlayers_ball_position (rand : Rand.t) (deltaTime : R)
      (playerPos : Vec3) (fieldLength fieldWidth goalWidth : R)
      (ps : list AIPlayer) :
  forall (ball : BallState) (k : Rand.state),
    position (snd (fst (AIManager.updatePlayers rand ps deltaTime ball
                          playerPos fieldLength fieldWidth goalWidth k)))
    = position ball.
Proof.
  induction ps as [| p ps IH]; intros ball k; cbn [AIManager.updatePlayers].
  - reflexivity.
  - pose proof (AI_update_ball_position rand p deltaTime ball playerPos
                  fieldLength fieldWidth goalWidth k) as Hp.
    destruct (AIPlayer.update rand p deltaTime ball playerPos
                fieldLength fieldWidth goalWidth k) as [[p' ball'] k'].
    cbn [fst snd] in Hp.
    specialize (IH ball' k').
    destruct (AIManager.updatePlayers rand ps deltaTime ball' playerPos
                fieldLength fieldWidth goalWidth k') as [[ps' ball''] k''].
    cbn [fst snd] in IH |- *. congruence.
Qed.

Lemma AI_handleBallCollision_height (p : AIPlayer) (ball : BallState) :
  Vec3.y (position (AIPlayer.handleBallCollision p ball))
  = Vec3.y (position ball).
Proof.
  unfold AIPlayer.handleBallCollision. cbv zeta.
  match goal with
  | |- context [if ?c then _ else _] => destruct c
  end; reflexivity.
Qed.

Lemma collideBallAndHuman_height (playerPos : Vec3) (ps : list AIPlayer) :
  forall ball : BallState,
    Vec3.y (position (snd (AIManager.collideBallAndHuman ps ball playerPos)))
    = Vec3.y (position ball).
Proof.
  induction ps as [| p ps IH]; intros ball;
    cbn [AIManager.collideBallAndHuman].
  - reflexivity.
  - specialize (IH (AIPlayer.handleBallCollision p ball)).
    destruct (AIManager.collideBallAndHuman ps
                (AIPlayer.handleBallCollision p ball) playerPos)
      as [ps' ball'].
    cbn [fst snd] in IH |- *.
    rewrite IH. apply AI_handleBallCollision_height.
Qed.

Lemma AIManager_update_height (rand : Rand.t) (ps : list AIPlayer)
      (deltaTime : R) (ball : BallState) (playerPos : Vec3)
      (fieldLength fieldWidth goalWidth : R) (k : Rand.state) :
  Vec3.y (position (snd (fst (AIManager.update rand ps deltaTime ball
                                playerPos fieldLength fieldWidth goalWidth k))))
  = Vec3.y (position ball).
Proof.
  unfold AIManager.update. cbv zeta.
  set (qs := AIManager.findClosestChasers ps (position ball)).
  pose proof (updatePlayers_ball_position rand deltaTime playerPos
                fieldLength fieldWidth goalWidth qs ball k) as H1.
  destruct (AIManager.updatePlayers rand qs deltaTime ball playerPos
              fieldLength fieldWidth goalWidth k) as [[ps1 ball1] k1].
  cbn [fst snd] in H1.
  unfold AIManager.handleCollisions.
  pose proof (collideBallAndHuman_height playerPos ps1 ball1) as H2.
  destruct (AIManager.collideBallAndHuman ps1 ball1 playerPos)
    as [ps2 ball2].
  cbn [fst snd] in H2 |- *. rewrite H2, H1. reflexivity.
Qed.

(** ** The speed of the AI players through a frame *)

Lemma standing_speeds (ps qs : list AIPlayer) :
  map standing ps = map standing qs ->
  Forall (fun p => glm.length (AIPlayer.m_velocity p) <= AIPlayer.MAX_SPEED) qs ->
  Forall (fun p => glm.length (AIPlayer.m_velocity p) <= AIPlayer.MAX_SPEED) ps.
Proof.
  revert qs. induction ps as [| p ps IH]; intros qs H Hq.
  - constructor.
  - destruct qs as [| q qs]; [discriminate |].
    cbn [map] in H. injection H as _ _ _ _ Hv Hrest.
    inversion Hq as [| q' qs' Hq0 Hqs]; subst.
    constructor; [rewrite Hv; exact Hq0 | apply (IH qs Hrest Hqs)].
Qed.

Lemma afterFrame_speeds (deltaTime : R) (ps qs : list AIPlayer) :
  0 < deltaTime -> Forall2 (afterFrame deltaTime) ps qs ->
  Forall (fun p => glm.length (AIPlayer.m_velocity p) <= AIPlayer.MAX_SPEED) qs ->
  Forall (fun p => glm.length (AIPlayer.m_velocity p) <= AIPlayer.MAX_SPEED) ps.
Proof.
  intros Hdt H. induction H as [| p q ps qs Hpq _ IH]; intros Hq.
  - constructor.
  - inversion Hq as [| q' qs' Hq0 Hqs]; subst.
    destruct Hpq as (_ & _ & _ & _ & _ & Hv).
    constructor; [apply Hv; assumption | apply IH; exact Hqs].
Qed.

Lemma flag_speeds (c : AIManager.closest) (ps : list AIPlayer) (i : nat) :
  Forall (fun p => glm.length (AIPlayer.m_velocity p) <= AIPlayer.MAX_SPEED) ps ->
  Forall (fun p => glm.length (AIPlayer.m_velocity p) <= AIPlayer.MAX_SPEED)
         (AIManager.flag c i ps).
Proof.
  intros H. revert i. induction H as [| p ps Hp _ IH]; intros i;
    cbn [AIManager.flag]; constructor; [exact Hp | apply IH].
Qed.

Lemma AIManager_update_speeds (rand : Rand.t) (ps : list AIPlayer)
      (deltaTime : R) (ball : BallState) (playerPos : Vec3)
      (fieldLength fieldWidth goalWidth : R) (k : Rand.state) :
  0 < deltaTime ->
  Forall (fun p => glm.length (AIPlayer.m_velocity p) <= AIPlayer.MAX_SPEED) ps ->
  Forall (fun p => glm.length (AIPlayer.m_velocity p) <= AIPlayer.MAX_SPEED)
         (fst (fst (AIManager.update rand ps deltaTime ball playerPos
                                     fieldLength fieldWidth goalWidth k))).
Proof.
  intros Hdt Hps.
  destruct (AIManager_update_stages rand ps deltaTime ball playerPos
              fieldLength fieldWidth goalWidth k) as (ps1 & H2 & H1).
  apply (standing_speeds _ ps1 H2).
  apply (afterFrame_speeds deltaTime ps1 _ Hdt H1).
  apply flag_speeds. exact Hps.
Qed.

(** ** The human player through a frame *)

Lemma tryKick_keeps (p : Player.t) (ball : BallState) (sprinting : bool)
      (spinY : R) :
  let r := Player.tryKick p ball sprinting spinY in
  position (snd r) = position ball
  /\ Player.m_position (snd (fst r)) = Player.m_position p
  /\ Player.m_velocity (snd (fst r)) = Player.m_velocity p
  /\ (kickConsistent p -> kickConsistent (snd (fst r))).
Proof.
  unfold Player.tryKick. cbv zeta.
  match goal with
  | |- context [if ?c then _ else _] => destruct c
  end; cbn [fst snd].
  - repeat split. auto.
  - repeat split. intros _ _. cbn. lra.
Qed.

Lemma Player_update_kickConsistent (p : Player.t) (deltaTime : R)
      (boundsMin boundsMax : Vec3) :
  kickConsistent p ->
  kickConsistent (Player.update p deltaTime boundsMin boundsMax).
Proof.
  unfold kickConsistent. intros Hp.
  destruct (update_kick p deltaTime boundsMin boundsMax) as [Et Ek].
  cbv zeta in Et, Ek. rewrite Et, Ek.
  cmp_cases 0 (Player.m_kickAnimationTimer p).
  - cmp_le_zero (Player.m_kickAnimationTimer p - deltaTime).
    + intros H. discriminate H.
    + intros _. exact Hcmp0.
  - intros H. specialize (Hp H). lra.
Qed.

Lemma Player_update_position (p : Player.t) (deltaTime : R)
      (boundsMin boundsMax : Vec3) :
  Vec3.x boundsMin <= Vec3.x boundsMax ->
  Vec3.z boundsMin <= Vec3.z boundsMax ->
  let p' := Player.update p deltaTime boundsMin boundsMax in
  Vec3.x boundsMin <= Vec3.x (Player.m_position p') <= Vec3.x boundsMax
  /\ Vec3.z boundsMin <= Vec3.z (Player.m_position p') <= Vec3.z boundsMax.
Proof.
  intros Hx Hz. unfold Player.update, Player.clampToBounds. cbv zeta.
  cbn [Player.set_m_position Player.m_position set_x set_z
       Vec3.x Vec3.y Vec3.z].
  split; apply clamp_range; assumption.
Qed.

Lemma Player_update_speed (p : Player.t) (deltaTime : R)
      (boundsMin boundsMax : Vec3) :
  0 < deltaTime -> Player.getSpeed p <= Player.SPRINT_SPEED ->
  Player.getSpeed (Player.update p deltaTime boundsMin boundsMax)
  <= Player.SPRINT_SPEED.
Proof.
  intros Hdt Hv.
  destruct (updateMovement_speed p deltaTime Hdt) as (Hb & _).
  unfold Player.getSpeed in *. rewrite update_velocity.
  apply Hb; [ | exact Hv].
  unfold Player.SPRINT_SPEED, Player.MAX_SPEED.
  destruct (Player.m_isSprinting p); lra.
Qed.

(** ** The invariant *)

Lemma init_playable : playable Application.init.
Proof.
  unfold playable, Application.init.
  cbn [Application.m_ball Application.m_player Application.m_aiManager
       Application.m_match].
  split; [apply Ball_reset_height |].
  unfold Application.FIELD_LENGTH, Application.FIELD_WIDTH.
  split; [cbn; rewrite Rabs_R0; lra |].
  split; [cbn; rewrite Rabs_le_iff; lra |].
  split.
  { unfold Player.getSpeed, Player.init. cbn [Player.m_velocity].
    rewrite length_splat_zero. unfold Player.SPRINT_SPEED. lra. }
  split; [intros H; discriminate H |].
  split.
  { unfold celebrationConsistent. cbn.
    split; [reflexivity | left; reflexivity]. }
  split; [apply sameRoster_refl |].
  unfold AIManager.createTeams, AIManager.line, AIManager.spawn. cbn [map app].
  repeat (apply Forall_cons;
          [ cbn; rewrite length_splat_zero; unfold AIPlayer.MAX_SPEED; lra | ]).
  apply Forall_nil.
Qed.

Lemma processInput_playable (a : Application.t)
      (inp : Application.FrameInput) (deltaTime : R) :
  playable a -> playable (Application.processInput a inp deltaTime).
Proof.
  intros (Hy & Hx & Hz & Hv & Hk & Hm & Hr & Hs).
  unfold Application.processInput. cbv zeta.
  set (ball := if Application.resetBallRequested inp
               then Ball.reset (Application.m_ball a)
               else Application.m_ball a).
  assert (Hball : BallPhysics.BALL_RADIUS <= Vec3.y (position ball)).
  { unfold ball. destruct (Application.resetBallRequested inp);
      [apply Ball_reset_height | exact Hy]. }
  set (player := Player.setTargetRotation
                   (Player.setMovementInput (Application.m_player a)
                      (movementDirection (Application.inputState inp))
                      (sprinting (Application.inputState inp)))
                   (- Application.yaw inp)).
  assert (Hplayer : Player.m_position player
                    = Player.m_position (Application.m_player a)
                    /\ Player.m_velocity player
                       = Player.m_velocity (Application.m_player a)
                    /\ kickConsistent player).
  { split; [reflexivity |]. split; [reflexivity | exact Hk]. }
  destruct Hplayer as (Pp & Pv & Pk).
  destruct (tryKick_keeps player ball
              (sprinting (Application.inputState inp))
              (spinY (Application.inputState inp)))
    as (Kb & Kp & Kv & Kk).
  cbv zeta in Kb, Kp, Kv, Kk.
  destruct (kickJustPressed (Application.inputState inp)
            && negb (Match.m_goalScored (Application.m_match a)));
    unfold playable, Player.getSpeed in *;
    cbn [Application.m_ball Application.m_player Application.m_aiManager
         Application.m_match];
    rewrite ?Kb, ?Kp, ?Kv, ?Pp, ?Pv;
    (split; [exact Hball |]); (split; [exact Hx |]); (split; [exact Hz |]);
    (split; [exact Hv |]); (split; [auto |]); (split; [exact Hm |]);
    (split; [exact Hr | exact Hs]).
Qed.

Lemma Match_update_consistent (m : Match.t) (deltaTime : R)
      (ball : BallState) :
  0 <= deltaTime -> celebrationConsistent m ->
  celebrationConsistent (fst (Match.update m deltaTime ball)).
Proof.
  intros Hdt Hm.
  apply (step_consistent (Match.CallUpdate deltaTime) (m, ball)); assumption.
Qed.

Lemma update_playable (rand : Rand.t) (a : Application.t) (deltaTime : R) :
  0 < deltaTime -> playable a ->
  playable (Application.update rand a deltaTime).
Proof.
  intros Hdt (Hy & Hx & Hz & Hv & Hk & Hm & Hr & Hs).
  unfold Application.update. cbv zeta.
  set (boundsMin := Vec3.mk (- Application.FIELD_LENGTH / 2 + 1) 0
                            (- Application.FIELD_WIDTH / 2 + 1)).
  set (boundsMax := Vec3.mk (Application.FIELD_LENGTH / 2 - 1) 0
                            (Application.FIELD_WIDTH / 2 - 1)).
  set (player := Player.update (Application.m_player a) deltaTime
                               boundsMin boundsMax).
  set (ball1 := Match.handleBoundaryCollision (Application.m_match a)
                  (Ball.update (Application.m_ball a) deltaTime
                               (Application.m_fieldBounds a))).
  assert (H1 : BallPhysics.BALL_RADIUS <= Vec3.y (position ball1)).
  { unfold ball1. rewrite handleBoundaryCollision_height.
    apply Ball_update_height. }
  (* the human player and the ball *)
  pose proof (Player_handleBallCollision_height rand player ball1 deltaTime
                (Application.touchTimer a) (Application.randState a)) as H2.
  set (r2 := if negb (Match.m_goalScored (Application.m_match a))
             then Player.handleBallCollision rand player ball1 deltaTime
                    (Application.touchTimer a) (Application.randState a)
             else (ball1, Application.touchTimer a, Application.randState a)).
  assert (H2' : BallPhysics.BALL_RADIUS <= Vec3.y (position (fst (fst r2)))).
  { unfold r2. destruct (negb (Match.m_goalScored (Application.m_match a)));
      [rewrite H2; exact H1 | exact H1]. }
  clearbody r2. destruct r2 as [[ball2 touchTimer2] k2]. cbn [fst snd] in H2'.
  (* the match *)
  pose proof (Match_update_consistent (Application.m_match a) deltaTime ball2
                ltac:(lra) Hm) as Hm'.
  assert (H3 : BallPhysics.BALL_RADIUS
               <= Vec3.y (position (snd (Match.update (Application.m_match a)
                                           deltaTime ball2)))).
  { destruct (Match_update_ball (Application.m_match a) deltaTime ball2)
      as [E | E]; rewrite E; [exact H2' | apply Ball_reset_height]. }
  destruct (Match.update (Application.m_match a) deltaTime ball2)
    as [m' ball3].
  cbn [fst snd] in Hm', H3.
  (* the AI players *)
  set (r4 := if Application.m_aiEnabled a
             then AIManager.update rand (Application.m_aiManager a) deltaTime
                    ball3 (Player.m_position player)
                    Application.FIELD_LENGTH Application.FIELD_WIDTH
                    Application.GOAL_WIDTH k2
             else (Application.m_aiManager a, ball3, k2)).
  assert (H4 : BallPhysics.BALL_RADIUS <= Vec3.y (position (snd (fst r4)))
               /\ sameRoster (fst (fst r4))
                             (AIManager.createTeams Application.FIELD_LENGTH)
               /\ Forall (fun p => glm.length (AIPlayer.m_velocity p)
                                   <= AIPlayer.MAX_SPEED) (fst (fst r4))).
  { unfold r4. destruct (Application.m_aiEnabled a).
    - split; [rewrite AIManager_update_height; exact H3 |].
      split; [apply AIManager_update_roster; exact Hr |].
      apply AIManager_update_speeds; assumption.
    - cbn [fst snd]. split; [exact H3 |]. split; assumption. }
  clearbody r4. destruct r4 as [[players ball4] k4]. cbn [fst snd] in H4.
  destruct H4 as (H4y & H4r & H4s).
  (* the human player *)
  assert (Hb : Vec3.x boundsMin <= Vec3.x boundsMax
               /\ Vec3.z boundsMin <= Vec3.z boundsMax).
  { unfold boundsMin, boundsMax, Application.FIELD_LENGTH,
      Application.FIELD_WIDTH. cbn [Vec3.x Vec3.z]. lra. }
  destruct (Player_update_position (Application.m_player a) deltaTime
              boundsMin boundsMax (proj1 Hb) (proj2 Hb)) as [Px Pz].
  fold player in Px, Pz.
  unfold boundsMin, boundsMax in Px, Pz. cbn [Vec3.x Vec3.z] in Px, Pz.
  unfold playable.
  cbn [Application.m_ball Application.m_player Application.m_aiManager
       Application.m_match].
  split; [exact H4y |].
  split; [rewrite Rabs_le_iff; lra |].
  split; [rewrite Rabs_le_iff; lra |].
  split; [apply Player_update_speed; assumption |].
  split; [apply Player_update_kickConsistent; exact Hk |].
  split; [exact Hm' |].
  split; [exact H4r | exact H4s].
Qed.

Lemma frame_playable (rand : Rand.t) (a : Application.t) (lap : R)
      (inp : Application.FrameInput) :
  0 < lap -> playable a -> playable (Application.frame rand a lap inp).
Proof.
  intros Hlap Ha. unfold Application.frame. cbv zeta.
  apply update_playable.
  - cmp_cases 0.1 lap; lra.
  - apply processInput_playable. exact Ha.
Qed.

(** X24.  The game stays in order: started from a state in order (the
    state the application sets up is one), every run of frames in which
    the frame timer advances, whatever the input of each frame, ends in a
    state in order: the ball on or above the ground, the human player at
    least one metre inside the lines and no faster than [SPRINT_SPEED],
    its kick flag up only while the kick timer runs, the celebration state
    of the match consistent, and the AI roster the one [createTeams]
    built, with no AI player faster than its [MAX_SPEED]. *)
Theorem run_keeps_game_playable (rand : Rand.t) (a : Application.t)
        (frames : list (R * Application.FrameInput)) :
  playable a -> Forall timeAdvances frames ->
  playable (Application.run rand a frames).
Proof.
  intros Ha Hf. revert a Ha.
  induction Hf as [| [lap inp] frames Hlap _ IH]; intros a Ha.
  - exact Ha.
  - cbn [Application.run]. apply IH. apply frame_playable; assumption.
Qed.

Lemma run_keeps_game_playable_witness :
  playable
    (Application.run (fun _ => 42%Z) Application.init
       [(0.016,
         Application.mkFrameInput false false
           (mkInputState (Vec3.mk 0 0 (- 1)) true true true 0) 0);
        (0.25,
         Application.mkFrameInput true true
           (mkInputState (Vec3.mk 1 0 0) false false false 0) 1)]).
Proof.
  apply (run_keeps_game_playable (fun _ => 42%Z) Application.init
           [(0.016,
             Application.mkFrameInput false false
               (mkInputState (Vec3.mk 0 0 (- 1)) true true true 0) 0);
            (0.25,
             Application.mkFrameInput true true
               (mkInputState (Vec3.mk 1 0 0) false false false 0) 1)]
           init_playable).
  repeat (apply Forall_cons; [unfold timeAdvances; cbn [fst]; lra | ]).
  apply Forall_nil.
Defined.

(** ** The ball stays in play *)

Lemma unit_components (v : Vec3) :
  0 < glm.length (set_y v 0) ->
  Rabs (Vec3.x (glm.normalize (set_y v 0))) <= 1
  /\ Rabs (Vec3.z (glm.normalize (set_y v 0))) <= 1.
Proof.
  intros H.
  pose proof (dot_normalize (set_y v 0) (length_positive_dot _ H)) as Hd.
  pose proof (normalize_flat v) as Hy.
  unfold glm.dot in Hd. rewrite Hy in Hd.
  set (u := glm.normalize (set_y v 0)) in *. clearbody u.
  rewrite !Rabs_le_iff. repeat split; nra.
Qed.

(** A ball put within a metre of a player that is inside the lines is
    in bounds. *)
Lemma pushed_in_play (m : Match.t) (c : Vec3) (dx dz r yy : R) :
  regulationField m -> insideLines c ->
  Rabs dx <= 1 -> Rabs dz <= 1 -> 0 <= r <= 1 ->
  Match.isBallOutOfBounds m
    (Vec3.mk (Vec3.x c + dx * r) yy (Vec3.z c + dz * r)) = false.
Proof.
  intros (HL & HW & _) [Hx Hz] Hdx Hdz Hr.
  apply in_bounds_iff. rewrite HL, HW. cbn [Vec3.x Vec3.z].
  unfold insideLines, Application.FIELD_LENGTH, Application.FIELD_WIDTH in *.
  apply Rabs_le_iff in Hx, Hz, Hdx, Hdz. rewrite !Rabs_le_iff.
  assert (Hpx : - r <= dx * r <= r) by (split; nra).
  assert (Hpz : - r <= dz * r <= r) by (split; nra).
  split; [lra | left; lra].
Qed.

Lemma Player_handleBallCollision_in_play (m : Match.t) (rand : Rand.t)
      (p : Player.t) (ball : BallState) (deltaTime touchTimer : R)
      (k : Rand.state) :
  regulationField m -> insideLines (Player.m_position p) ->
  Match.isBallOutOfBounds m (position ball) = false ->
  Match.isBallOutOfBounds m
    (position (fst (fst (Player.handleBallCollision
                           rand p ball deltaTime touchTimer k)))) = false.
Proof.
  intros Hm Hp Hball.
  unfold Player.handleBallCollision. cbv zeta.
  set (toBall := set_y (glm.sub (position ball) (Player.m_position p)) 0).
  set (c := (glm.length toBall <? Player.DRIBBLE_RANGE) && _ && _).
  pose proof (dribble_guard_position rand p ball deltaTime touchTimer k c)
    as Hpos.
  destruct (if c then Player.dribble rand p ball deltaTime touchTimer k
            else (ball, touchTimer, k)) as [[b1 t1] k1].
  cbn [fst snd] in Hpos |- *.
  cmp_cases (glm.length toBall) (Player.RADIUS + Ball.RADIUS);
    [cmp_cases 0.01 (glm.length toBall) | ]; cbn [andb].
  - destruct (unit_components (glm.sub (position ball) (Player.m_position p)))
      as [Ux Uz]; [fold toBall; lra |].
    fold toBall in Ux, Uz.
    assert (Hpush :
      Match.isBallOutOfBounds m
        (Vec3.mk (Vec3.x (Player.m_position p)
                  + Vec3.x (glm.normalize toBall)
                    * (Player.RADIUS + Ball.RADIUS))
                 (Vec3.y (position b1))
                 (Vec3.z (Player.m_position p)
                  + Vec3.z (glm.normalize toBall)
                    * (Player.RADIUS + Ball.RADIUS))) = false).
    { apply pushed_in_play; try assumption.
      unfold Player.RADIUS, Ball.RADIUS, BallPhysics.BALL_RADIUS. lra. }
    destruct (Player.getSpeed p >? 0.5); exact Hpush.
  - rewrite Hpos. exact Hball.
  - rewrite Hpos. exact Hball.
Qed.

Lemma AI_handleBallCollision_in_play (m : Match.t) (p : AIPlayer)
      (ball : BallState) :
  regulationField m -> insideLines (AIPlayer.m_position p) ->
  Match.isBallOutOfBounds m (position ball) = false ->
  Match.isBallOutOfBounds m (position (AIPlayer.handleBallCollision p ball))
  = false.
Proof.
  intros Hm Hp Hball.
  unfold AIPlayer.handleBallCollision, AIPlayer.distanceToBall. cbv zeta.
  set (toBall := set_y (glm.sub (position ball) (AIPlayer.m_position p)) 0).
  cmp_cases (glm.length toBall) 0.5;
    [cmp_cases 0.01 (glm.length toBall) | ]; cbn [andb];
    [ | exact Hball | exact Hball].
  destruct (unit_components (glm.sub (position ball) (AIPlayer.m_position p)))
    as [Ux Uz]; [fold toBall; lra |].
  fold toBall in Ux, Uz.
  cbn [set_position position set_x set_z Vec3.x Vec3.y Vec3.z].
  apply pushed_in_play; try assumption. lra.
Qed.

Lemma collideBallAndHuman_in_play (m : Match.t) (playerPos : Vec3)
      (ps : list AIPlayer) :
  regulationField m ->
  Forall (fun p => insideLines (AIPlayer.m_position p)) ps ->
  forall ball : BallState,
    Match.isBallOutOfBounds m (position ball) = false ->
    Match.isBallOutOfBounds m
      (position (snd (AIManager.collideBallAndHuman ps ball playerPos)))
    = false.
Proof.
  intros Hm Hps. induction Hps as [| p ps Hp _ IH]; intros ball Hball;
    cbn [AIManager.collideBallAndHuman].
  - exact Hball.
  - specialize (IH (AIPlayer.handleBallCollision p ball)
                   (AI_handleBallCollision_in_play m p ball Hm Hp Hball)).
    destruct (AIManager.collideBallAndHuman ps
                (AIPlayer.handleBallCollision p ball) playerPos)
      as [ps' ball'].
    cbn [fst snd] in IH |- *. exact IH.
Qed.

Lemma AI_update_insideLines (rand : Rand.t) (p : AIPlayer) (deltaTime : R)
      (ball : BallState) (playerPos : Vec3) (goalWidth : R)
      (k : Rand.state) :
  insideLines
    (AIPlayer.m_position
       (fst (fst (AIPlayer.update rand p deltaTime ball playerPos
                    Application.FIELD_LENGTH Application.FIELD_WIDTH
                    goalWidth k)))).
Proof.
  destruct (AI_update_stages rand p deltaTime ball playerPos
              Application.FIELD_LENGTH Application.FIELD_WIDTH goalWidth k)
    as (_ & Hp & _).
  cbv zeta in Hp. rewrite Hp. unfold insideLines. cbn [Vec3.x Vec3.z].
  rewrite !Rabs_le_iff.
  match goal with
  | |- context [clamp ?v (- Application.FIELD_LENGTH / 2 + 1) ?hi] =>
      pose proof (clamp_range v (- Application.FIELD_LENGTH / 2 + 1) hi
                    ltac:(unfold Application.FIELD_LENGTH; lra))
  end.
  match goal with
  | |- context [clamp ?v (- Application.FIELD_WIDTH / 2 + 1) ?hi] =>
      pose proof (clamp_range v (- Application.FIELD_WIDTH / 2 + 1) hi
                    ltac:(unfold Application.FIELD_WIDTH; lra))
  end.
  split; lra.
Qed.

Lemma updatePlayers_insideLines (rand : Rand.t) (deltaTime : R)
      (playerPos : Vec3) (goalWidth : R) (ps : list AIPlayer) :
  forall (ball : BallState) (k : Rand.state),
    Forall (fun p => insideLines (AIPlayer.m_position p))
      (fst (fst (AIManager.updatePlayers rand ps deltaTime ball playerPos
                   Application.FIELD_LENGTH Application.FIELD_WIDTH
                   goalWidth k))).
Proof.
  induction ps as [| p ps IH]; intros ball k; cbn [AIManager.updatePlayers].
  - constructor.
  - pose proof (AI_update_insideLines rand p deltaTime ball playerPos
                  goalWidth k) as Hp.
    destruct (AIPlayer.update rand p deltaTime ball playerPos
                Application.FIELD_LENGTH Application.FIELD_WIDTH goalWidth k)
      as [[p' ball'] k'].
    cbn [fst snd] in Hp.
    specialize (IH ball' k').
    destruct (AIManager.updatePlayers rand ps deltaTime ball' playerPos
                Application.FIELD_LENGTH Application.FIELD_WIDTH goalWidth k')
      as [[ps' ball''] k''].
    cbn [fst snd] in IH |- *.
    constructor; [exact Hp | exact IH].
Qed.

Lemma AIManager_update_in_play (m : Match.t) (rand : Rand.t)
      (ps : list AIPlayer) (deltaTime : R) (ball : BallState)
      (playerPos : Vec3) (goalWidth : R) (k : Rand.state) :
  regulationField m ->
  Match.isBallOutOfBounds m (position ball) = false ->
  Match.isBallOutOfBounds m
    (position (snd (fst (AIManager.update rand ps deltaTime ball playerPos
                           Application.FIELD_LENGTH Application.FIELD_WIDTH
                           goalWidth k)))) = false.
Proof.
  intros Hm Hball.
  unfold AIManager.update. cbv zeta.
  set (qs := AIManager.findClosestChasers ps (position ball)).
  pose proof (updatePlayers_ball_position rand deltaTime playerPos
                Application.FIELD_LENGTH Application.FIELD_WIDTH goalWidth
                qs ball k) as H1.
  pose proof (updatePlayers_insideLines rand deltaTime playerPos goalWidth
                qs ball k) as H1p.
  destruct (AIManager.updatePlayers rand qs deltaTime ball playerPos
              Application.FIELD_LENGTH Application.FIELD_WIDTH goalWidth k)
    as [[ps1 ball1] k1].
  cbn [fst snd] in H1, H1p.
  unfold AIManager.handleCollisions.
  pose proof (collideBallAndHuman_in_play m playerPos ps1 Hm H1p ball1) as H2.
  destruct (AIManager.collideBallAndHuman ps1 ball1 playerPos)
    as [ps2 ball2].
  cbn [fst snd] in H2 |- *. apply H2. rewrite H1. exact Hball.
Qed.

(** [Match::update] keeps the dimensions of the field. *)
Lemma Match_update_dims (m : Match.t) (deltaTime : R) (ball : BallState) :
  let m' := fst (Match.update m deltaTime ball) in
  Match.m_fieldLength m' = Match.m_fieldLength m
  /\ Match.m_fieldWidth m' = Match.m_fieldWidth m
  /\ Match.m_goalWidth m' = Match.m_goalWidth m
  /\ Match.m_goalHeight m' = Match.m_goalHeight m.
Proof.
  unfold Match.update, Match.checkGoal, Match.resetAfterGoal. cbv zeta.
  repeat match goal with
         | |- context [if ?c then _ else _] => destruct c
         end; cbn; repeat split; reflexivity.
Qed.

(** The test for a ball out of bounds reads the dimensions only. *)
Lemma isBallOutOfBounds_dims (m m' : Match.t) (pos : Vec3) :
  Match.m_fieldLength m' = Match.m_fieldLength m ->
  Match.m_fieldWidth m' = Match.m_fieldWidth m ->
  Match.m_goalWidth m' = Match.m_goalWidth m ->
  Match.m_goalHeight m' = Match.m_goalHeight m ->
  Match.isBallOutOfBounds m' pos = Match.isBallOutOfBounds m pos.
Proof.
  intros HL HW HG HH. unfold Match.isBallOutOfBounds.
  rewrite HL, HW, HG, HH. reflexivity.
Qed.

Lemma Ball_reset_in_play (m : Match.t) (ball : BallState) :
  regulationField m ->
  Match.isBallOutOfBounds m (position (Ball.reset ball)) = false.
Proof.
  intros (HL & HW & _). apply in_bounds_iff. rewrite HL, HW.
  unfold Ball.reset, Application.FIELD_LENGTH, Application.FIELD_WIDTH.
  cbn [position set_position set_velocity set_angularVelocity
       set_rotationAngle Vec3.x Vec3.z].
  rewrite Rabs_R0. split; [lra | left; lra].
Qed.

Lemma update_in_play (rand : Rand.t) (a : Application.t) (deltaTime : R) :
  regulationField (Application.m_match a) ->
  let a' := Application.update rand a deltaTime in
  Match.isBallOutOfBounds (Application.m_match a')
                          (position (Application.m_ball a')) = false
  /\ regulationField (Application.m_match a').
Proof.
  intros Hm. pose proof Hm as (HL & HW & HG & HH).
  unfold Application.update. cbv zeta.
  set (m := Application.m_match a) in *.
  set (boundsMin := Vec3.mk (- Application.FIELD_LENGTH / 2 + 1) 0
                            (- Application.FIELD_WIDTH / 2 + 1)).
  set (boundsMax := Vec3.mk (Application.FIELD_LENGTH / 2 - 1) 0
                            (Application.FIELD_WIDTH / 2 - 1)).
  set (player := Player.update (Application.m_player a) deltaTime
                               boundsMin boundsMax).
  assert (Hplayer : insideLines (Player.m_position player)).
  { destruct (Player_update_position (Application.m_player a) deltaTime
                boundsMin boundsMax) as [Px Pz].
    - unfold boundsMin, boundsMax, Application.FIELD_LENGTH. cbn [Vec3.x]. lra.
    - unfold boundsMin, boundsMax, Application.FIELD_WIDTH. cbn [Vec3.z]. lra.
    - fold player in Px, Pz. unfold boundsMin, boundsMax in Px, Pz.
      cbn [Vec3.x Vec3.z] in Px, Pz.
      unfold insideLines. rewrite !Rabs_le_iff. split; lra. }
  set (ball1 := Match.handleBoundaryCollision m
                  (Ball.update (Application.m_ball a) deltaTime
                               (Application.m_fieldBounds a))).
  assert (H1 : Match.isBallOutOfBounds m (position ball1) = false).
  { assert (Hr : Ball.RADIUS = 0.22) by reflexivity.
    destruct (handleBoundaryCollision_clamps m
                (Ball.update (Application.m_ball a) deltaTime
                             (Application.m_fieldBounds a)))
      as (Hz & Hx & _).
    - rewrite HL, Hr. unfold Application.FIELD_LENGTH. lra.
    - rewrite HW, Hr. unfold Application.FIELD_WIDTH. lra.
    - fold ball1 in Hz, Hx. apply in_bounds_iff.
      split; [lra |]. destruct Hx as [Hx | Hg]; [left; lra | right; exact Hg]. }
  pose proof (Player_handleBallCollision_in_play m rand player ball1 deltaTime
                (Application.touchTimer a) (Application.randState a)
                Hm Hplayer H1) as H2.
  set (r2 := if negb (Match.m_goalScored m)
             then Player.handleBallCollision rand player ball1 deltaTime
                    (Application.touchTimer a) (Application.randState a)
             else (ball1, Application.touchTimer a, Application.randState a)).
  assert (H2' : Match.isBallOutOfBounds m (position (fst (fst r2))) = false).
  { unfold r2. destruct (negb (Match.m_goalScored m)); [exact H2 | exact H1]. }
  clearbody r2. destruct r2 as [[ball2 touchTimer2] k2]. cbn [fst snd] in H2'.
  destruct (Match_update_dims m deltaTime ball2) as (DL & DW & DG & DH).
  cbv zeta in DL, DW, DG, DH.
  assert (H3 : Match.isBallOutOfBounds m
                 (position (snd (Match.update m deltaTime ball2))) = false).
  { destruct (Match_update_ball m deltaTime ball2) as [E | E]; rewrite E;
      [exact H2' | apply Ball_reset_in_play; exact Hm]. }
  destruct (Match.update m deltaTime ball2) as [m' ball3].
  cbn [fst snd] in DL, DW, DG, DH, H3.
  set (r4 := if Application.m_aiEnabled a
             then AIManager.update rand (Application.m_aiManager a) deltaTime
                    ball3 (Player.m_position player)
                    Application.FIELD_LENGTH Application.FIELD_WIDTH
                    Application.GOAL_WIDTH k2
             else (Application.m_aiManager a, ball3, k2)).
  assert (H4 : Match.isBallOutOfBounds m (position (snd (fst r4))) = false).
  { unfold r4. destruct (Application.m_aiEnabled a);
      [apply AIManager_update_in_play; assumption | exact H3]. }
  clearbody r4. destruct r4 as [[players ball4] k4]. cbn [fst snd] in H4.
  cbn [Application.m_ball Application.m_match].
  split.
  - rewrite (isBallOutOfBounds_dims m m' _ DL DW DG DH). exact H4.
  - unfold regulationField. rewrite DL, DW, DG, DH. exact Hm.
Qed.

Lemma frame_in_play (rand : Rand.t) (a : Application.t) (lap : R)
      (inp : Application.FrameInput) :
  regulationField (Application.m_match a) ->
  let a' := Application.frame rand a lap inp in
  Match.isBallOutOfBounds (Application.m_match a')
                          (position (Application.m_ball a')) = false
  /\ regulationField (Application.m_match a').
Proof.
  intros Hm. unfold Application.frame. cbv zeta.
  apply update_in_play.
  unfold Application.processInput. cbv zeta.
  match goal with
  | |- context [if ?c then _ else _] => destruct c
  end; exact Hm.
Qed.

Lemma run_regulationField (rand : Rand.t)
      (frames : list (R * Application.FrameInput)) :
  forall a : Application.t,
    regulationField (Application.m_match a) ->
    regulationField (Application.m_match (Application.run rand a frames)).
Proof.
  induction frames as [| [lap inp] frames IH]; intros a Hm.
  - exact Hm.
  - cbn [Application.run]. apply IH. apply (frame_in_play rand a lap inp Hm).
Qed.

(** X25.  The ball ends every frame in play: on the field of the
    application, after any number of frames, whatever their inputs, the
    ball as the next frame leaves it is not out of bounds for
    [Match::isBallOutOfBounds]: it is between the side lines, and
    between the end lines or in a goal mouth.  (The match's boundary
    step puts it there, and a player that pushes it afterwards is itself
    at least a metre inside the lines.) *)
Theorem frame_leaves_ball_in_play (rand : Rand.t) (a : Application.t)
        (frames : list (R * Application.FrameInput)) (lap : R)
        (inp : Application.FrameInput) :
  regulationField (Application.m_match a) ->
  Forall timeAdvances frames -> 0 < lap ->
  let a' := Application.frame rand (Application.run rand a frames) lap inp in
  Match.isBallOutOfBounds (Application.m_match a')
                          (position (Application.m_ball a')) = false
  /\ regulationField (Application.m_match a').
Proof.
  intros Hm _ _. apply frame_in_play. apply run_regulationField. exact Hm.
Qed.

Lemma init_regulationField :
  regulationField (Application.m_match Application.init).
Proof. repeat split. Qed.

Lemma frame_leaves_ball_in_play_witness :
  Match.isBallOutOfBounds
    (Application.m_match
       (Application.frame (fun _ => 42%Z)
          (Application.run (fun _ => 42%Z) Application.init []) 0.016
          (Application.mkFrameInput false false
             (mkInputState (Vec3.mk 0 0 (- 1)) true true true 0) 0)))
    (position
       (Application.m_ball
          (Application.frame (fun _ => 42%Z)
             (Application.run (fun _ => 42%Z) Application.init []) 0.016
             (Application.mkFrameInput false false
                (mkInputState (Vec3.mk 0 0 (- 1)) true true true 0) 0))))
  = false.
Proof.
  apply (frame_leaves_ball_in_play (fun _ => 42%Z) Application.init [] 0.016
           (Application.mkFrameInput false false
              (mkInputState (Vec3.mk 0 0 (- 1)) true true true 0) 0)
           init_regulationField (Forall_nil _)).
  lra.
Defined.

(** ** The human player during a celebration *)

(** What the AI manager does to the ball and to the random generator
    does not depend on where the human player stands. *)
Lemma collideBallAndHuman_ball (ps : list AIPlayer) (pos1 pos2 : Vec3) :
  forall ball : BallState,
    snd (AIManager.collideBallAndHuman ps ball pos1)
    = snd (AIManager.collideBallAndHuman ps ball pos2).
Proof.
  induction ps as [| p ps IH]; intros ball;
    cbn [AIManager.collideBallAndHuman].
  - reflexivity.
  - specialize (IH (AIPlayer.handleBallCollision p ball)).
    destruct (AIManager.collideBallAndHuman ps
                (AIPlayer.handleBallCollision p ball) pos1) as [ps1 ball1].
    destruct (AIManager.collideBallAndHuman ps
                (AIPlayer.handleBallCollision p ball) pos2) as [ps2 ball2].
    exact IH.
Qed.

Lemma updatePlayers_human (rand : Rand.t) (deltaTime : R) (pos1 pos2 : Vec3)
      (fieldLength fieldWidth goalWidth : R) (ps : list AIPlayer) :
  forall (ball : BallState) (k : Rand.state),
    AIManager.updatePlayers rand ps deltaTime ball pos1
                            fieldLength fieldWidth goalWidth k
    = AIManager.updatePlayers rand ps deltaTime ball pos2
                              fieldLength fieldWidth goalWidth k.
Proof.
  induction ps as [| p ps IH]; intros ball k; cbn [AIManager.updatePlayers].
  - reflexivity.
  - change (AIPlayer.update rand p deltaTime ball pos2
                            fieldLength fieldWidth goalWidth k)
      with (AIPlayer.update rand p deltaTime ball pos1
                            fieldLength fieldWidth goalWidth k).
    destruct (AIPlayer.update rand p deltaTime ball pos1
                fieldLength fieldWidth goalWidth k) as [[p' ball'] k'].
    rewrite (IH ball' k'). reflexivity.
Qed.

Lemma AIManager_update_human (rand : Rand.t) (ps : list AIPlayer)
      (deltaTime : R) (ball : BallState) (pos1 pos2 : Vec3)
      (fieldLength fieldWidth goalWidth : R) (k : Rand.state) :
  let r1 := AIManager.update rand ps deltaTime ball pos1
                             fieldLength fieldWidth goalWidth k in
  let r2 := AIManager.update rand ps deltaTime ball pos2
                             fieldLength fieldWidth goalWidth k in
  snd (fst r1) = snd (fst r2) /\ snd r1 = snd r2.
Proof.
  unfold AIManager.update. cbv zeta.
  rewrite (updatePlayers_human rand deltaTime pos1 pos2).
  destruct (AIManager.updatePlayers rand
              (AIManager.findClosestChasers ps (position ball)) deltaTime
              ball pos2 fieldLength fieldWidth goalWidth k)
    as [[ps1 ball1] k1].
  unfold AIManager.handleCollisions.
  pose proof (collideBallAndHuman_ball ps1 pos1 pos2 ball1) as H.
  destruct (AIManager.collideBallAndHuman ps1 ball1 pos1) as [qs1 b1].
  destruct (AIManager.collideBallAndHuman ps1 ball1 pos2) as [qs2 b2].
  cbn [fst snd] in H |- *. split; [exact H | reflexivity].
Qed.

(** A frame's [update] during a celebration, on two states that differ
    in the human player only. *)
Lemma update_locks_out (rand : Rand.t) (deltaTime : R)
      (ball : BallState) (p1 p2 : Player.t) (ps : list AIPlayer)
      (m : Match.t) (bounds : FieldBounds) (ai : bool) (touchTimer : R)
      (k : Rand.state) :
  Match.m_goalScored m = true ->
  let a1 := Application.update rand
              (Application.mk ball p1 ps m bounds ai touchTimer k) deltaTime in
  let a2 := Application.update rand
              (Application.mk ball p2 ps m bounds ai touchTimer k) deltaTime in
  Application.m_ball a1 = Application.m_ball a2
  /\ Application.m_match a1 = Application.m_match a2
  /\ Application.touchTimer a1 = Application.touchTimer a2
  /\ Application.randState a1 = Application.randState a2
  /\ Application.m_aiEnabled a1 = Application.m_aiEnabled a2.
Proof.
  intros Hgoal. unfold Application.update. cbv zeta.
  cbn [Application.m_ball Application.m_player Application.m_aiManager
       Application.m_match Application.m_fieldBounds Application.m_aiEnabled
       Application.touchTimer Application.randState].
  rewrite Hgoal. cbn [negb].
  destruct (Match.update m deltaTime
              (Match.handleBoundaryCollision m
                 (Ball.update ball deltaTime bounds))) as [m' ball3].
  set (pos1 := Player.m_position (Player.update p1 deltaTime _ _)).
  set (pos2 := Player.m_position (Player.update p2 deltaTime _ _)).
  destruct ai.
  - destruct (AIManager_update_human rand ps deltaTime ball3 pos1 pos2
                Application.FIELD_LENGTH Application.FIELD_WIDTH
                Application.GOAL_WIDTH k) as [Hb Hk].
    cbv zeta in Hb, Hk.
    destruct (AIManager.update rand ps deltaTime ball3 pos1
                Application.FIELD_LENGTH Application.FIELD_WIDTH
                Application.GOAL_WIDTH k) as [[qs1 b1] k1].
    destruct (AIManager.update rand ps deltaTime ball3 pos2
                Application.FIELD_LENGTH Application.FIELD_WIDTH
                Application.GOAL_WIDTH k) as [[qs2 b2] k2].
    cbn [fst snd] in Hb, Hk.
    cbn [Application.m_ball Application.m_match Application.touchTimer
         Application.randState Application.m_aiEnabled].
    repeat split; assumption.
  - cbn [Application.m_ball Application.m_match Application.touchTimer
         Application.randState Application.m_aiEnabled].
    repeat split; reflexivity.
Qed.

(** X27.  While a goal is being celebrated the human player cannot touch
    the ball: in a frame that starts with the goal flag up, neither the
    movement input, nor the camera, nor a kick press changes what the
    frame does to the ball, to the match, to the dribble timer or to the
    random generator; only the ball-reset and the AI-toggle requests
    count. *)
Theorem celebration_locks_out_player (rand : Rand.t) (a : Application.t)
        (lap : R) (inp1 inp2 : Application.FrameInput) :
  Match.m_goalScored (Application.m_match a) = true ->
  Application.resetBallRequested inp1 = Application.resetBallRequested inp2 ->
  Application.toggleAIRequested inp1 = Application.toggleAIRequested inp2 ->
  let a1 := Application.frame rand a lap inp1 in
  let a2 := Application.frame rand a lap inp2 in
  Application.m_ball a1 = Application.m_ball a2
  /\ Application.m_match a1 = Application.m_match a2
  /\ Application.touchTimer a1 = Application.touchTimer a2
  /\ Application.randState a1 = Application.randState a2
  /\ Application.m_aiEnabled a1 = Application.m_aiEnabled a2.
Proof.
  intros Hgoal Hreset Htoggle.
  unfold Application.frame, Application.processInput. cbv zeta.
  rewrite Hgoal, Hreset, Htoggle. rewrite !andb_false_r.
  apply update_locks_out. exact Hgoal.
Qed.

Lemma celebration_locks_out_player_witness :
  Application.m_ball
    (Application.frame (fun _ => 42%Z)
       (Application.mk restBall Player.init (AIManager.createTeams 105)
          matchAfterGoal FieldBounds.default true 0 0%nat)
       0.016
       (Application.mkFrameInput false false
          (mkInputState (Vec3.mk 0 0 (- 1)) true true true 0) 0))
  = Application.m_ball
      (Application.frame (fun _ => 42%Z)
         (Application.mk restBall Player.init (AIManager.createTeams 105)
            matchAfterGoal FieldBounds.default true 0 0%nat)
         0.016
         (Application.mkFrameInput false false
            (mkInputState (Vec3.mk 1 0 0) false false false 0) 2)).
Proof.
  apply (celebration_locks_out_player (fun _ => 42%Z)
           (Application.mk restBall Player.init (AIManager.createTeams 105)
              matchAfterGoal FieldBounds.default true 0 0%nat)
           0.016
           (Application.mkFrameInput false false
              (mkInputState (Vec3.mk 0 0 (- 1)) true true true 0) 0)
           (Application.mkFrameInput false false
              (mkInputState (Vec3.mk 1 0 0) false false false 0) 2));
    reflexivity.
Defined.

(** ** The scores over the frames *)

Lemma processInput_match (a : Application.t) (inp : Application.FrameInput)
      (deltaTime : R) :
  Application.m_match (Application.processInput a inp deltaTime)
  = Application.m_match a.
Proof.
  unfold Application.processInput. cbv zeta.
  match goal with
  | |- context [if ?c then _ else _] => destruct c
  end; reflexivity.
Qed.

Lemma update_match (rand : Rand.t) (a : Application.t) (deltaTime : R)
      (P : Match.t -> Prop) :
  (forall ball : BallState,
      P (fst (Match.update (Application.m_match a) deltaTime ball))) ->
  P (Application.m_match (Application.update rand a deltaTime)).
Proof.
  intros HP. unfold Application.update. cbv zeta.
  match goal with
  | |- context [match ?r with pair _ _ => _ end] =>
      destruct r as [[ball2 t2] k2]
  end.
  specialize (HP ball2).
  destruct (Match.update (Application.m_match a) deltaTime ball2)
    as [m' ball3].
  cbn [fst] in HP.
  match goal with
  | |- context [match ?r with pair _ _ => _ end] =>
      destruct r as [[players ball4] k4]
  end.
  exact HP.
Qed.

Lemma frame_match (rand : Rand.t) (a : Application.t) (lap : R)
      (inp : Application.FrameInput) (P : Match.t -> Prop) :
  (forall (deltaTime : R) (ball : BallState),
      P (fst (Match.update (Application.m_match a) deltaTime ball))) ->
  P (Application.m_match (Application.frame rand a lap inp)).
Proof.
  intros HP. unfold Application.frame. cbv zeta.
  apply update_match. intros ball. rewrite processInput_match. apply HP.
Qed.

(** What [Match::update] does to the two scores together. *)
Lemma Match_update_scores (m : Match.t) (deltaTime : R) (ball : BallState) :
  let m' := fst (Match.update m deltaTime ball) in
  (Match.m_scoreLeft m' = Match.m_scoreLeft m
   /\ Match.m_scoreRight m' = Match.m_scoreRight m)
  \/ (Match.m_goalScored m = false /\ Match.m_goalScored m' = true
      /\ Match.m_scoreLeft m' = Match.m_scoreLeft m
      /\ Match.m_scoreRight m' = i32.incr (Match.m_scoreRight m))
  \/ (Match.m_goalScored m = false /\ Match.m_goalScored m' = true
      /\ Match.m_scoreLeft m' = i32.incr (Match.m_scoreLeft m)
      /\ Match.m_scoreRight m' = Match.m_scoreRight m).
Proof.
  unfold Match.update.
  destruct (Match.m_goalScored m) eqn:Hflag.
  - cbv zeta. left.
    match goal with
    | |- context [if ?c then _ else _] => destruct c
    end; split; reflexivity.
  - cbn [fst]. unfold Match.checkGoal. rewrite Hflag. cbv zeta.
    destruct (_ && _ && _); [right; left; cbn; auto |].
    destruct (_ && _ && _); [right; right; cbn; auto | left; cbn; auto].
Qed.

(** X28.  The application counts goals one at a time and never takes one
    back: over any run of frames that starts from [i32] scores far enough
    below the largest [i32] for the number of frames, neither score ever
    goes down, and the two scores together grow by at most one per
    frame. *)
Theorem run_counts_goals (rand : Rand.t) (a : Application.t)
        (frames : list (R * Application.FrameInput)) :
  let left := fun s => Match.m_scoreLeft (Application.m_match s) in
  let right := fun s => Match.m_scoreRight (Application.m_match s) in
  i32.in_range (left a) -> i32.in_range (right a) ->
  (left a + Z.of_nat (List.length frames) <= i32.max_signed)%Z ->
  (right a + Z.of_nat (List.length frames) <= i32.max_signed)%Z ->
  let a' := Application.run rand a frames in
  (left a <= left a')%Z /\ (right a <= right a')%Z
  /\ (left a' + right a'
      <= left a + right a + Z.of_nat (List.length frames))%Z.
Proof.
  intros left right. revert a.
  induction frames as [| [lap inp] frames IH]; intros a Hl Hr Hlm Hrm.
  - cbn [Application.run List.length]. lia.
  - cbn [Application.run]. cbn [List.length] in *.
    assert (Hstep :
      (left a <= left (Application.frame rand a lap inp))%Z
      /\ (right a <= right (Application.frame rand a lap inp))%Z
      /\ (left (Application.frame rand a lap inp)
          + right (Application.frame rand a lap inp)
          <= left a + right a + 1)%Z).
    { unfold left, right in *.
      apply (frame_match rand a lap inp
               (fun m' =>
                  (Match.m_scoreLeft (Application.m_match a)
                   <= Match.m_scoreLeft m')%Z
                  /\ (Match.m_scoreRight (Application.m_match a)
                      <= Match.m_scoreRight m')%Z
                  /\ (Match.m_scoreLeft m' + Match.m_scoreRight m'
                      <= Match.m_scoreLeft (Application.m_match a)
                         + Match.m_scoreRight (Application.m_match a) + 1)%Z)).
      intros dt ball.
      destruct (Match_update_scores (Application.m_match a) dt ball)
        as [[El Er] | [(_ & _ & El & Er) | (_ & _ & El & Er)]];
        cbv zeta in El, Er; rewrite El, Er;
        rewrite ?i32_incr_below_max by (first [assumption | lia]);
        lia. }
    destruct Hstep as (Sl & Sr & Ss).
    unfold i32.in_range in *.
    destruct (IH (Application.frame rand a lap inp)) as (Il & Ir & Is);
      try lia.
Qed.

Lemma run_counts_goals_witness :
  Z.le 0
    (Match.m_scoreLeft
       (Application.m_match
          (Application.run (fun _ => 42%Z) Application.init
             [(0.016,
               Application.mkFrameInput false false
                 (mkInputState (Vec3.mk 0 0 (- 1)) true true true 0) 0)]))).
Proof.
  apply (run_counts_goals (fun _ => 42%Z) Application.init
           [(0.016,
             Application.mkFrameInput false false
               (mkInputState (Vec3.mk 0 0 (- 1)) true true true 0) 0)]);
    cbn; unfold i32.in_range, i32.min_signed, i32.max_signed; lia.
Defined.

(** ** Stale chase flags *)

Lemma scanStep_unflagged (ballPos : Vec3) (i : nat) (p q : AIPlayer)
      (c : AIManager.closest) :
  AIPlayer.setIsClosestChaser q false = AIPlayer.setIsClosestChaser p false ->
  AIManager.scanStep ballPos i q c = AIManager.scanStep ballPos i p c.
Proof.
  intros H.
  assert (Hpos : AIPlayer.m_position q = AIPlayer.m_position p)
    by (apply (f_equal AIPlayer.m_position) in H; exact H).
  assert (Hteam : AIPlayer.m_team q = AIPlayer.m_team p)
    by (apply (f_equal AIPlayer.m_team) in H; exact H).
  unfold AIManager.scanStep, AIPlayer.distanceToBall, AIPlayer.getTeam.
  rewrite Hpos, Hteam. reflexivity.
Qed.

Lemma scan_unflagged (ballPos : Vec3) (qs ps : list AIPlayer) :
  Forall2 (fun q p => AIPlayer.setIsClosestChaser q false
                      = AIPlayer.setIsClosestChaser p false) qs ps ->
  forall (i : nat) (c : AIManager.closest),
    AIManager.scan ballPos i qs c = AIManager.scan ballPos i ps c.
Proof.
  intros H. induction H as [| q p qs ps Hqp _ IH]; intros i c;
    cbn [AIManager.scan].
  - reflexivity.
  - rewrite (scanStep_unflagged ballPos i p q c Hqp). apply IH.
Qed.

Lemma flag_unflagged (c : AIManager.closest) (qs ps : list AIPlayer) :
  Forall2 (fun q p => AIPlayer.setIsClosestChaser q false
                      = AIPlayer.setIsClosestChaser p false) qs ps ->
  forall i : nat, AIManager.flag c i qs = AIManager.flag c i ps.
Proof.
  intros H. induction H as [| q p qs ps Hqp _ IH]; intros i;
    cbn [AIManager.flag].
  - reflexivity.
  - rewrite IH. f_equal.
    destruct q, p. cbn in Hqp |- *. injection Hqp as -> -> -> -> -> -> -> -> ->.
    intros; subst. reflexivity.
Qed.

Lemma flag_only_flags (c : AIManager.closest) (ps : list AIPlayer) (i : nat) :
  Forall2 (fun q p => AIPlayer.setIsClosestChaser q false
                      = AIPlayer.setIsClosestChaser p false)
          (AIManager.flag c i ps) ps.
Proof.
  revert i. induction ps as [| p ps IH]; intros i; cbn [AIManager.flag];
    constructor; [reflexivity | apply IH].
Qed.

Lemma map_only_flags (stale : AIPlayer -> bool) (ps : list AIPlayer) :
  Forall2 (fun q p => AIPlayer.setIsClosestChaser q false
                      = AIPlayer.setIsClosestChaser p false)
          (map (fun p => AIPlayer.setIsClosestChaser p (stale p)) ps) ps.
Proof.
  induction ps as [| p ps IH]; cbn [map]; constructor;
    [reflexivity | exact IH].
Qed.

(** X29.  No chase flag survives a call of [findClosestChasers]: the
    flags it leaves depend on the players' teams and positions and on the
    ball only, never on the flags it finds.  Calling it on a roster it has
    flagged for another ball position, or on a roster with arbitrary stale
    flags, gives the same roster as calling it on the original one. *)
Theorem findClosestChasers_forgets (ps : list AIPlayer)
        (ballPos ballPos' : Vec3) (stale : AIPlayer -> bool) :
  AIManager.findClosestChasers
    (AIManager.findClosestChasers ps ballPos') ballPos
  = AIManager.findClosestChasers ps ballPos
  /\ AIManager.findClosestChasers
       (map (fun p => AIPlayer.setIsClosestChaser p (stale p)) ps) ballPos
     = AIManager.findClosestChasers ps ballPos.
Proof.
  assert (H : forall qs,
             Forall2 (fun q p => AIPlayer.setIsClosestChaser q false
                                 = AIPlayer.setIsClosestChaser p false) qs ps ->
             AIManager.findClosestChasers qs ballPos
             = AIManager.findClosestChasers ps ballPos).
  { intros qs Hqs. unfold AIManager.findClosestChasers. cbv zeta.
    rewrite (scan_unflagged ballPos qs ps Hqs).
    apply flag_unflagged. exact Hqs. }
  split; apply H; [apply flag_only_flags | apply map_only_flags].
Qed.
